(** * HIDAPI libusb backend (src/hidapi/libusb/hid.c): a shallow embedding

    The definitions follow the C file:
    - [Machine]    : the C integer types the file uses, and the result of
                     running a piece of C;
    - [Descriptor] : [get_bytes], [get_usage], [fill_device_info_usage];
    - [Usb]        : the libusb structures and calls the file works with;
    - [Quirks]     : [is_xbox360], [is_xboxone], [init_xboxone];
    - [Session]    : [read_callback], [return_data], [hid_read_timeout],
                     [hid_read], [hid_write], [hid_close];
    - [Api]        : [hid_set_nonblocking], the feature and input report
                     calls, [hid_get_indexed_string],
                     [hid_get_report_descriptor];
    - [Interfaces] : [get_report_descriptor_size_from_interface_descriptors];
    - [Open]       : [init_xbox360], [calculate_device_quirks],
                     [hidapi_initialize_device];
    - [Strings]    : [get_first_language], [is_language_supported],
                     [get_usb_string];
    - [StringCache]: the [usb_string_cache] functions;
    - [Path]       : [get_path], [make_path];
    - [Enumerate]  : [should_enumerate_interface], [libusb_blacklist],
                     [create_device_info_for_device], [hid_enumerate],
                     [hid_open_path], [hid_open];
    - [Locale]     : [lang_map], [get_usb_code_for_current_locale];
    - [SysDevice]  : [hid_libusb_wrap_sys_device].
    The properties come after them, in the same order.

    Linked lists are lists, [NULL] is the empty list (or [None] for a
    pointer to a struct), bytes are [Byte.byte], C integers are [Z] with the
    conversions of their type written out.  Constants of headers that are
    not part of the file ([LIBUSB_CLASS_VENDOR_SPEC],
    [HIDAPI_THREAD_TIMED_OUT], the request type bits) and the answers of
    libusb and of the condition variable are parameters. *)

From Stdlib Require Import ZArith Lia Bool.
From Stdlib Require Import Strings.Byte.
From Stdlib Require Strings.String.
From stdpp Require Import base list option.

Local Open Scope Z_scope.

(* ===================================================================== *)
(** ** C integers and the result of running a piece of C                  *)
(* ===================================================================== *)

Module Machine.

(** [unsigned int], [uint32_t] *)
Definition u32 (z : Z) : Z := z mod 2 ^ 32.
(** [unsigned short], [uint16_t] *)
Definition u16 (z : Z) : Z := z mod 2 ^ 16.
(** [size_t] of an LP64 target *)
Definition usize (z : Z) : Z := z mod 2 ^ 64.
(** conversion to [int] (two's complement, 32 bits) *)
Definition to_int (z : Z) : Z := (z + 2 ^ 31) mod 2 ^ 32 - 2 ^ 31.

Definition INT_MAX : Z := 2 ^ 31 - 1.

(** a [uint8_t] read as a number *)
Definition byte_val (b : byte) : Z := Z.of_N (Byte.to_N b).

(** What running a piece of the code gives: a value, an access outside an
    object (a read past a buffer, a dereference of [NULL]), or no value yet
    (the loop has not finished within the steps it was given, a wait has
    not been woken). *)
Inductive res (A : Type) : Type :=
| Ok (a : A)
| Fault
| More.
Arguments Ok {A} a.
Arguments Fault {A}.
Arguments More {A}.

Definition res_bind {A B : Type} (f : A -> res B) (m : res A) : res B :=
  match m with
  | Ok a => f a
  | Fault => Fault
  | More => More
  end.

#[global] Instance res_mret : MRet res := fun _ a => Ok a.
#[global] Instance res_mbind : MBind res := fun _ _ f m => res_bind f m.

(** [buf[i]] for a buffer of [length buf] bytes *)
Definition index {A : Type} (buf : list A) (i : Z) : res A :=
  if i <? 0 then Fault
  else match buf !! Z.to_nat i with
       | Some b => Ok b
       | None => Fault
       end.

End Machine.
Import Machine.

(* ===================================================================== *)
(** ** The report descriptor parser                                       *)
(* ===================================================================== *)

Module Descriptor.

(** [get_bytes(rpt, len, num_bytes, cur)].  [cur] and [num_bytes] are
    [size_t]; the bytes are promoted to [int] and the sum is returned as
    [uint32_t]. *)
Definition get_bytes (rpt : list byte) (len num_bytes cur : Z) : res Z :=
  (* Return if there aren't enough bytes. *)
  if len <=? usize (cur + num_bytes) then Ok 0
  else if num_bytes =? 0 then Ok 0
  else if num_bytes =? 1 then
    b1 ← index rpt (usize (cur + 1));
    Ok (byte_val b1)
  else if num_bytes =? 2 then
    b2 ← index rpt (usize (cur + 2));
    b1 ← index rpt (usize (cur + 1));
    Ok (u32 (byte_val b2 * 256 + byte_val b1))
  else if num_bytes =? 4 then
    b4 ← index rpt (usize (cur + 4));
    b3 ← index rpt (usize (cur + 3));
    b2 ← index rpt (usize (cur + 2));
    b1 ← index rpt (usize (cur + 1));
    Ok (u32 (byte_val b4 * 0x01000000 +
             byte_val b3 * 0x00010000 +
             byte_val b2 * 0x00000100 +
             byte_val b1 * 0x00000001))
  else Ok 0.

(** The local variables of [get_usage] that live across iterations, with
    the two output cells [*usage_page] and [*usage]. *)
Record scan : Type := {
  sc_i : Z;                     (* unsigned int i *)
  sc_usage_page : Z;            (* *usage_page, unsigned short *)
  sc_usage : Z;                 (* *usage, unsigned short *)
  sc_usage_page_found : bool;
  sc_usage_found : bool
}.

(** The first half of the loop body: [key], [data_len] and [key_size] of
    the item at [i]. *)
Definition item_header (rpt : list byte) (size i : Z) : res (Z * Z * Z) :=
  b ← index rpt i;
  let key := byte_val b in
  if Z.land key 0xf0 =? 0xf0 then
    (* a Long Item: the next byte holds the length of the data section *)
    data_len ← (if u32 (i + 1) <? size
                then l ← index rpt (u32 (i + 1)); Ok (byte_val l)
                else Ok 0 (* malformed report *));
    Ok (key, data_len, 3)
  else
    (* a Short Item: the bottom two bits hold the size code *)
    let size_code := Z.land key 0x3 in
    let data_len :=
      if (size_code =? 0) || (size_code =? 1) || (size_code =? 2)
      then size_code
      else if size_code =? 3 then 4
      else 0 in
    Ok (key, data_len, 1).

(** One iteration of the [while] loop, entered with [i < size]: the
    variables after the body, with [Some ret] when the body returns. *)
Definition get_usage_body (rpt : list byte) (size : Z) (st : scan)
  : res (option Z * scan) :=
  let i := sc_i st in
  '(key, data_len, key_size) ← item_header rpt size i;
  let key_cmd := Z.land key 0xfc in
  st ← (if key_cmd =? 0x4 then
          v ← get_bytes rpt size data_len i;
          Ok {| sc_i := i; sc_usage_page := u16 v; sc_usage := sc_usage st;
                sc_usage_page_found := true;
                sc_usage_found := sc_usage_found st |}
        else Ok st);
  st ← (if key_cmd =? 0x8 then
          if data_len =? 4 then
            (* Usages 5.5 / Usage Page 6.2.2.7 *)
            p ← get_bytes rpt size 2 (u32 (i + 2));
            u ← get_bytes rpt size 2 i;
            Ok {| sc_i := i; sc_usage_page := u16 p; sc_usage := u16 u;
                  sc_usage_page_found := true; sc_usage_found := true |}
          else
            u ← get_bytes rpt size data_len i;
            Ok {| sc_i := i; sc_usage_page := sc_usage_page st;
                  sc_usage := u16 u;
                  sc_usage_page_found := sc_usage_page_found st;
                  sc_usage_found := true |}
        else Ok st);
  if sc_usage_page_found st && sc_usage_found st then
    Ok (Some 0, st) (* success *)
  else
    (* Skip over this key and its associated data *)
    Ok (None, {| sc_i := u32 (i + (data_len + key_size));
                 sc_usage_page := sc_usage_page st; sc_usage := sc_usage st;
                 sc_usage_page_found := sc_usage_page_found st;
                 sc_usage_found := sc_usage_found st |}).

(** [while (i < size) { ... } return -1;] run for at most [fuel] tests of
    the condition.  The result is the return value and the variables at
    the [return]. *)
Fixpoint get_usage_loop (fuel : nat) (rpt : list byte) (size : Z) (st : scan)
  : res (Z * scan) :=
  match fuel with
  | O => More
  | S fuel' =>
      if sc_i st <? size then
        '(ret, st') ← get_usage_body rpt size st;
        match ret with
        | Some r => Ok (r, st')
        | None => get_usage_loop fuel' rpt size st'
        end
      else Ok (-1, st) (* failure *)
  end.

Definition scan_init (usage_page usage : Z) : scan :=
  {| sc_i := 0; sc_usage_page := usage_page; sc_usage := usage;
     sc_usage_page_found := false; sc_usage_found := false |}.

(** [get_usage(report_descriptor, size, &usage_page, &usage)]: the return
    value and the contents of the two output cells, which hold
    [usage_page] and [usage] at the call.  Every iteration advances [i] by
    at least one, so [size + 1] tests of the condition are enough as long
    as [i] does not wrap. *)
Definition get_usage (report_descriptor : list byte) (size : Z)
    (usage_page usage : Z) : res (Z * Z * Z) :=
  '(ret, st) ← get_usage_loop (S (Z.to_nat size)) report_descriptor size
                 (scan_init usage_page usage);
  Ok (ret, sc_usage_page st, sc_usage st).

(** For the statements below: the variables after [n] iterations of the
    loop none of which returned; [None] when the loop ended before. *)
Fixpoint get_usage_steps (n : nat) (rpt : list byte) (size : Z) (st : scan)
  : res (option scan) :=
  match n with
  | O => Ok (Some st)
  | S n' =>
      if sc_i st <? size then
        '(ret, st') ← get_usage_body rpt size st;
        match ret with
        | Some _ => Ok None
        | None => get_usage_steps n' rpt size st'
        end
      else Ok None
  end.


(** The fields of [struct hid_device_info] that the parser fills. *)
Record hid_device_info : Type := {
  vendor_id : Z;
  product_id : Z;
  interface_number : Z;
  usage_page : Z;
  usage : Z
}.

(** [fill_device_info_usage]: [res] and [hid_report_descriptor] are what
    [hid_get_report_descriptor_libusb] returned and stored. *)
Definition fill_device_info_usage (cur_dev : hid_device_info)
    (res_ : Z) (hid_report_descriptor : list byte) : res hid_device_info :=
  let page := 0 in
  let usage_ := 0 in
  '(page, usage_) ←
    (if 0 <=? res_ then
       (* Parse the usage and usage page out of the report descriptor. *)
       '(_, p, u) ← get_usage hid_report_descriptor res_ page usage_;
       Ok (p, u)
     else Ok (page, usage_));
  Ok {| vendor_id := vendor_id cur_dev; product_id := product_id cur_dev;
        interface_number := interface_number cur_dev;
        usage_page := page; usage := usage_ |}.

End Descriptor.
Import Descriptor.

(* ===================================================================== *)
(** ** What the file sees of libusb                                       *)
(* ===================================================================== *)

Module Usb.

(** [struct libusb_interface_descriptor], the fields the file reads. *)
Record libusb_interface_descriptor : Type := {
  bInterfaceNumber : Z;
  bAlternateSetting : Z;
  bInterfaceClass : Z;
  bInterfaceSubClass : Z;
  bInterfaceProtocol : Z
}.

(** [struct libusb_interface]: [altsetting[0 .. num_altsetting-1]]. *)
Record libusb_interface : Type := {
  altsetting : list libusb_interface_descriptor
}.

(** [struct libusb_config_descriptor]: [interface[0 .. bNumInterfaces-1]]. *)
Record libusb_config_descriptor : Type := {
  interfaces : list libusb_interface
}.

(** The calls into libusb made by the functions below, with their
    arguments (the device handle is left out: there is one). *)
Inductive usb_call : Type :=
| Claim_interface (interface_number : Z)
| Set_interface_alt_setting (interface_number alternate_setting : Z)
| Release_interface (interface_number : Z)
| Control_transfer (bmRequestType bRequest wValue wIndex : Z)
    (data : list byte) (wLength : Z) (timeout : Z)
| Interrupt_transfer (endpoint : Z) (data : list byte) (length : Z)
    (timeout : Z)
| Cancel_transfer
| Free_transfer
| Attach_kernel_driver (interface_number : Z)
| Close.

(** [enum libusb_transfer_status] *)
Inductive libusb_transfer_status : Type :=
| LIBUSB_TRANSFER_COMPLETED
| LIBUSB_TRANSFER_ERROR
| LIBUSB_TRANSFER_TIMED_OUT
| LIBUSB_TRANSFER_CANCELLED
| LIBUSB_TRANSFER_STALL
| LIBUSB_TRANSFER_NO_DEVICE
| LIBUSB_TRANSFER_OVERFLOW.

(** [struct libusb_transfer] as [read_callback] reads it. *)
Record libusb_transfer : Type := {
  status : libusb_transfer_status;
  buffer : list byte;
  actual_length : Z
}.

End Usb.
Import Usb.

(* ===================================================================== *)
(** ** Controller detection and initialisation                            *)
(* ===================================================================== *)

Module Quirks.

Section Headers.

(** [LIBUSB_CLASS_VENDOR_SPEC] of libusb.h *)
Variable LIBUSB_CLASS_VENDOR_SPEC : Z.

(** [for (i = 0; i < n; ++i) if (vendor_id == supported_vendors[i]) return 1;]
    [true] when the loop returns, [false] when it falls through. *)
Fixpoint vendor_listed (vendor_id : Z) (supported_vendors : list Z) : bool :=
  match supported_vendors with
  | [] => false
  | v :: rest => if vendor_id =? v then true else vendor_listed vendor_id rest
  end.

Definition xb360_iface_subclass : Z := 93.
Definition xb360_iface_protocol : Z := 1. (* Wired *)
Definition xb360w_iface_protocol : Z := 129. (* Wireless *)
Definition xb360_supported_vendors : list Z := [
  0x0079; (* GPD Win 2 *)
  0x044f; (* Thrustmaster *)
  0x045e; (* Microsoft *)
  0x046d; (* Logitech *)
  0x056e; (* Elecom *)
  0x06a3; (* Saitek *)
  0x0738; (* Mad Catz *)
  0x07ff; (* Mad Catz *)
  0x0e6f; (* PDP *)
  0x0f0d; (* Hori *)
  0x1038; (* SteelSeries *)
  0x11c9; (* Nacon *)
  0x12ab; (* Unknown *)
  0x1430; (* RedOctane *)
  0x146b; (* BigBen *)
  0x1532; (* Razer Sabertooth *)
  0x15e4; (* Numark *)
  0x162e; (* Joytech *)
  0x1689; (* Razer Onza *)
  0x1949; (* Lab126, Inc. *)
  0x1bad; (* Harmonix *)
  0x20d6; (* PowerA *)
  0x24c6; (* PowerA *)
  0x2c22; (* Qanba *)
  0x2dc8; (* 8BitDo *)
  0x9886  (* ASTRO Gaming *)
].

Definition is_xbox360 (vendor_id : Z) (intf_desc : libusb_interface_descriptor)
  : Z :=
  if (bInterfaceClass intf_desc =? LIBUSB_CLASS_VENDOR_SPEC) &&
     (bInterfaceSubClass intf_desc =? xb360_iface_subclass) &&
     ((bInterfaceProtocol intf_desc =? xb360_iface_protocol) ||
      (bInterfaceProtocol intf_desc =? xb360w_iface_protocol))
  then if vendor_listed vendor_id xb360_supported_vendors then 1 else 0
  else 0.

Definition xb1_iface_subclass : Z := 71.
Definition xb1_iface_protocol : Z := 208.
Definition xb1_supported_vendors : list Z := [
  0x03f0; (* HP *)
  0x044f; (* Thrustmaster *)
  0x045e; (* Microsoft *)
  0x0738; (* Mad Catz *)
  0x0b05; (* ASUS *)
  0x0e6f; (* PDP *)
  0x0f0d; (* Hori *)
  0x10f5; (* Turtle Beach *)
  0x1532; (* Razer Wildcat *)
  0x20d6; (* PowerA *)
  0x24c6; (* PowerA *)
  0x2dc8; (* 8BitDo *)
  0x2e24; (* Hyperkin *)
  0x3537  (* GameSir *)
].

Definition is_xboxone (vendor_id : Z) (intf_desc : libusb_interface_descriptor)
  : Z :=
  if (bInterfaceNumber intf_desc =? 0) &&
     (bInterfaceClass intf_desc =? LIBUSB_CLASS_VENDOR_SPEC) &&
     (bInterfaceSubClass intf_desc =? xb1_iface_subclass) &&
     (bInterfaceProtocol intf_desc =? xb1_iface_protocol)
  then if vendor_listed vendor_id xb1_supported_vendors then 1 else 0
  else 0.

Definition vendor_microsoft : Z := 0x045e.

(** What [libusb_claim_interface] returns, given the calls made so far and
    the interface number. *)
Variable libusb_claim_interface : list usb_call -> Z -> Z.

(** The body of the inner loop of [init_xboxone] for one
    [intf->altsetting[k]]; [calls] are the libusb calls made so far. *)
Definition init_xboxone_altsetting (idVendor : Z) (calls : list usb_call)
    (intf_desc : libusb_interface_descriptor) : list usb_call :=
  if (bInterfaceClass intf_desc =? LIBUSB_CLASS_VENDOR_SPEC) &&
     (bInterfaceSubClass intf_desc =? xb1_iface_subclass) &&
     (bInterfaceProtocol intf_desc =? xb1_iface_protocol)
  then
    let bSetAlternateSetting :=
      (* Newer Microsoft Xbox One controllers have a high speed alternate
         setting *)
      if (idVendor =? vendor_microsoft) &&
         (bInterfaceNumber intf_desc =? 0) &&
         (bAlternateSetting intf_desc =? 1)
      then true
      else if negb (bInterfaceNumber intf_desc =? 0) &&
              (bAlternateSetting intf_desc =? 0)
      then true
      else false in
    if bSetAlternateSetting then
      let res_ := libusb_claim_interface calls (bInterfaceNumber intf_desc) in
      let calls := calls ++ [Claim_interface (bInterfaceNumber intf_desc)] in
      if res_ <? 0 then calls (* continue *)
      else
        calls ++ [Set_interface_alt_setting (bInterfaceNumber intf_desc)
                    (bAlternateSetting intf_desc);
                  Release_interface (bInterfaceNumber intf_desc)]
    else calls
  else calls.

(** [init_xboxone(device_handle, idVendor, idProduct, conf_desc)]: the libusb
    calls it makes, after [calls]. *)
Definition init_xboxone (idVendor idProduct : Z)
    (conf_desc : libusb_config_descriptor) (calls : list usb_call)
  : list usb_call :=
  fold_left
    (fun calls intf =>
       fold_left (init_xboxone_altsetting idVendor) (altsetting intf) calls)
    (interfaces conf_desc) calls.

(** For the statements below: [intf_desc] is a vendor-specific interface
    with the Xbox One subclass and protocol, and [init_xboxone] asks for its
    alternate setting. *)
Definition xb1_interface (intf_desc : libusb_interface_descriptor) : Prop :=
  bInterfaceClass intf_desc = LIBUSB_CLASS_VENDOR_SPEC /\
  bInterfaceSubClass intf_desc = xb1_iface_subclass /\
  bInterfaceProtocol intf_desc = xb1_iface_protocol.

Definition alternate_setting_wanted (idVendor : Z)
    (intf_desc : libusb_interface_descriptor) : Prop :=
  (idVendor = vendor_microsoft /\ bInterfaceNumber intf_desc = 0 /\
   bAlternateSetting intf_desc = 1) \/
  (bInterfaceNumber intf_desc <> 0 /\ bAlternateSetting intf_desc = 0).

(** The alternate settings a list of calls selects are all of the two
    kinds [init_xboxone] asks for. *)
Definition selects_as_wanted (idVendor : Z) (new : list usb_call) : Prop :=
  forall n a,
    In (Set_interface_alt_setting n a) new ->
    (n = 0 /\ a = 1 /\ idVendor = vendor_microsoft) \/ (n <> 0 /\ a = 0).

End Headers.

End Quirks.
Import Quirks.

(* ===================================================================== *)
(** ** The device session: queue of input reports, read, write, close     *)
(* ===================================================================== *)

Module Session.

(** [struct input_report]; the [next] pointers are the list. *)
Record input_report : Type := {
  data : list byte;
  len : Z
}.

(** [struct hid_device_], the fields the modelled functions touch.  The
    [int]s that hold a truth value are [bool]. *)
Record hid_device : Type := {
  interface : Z;
  output_endpoint : Z;
  blocking : bool;
  shutdown_thread : bool;
  transfer_loop_finished : bool;
  skip_output_report_id : bool;
  no_skip_output_report_id : bool;
  no_output_reports_on_intr_ep : bool;
  input_reports : list input_report;
  is_driver_detached : bool
}.

Definition set_input_reports (q : list input_report) (dev : hid_device)
  : hid_device :=
  {| interface := interface dev; output_endpoint := output_endpoint dev;
     blocking := blocking dev; shutdown_thread := shutdown_thread dev;
     transfer_loop_finished := transfer_loop_finished dev;
     skip_output_report_id := skip_output_report_id dev;
     no_skip_output_report_id := no_skip_output_report_id dev;
     no_output_reports_on_intr_ep := no_output_reports_on_intr_ep dev;
     input_reports := q; is_driver_detached := is_driver_detached dev |}.

Definition set_shutdown_thread (b : bool) (dev : hid_device) : hid_device :=
  {| interface := interface dev; output_endpoint := output_endpoint dev;
     blocking := blocking dev; shutdown_thread := b;
     transfer_loop_finished := transfer_loop_finished dev;
     skip_output_report_id := skip_output_report_id dev;
     no_skip_output_report_id := no_skip_output_report_id dev;
     no_output_reports_on_intr_ep := no_output_reports_on_intr_ep dev;
     input_reports := input_reports dev;
     is_driver_detached := is_driver_detached dev |}.

Definition set_transfer_loop_finished (b : bool) (dev : hid_device)
  : hid_device :=
  {| interface := interface dev; output_endpoint := output_endpoint dev;
     blocking := blocking dev; shutdown_thread := shutdown_thread dev;
     transfer_loop_finished := b;
     skip_output_report_id := skip_output_report_id dev;
     no_skip_output_report_id := no_skip_output_report_id dev;
     no_output_reports_on_intr_ep := no_output_reports_on_intr_ep dev;
     input_reports := input_reports dev;
     is_driver_detached := is_driver_detached dev |}.

(** [new_hid_device]: [calloc] and [dev->blocking = 1]. *)
Definition new_hid_device : hid_device :=
  {| interface := 0; output_endpoint := 0; blocking := true;
     shutdown_thread := false; transfer_loop_finished := false;
     skip_output_report_id := false; no_skip_output_report_id := false;
     no_output_reports_on_intr_ep := false; input_reports := [];
     is_driver_detached := false |}.

(** [memcpy(dst, src, n)] on buffers of [length dst] and [length src]
    bytes. *)
Definition memcpy (dst src : list byte) (n : Z) : res (list byte) :=
  if (0 <=? n) && (n <=? Z.of_nat (length dst)) &&
     (n <=? Z.of_nat (length src))
  then Ok (take (Z.to_nat n) src ++ drop (Z.to_nat n) dst)
  else Fault.

(** What [return_data] leaves behind: its return value, the caller's
    buffer, the device, and the list item it passed to [free]. *)
Record returned : Type := {
  r_ret : Z;
  r_data : list byte;
  r_dev : hid_device;
  r_freed : input_report
}.

(** [return_data(dev, data, length)].  [data] is the caller's buffer
    ([NULL] is the empty buffer). *)
Definition return_data (dev : hid_device) (data_ : list byte) (length_ : Z)
  : res returned :=
  match input_reports dev with
  | [] => Fault (* rpt->len with rpt == NULL *)
  | rpt :: next =>
      let len_ := if length_ <? len rpt then length_ else len rpt in
      data_ ← (if 0 <? len_ then memcpy data_ (data rpt) len_ else Ok data_);
      Ok {| r_ret := to_int len_; r_data := data_;
            r_dev := set_input_reports next dev; r_freed := rpt |}
  end.

(** [while (cur->next != NULL) { cur = cur->next; num_queued++; }
     cur->next = rpt;]
    on the list that starts at [cur]: the list with [rpt] attached and the
    final [num_queued]. *)
Fixpoint attach_at_end (cur : input_report) (next : list input_report)
    (rpt : input_report) (num_queued : Z) : list input_report * Z :=
  match next with
  | [] => ([cur; rpt], num_queued)
  | cur' :: next' =>
      let '(l, n) := attach_at_end cur' next' rpt (to_int (num_queued + 1)) in
      (cur :: l, n)
  end.

(** [read_callback(transfer)] for [dev = transfer->user_data];
    [submit_res] is what [libusb_submit_transfer] returns if it is called. *)
Definition read_callback (transfer : libusb_transfer) (submit_res : Z)
    (dev : hid_device) : res hid_device :=
  dev ←
    match status transfer with
    | LIBUSB_TRANSFER_COMPLETED =>
        (* rpt->data = malloc(actual_length), overwritten whole *)
        rpt_data ← memcpy (replicate (Z.to_nat (actual_length transfer)) x00)
                     (buffer transfer) (actual_length transfer);
        let rpt := {| data := rpt_data; len := actual_length transfer |} in
        (* Attach the new report object to the end of the list. *)
        match input_reports dev with
        | [] =>
            (* The list is empty. Put it at the root. *)
            Ok (set_input_reports [rpt] dev)
        | cur :: next =>
            (* Find the end of the list and attach. *)
            let '(l, num_queued) := attach_at_end cur next rpt 0 in
            let dev := set_input_reports l dev in
            (* Pop one off if we've reached 30 in the queue. *)
            if 30 <? num_queued then
              r ← return_data dev [] 0;
              Ok (r_dev r)
            else Ok dev
        end
    | LIBUSB_TRANSFER_CANCELLED => Ok (set_shutdown_thread true dev)
    | LIBUSB_TRANSFER_NO_DEVICE => Ok (set_shutdown_thread true dev)
    | LIBUSB_TRANSFER_TIMED_OUT => Ok dev
    | _ => Ok dev
    end;
  if shutdown_thread dev then
    Ok (set_transfer_loop_finished true dev)
  else
    (* Re-submit the transfer object. *)
    if negb (submit_res =? 0) then
      Ok (set_transfer_loop_finished true (set_shutdown_thread true dev))
    else Ok dev.

(** [read_callback] run once for each transfer of a list, every
    re-submission succeeding. *)
Fixpoint read_callbacks (transfers : list libusb_transfer) (dev : hid_device)
  : res hid_device :=
  match transfers with
  | [] => Ok dev
  | t :: rest => dev ← read_callback t 0 dev; read_callbacks rest dev
  end.

(** Transfers number [1 .. n], completed, each carrying its number as its
    one byte. *)
Definition numbered_transfer (k : nat) : libusb_transfer :=
  {| status := LIBUSB_TRANSFER_COMPLETED;
     buffer := [default x00 (Byte.of_N (N.of_nat k))];
     actual_length := 1 |}.

Definition numbered_report (k : nat) : input_report :=
  {| data := [default x00 (Byte.of_N (N.of_nat k))]; len := 1 |}.

(** One return of [hidapi_thread_cond_wait] or
    [hidapi_thread_cond_timedwait]: the value returned (the first returns
    none) and what the other threads left in the two shared fields while
    the mutex was released. *)
Record wake : Type := {
  w_res : Z;
  w_input_reports : list input_report;
  w_shutdown_thread : bool
}.

Definition woken (w : wake) (dev : hid_device) : hid_device :=
  set_shutdown_thread (w_shutdown_thread w)
    (set_input_reports (w_input_reports w) dev).

(** What [hid_read_timeout] leaves behind: its return value, the caller's
    buffer, the device, and the waits it went through, in order. *)
Record read_result : Type := {
  bytes_read : Z;
  out_data : list byte;
  out_dev : hid_device;
  waits : list wake
}.

Definition is_null {A : Type} (l : list A) : bool :=
  match l with [] => true | _ => false end.

Definition waited (w : wake) (r : read_result) : read_result :=
  {| bytes_read := bytes_read r; out_data := out_data r;
     out_dev := out_dev r; waits := w :: waits r |}.

Section ThreadModel.

(** [HIDAPI_THREAD_TIMED_OUT] of the thread model header *)
Variable HIDAPI_THREAD_TIMED_OUT : Z.

(** The [milliseconds == -1] branch: the [while] loop around
    [hidapi_thread_cond_wait] and the [if] after it.  [ws] are the returns
    of the waits still to come; with none left the thread stays blocked. *)
Fixpoint read_blocking (ws : list wake) (dev : hid_device)
    (data_ : list byte) (length_ : Z) (bytes_read_ : Z) : res read_result :=
  if is_null (input_reports dev) && negb (shutdown_thread dev) then
    match ws with
    | [] => More
    | w :: ws' =>
        r ← read_blocking ws' (woken w dev) data_ length_ bytes_read_;
        Ok (waited w r)
    end
  else if negb (is_null (input_reports dev)) then
    r ← return_data dev data_ length_;
    Ok {| bytes_read := r_ret r; out_data := r_data r; out_dev := r_dev r;
          waits := [] |}
  else
    Ok {| bytes_read := bytes_read_; out_data := data_; out_dev := dev;
          waits := [] |}.

(** The [milliseconds > 0] branch: the [while] loop around
    [hidapi_thread_cond_timedwait]. *)
Fixpoint read_timed (ws : list wake) (dev : hid_device)
    (data_ : list byte) (length_ : Z) (bytes_read_ : Z) : res read_result :=
  if is_null (input_reports dev) && negb (shutdown_thread dev) then
    match ws with
    | [] => More
    | w :: ws' =>
        let dev := woken w dev in
        if w_res w =? 0 then
          if negb (is_null (input_reports dev)) then
            r ← return_data dev data_ length_;
            Ok {| bytes_read := r_ret r; out_data := r_data r;
                  out_dev := r_dev r; waits := [w] |}
          else
            (* a spurious wake up or the read thread was shut down: run
               the loop again *)
            r ← read_timed ws' dev data_ length_ bytes_read_;
            Ok (waited w r)
        else if w_res w =? HIDAPI_THREAD_TIMED_OUT then
          (* Timed out. *)
          Ok {| bytes_read := 0; out_data := data_; out_dev := dev;
                waits := [w] |}
        else
          (* Error. *)
          Ok {| bytes_read := -1; out_data := data_; out_dev := dev;
                waits := [w] |}
    end
  else
    Ok {| bytes_read := bytes_read_; out_data := data_; out_dev := dev;
          waits := [] |}.

(** [hid_read_timeout(dev, data, length, milliseconds)], the mutex held
    from entry to return except inside the waits. *)
Definition hid_read_timeout (dev : hid_device) (data_ : list byte)
    (length_ : Z) (milliseconds : Z) (ws : list wake) : res read_result :=
  let bytes_read_ := -1 in
  (* There's an input report queued up. Return it. *)
  if negb (is_null (input_reports dev)) then
    (* Return the first one *)
    r ← return_data dev data_ length_;
    Ok {| bytes_read := r_ret r; out_data := r_data r; out_dev := r_dev r;
          waits := [] |}
  else if shutdown_thread dev then
    (* This means the device has been disconnected. *)
    Ok {| bytes_read := -1; out_data := data_; out_dev := dev; waits := [] |}
  else if milliseconds =? -1 then
    (* Blocking *)
    read_blocking ws dev data_ length_ bytes_read_
  else if 0 <? milliseconds then
    (* Non-blocking, but called with timeout. *)
    read_timed ws dev data_ length_ bytes_read_
  else
    (* Purely non-blocking *)
    Ok {| bytes_read := 0; out_data := data_; out_dev := dev; waits := [] |}.

(** [hid_read(dev, data, length)] *)
Definition hid_read (dev : hid_device) (data_ : list byte) (length_ : Z)
    (ws : list wake) : res read_result :=
  hid_read_timeout dev data_ length_ (if blocking dev then -1 else 0) ws.

End ThreadModel.

(** For the statements below.  A report as [read_callback] builds it:
    [len] is the size of [data], and came from an [int]. *)
Definition report_ok (rpt : input_report) : Prop :=
  len rpt = Z.of_nat (length (data rpt)) /\ len rpt <= INT_MAX.

Definition wake_ok (w : wake) : Prop := Forall report_ok (w_input_reports w).

(** The device as a call last saw it, after the waits [ws]. *)
Definition after_waits (ws : list wake) (dev : hid_device) : hid_device :=
  fold_left (fun dev w => woken w dev) ws dev.

(** The device has been disconnected and no data remains queued. *)
Definition disconnected (dev : hid_device) : Prop :=
  shutdown_thread dev = true /\ input_reports dev = [].

(** What the last of the waits [ws] returned, [prev] if there is none. *)
Definition last_wait_res (prev : option Z) (ws : list wake) : option Z :=
  match list.last ws with
  | Some w => Some (w_res w)
  | None => prev
  end.

(** The last timed wait reported a time-out, or an error, as
    [hid_read_timeout] tells them apart. *)
Definition wait_timed_out (HIDAPI_THREAD_TIMED_OUT : Z) (milliseconds : Z)
    (last_res : option Z) : Prop :=
  0 < milliseconds /\
  exists e, last_res = Some e /\ e <> 0 /\ e = HIDAPI_THREAD_TIMED_OUT.

Definition wait_error (HIDAPI_THREAD_TIMED_OUT : Z) (milliseconds : Z)
    (last_res : option Z) : Prop :=
  0 < milliseconds /\
  exists e, last_res = Some e /\ e <> 0 /\ e <> HIDAPI_THREAD_TIMED_OUT.

(** A wake-up that ends the wait of a call with timeout [milliseconds]:
    data is queued, or the flag is set, or a timed wait returned a value
    other than 0. *)
Definition ends_wait (milliseconds : Z) (w : wake) : Prop :=
  w_input_reports w <> [] \/ w_shutdown_thread w = true \/
  (0 < milliseconds /\ w_res w <> 0).

Section Transport.

(** Request type bits of libusb.h *)
Variables LIBUSB_REQUEST_TYPE_CLASS LIBUSB_RECIPIENT_INTERFACE
  LIBUSB_ENDPOINT_OUT : Z.

(** What [libusb_control_transfer] returns for a call, and what
    [libusb_interrupt_transfer] returns and stores in [*transferred]. *)
Variable libusb_control_transfer : usb_call -> Z.
Variable libusb_interrupt_transfer : usb_call -> Z * Z.

(** [hid_write(dev, data, length)]: the return value and the libusb call
    made.  [data] is [None] for [NULL], else the bytes from the pointer on;
    a transfer is recorded with the bytes from the pointer it is given on,
    and the length it is given. *)
Definition hid_write (dev : hid_device) (data_ : option (list byte))
    (length_ : Z) : res (Z * list usb_call) :=
  match data_ with
  | None => Ok (-1, [])
  | Some data_ =>
      if length_ =? 0 then Ok (-1, [])
      else
        b ← index data_ 0;
        let report_number := byte_val b in
        let '(data_, length_, skipped_report_id) :=
          if (negb (no_skip_output_report_id dev) && (report_number =? 0x0))
             || skip_output_report_id dev
          then (drop 1 data_, usize (length_ - 1), true)
          else (data_, length_, false) in
        if (output_endpoint dev <=? 0) || no_output_reports_on_intr_ep dev
        then
          (* No interrupt out endpoint. Use the Control Endpoint *)
          let call :=
            Control_transfer
              (Z.lor (Z.lor LIBUSB_REQUEST_TYPE_CLASS
                        LIBUSB_RECIPIENT_INTERFACE) LIBUSB_ENDPOINT_OUT)
              0x09 (* HID Set_Report *)
              (Z.lor (Z.shiftl 2 (* HID output *) 8) report_number)
              (interface dev)
              data_ (u16 length_)
              1000 (* timeout millis *) in
          let res_ := libusb_control_transfer call in
          if res_ <? 0 then Ok (-1, [call])
          else
            let length_ :=
              if skipped_report_id then usize (length_ + 1) else length_ in
            Ok (to_int length_, [call])
        else
          (* Use the interrupt out endpoint *)
          let call :=
            Interrupt_transfer (output_endpoint dev) data_ (to_int length_)
              1000 in
          let '(res_, actual_length) := libusb_interrupt_transfer call in
          if res_ <? 0 then Ok (-1, [call])
          else
            let actual_length :=
              if skipped_report_id then to_int (actual_length + 1)
              else actual_length in
            Ok (actual_length, [call])
  end.

End Transport.

(** What [hid_close] does to the world outside [dev], in order. *)
Inductive effect : Type :=
| Store_shutdown_thread          (* dev->shutdown_thread = 1 *)
| Usb (c : usb_call)
| Thread_join
| Free_transfer_buffer
| Free_input_report (rpt : input_report)
| Free_hid_device.

(** [while (dev->input_reports) return_data(dev, NULL, 0);] run for at most
    [fuel] iterations. *)
Fixpoint clear_queue (fuel : nat) (dev : hid_device) (effects : list effect)
  : res (hid_device * list effect) :=
  if is_null (input_reports dev) then Ok (dev, effects)
  else
    match fuel with
    | O => More
    | S fuel' =>
        r ← return_data dev [] 0;
        clear_queue fuel' (r_dev r)
          (effects ++ [Free_input_report (r_freed r)])
    end.

(** [hid_close(dev)]: the effects after [effects].  [dev] is [None] for
    [NULL]; the fields are read as the read thread left them. *)
Definition hid_close (dev : option hid_device) (effects : list effect)
  : res (list effect) :=
  match dev with
  | None => Ok effects
  | Some dev =>
      let effects :=
        effects ++
        [ (* Cause read_thread() to stop. *)
          Store_shutdown_thread; Usb Cancel_transfer;
          (* Wait for read_thread() to end. *)
          Thread_join;
          (* Clean up the Transfer objects allocated in read_thread(). *)
          Free_transfer_buffer; Usb Free_transfer;
          (* release the interface *)
          Usb (Release_interface (interface dev)) ] in
      (* reattach the kernel driver if it was detached *)
      let effects :=
        if is_driver_detached dev
        then effects ++ [Usb (Attach_kernel_driver (interface dev))]
        else effects in
      (* Close the handle *)
      let effects := effects ++ [Usb Close] in
      (* Clear out the queue of received reports. *)
      '(_, effects) ← clear_queue (length (input_reports dev))
                        (set_shutdown_thread true dev) effects;
      Ok (effects ++ [Free_hid_device])
  end.

End Session.
Import Session.

(* ===================================================================== *)
(** ** Reports over the control endpoint, strings, the report descriptor  *)
(* ===================================================================== *)

Module Api.

Definition set_blocking (b : bool) (dev : hid_device) : hid_device :=
  {| interface := interface dev; output_endpoint := output_endpoint dev;
     blocking := b; shutdown_thread := shutdown_thread dev;
     transfer_loop_finished := transfer_loop_finished dev;
     skip_output_report_id := skip_output_report_id dev;
     no_skip_output_report_id := no_skip_output_report_id dev;
     no_output_reports_on_intr_ep := no_output_reports_on_intr_ep dev;
     input_reports := input_reports dev;
     is_driver_detached := is_driver_detached dev |}.

(** [hid_set_nonblocking(dev, nonblock)]: the return value and the device. *)
Definition hid_set_nonblocking (dev : hid_device) (nonblock : Z)
  : Z * hid_device :=
  (0, set_blocking (nonblock =? 0) dev).

(** [hid_read] on each of the devices left by the one before, [k] times:
    what the calls returned, in order, and the device after the last.  No
    wait is granted ([ws] is empty for each call). *)
Fixpoint hid_reads (HIDAPI_THREAD_TIMED_OUT : Z) (k : nat) (dev : hid_device)
    (data_ : list byte) (length_ : Z)
  : res (list (Z * list byte) * hid_device) :=
  match k with
  | O => Ok ([], dev)
  | S k' =>
      r ← hid_read HIDAPI_THREAD_TIMED_OUT dev data_ length_ [];
      '(rest, dev') ← hid_reads HIDAPI_THREAD_TIMED_OUT k' (out_dev r)
                        data_ length_;
      Ok ((bytes_read r, out_data r) :: rest, dev')
  end.

Section ControlReports.

(** Request type bits of libusb.h *)
Variables LIBUSB_REQUEST_TYPE_CLASS LIBUSB_RECIPIENT_INTERFACE
  LIBUSB_ENDPOINT_OUT LIBUSB_ENDPOINT_IN : Z.

(** What [libusb_control_transfer] returns for a call that sends, and what
    it returns and stores in the buffer for a call that receives: the
    first bytes of the list, as many as the value returned, and the whole
    list when the value is an error. *)
Variable libusb_control_transfer : usb_call -> Z.
Variable libusb_control_transfer_in : usb_call -> Z * list byte.

(** [hid_send_feature_report(dev, data, length)]: the return value and the
    libusb call made.  [data] holds the bytes from the pointer on. *)
Definition hid_send_feature_report (dev : hid_device) (data_ : list byte)
    (length_ : Z) : res (Z * list usb_call) :=
  b ← index data_ 0;
  let report_number := byte_val b in
  let '(data_, length_, skipped_report_id) :=
    if report_number =? 0x0
    then (drop 1 data_, usize (length_ - 1), true)
    else (data_, length_, false) in
  let call :=
    Control_transfer
      (Z.lor (Z.lor LIBUSB_REQUEST_TYPE_CLASS LIBUSB_RECIPIENT_INTERFACE)
         LIBUSB_ENDPOINT_OUT)
      0x09 (* HID set_report *)
      (Z.lor (Z.shiftl 3 (* HID feature *) 8) report_number)
      (interface dev)
      data_ (u16 length_)
      1000 (* timeout millis *) in
  let res_ := libusb_control_transfer call in
  if res_ <? 0 then Ok (-1, [call])
  else
    (* Account for the report ID *)
    let length_ :=
      if skipped_report_id then usize (length_ + 1) else length_ in
    Ok (to_int length_, [call]).




(** Constants of libusb.h and hidapi.h *)
Variables LIBUSB_REQUEST_GET_DESCRIPTOR LIBUSB_DT_REPORT
  HID_API_MAX_REPORT_DESCRIPTOR_SIZE : Z.

(** [hid_get_report_descriptor_libusb(handle, interface_num,
    expected_report_descriptor_size, buf, buf_size)]: the return value,
    [buf] and the libusb call made. *)
Definition hid_get_report_descriptor_libusb (interface_num : Z)
    (expected_report_descriptor_size : Z) (buf : list byte) (buf_size : Z)
  : res (Z * list byte * list usb_call) :=
  let tmp := replicate (Z.to_nat HID_API_MAX_REPORT_DESCRIPTOR_SIZE) x00 in
  let expected_report_descriptor_size :=
    if HID_API_MAX_REPORT_DESCRIPTOR_SIZE <? expected_report_descriptor_size
    then u16 HID_API_MAX_REPORT_DESCRIPTOR_SIZE
    else expected_report_descriptor_size in
  (* Get the HID Report Descriptor. *)
  let call :=
    Control_transfer (Z.lor LIBUSB_ENDPOINT_IN LIBUSB_RECIPIENT_INTERFACE)
      LIBUSB_REQUEST_GET_DESCRIPTOR (Z.shiftl LIBUSB_DT_REPORT 8)
      (u16 interface_num) tmp expected_report_descriptor_size 5000 in
  let '(res_, received) := libusb_control_transfer_in call in
  if 0 <=? res_ then
    tmp ← memcpy tmp received res_;
    let res_ := if to_int buf_size <? res_ then to_int buf_size else res_ in
    buf ← memcpy buf tmp (usize res_);
    Ok (res_, buf, [call])
  else Ok (res_, buf, [call]).

(** [hid_get_report_descriptor(dev, buf, buf_size)];
    [report_descriptor_size] is [dev->report_descriptor_size]. *)
Definition hid_get_report_descriptor (dev : hid_device)
    (report_descriptor_size : Z) (buf : list byte) (buf_size : Z)
  : res (Z * list byte * list usb_call) :=
  hid_get_report_descriptor_libusb (interface dev) report_descriptor_size
    buf buf_size.

(** [fill_device_info_usage(cur_dev, handle, interface_num,
    expected_report_descriptor_size)], the descriptor fetched from the
    device. *)
Definition fill_device_info_usage_from_device (cur_dev : hid_device_info)
    (interface_num expected_report_descriptor_size : Z)
  : res (hid_device_info * list usb_call) :=
  let hid_report_descriptor :=
    replicate (Z.to_nat HID_API_MAX_REPORT_DESCRIPTOR_SIZE) x00 in
  '(res_, hid_report_descriptor, calls) ←
    hid_get_report_descriptor_libusb interface_num
      expected_report_descriptor_size hid_report_descriptor
      HID_API_MAX_REPORT_DESCRIPTOR_SIZE;
  cur_dev ← fill_device_info_usage cur_dev res_ hid_report_descriptor;
  Ok (cur_dev, calls).

End ControlReports.

(** A wide string: the characters before the terminating [L'\0']. *)
Definition wstring : Type := list Z.

(** [wcsncpy(dst, src, n)] on a buffer of [length dst] wide characters:
    the characters of [src], then zeros up to [n] characters in all. *)
Definition wcsncpy (dst : list Z) (src : wstring) (n : Z) : res (list Z) :=
  if (0 <=? n) && (n <=? Z.of_nat (length dst))
  then Ok (take (Z.to_nat n) (src ++ replicate (Z.to_nat n) 0) ++
           drop (Z.to_nat n) dst)
  else Fault.

(** [buf[i] = v] *)
Definition store {A : Type} (buf : list A) (i : Z) (v : A) : res (list A) :=
  if (0 <=? i) && (i <? Z.of_nat (length buf))
  then Ok (<[Z.to_nat i := v]> buf)
  else Fault.

(** [hid_get_indexed_string(dev, string_index, string, maxlen)]: the return
    value and the caller's buffer.  [get_usb_string] gives the device's
    string for an index, [None] for [NULL]. *)
Definition hid_get_indexed_string (get_usb_string : Z -> option wstring)
    (string_index : Z) (string_ : list Z) (maxlen : Z) : res (Z * list Z) :=
  match get_usb_string string_index with
  | Some str =>
      string_ ← wcsncpy string_ str maxlen;
      string_ ← store string_ (usize (maxlen - 1)) 0;
      Ok (0, string_)
  | None => Ok (-1, string_)
  end.

(** The wide string a buffer holds: the characters before the first zero. *)
Fixpoint wcs (buf : list Z) : wstring :=
  match buf with
  | [] => []
  | c :: rest => if c =? 0 then [] else c :: wcs rest
  end.

(** For the statements below.  The report [read_callback] queues for a
    completed transfer. *)
Definition report_of_transfer (t : libusb_transfer) : input_report :=
  {| data := take (Z.to_nat (actual_length t)) (buffer t);
     len := actual_length t |}.

(** A transfer that completed with [actual_length] bytes in its buffer. *)
Definition completed (t : libusb_transfer) : Prop :=
  status t = LIBUSB_TRANSFER_COMPLETED /\
  0 <= actual_length t <= Z.of_nat (length (buffer t)) /\
  actual_length t <= INT_MAX.

(** What a read of the report [rpt] into the buffer [data_] of capacity
    [length_] returns and leaves in the buffer. *)
Definition read_of (data_ : list byte) (length_ : Z) (rpt : input_report)
  : Z * list byte :=
  (Z.min (len rpt) length_,
   take (Z.to_nat (Z.min (len rpt) length_)) (data rpt) ++
   drop (Z.to_nat (Z.min (len rpt) length_)) data_).

(** The bytes and the length a transfer was given. *)
Definition transfer_data (c : usb_call) : list byte :=
  match c with
  | Control_transfer _ _ _ _ d _ _ => d
  | Interrupt_transfer _ d _ _ => d
  | _ => []
  end.

Definition transfer_length (c : usb_call) : Z :=
  match c with
  | Control_transfer _ _ _ _ _ l _ => l
  | Interrupt_transfer _ _ l _ => l
  | _ => 0
  end.

End Api.
Import Api.

(* ===================================================================== *)
(** ** Interface descriptors: the HID class descriptor, the endpoints     *)
(* ===================================================================== *)

Module Interfaces.

Section Headers.

(** [LIBUSB_DT_HID], [LIBUSB_DT_REPORT] of libusb.h and
    [HID_API_MAX_REPORT_DESCRIPTOR_SIZE] of hidapi.h *)
Variables LIBUSB_DT_HID LIBUSB_DT_REPORT
  HID_API_MAX_REPORT_DESCRIPTOR_SIZE : Z.

(** [for (i = 0; i < bNumDescriptors; i++)] of
    [get_report_descriptor_size_from_interface_descriptors], from [i] on
    and for at most [fuel] iterations: the value stored in [result] when
    the loop finds a Report entry.  [extra] holds the bytes from the
    pointer [extra] on. *)
Fixpoint report_descriptor_entry (fuel : nat) (extra : list byte)
    (bNumDescriptors i : Z) : res (option Z) :=
  match fuel with
  | O => More
  | S fuel' =>
      if i <? bNumDescriptors then
        t ← index extra (6 + 3 * i);
        if byte_val t =? LIBUSB_DT_REPORT then
          hi ← index extra (6 + 3 * i + 2);
          lo ← index extra (6 + 3 * i + 1);
          Ok (Some (u16 (Z.lor (Z.shiftl (u16 (byte_val hi)) 8)
                           (byte_val lo))))
        else report_descriptor_entry fuel' extra bNumDescriptors (i + 1)
      else Ok None
  end.

(** [while (extra_length >= 2) { ... }] for at most [fuel] iterations,
    and the [return result] after it. *)
Fixpoint descriptor_size_loop (fuel : nat) (extra : list byte)
    (extra_length : Z) (result : Z) : res Z :=
  match fuel with
  | O => More
  | S fuel' =>
      if 2 <=? extra_length then
        (* Descriptor header: bLength/bDescriptorType *)
        bDescriptorType ← index extra 1;
        if byte_val bDescriptorType =? LIBUSB_DT_HID then
          if extra_length <? 6 then Ok result
          else
            b ← index extra 5;
            let bNumDescriptors := byte_val b in
            if extra_length <? 6 + 3 * bNumDescriptors then Ok result
            else
              found ← report_descriptor_entry
                        (S (Z.to_nat bNumDescriptors)) extra
                        bNumDescriptors 0;
              match found with
              | Some result => Ok result
              | None => Ok result
              end
        else
          bLength ← index extra 0;
          if byte_val bLength =? 0 then Ok result
          else
            (* Iterate over to the next Descriptor *)
            descriptor_size_loop fuel'
              (drop (Z.to_nat (byte_val bLength)) extra)
              (extra_length - byte_val bLength) result
      else Ok result
  end.

(** [get_report_descriptor_size_from_interface_descriptors(intf_desc)],
    given [intf_desc->extra] (the bytes of that object) and
    [intf_desc->extra_length]. *)
Definition get_report_descriptor_size_from_interface_descriptors
    (extra : list byte) (extra_length : Z) : res Z :=
  descriptor_size_loop (S (Z.to_nat extra_length)) extra extra_length
    (u16 HID_API_MAX_REPORT_DESCRIPTOR_SIZE).

(** A descriptor that the loop steps over: [bLength] is its size, its
    type is not [LIBUSB_DT_HID]. *)
Definition other_descriptor (d : list byte) : Prop :=
  exists bLength bDescriptorType rest,
    d = bLength :: bDescriptorType :: rest /\
    byte_val bLength = Z.of_nat (length d) /\
    byte_val bDescriptorType <> LIBUSB_DT_HID.

(** The Report metadata of a HID class descriptor as it lies in memory:
    for each entry [bDescriptorType], then [wDescriptorLength] with its
    low byte first. *)
Definition descriptor_entries (entries : list (byte * byte * byte))
  : list byte :=
  flat_map (fun '(t, lo, hi) => [t; lo; hi]) entries.

End Headers.

End Interfaces.
Import Interfaces.

(* ===================================================================== *)
(** ** Opening a device: kernel driver, interface, endpoints, quirks      *)
(* ===================================================================== *)

Module Open.

(** [struct libusb_endpoint_descriptor], the fields the file reads. *)
Record libusb_endpoint_descriptor : Type := {
  bEndpointAddress : Z;
  bmAttributes : Z;
  wMaxPacketSize : Z
}.

(** [struct libusb_device_descriptor], the fields the file reads. *)
Record libusb_device_descriptor : Type := {
  idVendor : Z;
  idProduct : Z;
  bcdDevice : Z;
  iManufacturer : Z;
  iProduct : Z;
  iSerialNumber : Z
}.

(** What [hidapi_initialize_device] reads of [*intf_desc] besides the
    numbers of [libusb_interface_descriptor]: [endpoint[0 ..
    bNumEndpoints-1]], the bytes of [extra] and [extra_length]. *)
Record interface_endpoints : Type := {
  endpoint : list libusb_endpoint_descriptor;
  extra : list byte;
  extra_length : Z
}.

(** The fields of [struct hid_device_] that describe the USB side of the
    session. *)
Record hid_device_usb : Type := {
  config_number : Z;
  interface_class : Z;
  interface_subclass : Z;
  interface_protocol : Z;
  report_descriptor_size : Z;
  input_endpoint : Z;
  input_ep_max_packet_size : Z;
  manufacturer_index : Z;
  product_index : Z;
  serial_index : Z
}.

Definition set_interface (n : Z) (dev : hid_device) : hid_device :=
  {| interface := n; output_endpoint := output_endpoint dev;
     blocking := blocking dev; shutdown_thread := shutdown_thread dev;
     transfer_loop_finished := transfer_loop_finished dev;
     skip_output_report_id := skip_output_report_id dev;
     no_skip_output_report_id := no_skip_output_report_id dev;
     no_output_reports_on_intr_ep := no_output_reports_on_intr_ep dev;
     input_reports := input_reports dev;
     is_driver_detached := is_driver_detached dev |}.

Definition set_output_endpoint (ep : Z) (dev : hid_device) : hid_device :=
  {| interface := interface dev; output_endpoint := ep;
     blocking := blocking dev; shutdown_thread := shutdown_thread dev;
     transfer_loop_finished := transfer_loop_finished dev;
     skip_output_report_id := skip_output_report_id dev;
     no_skip_output_report_id := no_skip_output_report_id dev;
     no_output_reports_on_intr_ep := no_output_reports_on_intr_ep dev;
     input_reports := input_reports dev;
     is_driver_detached := is_driver_detached dev |}.

Definition set_skip_output_report_id (b : bool) (dev : hid_device)
  : hid_device :=
  {| interface := interface dev; output_endpoint := output_endpoint dev;
     blocking := blocking dev; shutdown_thread := shutdown_thread dev;
     transfer_loop_finished := transfer_loop_finished dev;
     skip_output_report_id := b;
     no_skip_output_report_id := no_skip_output_report_id dev;
     no_output_reports_on_intr_ep := no_output_reports_on_intr_ep dev;
     input_reports := input_reports dev;
     is_driver_detached := is_driver_detached dev |}.

Definition set_no_skip_output_report_id (b : bool) (dev : hid_device)
  : hid_device :=
  {| interface := interface dev; output_endpoint := output_endpoint dev;
     blocking := blocking dev; shutdown_thread := shutdown_thread dev;
     transfer_loop_finished := transfer_loop_finished dev;
     skip_output_report_id := skip_output_report_id dev;
     no_skip_output_report_id := b;
     no_output_reports_on_intr_ep := no_output_reports_on_intr_ep dev;
     input_reports := input_reports dev;
     is_driver_detached := is_driver_detached dev |}.

Definition set_no_output_reports_on_intr_ep (b : bool) (dev : hid_device)
  : hid_device :=
  {| interface := interface dev; output_endpoint := output_endpoint dev;
     blocking := blocking dev; shutdown_thread := shutdown_thread dev;
     transfer_loop_finished := transfer_loop_finished dev;
     skip_output_report_id := skip_output_report_id dev;
     no_skip_output_report_id := no_skip_output_report_id dev;
     no_output_reports_on_intr_ep := b;
     input_reports := input_reports dev;
     is_driver_detached := is_driver_detached dev |}.

Definition set_is_driver_detached (b : bool) (dev : hid_device)
  : hid_device :=
  {| interface := interface dev; output_endpoint := output_endpoint dev;
     blocking := blocking dev; shutdown_thread := shutdown_thread dev;
     transfer_loop_finished := transfer_loop_finished dev;
     skip_output_report_id := skip_output_report_id dev;
     no_skip_output_report_id := no_skip_output_report_id dev;
     no_output_reports_on_intr_ep := no_output_reports_on_intr_ep dev;
     input_reports := input_reports dev;
     is_driver_detached := b |}.

Definition set_input_endpoint (ep size : Z) (usb : hid_device_usb)
  : hid_device_usb :=
  {| config_number := config_number usb;
     interface_class := interface_class usb;
     interface_subclass := interface_subclass usb;
     interface_protocol := interface_protocol usb;
     report_descriptor_size := report_descriptor_size usb;
     input_endpoint := ep; input_ep_max_packet_size := size;
     manufacturer_index := manufacturer_index usb;
     product_index := product_index usb;
     serial_index := serial_index usb |}.

(** What [hidapi_initialize_device] does outside [dev], in order. *)
Inductive open_event : Type :=
| Kernel_driver_active (interface_number : Z)
| Detach_kernel_driver (interface_number : Z)
| Usb_call (c : usb_call)
| Thread_create
| Barrier_wait.

(** [init_xbox360(device_handle, idVendor, idProduct, conf_desc)]: the
    libusb calls it makes. *)
Definition init_xbox360 (idVendor idProduct : Z) : list usb_call :=
  if ((idVendor =? 0x05ac) && (idProduct =? 0x055b)) (* Gamesir-G3w *) ||
     ((idVendor =? 0x20d6) && (idProduct =? 0x4010))
       (* PowerA Battle Dragon Advanced Wireless Controller *) ||
     (idVendor =? 0x0f0d) (* Hori Xbox controllers *)
  then [Control_transfer 0xC1 0x01 0x100 0x0 (replicate 20 x00) 20 100]
  else [].

Definition VENDOR_SONY : Z := 0x054c.
Definition PRODUCT_PS3_CONTROLLER : Z := 0x0268.
Definition PRODUCT_NAVIGATION_CONTROLLER : Z := 0x042f.

(** [calculate_device_quirks(dev, idVendor, idProduct)] *)
Definition calculate_device_quirks (dev : hid_device)
    (idVendor idProduct : Z) : hid_device :=
  if (idVendor =? VENDOR_SONY) &&
     ((idProduct =? PRODUCT_PS3_CONTROLLER) ||
      (idProduct =? PRODUCT_NAVIGATION_CONTROLLER))
  then set_no_output_reports_on_intr_ep true
         (set_skip_output_report_id true dev)
  else dev.

Section Headers.

(** Constants of libusb.h and hidapi.h *)
Variables LIBUSB_CLASS_VENDOR_SPEC LIBUSB_DT_HID LIBUSB_DT_REPORT
  HID_API_MAX_REPORT_DESCRIPTOR_SIZE
  LIBUSB_TRANSFER_TYPE_MASK LIBUSB_TRANSFER_TYPE_INTERRUPT
  LIBUSB_ENDPOINT_DIR_MASK LIBUSB_ENDPOINT_OUT LIBUSB_ENDPOINT_IN : Z.

(** What libusb answers: is a kernel driver active on the interface, the
    result of detaching it, of claiming an interface (given the calls made
    before), and of the first [libusb_submit_transfer] of the read
    thread. *)
Variable libusb_kernel_driver_active : Z -> Z.
Variable libusb_detach_kernel_driver : Z -> Z.
Variable libusb_claim_interface : list usb_call -> Z -> Z.
Variable libusb_submit_transfer : Z.

(** The body of the loop over [intf_desc->endpoint[i]]. *)
Definition find_endpoints (st : hid_device * hid_device_usb)
    (ep : libusb_endpoint_descriptor) : hid_device * hid_device_usb :=
  let '(dev, usb) := st in
  (* Determine the type and direction of this endpoint. *)
  let is_interrupt :=
    Z.land (bmAttributes ep) LIBUSB_TRANSFER_TYPE_MASK
    =? LIBUSB_TRANSFER_TYPE_INTERRUPT in
  let is_output :=
    Z.land (bEndpointAddress ep) LIBUSB_ENDPOINT_DIR_MASK
    =? LIBUSB_ENDPOINT_OUT in
  let is_input :=
    Z.land (bEndpointAddress ep) LIBUSB_ENDPOINT_DIR_MASK
    =? LIBUSB_ENDPOINT_IN in
  (* Decide whether to use it for input or output. *)
  let usb :=
    if (input_endpoint usb =? 0) && is_interrupt && is_input
    then set_input_endpoint (bEndpointAddress ep) (wMaxPacketSize ep) usb
    else usb in
  let dev :=
    if (output_endpoint dev =? 0) && is_interrupt && is_output
    then set_output_endpoint (bEndpointAddress ep) dev
    else dev in
  (dev, usb).

(** [read_thread] up to its [hidapi_thread_barrier_wait]: the first
    submission of the transfer. *)
Definition read_thread_start (dev : hid_device) : hid_device :=
  if libusb_submit_transfer <? 0
  then set_transfer_loop_finished true (set_shutdown_thread true dev)
  else dev.

(** [hidapi_initialize_device(dev, intf_desc, conf_desc)], with [desc] the
    device descriptor libusb gives: the return value, the device when the
    barrier has been passed, and what was done on the way. *)
Definition hidapi_initialize_device (dev : hid_device)
    (usb : hid_device_usb) (desc : libusb_device_descriptor)
    (intf_desc : libusb_interface_descriptor) (more : interface_endpoints)
    (conf_desc : libusb_config_descriptor) (bConfigurationValue : Z)
  : res (Z * hid_device * hid_device_usb * list open_event) :=
  let n := bInterfaceNumber intf_desc in
  (* Detach the kernel driver, but only if the device is managed by the
     kernel *)
  let dev := set_is_driver_detached false dev in
  let events := [Kernel_driver_active n] in
  let active := libusb_kernel_driver_active n =? 1 in
  let events := if active then events ++ [Detach_kernel_driver n]
                else events in
  if active && (libusb_detach_kernel_driver n <? 0)
  then Ok (0, dev, usb, events)
  else
    let dev := if active then set_is_driver_detached true dev else dev in
    let res_ := libusb_claim_interface [] n in
    let calls := [Claim_interface n] in
    if res_ <? 0 then
      let calls :=
        if is_driver_detached dev then calls ++ [Attach_kernel_driver n]
        else calls in
      Ok (0, dev, usb, events ++ map Usb_call calls)
    else
      (* Initialize XBox 360 controllers *)
      let '(dev, calls) :=
        if is_xbox360 LIBUSB_CLASS_VENDOR_SPEC (idVendor desc) intf_desc
           =? 0
        then (dev, calls)
        else (set_no_skip_output_report_id true dev,
              calls ++ init_xbox360 (idVendor desc) (idProduct desc)) in
      (* Initialize XBox One controllers *)
      let calls :=
        if is_xboxone LIBUSB_CLASS_VENDOR_SPEC (idVendor desc) intf_desc
           =? 0
        then calls
        else init_xboxone LIBUSB_CLASS_VENDOR_SPEC libusb_claim_interface
               (idVendor desc) (idProduct desc) conf_desc calls in
      (* Store off the USB information *)
      let dev := set_interface n dev in
      size ← get_report_descriptor_size_from_interface_descriptors
               LIBUSB_DT_HID LIBUSB_DT_REPORT
               HID_API_MAX_REPORT_DESCRIPTOR_SIZE
               (extra more) (extra_length more);
      let usb :=
        {| config_number := bConfigurationValue;
           interface_class := bInterfaceClass intf_desc;
           interface_subclass := bInterfaceSubClass intf_desc;
           interface_protocol := bInterfaceProtocol intf_desc;
           report_descriptor_size := size;
           input_endpoint := 0; input_ep_max_packet_size := 0;
           (* Store off the string descriptor indexes *)
           manufacturer_index := iManufacturer desc;
           product_index := iProduct desc;
           serial_index := iSerialNumber desc |} in
      let dev := set_output_endpoint 0 dev in
      (* Find the INPUT and OUTPUT endpoints. An OUTPUT endpoint is not
         required. *)
      let '(dev, usb) :=
        fold_left find_endpoints (endpoint more) (dev, usb) in
      let dev :=
        calculate_device_quirks dev (idVendor desc) (idProduct desc) in
      let dev := read_thread_start dev in
      Ok (1, dev, usb,
          events ++ map Usb_call calls ++ [Thread_create; Barrier_wait]).

End Headers.

(** For the statements below: an endpoint that the loop of
    [hidapi_initialize_device] can take for the masked direction [dir]: an
    interrupt endpoint of that direction whose address is not 0. *)
Definition usable_endpoint (LIBUSB_TRANSFER_TYPE_MASK
    LIBUSB_TRANSFER_TYPE_INTERRUPT LIBUSB_ENDPOINT_DIR_MASK dir : Z)
    (ep : libusb_endpoint_descriptor) : bool :=
  (Z.land (bmAttributes ep) LIBUSB_TRANSFER_TYPE_MASK
   =? LIBUSB_TRANSFER_TYPE_INTERRUPT) &&
  (Z.land (bEndpointAddress ep) LIBUSB_ENDPOINT_DIR_MASK =? dir) &&
  negb (bEndpointAddress ep =? 0).

(** The address of the first endpoint of [eps] that passes [usable], 0
    when there is none. *)
Definition first_endpoint (usable : libusb_endpoint_descriptor -> bool)
    (eps : list libusb_endpoint_descriptor) : Z :=
  match find usable eps with
  | Some ep => bEndpointAddress ep
  | None => 0
  end.

(** Whether the last of [calls] that claims or releases interface [n] is
    a claim; [false] when there is none. *)
Definition claimed_after (calls : list usb_call) (n : Z) : bool :=
  fold_left
    (fun held c =>
       match c with
       | Claim_interface k => if k =? n then true else held
       | Release_interface k => if k =? n then false else held
       | _ => held
       end)
    calls false.

End Open.
Import Open.

(* ===================================================================== *)
(** ** String descriptors: the language, the string, the cache            *)
(* ===================================================================== *)

Module Strings.

(** [uint8_t] *)
Definition u8 (z : Z) : Z := z mod 2 ^ 8.

(** [((uint16_t * )buf)[i]] on a little-endian host. *)
Definition word (buf : list byte) (i : Z) : res Z :=
  lo ← index buf (2 * i);
  hi ← index buf (2 * i + 1);
  Ok (byte_val lo + 256 * byte_val hi).

(** [n] bytes from [buf + off]. *)
Definition bytes_at (buf : list byte) (off n : Z) : res (list byte) :=
  if (0 <=? off) && (0 <=? n) && (off + n <=? Z.of_nat (length buf))
  then Ok (take (Z.to_nat n) (drop (Z.to_nat off) buf))
  else Fault.

(** [for (i = ...; i < len; i++) if (buf[i] == lang) return 1;] of
    [is_language_supported], from [i] on and for at most [fuel]
    iterations, and the [return 0] after it. *)
Fixpoint language_listed (fuel : nat) (buf : list byte) (lang len i : Z)
  : res Z :=
  match fuel with
  | O => More
  | S fuel' =>
      if i <? len then
        w ← word buf i;
        if w =? lang then Ok 1
        else language_listed fuel' buf lang len (i + 1)
      else Ok 0
  end.

Section Device.

(** [libusb_get_string_descriptor(dev, descriptor_index, lang_id, data,
    length)]: the return value and the bytes libusb stored in [data].  A
    read of a byte of [data] that libusb did not store is a fault. *)
Variable libusb_get_string_descriptor : Z -> Z -> Z -> Z * list byte.

(** [get_first_language(dev)] *)
Definition get_first_language : res Z :=
  (* Get the string from libusb. *)
  let '(len, buf) := libusb_get_string_descriptor 0x0 0x0 64 in
  if len <? 4 then Ok 0x0
  else word buf 1. (* First two bytes are len and descriptor type. *)

(** [is_language_supported(dev, lang)] *)
Definition is_language_supported (lang : Z) : res Z :=
  (* Get the string from libusb. *)
  let '(len, buf) := libusb_get_string_descriptor 0x0 0x0 64 in
  if len <? 4 then Ok 0x0
  else
    let len := Z.quot len 2 in (* language IDs are two-bytes each. *)
    (* Start at index 1 because there are two bytes of protocol data. *)
    language_listed (Z.to_nat len) buf lang len 1.

(** What [get_usb_code_for_current_locale()] returns, what [iconv_open]
    gives ([false] for [(iconv_t)-1]), and what [iconv] does with the
    input bytes: [None] for [(size_t)-1], else the wide characters it
    stored from [outptr] on. *)
Variable get_usb_code_for_current_locale : Z.
Variable iconv_open : bool.
Variable iconv : list byte -> option (list Z).

(** The first lines of [get_usb_string]: Determine which language to
    use. *)
Definition string_language : res Z :=
  let lang := get_usb_code_for_current_locale in
  supported ← is_language_supported lang;
  if supported =? 0 then get_first_language else Ok lang.

(** [get_usb_string(dev, idx)] as compiled with iconv, [wchar_t] of 4
    bytes: [None] for [NULL], else the string [wcsdup] copies.  [wbuf] is
    what the array [wbuf] holds on entry. *)
Definition get_usb_string (wbuf : list Z) (idx : Z) : res (option wstring) :=
  lang ← string_language;
  (* Get the string from libusb. *)
  let '(len, buf) := libusb_get_string_descriptor (u8 idx) lang 512 in
  if len <? 2 then Ok None (* we always skip first 2 bytes *)
  else if negb iconv_open then Ok None
  else
    (* Convert to native wchar_t.  Skip the first character (2-bytes). *)
    input ← bytes_at buf 2 (len - 2);
    match iconv input with
    | None => Ok None
    | Some written =>
        let outbytes := 256 * 4 - 4 * Z.of_nat (length written) in
        wbuf ← (if Z.of_nat (length written) <=? Z.of_nat (length wbuf)
                then Ok (written ++ drop (length written) wbuf)
                else Fault);
        (* Write the terminating NULL. *)
        wbuf ← store wbuf (256 - 1) 0;
        wbuf ← (if 4 <=? outbytes
                then store wbuf (Z.of_nat (length written)) 0
                else Ok wbuf);
        (* Allocate and copy the string. *)
        Ok (Some (wcs wbuf))
    end.

End Device.

End Strings.
Import Strings.

(* ===================================================================== *)
(** ** The cache of manufacturer and product strings                      *)
(* ===================================================================== *)

Module StringCache.

(** [struct usb_string_cache_entry]; a string pointer is [None] for
    [NULL]. *)
Record usb_string_cache_entry : Type := {
  vid : Z;
  pid : Z;
  vendor : option wstring;
  product : option wstring
}.

(** The three statics: the array [usb_string_cache] (its slots; none for
    [NULL]), [usb_string_cache_size] and [usb_string_cache_insert_pos]. *)
Record string_cache : Type := {
  usb_string_cache : list usb_string_cache_entry;
  usb_string_cache_size : Z;
  usb_string_cache_insert_pos : Z
}.

(** The statics as the file initialises them. *)
Definition string_cache_init : string_cache :=
  {| usb_string_cache := []; usb_string_cache_size := 0;
     usb_string_cache_insert_pos := 0 |}.

(** [usb_string_can_cache(vid, pid)] *)
Definition usb_string_can_cache (vid pid : Z) : Z :=
  if (vid =? 0) || (pid =? 0) then
    (* We can't cache these, they aren't unique *)
    0
  else if (vid =? 0x0f0d) && (pid =? 0x00dc) then
    (* HORI reuses this VID/PID for many different products *)
    0
  else
    (* We can cache these strings *)
    1.

Section Allocator.

(** [sizeof(struct usb_string_cache_entry)] of an LP64 target: two
    [uint16_t], padding, two pointers. *)
Definition sizeof_usb_string_cache_entry : Z := 24.

(** Whether [realloc] gives the number of bytes asked for, and what a
    slot that was never written holds. *)
Variable realloc_ok : Z -> bool.
Variable fresh : usb_string_cache_entry.

(** [realloc(usb_string_cache, allocSize)] when it succeeds: the entries
    that fit in [allocSize] bytes, the old ones first. *)
Definition realloc (cache : list usb_string_cache_entry) (allocSize : Z)
  : list usb_string_cache_entry :=
  let n := Z.to_nat (allocSize / sizeof_usb_string_cache_entry) in
  take n (cache ++ replicate n fresh).

(** [usb_string_cache_grow()] *)
Definition usb_string_cache_grow (c : string_cache) : Z * string_cache :=
  let new_cache_size := usize (usb_string_cache_size c + 8) in
  let allocSize := usize (sizeof_usb_string_cache_entry * new_cache_size) in
  if negb (realloc_ok allocSize) then (-1, c)
  else
    (0, {| usb_string_cache := realloc (usb_string_cache c) allocSize;
           usb_string_cache_size := new_cache_size;
           usb_string_cache_insert_pos := usb_string_cache_insert_pos c |}).

(** [usb_string_cache_insert()]: the index of the entry returned, [None]
    for [NULL]. *)
Definition usb_string_cache_insert (c : string_cache)
  : option Z * string_cache :=
  let '(grown, c) :=
    if usb_string_cache_size c <=? usb_string_cache_insert_pos c
    then usb_string_cache_grow c
    else (0, c) in
  if grown <? 0 then (None, c)
  else
    let new_entry := usb_string_cache_insert_pos c in
    (Some new_entry,
     {| usb_string_cache := usb_string_cache c;
        usb_string_cache_size := usb_string_cache_size c;
        usb_string_cache_insert_pos :=
          usize (usb_string_cache_insert_pos c + 1) |}).

(** The search loop of [usb_string_cache_find], from [i] on and for at
    most [fuel] iterations: the index of the entry it returns, [None] when
    it falls through. *)
Fixpoint usb_string_cache_search (fuel : nat) (c : string_cache)
    (idVendor idProduct i : Z) : res (option Z) :=
  match fuel with
  | O => More
  | S fuel' =>
      if i <? usb_string_cache_insert_pos c then
        entry ← index (usb_string_cache c) i;
        if negb (vid entry =? idVendor)
        then usb_string_cache_search fuel' c idVendor idProduct (usize (i + 1))
        else if negb (pid entry =? idProduct)
        then usb_string_cache_search fuel' c idVendor idProduct (usize (i + 1))
        else Ok (Some i)
      else Ok None
  end.

(** [usb_string_cache_find(desc, handle)]: the entry returned ([None] for
    [NULL]) and the cache.  [get_usb_string] gives the strings of the
    device behind [handle]. *)
Definition usb_string_cache_find
    (get_usb_string : Z -> res (option wstring))
    (idVendor idProduct iManufacturer iProduct : Z) (c : string_cache)
  : res (option usb_string_cache_entry * string_cache) :=
  (* Search for existing string cache entry *)
  found ← usb_string_cache_search
            (S (Z.to_nat (usb_string_cache_insert_pos c))) c
            idVendor idProduct 0;
  match found with
  | Some i =>
      entry ← index (usb_string_cache c) i;
      Ok (Some entry, c)
  | None =>
      (* Not found, create one. *)
      let '(entry, c) := usb_string_cache_insert c in
      match entry with
      | None => Ok (None, c)
      | Some i =>
          vendor ← (if 0 <? iManufacturer then get_usb_string iManufacturer
                    else Ok None);
          product ← (if 0 <? iProduct then get_usb_string iProduct
                     else Ok None);
          let entry :=
            {| vid := idVendor; pid := idProduct;
               vendor := vendor; product := product |} in
          cache ← store (usb_string_cache c) i entry;
          Ok (Some entry,
              {| usb_string_cache := cache;
                 usb_string_cache_size := usb_string_cache_size c;
                 usb_string_cache_insert_pos :=
                   usb_string_cache_insert_pos c |})
      end
  end.

(** For the statements below: a call of [usb_string_cache_find], with the
    strings of the device behind its handle and the fields of its
    descriptor; and the cache after the calls of a list, made one after
    the other. *)
Record find_call : Type := {
  call_strings : Z -> res (option wstring);
  call_idVendor : Z;
  call_idProduct : Z;
  call_iManufacturer : Z;
  call_iProduct : Z
}.

Fixpoint usb_string_cache_finds (calls : list find_call) (c : string_cache)
  : res string_cache :=
  match calls with
  | [] => Ok c
  | call :: rest =>
      '(_, c) ← usb_string_cache_find (call_strings call)
                  (call_idVendor call) (call_idProduct call)
                  (call_iManufacturer call) (call_iProduct call) c;
      usb_string_cache_finds rest c
  end.

End Allocator.

(** The loop of [usb_string_cache_destroy], from [i] on: the strings
    passed to [free], in order. *)
Fixpoint usb_string_cache_free (fuel : nat) (c : string_cache) (i : Z)
  : res (list (option wstring)) :=
  match fuel with
  | O => More
  | S fuel' =>
      if i <? usb_string_cache_insert_pos c then
        entry ← index (usb_string_cache c) i;
        rest ← usb_string_cache_free fuel' c (usize (i + 1));
        Ok (vendor entry :: product entry :: rest)
      else Ok []
  end.

(** [usb_string_cache_destroy()]: the strings freed, and the statics. *)
Definition usb_string_cache_destroy (c : string_cache)
  : res (list (option wstring) * string_cache) :=
  freed ← usb_string_cache_free
            (S (Z.to_nat (usb_string_cache_insert_pos c))) c 0;
  Ok (freed, string_cache_init).

(** For the statements below.  The entries in use, and the state the
    functions keep the statics in: the array has
    [usb_string_cache_size] slots, the entries in use fit in it, the
    array is an object [malloc] can give, and no two entries in use are
    for the same vendor and product. *)
Definition entries (c : string_cache) : list usb_string_cache_entry :=
  take (Z.to_nat (usb_string_cache_insert_pos c)) (usb_string_cache c).

Definition key (e : usb_string_cache_entry) : Z * Z := (vid e, pid e).

Definition cache_ok (c : string_cache) : Prop :=
  Z.of_nat (length (usb_string_cache c)) = usb_string_cache_size c /\
  0 <= usb_string_cache_insert_pos c <= usb_string_cache_size c /\
  sizeof_usb_string_cache_entry * usb_string_cache_size c < 2 ^ 63 /\
  NoDup (map key (entries c)).

End StringCache.
Import StringCache.

(* ===================================================================== *)
(** ** Device paths                                                        *)
(* ===================================================================== *)

Module Path.

(** The character of a decimal digit. *)
Definition digit (z : Z) : byte :=
  nth (Z.to_nat z) [x30; x31; x32; x33; x34; x35; x36; x37; x38; x39]%byte
    x30.

(** What [%u] prints for an argument that came from a [uint8_t]. *)
Definition decimal (z : Z) : list byte :=
  if z <? 10 then [digit z]
  else if z <? 100 then [digit (z / 10); digit (z mod 10)]
  else [digit (z / 100); digit (z / 10 mod 10); digit (z mod 10)].

(** [snprintf(&str[n], size, ...)] where the conversions print [text]: at
    most [size - 1] characters of it and a terminating zero are stored;
    the length of [text] is returned. *)
Definition snprintf (str : list byte) (n size : Z) (text : list byte)
  : res (list byte * Z) :=
  let stored := take (Z.to_nat (size - 1)) text ++ [x00] in
  if (0 <=? n) && (n + Z.of_nat (length stored) <=? Z.of_nat (length str))
  then Ok (take (Z.to_nat n) str ++ stored ++
           drop (Z.to_nat n + length stored) str,
           Z.of_nat (length text))
  else Fault.

(** The string a buffer holds: the characters before the first zero. *)
Fixpoint cstring (str : list byte) : list byte :=
  match str with
  | [] => []
  | c :: rest => if byte_val c =? 0 then [] else c :: cstring rest
  end.

(** [for (uint8_t i = 1; i < num_ports; i++) n += snprintf(&str[n],
    sizeof(".000"), ".%u", port_numbers[i]);] from [i] on, for at most
    [fuel] iterations. *)
Fixpoint get_path_ports (fuel : nat) (str : list byte) (n : Z)
    (port_numbers : list Z) (num_ports i : Z) : res (list byte * Z) :=
  match fuel with
  | O => More
  | S fuel' =>
      if i <? num_ports then
        port ← index port_numbers i;
        '(str, k) ← snprintf str n 5 (x2e :: decimal port);
        get_path_ports fuel' str (to_int (n + k)) port_numbers num_ports
          (u8 (i + 1))
      else Ok (str, n)
  end.

(** [get_path(result, dev, config_number, interface_number)]: the array
    [*result] afterwards.  [bus_number] is what [libusb_get_bus_number]
    returns; [num_ports] and [port_numbers] are the return value of
    [libusb_get_port_numbers] and the array it filled. *)
Definition get_path (result : list byte) (bus_number num_ports : Z)
    (port_numbers : list Z) (config_number interface_number : Z)
  : res (list byte) :=
  let str := result in
  if 0 <? num_ports then
    port ← index port_numbers 0;
    '(str, n) ← snprintf str 0 8
                  (decimal bus_number ++ x2d :: decimal port);
    '(str, n) ← get_path_ports (Z.to_nat num_ports) str n port_numbers
                  num_ports 1;
    '(str, k) ← snprintf str n 9
                  (x3a :: decimal (u8 config_number) ++
                   x2e :: decimal (u8 interface_number));
    let n := to_int (n + k) in
    store str n x00
  else
    store str 0 x00.

(** [make_path(dev, config_number, interface_number)]: the string
    [strdup] copies out of the array [str], which holds [str] on entry. *)
Definition make_path (str : list byte) (bus_number num_ports : Z)
    (port_numbers : list Z) (config_number interface_number : Z)
  : res (list byte) :=
  str ← get_path str bus_number num_ports port_numbers config_number
          interface_number;
  Ok (cstring str).

(** For the statements below: the text of a path. *)
Definition path_ports (ports : list Z) : list byte :=
  flat_map (fun port => x2e :: decimal port) ports.

Definition path_text (bus_number : Z) (port : Z) (ports : list Z)
    (config_number interface_number : Z) : list byte :=
  decimal bus_number ++ x2d :: decimal port ++
  path_ports ports ++
  x3a :: decimal config_number ++ x2e :: decimal interface_number.

End Path.
Import Path.

(* ===================================================================== *)
(** ** Enumerating and opening devices                                    *)
(* ===================================================================== *)

Module Enumerate.

(** A device of the list [libusb_get_device_list] gives, with what libusb
    answers for it: its device descriptor ([None] when
    [libusb_get_device_descriptor] fails), [conf_desc] after the two
    attempts to get it and its [bConfigurationValue] ([None] for [NULL]),
    the endpoints and extra bytes of an interface descriptor, whether
    [libusb_open] succeeds, the strings [get_usb_string] gives on its
    handle, the bus and port numbers, and the answers
    [hidapi_initialize_device] gets. *)
Record usb_device : Type := {
  device_descriptor : option libusb_device_descriptor;
  config_descriptor : option (libusb_config_descriptor * Z);
  endpoints_of : libusb_interface_descriptor -> interface_endpoints;
  libusb_open : bool;
  get_usb_string_of : Z -> res (option wstring);
  libusb_get_bus_number : Z;
  libusb_get_port_numbers : Z * list Z;
  libusb_kernel_driver_active : Z -> Z;
  libusb_detach_kernel_driver : Z -> Z;
  libusb_claim_interface : list usb_call -> Z -> Z;
  libusb_submit_transfer : Z
}.

(** [struct hid_device_info]: the fields of [hid_device_info] above, and
    the others. *)
Record hid_device_info_usb : Type := {
  info : hid_device_info;
  path : list byte;
  serial_number : option wstring;
  release_number : Z;
  manufacturer_string : option wstring;
  product_string : option wstring;
  interface_class : Z;
  interface_subclass : Z;
  interface_protocol : Z;
  bus_type : Z
}.

(** [strcmp(a, b) == 0] for two strings. *)
Fixpoint streq (a b : list byte) : bool :=
  match a, b with
  | [], [] => true
  | x :: a', y :: b' => (byte_val x =? byte_val y) && streq a' b'
  | _, _ => false
  end.

(** The table [known_bad] of [libusb_blacklist]. *)
Definition known_bad : list (Z * Z) := [
  (0x1532, 0x0227) (* Razer Huntsman Gaming keyboard - long delay asking
                      for device details *)
].

(** The loop of [libusb_blacklist] over the entries of the table, and the
    [return 0] after it. *)
Fixpoint libusb_blacklist_from (known : list (Z * Z))
    (vendor_id product_id : Z) : Z :=
  match known with
  | [] => 0
  | (vid, pid) :: rest =>
      if (vendor_id =? vid) && ((product_id =? pid) || (pid =? 0x0000))
      then 1
      else libusb_blacklist_from rest vendor_id product_id
  end.

(** [libusb_blacklist(vendor_id, product_id)] *)
Definition libusb_blacklist (vendor_id product_id : Z) : Z :=
  libusb_blacklist_from known_bad vendor_id product_id.

Section Headers.

(** Constants of libusb.h and hidapi.h *)
Variables LIBUSB_CLASS_HID LIBUSB_CLASS_VENDOR_SPEC HID_API_BUS_USB
  LIBUSB_DT_HID LIBUSB_DT_REPORT HID_API_MAX_REPORT_DESCRIPTOR_SIZE
  LIBUSB_TRANSFER_TYPE_MASK LIBUSB_TRANSFER_TYPE_INTERRUPT
  LIBUSB_ENDPOINT_DIR_MASK LIBUSB_ENDPOINT_OUT LIBUSB_ENDPOINT_IN : Z.

(** [should_enumerate_interface(vendor_id, intf_desc)] *)
Definition should_enumerate_interface (vendor_id : Z)
    (intf_desc : libusb_interface_descriptor) : Z :=
  if bInterfaceClass intf_desc =? LIBUSB_CLASS_HID then 1
  (* Also enumerate Xbox 360 controllers *)
  else if negb (is_xbox360 LIBUSB_CLASS_VENDOR_SPEC vendor_id intf_desc =? 0)
  then 1
  (* Also enumerate Xbox One controllers *)
  else if negb (is_xboxone LIBUSB_CLASS_VENDOR_SPEC vendor_id intf_desc =? 0)
  then 1
  else 0.

(** The allocator: whether the [calloc] of the [n]-th [struct
    hid_device_info] of an enumeration succeeds, and [realloc] for the
    string cache.  [str] is what the array of [make_path] and of
    [hid_open_path] holds on entry. *)
Variable calloc_ok : nat -> bool.
Variable realloc_ok : Z -> bool.
Variable fresh : usb_string_cache_entry.
Variable str : list byte.

(** [make_path(dev, config_number, interface_number)] for a device. *)
Definition device_path (device : usb_device)
    (config_number interface_number : Z) : res (list byte) :=
  make_path str (libusb_get_bus_number device)
    (fst (libusb_get_port_numbers device))
    (snd (libusb_get_port_numbers device)) config_number interface_number.

(** [create_device_info_for_device(device, handle, desc, config_number,
    interface_num, interface_class, interface_subclass,
    interface_protocol)]: [handle] is [false] for [NULL]; [allocated] is
    the number of [struct hid_device_info] in the list so far.  The
    result is [None] for [NULL]. *)
Definition create_device_info_for_device (allocated : nat)
    (device : usb_device) (handle : bool) (desc : libusb_device_descriptor)
    (config_number interface_num interface_class_ interface_subclass_
       interface_protocol_ : Z) (c : string_cache)
  : res (option hid_device_info_usb * string_cache) :=
  if negb (calloc_ok allocated) then Ok (None, c)
  else
    path_ ← device_path device config_number interface_num;
    let cur_dev serial manufacturer product_ :=
      {| info :=
           {| (* VID/PID *)
              vendor_id := idVendor desc; product_id := idProduct desc;
              interface_number := interface_num;
              usage_page := 0; usage := 0 |};
         path := path_;
         serial_number := serial;
         release_number := bcdDevice desc;
         manufacturer_string := manufacturer;
         product_string := product_;
         interface_class := interface_class_;
         interface_subclass := interface_subclass_;
         interface_protocol := interface_protocol_;
         bus_type := HID_API_BUS_USB |} in
    if negb handle then Ok (Some (cur_dev None None None), c)
    else
      serial ← (if 0 <? iSerialNumber desc
                then get_usb_string_of device (iSerialNumber desc)
                else Ok None);
      (* Manufacturer and Product strings *)
      '(string_cache, c) ←
        (if negb (usb_string_can_cache (idVendor desc) (idProduct desc)
                  =? 0)
         then usb_string_cache_find realloc_ok fresh
                (get_usb_string_of device) (idVendor desc) (idProduct desc)
                (iManufacturer desc) (iProduct desc) c
         else Ok (None, c));
      match string_cache with
      | Some entry =>
          Ok (Some (cur_dev serial (vendor entry) (product entry)), c)
      | None =>
          manufacturer ← (if 0 <? iManufacturer desc
                          then get_usb_string_of device (iManufacturer desc)
                          else Ok None);
          product_ ← (if 0 <? iProduct desc
                      then get_usb_string_of device (iProduct desc)
                      else Ok None);
          Ok (Some (cur_dev serial manufacturer product_), c)
      end.

(** What [hid_enumerate] has built so far: the list from [root] on, and
    the string cache. *)
Definition enumeration : Type := list hid_device_info_usb * string_cache.

(** The loop over [intf->altsetting[k]] of [hid_enumerate], from the
    alternate settings [altsettings] on: the first one to enumerate makes
    an entry, and ends the loop. *)
Fixpoint enumerate_altsettings (device : usb_device)
    (desc : libusb_device_descriptor) (bConfigurationValue : Z)
    (altsettings : list libusb_interface_descriptor) (st : enumeration)
  : res enumeration :=
  match altsettings with
  | [] => Ok st
  | intf_desc :: rest =>
      if negb (should_enumerate_interface (idVendor desc) intf_desc =? 0)
      then
        let '(devs, c) := st in
        '(tmp, c) ← create_device_info_for_device (length devs) device
                      (libusb_open device) desc bConfigurationValue
                      (bInterfaceNumber intf_desc)
                      (bInterfaceClass intf_desc)
                      (bInterfaceSubClass intf_desc)
                      (bInterfaceProtocol intf_desc) c;
        match tmp with
        | Some tmp => Ok (devs ++ [tmp], c)
        | None => Ok (devs, c)
        end
      else
        enumerate_altsettings device desc bConfigurationValue rest st
  end.

(** The loop over [conf_desc->interface[j]]. *)
Fixpoint enumerate_interfaces (device : usb_device)
    (desc : libusb_device_descriptor) (bConfigurationValue : Z)
    (intfs : list libusb_interface) (st : enumeration) : res enumeration :=
  match intfs with
  | [] => Ok st
  | intf :: rest =>
      st ← enumerate_altsettings device desc bConfigurationValue
             (altsetting intf) st;
      enumerate_interfaces device desc bConfigurationValue rest st
  end.

(** The body of the loop over [devs[i]]. *)
Definition enumerate_device (vendor_id product_id : Z)
    (device : usb_device) (st : enumeration) : res enumeration :=
  match device_descriptor device with
  | None => Ok st
  | Some desc =>
      let dev_vid := idVendor desc in
      let dev_pid := idProduct desc in
      if (negb (vendor_id =? 0x0) && negb (vendor_id =? dev_vid)) ||
         (negb (product_id =? 0x0) && negb (product_id =? dev_pid)) ||
         negb (libusb_blacklist dev_vid dev_pid =? 0)
      then Ok st
      else
        match config_descriptor device with
        | None => Ok st
        | Some (conf_desc, bConfigurationValue) =>
            enumerate_interfaces device desc bConfigurationValue
              (interfaces conf_desc) st
        end
  end.

Fixpoint enumerate_devices (vendor_id product_id : Z)
    (devs : list usb_device) (st : enumeration) : res enumeration :=
  match devs with
  | [] => Ok st
  | device :: rest =>
      st ← enumerate_device vendor_id product_id device st;
      enumerate_devices vendor_id product_id rest st
  end.

(** [hid_enumerate(vendor_id, product_id)]: the list returned (empty for
    [NULL]) and the string cache.  [hid_init_ok] says whether [hid_init]
    returns 0, [libusb_get_device_list] is the list libusb gives, [None]
    when it fails. *)
Definition hid_enumerate (hid_init_ok : bool)
    (libusb_get_device_list : option (list usb_device))
    (vendor_id product_id : Z) (c : string_cache) : res enumeration :=
  if negb hid_init_ok then Ok ([], c)
  else
    match libusb_get_device_list with
    | None => Ok ([], c)
    | Some devs => enumerate_devices vendor_id product_id devs ([], c)
    end.

(** The loop of [hid_open] over the list: the path to open, [None] when
    the loop ends without one.  [serial_number] is [None] for [NULL]. *)
Fixpoint path_to_open (vendor_id product_id : Z)
    (serial_number_ : option wstring) (devs : list hid_device_info_usb)
  : option (list byte) :=
  match devs with
  | [] => None
  | cur_dev :: next =>
      if (Descriptor.vendor_id (info cur_dev) =? vendor_id) &&
         (Descriptor.product_id (info cur_dev) =? product_id)
      then
        match serial_number_ with
        | Some wanted =>
            match serial_number cur_dev with
            | Some serial =>
                if bool_decide (wanted = serial) then Some (path cur_dev)
                else path_to_open vendor_id product_id serial_number_ next
            | None => path_to_open vendor_id product_id serial_number_ next
            end
        | None => Some (path cur_dev)
        end
      else path_to_open vendor_id product_id serial_number_ next
  end.

(** What [hid_open_path] has done so far: the session [dev] with its USB
    fields, [good_open], and the devices opened and closed. *)
Inductive handle_event : Type :=
| Opened (device : usb_device)
| Closed (device : usb_device).

Record opening : Type := {
  dev : hid_device;
  dev_usb : hid_device_usb;
  good_open : Z;
  handles : list handle_event
}.

(** The loop over [intf->altsetting[k]] of [hid_open_path]; it runs while
    [!good_open], and a failed [libusb_open] ends it. *)
Fixpoint open_altsettings (path_ : list byte) (device : usb_device)
    (desc : libusb_device_descriptor)
    (conf_desc : libusb_config_descriptor) (bConfigurationValue : Z)
    (altsettings : list libusb_interface_descriptor) (st : opening)
  : res opening :=
  match altsettings with
  | [] => Ok st
  | intf_desc :: rest =>
      if negb (good_open st =? 0) then Ok st
      else if negb (should_enumerate_interface (idVendor desc) intf_desc
                    =? 0)
      then
        dev_path ← device_path device bConfigurationValue
                     (bInterfaceNumber intf_desc);
        if streq dev_path path_ then
          (* Matched Paths. Open this device *)
          if negb (libusb_open device) then Ok st
          else
            '(good, dev_, usb_, _) ←
              hidapi_initialize_device LIBUSB_CLASS_VENDOR_SPEC
                LIBUSB_DT_HID LIBUSB_DT_REPORT
                HID_API_MAX_REPORT_DESCRIPTOR_SIZE
                LIBUSB_TRANSFER_TYPE_MASK LIBUSB_TRANSFER_TYPE_INTERRUPT
                LIBUSB_ENDPOINT_DIR_MASK LIBUSB_ENDPOINT_OUT
                LIBUSB_ENDPOINT_IN
                (libusb_kernel_driver_active device)
                (libusb_detach_kernel_driver device)
                (libusb_claim_interface device)
                (libusb_submit_transfer device)
                (dev st) (dev_usb st) desc intf_desc
                (endpoints_of device intf_desc) conf_desc
                bConfigurationValue;
            let st :=
              {| dev := dev_; dev_usb := usb_; good_open := good;
                 handles :=
                   handles st ++ Opened device ::
                   (if good =? 0 then [Closed device] else []) |} in
            open_altsettings path_ device desc conf_desc
              bConfigurationValue rest st
        else
          open_altsettings path_ device desc conf_desc bConfigurationValue
            rest st
      else
        open_altsettings path_ device desc conf_desc bConfigurationValue
          rest st
  end.

(** The loop over [conf_desc->interface[j]] of [hid_open_path]. *)
Fixpoint open_interfaces (path_ : list byte) (device : usb_device)
    (desc : libusb_device_descriptor)
    (conf_desc : libusb_config_descriptor) (bConfigurationValue : Z)
    (intfs : list libusb_interface) (st : opening) : res opening :=
  match intfs with
  | [] => Ok st
  | intf :: rest =>
      if negb (good_open st =? 0) then Ok st
      else
        st ← open_altsettings path_ device desc conf_desc
               bConfigurationValue (altsetting intf) st;
        open_interfaces path_ device desc conf_desc bConfigurationValue
          rest st
  end.

(** The loop over [devs[d]] of [hid_open_path]. *)
Fixpoint open_devices (path_ : list byte) (devs : list usb_device)
    (st : opening) : res opening :=
  match devs with
  | [] => Ok st
  | usb_dev :: rest =>
      if negb (good_open st =? 0) then Ok st
      else
        match device_descriptor usb_dev with
        | None => open_devices path_ rest st
        | Some desc =>
            match config_descriptor usb_dev with
            | None => open_devices path_ rest st
            | Some (conf_desc, bConfigurationValue) =>
                st ← open_interfaces path_ usb_dev desc conf_desc
                       bConfigurationValue (interfaces conf_desc) st;
                open_devices path_ rest st
            end
        end
  end.

(** [hid_open_path(path)]: the session returned ([None] for [NULL]) with
    its USB fields, and the devices opened and closed.  When
    [libusb_get_device_list] fails, [devs] stays [NULL] and is
    dereferenced. *)
Definition hid_open_path (hid_init_ok : bool)
    (libusb_get_device_list : option (list usb_device))
    (usb : hid_device_usb) (path_ : list byte)
  : res (option (hid_device * hid_device_usb) * list handle_event) :=
  if negb hid_init_ok then Ok (None, [])
  else
    let st :=
      {| dev := new_hid_device; dev_usb := usb; good_open := 0;
         handles := [] |} in
    match libusb_get_device_list with
    | None => Fault
    | Some devs =>
        st ← open_devices path_ devs st;
        (* If we have a good handle, return it. *)
        if negb (good_open st =? 0)
        then Ok (Some (dev st, dev_usb st), handles st)
        else
          (* Unable to open any devices. *)
          Ok (None, handles st)
    end.

(** [hid_open(vendor_id, product_id, serial_number)].  libusb is asked
    for the device list twice, by [hid_enumerate] and again by
    [hid_open_path]: [libusb_get_device_list_again] is the second
    answer. *)
Definition hid_open (hid_init_ok : bool)
    (libusb_get_device_list libusb_get_device_list_again
       : option (list usb_device))
    (usb : hid_device_usb) (vendor_id product_id : Z)
    (serial_number_ : option wstring) (c : string_cache)
  : res (option (hid_device * hid_device_usb) * string_cache) :=
  '(devs, c) ← hid_enumerate hid_init_ok libusb_get_device_list vendor_id
                 product_id c;
  match path_to_open vendor_id product_id serial_number_ devs with
  | Some path_ =>
      (* Open the device *)
      '(handle, _) ← hid_open_path hid_init_ok libusb_get_device_list_again
                       usb path_;
      Ok (handle, c)
  | None => Ok (None, c)
  end.

(** For the statements below.  An interface descriptor of a device that
    [should_enumerate_interface] accepts. *)
Definition enumerable_interface (device : usb_device)
    (desc : libusb_device_descriptor) (bConfigurationValue : Z)
    (intf_desc : libusb_interface_descriptor) : Prop :=
  device_descriptor device = Some desc /\
  exists conf_desc intf,
    config_descriptor device = Some (conf_desc, bConfigurationValue) /\
    In intf (interfaces conf_desc) /\ In intf_desc (altsetting intf) /\
    should_enumerate_interface (idVendor desc) intf_desc <> 0.

(** An entry of an enumeration made for an interface of a device. *)
Definition entry_of (device : usb_device) (desc : libusb_device_descriptor)
    (bConfigurationValue : Z) (intf_desc : libusb_interface_descriptor)
    (entry : hid_device_info_usb) : Prop :=
  vendor_id (info entry) = idVendor desc /\
  product_id (info entry) = idProduct desc /\
  interface_number (info entry) = bInterfaceNumber intf_desc /\
  usage_page (info entry) = 0 /\ usage (info entry) = 0 /\
  device_path device bConfigurationValue (bInterfaceNumber intf_desc)
    = Ok (path entry) /\
  (libusb_open device = false ->
   serial_number entry = None /\ manufacturer_string entry = None /\
   product_string entry = None).

(** The handle events of attempts that did not succeed: every device
    opened was closed again. *)
Definition closed_again (devices : list usb_device) : list handle_event :=
  flat_map (fun device => [Opened device; Closed device]) devices.

(** The state [hid_open_path] is in between two steps: no session yet and
    every handle closed, or a session on an interface to enumerate whose
    path is [path_], of a device that was opened and is the one handle
    left open.  [among] says where the interface is from. *)
Definition opening_ok (path_ : list byte)
    (among : usb_device -> libusb_device_descriptor -> Z ->
             libusb_interface_descriptor -> Prop)
    (st : opening) : Prop :=
  (good_open st = 0 /\ exists closed, handles st = closed_again closed) \/
  (good_open st = 1 /\
   exists closed device desc bConfigurationValue intf_desc,
     handles st = closed_again closed ++ [Opened device] /\
     among device desc bConfigurationValue intf_desc /\
     should_enumerate_interface (idVendor desc) intf_desc <> 0 /\
     device_path device bConfigurationValue (bInterfaceNumber intf_desc)
       = Ok path_ /\
     libusb_open device = true /\
     interface (dev st) = bInterfaceNumber intf_desc).

End Headers.

(** What libusb can answer for a device: bus and port numbers of 8 bits,
    at most 8 of them; and its strings can be fetched, its descriptors
    have the extra bytes they say they have. *)
Definition device_ok (device : usb_device) : Prop :=
  0 <= libusb_get_bus_number device < 256 /\
  fst (libusb_get_port_numbers device) <= 8 /\
  length (snd (libusb_get_port_numbers device)) = 8%nat /\
  Forall (fun port => 0 <= port < 256) (snd (libusb_get_port_numbers device))
  /\
  (forall idx, exists str, get_usb_string_of device idx = Ok str) /\
  (forall intf_desc,
     extra_length (endpoints_of device intf_desc)
     <= Z.of_nat (length (extra (endpoints_of device intf_desc)))).

(** For the statements below: [hidapi_initialize_device] can take the
    interface of a descriptor: a kernel driver that is active lets itself
    be detached, and the interface can be claimed. *)
Definition can_initialize (device : usb_device)
    (intf_desc : libusb_interface_descriptor) : Prop :=
  (libusb_kernel_driver_active device (bInterfaceNumber intf_desc) = 1 ->
   0 <= libusb_detach_kernel_driver device (bInterfaceNumber intf_desc)) /\
  0 <= libusb_claim_interface device [] (bInterfaceNumber intf_desc).

End Enumerate.
Import Enumerate.

(* ===================================================================== *)
(** ** The language of the current locale                                 *)
(* ===================================================================== *)

Module Locale.

(** [struct lang_map_entry] *)
Record lang_map_entry : Type := {
  name : String.string;
  string_code : list byte;
  usb_code : Z
}.

(** [#define LANG(name,code,usb_code) { name, code, usb_code }] *)
Definition LANG (name code : String.string) (usb_code : Z) : lang_map_entry :=
  {| name := name; string_code := String.list_byte_of_string code;
     usb_code := usb_code |}.

Section Table.
Import String.
Local Open Scope string_scope.

(** [lang_map], without the entry [LANG(NULL, NULL, 0x0)] that ends it:
    the end of the list stands for it. *)
Definition lang_map : list lang_map_entry := [
  LANG "Afrikaans" "af" 0x0436;
  LANG "Albanian" "sq" 0x041C;
  LANG "Arabic - United Arab Emirates" "ar_ae" 0x3801;
  LANG "Arabic - Bahrain" "ar_bh" 0x3C01;
  LANG "Arabic - Algeria" "ar_dz" 0x1401;
  LANG "Arabic - Egypt" "ar_eg" 0x0C01;
  LANG "Arabic - Iraq" "ar_iq" 0x0801;
  LANG "Arabic - Jordan" "ar_jo" 0x2C01;
  LANG "Arabic - Kuwait" "ar_kw" 0x3401;
  LANG "Arabic - Lebanon" "ar_lb" 0x3001;
  LANG "Arabic - Libya" "ar_ly" 0x1001;
  LANG "Arabic - Morocco" "ar_ma" 0x1801;
  LANG "Arabic - Oman" "ar_om" 0x2001;
  LANG "Arabic - Qatar" "ar_qa" 0x4001;
  LANG "Arabic - Saudi Arabia" "ar_sa" 0x0401;
  LANG "Arabic - Syria" "ar_sy" 0x2801;
  LANG "Arabic - Tunisia" "ar_tn" 0x1C01;
  LANG "Arabic - Yemen" "ar_ye" 0x2401;
  LANG "Armenian" "hy" 0x042B;
  LANG "Azeri - Latin" "az_az" 0x042C;
  LANG "Azeri - Cyrillic" "az_az" 0x082C;
  LANG "Basque" "eu" 0x042D;
  LANG "Belarusian" "be" 0x0423;
  LANG "Bulgarian" "bg" 0x0402;
  LANG "Catalan" "ca" 0x0403;
  LANG "Chinese - China" "zh_cn" 0x0804;
  LANG "Chinese - Hong Kong SAR" "zh_hk" 0x0C04;
  LANG "Chinese - Macau SAR" "zh_mo" 0x1404;
  LANG "Chinese - Singapore" "zh_sg" 0x1004;
  LANG "Chinese - Taiwan" "zh_tw" 0x0404;
  LANG "Croatian" "hr" 0x041A;
  LANG "Czech" "cs" 0x0405;
  LANG "Danish" "da" 0x0406;
  LANG "Dutch - Netherlands" "nl_nl" 0x0413;
  LANG "Dutch - Belgium" "nl_be" 0x0813;
  LANG "English - Australia" "en_au" 0x0C09;
  LANG "English - Belize" "en_bz" 0x2809;
  LANG "English - Canada" "en_ca" 0x1009;
  LANG "English - Caribbean" "en_cb" 0x2409;
  LANG "English - Ireland" "en_ie" 0x1809;
  LANG "English - Jamaica" "en_jm" 0x2009;
  LANG "English - New Zealand" "en_nz" 0x1409;
  LANG "English - Philippines" "en_ph" 0x3409;
  LANG "English - Southern Africa" "en_za" 0x1C09;
  LANG "English - Trinidad" "en_tt" 0x2C09;
  LANG "English - Great Britain" "en_gb" 0x0809;
  LANG "English - United States" "en_us" 0x0409;
  LANG "Estonian" "et" 0x0425;
  LANG "Farsi" "fa" 0x0429;
  LANG "Finnish" "fi" 0x040B;
  LANG "Faroese" "fo" 0x0438;
  LANG "French - France" "fr_fr" 0x040C;
  LANG "French - Belgium" "fr_be" 0x080C;
  LANG "French - Canada" "fr_ca" 0x0C0C;
  LANG "French - Luxembourg" "fr_lu" 0x140C;
  LANG "French - Switzerland" "fr_ch" 0x100C;
  LANG "Gaelic - Ireland" "gd_ie" 0x083C;
  LANG "Gaelic - Scotland" "gd" 0x043C;
  LANG "German - Germany" "de_de" 0x0407;
  LANG "German - Austria" "de_at" 0x0C07;
  LANG "German - Liechtenstein" "de_li" 0x1407;
  LANG "German - Luxembourg" "de_lu" 0x1007;
  LANG "German - Switzerland" "de_ch" 0x0807;
  LANG "Greek" "el" 0x0408;
  LANG "Hebrew" "he" 0x040D;
  LANG "Hindi" "hi" 0x0439;
  LANG "Hungarian" "hu" 0x040E;
  LANG "Icelandic" "is" 0x040F;
  LANG "Indonesian" "id" 0x0421;
  LANG "Italian - Italy" "it_it" 0x0410;
  LANG "Italian - Switzerland" "it_ch" 0x0810;
  LANG "Japanese" "ja" 0x0411;
  LANG "Korean" "ko" 0x0412;
  LANG "Latvian" "lv" 0x0426;
  LANG "Lithuanian" "lt" 0x0427;
  LANG "F.Y.R.O. Macedonia" "mk" 0x042F;
  LANG "Malay - Malaysia" "ms_my" 0x043E;
  LANG "Malay – Brunei" "ms_bn" 0x083E;
  LANG "Maltese" "mt" 0x043A;
  LANG "Marathi" "mr" 0x044E;
  LANG "Norwegian - Bokml" "no_no" 0x0414;
  LANG "Norwegian - Nynorsk" "no_no" 0x0814;
  LANG "Polish" "pl" 0x0415;
  LANG "Portuguese - Portugal" "pt_pt" 0x0816;
  LANG "Portuguese - Brazil" "pt_br" 0x0416;
  LANG "Raeto-Romance" "rm" 0x0417;
  LANG "Romanian - Romania" "ro" 0x0418;
  LANG "Romanian - Republic of Moldova" "ro_mo" 0x0818;
  LANG "Russian" "ru" 0x0419;
  LANG "Russian - Republic of Moldova" "ru_mo" 0x0819;
  LANG "Sanskrit" "sa" 0x044F;
  LANG "Serbian - Cyrillic" "sr_sp" 0x0C1A;
  LANG "Serbian - Latin" "sr_sp" 0x081A;
  LANG "Setsuana" "tn" 0x0432;
  LANG "Slovenian" "sl" 0x0424;
  LANG "Slovak" "sk" 0x041B;
  LANG "Sorbian" "sb" 0x042E;
  LANG "Spanish - Spain (Traditional)" "es_es" 0x040A;
  LANG "Spanish - Argentina" "es_ar" 0x2C0A;
  LANG "Spanish - Bolivia" "es_bo" 0x400A;
  LANG "Spanish - Chile" "es_cl" 0x340A;
  LANG "Spanish - Colombia" "es_co" 0x240A;
  LANG "Spanish - Costa Rica" "es_cr" 0x140A;
  LANG "Spanish - Dominican Republic" "es_do" 0x1C0A;
  LANG "Spanish - Ecuador" "es_ec" 0x300A;
  LANG "Spanish - Guatemala" "es_gt" 0x100A;
  LANG "Spanish - Honduras" "es_hn" 0x480A;
  LANG "Spanish - Mexico" "es_mx" 0x080A;
  LANG "Spanish - Nicaragua" "es_ni" 0x4C0A;
  LANG "Spanish - Panama" "es_pa" 0x180A;
  LANG "Spanish - Peru" "es_pe" 0x280A;
  LANG "Spanish - Puerto Rico" "es_pr" 0x500A;
  LANG "Spanish - Paraguay" "es_py" 0x3C0A;
  LANG "Spanish - El Salvador" "es_sv" 0x440A;
  LANG "Spanish - Uruguay" "es_uy" 0x380A;
  LANG "Spanish - Venezuela" "es_ve" 0x200A;
  LANG "Southern Sotho" "st" 0x0430;
  LANG "Swahili" "sw" 0x0441;
  LANG "Swedish - Sweden" "sv_se" 0x041D;
  LANG "Swedish - Finland" "sv_fi" 0x081D;
  LANG "Tamil" "ta" 0x0449;
  LANG "Tatar" "tt" 0x0444;
  LANG "Thai" "th" 0x041E;
  LANG "Turkish" "tr" 0x041F;
  LANG "Tsonga" "ts" 0x0431;
  LANG "Ukrainian" "uk" 0x0422;
  LANG "Urdu" "ur" 0x0420;
  LANG "Uzbek - Cyrillic" "uz_uz" 0x0843;
  LANG "Uzbek – Latin" "uz_uz" 0x0443;
  LANG "Vietnamese" "vi" 0x042A;
  LANG "Xhosa" "xh" 0x0434;
  LANG "Yiddish" "yi" 0x043D;
  LANG "Zulu" "zu" 0x0435
].

End Table.

(** [strncpy(dest, src, n)] for [n] at most the size of [dest]: the
    characters of the string at [src], cut to [n] or filled up to [n] with
    zeros. *)
Definition strncpy (dest src : list byte) (n : nat) : list byte :=
  take n (cstring src ++ replicate n x00) ++ drop n dest.

(** The string at the start of an array; reading goes past the array when
    it holds no zero. *)
Fixpoint string_at (str : list byte) : res (list byte) :=
  match str with
  | [] => Fault
  | c :: rest =>
      if byte_val c =? 0 then Ok []
      else s ← string_at rest; Ok (c :: s)
  end.

Section CLibrary.

(** [tolower] of the C library, which depends on the current locale, as a
    function on characters. *)
Variable tolower : byte -> byte.

(** The two loops over the characters at [ptr], which make the character
    lower case, put a zero for it and stop when it is then [c], and else
    go on with the next until they read a zero: from [ptr] on, for at
    most [fuel] iterations; [c] is ['.'] in the first loop and ['_'] in
    the second. *)
Fixpoint chop_off (c : Z) (fuel : nat) (search_string : list byte)
    (ptr : Z) : res (list byte) :=
  match fuel with
  | O => More
  | S fuel =>
      cur ← index search_string ptr;
      if byte_val cur =? 0 then Ok search_string
      else
        search_string ← store search_string ptr (tolower cur);
        cur ← index search_string ptr;
        if byte_val cur =? c then store search_string ptr x00
        else chop_off c fuel search_string (ptr + 1)
  end.

(** [while (lang->string_code) { if (!strcmp(lang->string_code,
    search_string)) return lang->usb_code; lang++; }]: [None] when the
    loop ends without returning. *)
Fixpoint find_lang (lang : list lang_map_entry) (search_string : list byte)
  : res (option Z) :=
  match lang with
  | [] => Ok None
  | entry :: lang =>
      s ← string_at search_string;
      if streq (string_code entry) s then Ok (Some (usb_code entry))
      else find_lang lang search_string
  end.

(** [get_usb_code_for_current_locale()]: [setlocale] is the string
    [setlocale(0, NULL)] returns, [None] for [NULL]; [search_string] is
    what the array holds at first. *)
Definition get_usb_code_for_current_locale (setlocale : option (list byte))
    (search_string : list byte) : res Z :=
  (* Get the current locale. *)
  match setlocale with
  | None => Ok 0x0
  | Some locale =>
      (* Make a copy of the current locale string. *)
      let search_string := strncpy search_string locale (64 - 1) in
      search_string ← store search_string (64 - 1) x00;
      (* Chop off the encoding part, and make it lower case. *)
      search_string ← chop_off 46 64 search_string 0;
      (* Find the entry which matches the string code of our locale. *)
      found ← find_lang lang_map search_string;
      match found with
      | Some code => Ok code
      | None =>
          (* There was no match. Find with just the language only. *)
          (* Chop off the variant. Chop it off at the '_'. *)
          search_string ← chop_off 95 64 search_string 0;
          (* Found nothing. *)
          Ok 0x0
      end
  end.

End CLibrary.

(** For the statements below: [tolower] in the C locale. *)
Definition tolower_C (c : byte) : byte :=
  if (65 <=? byte_val c) && (byte_val c <=? 90)
  then default c (Byte.of_N (Z.to_N (byte_val c + 32)))
  else c.

(** For the statements below: the codes of the entries that are the first
    with their string code, given the codes [seen] before. *)
Fixpoint first_codes (seen : list (list byte)) (lang : list lang_map_entry)
  : list Z :=
  match lang with
  | [] => []
  | entry :: lang =>
      if existsb (streq (string_code entry)) seen then first_codes seen lang
      else usb_code entry :: first_codes (string_code entry :: seen) lang
  end.

End Locale.
Import Locale.

(* ===================================================================== *)
(** ** Wrapping a device the system has opened                            *)
(* ===================================================================== *)

Module SysDevice.

(** What the error path of [hid_libusb_wrap_sys_device] gives back. *)
Inductive release : Type :=
| Config_descriptor_freed
| Handle_closed
| Session_freed.

Section Headers.

Variables LIBUSB_CLASS_HID LIBUSB_CLASS_VENDOR_SPEC LIBUSB_DT_HID
  LIBUSB_DT_REPORT HID_API_MAX_REPORT_DESCRIPTOR_SIZE
  LIBUSB_TRANSFER_TYPE_MASK LIBUSB_TRANSFER_TYPE_INTERRUPT
  LIBUSB_ENDPOINT_DIR_MASK LIBUSB_ENDPOINT_OUT LIBUSB_ENDPOINT_IN : Z.

(** The loop over [intf->altsetting[k]]: the descriptor selected, [None]
    when the loop ends without one. *)
Fixpoint select_altsetting (interface_num : Z)
    (altsettings : list libusb_interface_descriptor)
  : option libusb_interface_descriptor :=
  match altsettings with
  | [] => None
  | intf_desc :: rest =>
      if (bInterfaceClass intf_desc =? LIBUSB_CLASS_HID) &&
         ((interface_num <? 0) ||
          (interface_num =? bInterfaceNumber intf_desc))
      then Some intf_desc
      else select_altsetting interface_num rest
  end.

(** The loop over [conf_desc->interface[j]], which runs while
    [!selected_intf_desc]. *)
Fixpoint select_interface (interface_num : Z)
    (interface : list libusb_interface)
  : option libusb_interface_descriptor :=
  match interface with
  | [] => None
  | intf :: rest =>
      match select_altsetting interface_num (altsetting intf) with
      | Some intf_desc => Some intf_desc
      | None => select_interface interface_num rest
      end
  end.

(** [hid_libusb_wrap_sys_device(sys_dev, interface_num)], compiled with a
    libusb that has [libusb_wrap_sys_device].  [libusb_wrap_sys_device]
    is the device of the handle libusb makes, [None] when it fails; [usb]
    the zeroed USB fields of the new session; [uninitialized] what
    [desc] of [hidapi_initialize_device] holds if
    [libusb_get_device_descriptor], which is not checked there, fails.
    The result is the session, [None] for [NULL], and what was given
    back. *)
Definition hid_libusb_wrap_sys_device (hid_init_ok : bool)
    (libusb_wrap_sys_device : option usb_device)
    (uninitialized : libusb_device_descriptor) (usb : hid_device_usb)
    (interface_num : Z)
  : res (option (hid_device * hid_device_usb) * list release) :=
  if negb hid_init_ok then Ok (None, [])
  else
    let dev := new_hid_device in
    match libusb_wrap_sys_device with
    | None => Ok (None, [Session_freed])
    | Some device =>
        match config_descriptor device with
        | None => Ok (None, [Handle_closed; Session_freed])
        | Some (conf_desc, bConfigurationValue) =>
            (* find matching HID interface *)
            match select_interface interface_num (interfaces conf_desc) with
            | None =>
                Ok (None,
                    [Config_descriptor_freed; Handle_closed; Session_freed])
            | Some selected_intf_desc =>
                let desc :=
                  default uninitialized (device_descriptor device) in
                '(good, dev, usb, _) ←
                  hidapi_initialize_device LIBUSB_CLASS_VENDOR_SPEC
                    LIBUSB_DT_HID LIBUSB_DT_REPORT
                    HID_API_MAX_REPORT_DESCRIPTOR_SIZE
                    LIBUSB_TRANSFER_TYPE_MASK LIBUSB_TRANSFER_TYPE_INTERRUPT
                    LIBUSB_ENDPOINT_DIR_MASK LIBUSB_ENDPOINT_OUT
                    LIBUSB_ENDPOINT_IN
                    (libusb_kernel_driver_active device)
                    (libusb_detach_kernel_driver device)
                    (libusb_claim_interface device)
                    (libusb_submit_transfer device)
                    dev usb desc selected_intf_desc
                    (endpoints_of device selected_intf_desc) conf_desc
                    bConfigurationValue;
                if good =? 0
                then Ok (None,
                         [Config_descriptor_freed; Handle_closed;
                          Session_freed])
                else Ok (Some (dev, usb), [])
            end
        end
    end.

(** For the statements below: an interface descriptor the loops select. *)
Definition wanted (interface_num : Z)
    (intf_desc : libusb_interface_descriptor) : Prop :=
  bInterfaceClass intf_desc = LIBUSB_CLASS_HID /\
  (interface_num < 0 \/ interface_num = bInterfaceNumber intf_desc).

(** For the statements below: [intf_desc] is the first wanted descriptor
    of the interfaces, in the order of the two loops. *)
Definition first_wanted (interface_num : Z)
    (interface : list libusb_interface)
    (intf_desc : libusb_interface_descriptor) : Prop :=
  exists before intf after alts_before alts_after,
    interface = before ++ intf :: after /\
    altsetting intf = alts_before ++ intf_desc :: alts_after /\
    wanted interface_num intf_desc /\
    Forall (fun other => ~ wanted interface_num other) alts_before /\
    Forall (fun earlier =>
              Forall (fun other => ~ wanted interface_num other)
                (altsetting earlier)) before.

End Headers.

End SysDevice.
Import SysDevice.

(* ===================================================================== *)
(** * Properties                                                          *)
(* ===================================================================== *)

(** ** C integers *)

Lemma byte_val_range (b : byte) : 0 <= byte_val b <= 255.
Proof.
  unfold byte_val. pose proof (Byte.to_N_bounded b). lia.
Qed.

Lemma index_in_range {A : Type} (buf : list A) (i : Z) :
  0 <= i < Z.of_nat (length buf) -> exists b, index buf i = Ok b.
Proof.
  intros Hi. unfold index.
  destruct (Z.ltb_spec i 0) as [Hneg|_]; [lia|].
  destruct (buf !! Z.to_nat i) as [b|] eqn:Hb; [by exists b|].
  apply lookup_ge_None in Hb. lia.
Qed.

Lemma index_Ok_inv {A : Type} (buf : list A) (i : Z) (b : A) :
  index buf i = Ok b -> 0 <= i < Z.of_nat (length buf).
Proof.
  unfold index. destruct (Z.ltb_spec i 0) as [|Hi]; [discriminate|].
  destruct (buf !! Z.to_nat i) eqn:Hb; [|discriminate].
  intros _. apply lookup_lt_Some in Hb. lia.
Qed.

Lemma to_int_small (z : Z) : 0 <= z <= INT_MAX -> to_int z = z.
Proof.
  unfold to_int, INT_MAX. intros Hz.
  rewrite Z.mod_small by lia. lia.
Qed.

Lemma u32_range (z : Z) : 0 <= u32 z < 2 ^ 32.
Proof. unfold u32. apply Z.mod_pos_bound. lia. Qed.

Lemma u32_small (z : Z) : 0 <= z < 2 ^ 32 -> u32 z = z.
Proof. unfold u32. apply Z.mod_small. Qed.

Lemma usize_small (z : Z) : 0 <= z < 2 ^ 64 -> usize z = z.
Proof. unfold usize. apply Z.mod_small. Qed.

Lemma u16_small (z : Z) : 0 <= z < 2 ^ 16 -> u16 z = z.
Proof. unfold u16. apply Z.mod_small. Qed.

(** Binding a computation that has a value. *)
Lemma bind_Ok {A B : Type} (m : res A) (f : A -> res B) (a : A) :
  m = Ok a -> (m ≫= f) = f a.
Proof. intros ->. reflexivity. Qed.

Lemma bind_Ok_inv {A B : Type} (m : res A) (f : A -> res B) (b : B) :
  (m ≫= f) = Ok b -> exists a, m = Ok a /\ f a = Ok b.
Proof. destruct m as [a| |]; try discriminate. intros H. by exists a. Qed.

(** ** The report descriptor parser *)

Section DescriptorFacts.

Variable rpt : list byte.
Variable size : Z.
Hypothesis size_le : size <= Z.of_nat (length rpt).

(** [get_bytes] always has a value: it reads nothing it was not given. *)
Lemma get_bytes_total (num_bytes cur : Z) :
  0 <= num_bytes -> 0 <= cur -> cur + num_bytes < 2 ^ 64 ->
  exists v, get_bytes rpt size num_bytes cur = Ok v.
Proof using size_le.
  intros Hn Hc Hw. unfold get_bytes.
  rewrite (usize_small (cur + num_bytes)) by lia.
  destruct (Z.leb_spec size (cur + num_bytes)) as [|Hlt]; [by eexists|].
  destruct (Z.eqb_spec num_bytes 0); [by eexists|].
  destruct (Z.eqb_spec num_bytes 1) as [->|].
  { rewrite usize_small by lia.
    destruct (index_in_range rpt (cur + 1)) as [b ->]; [lia|]. by eexists. }
  destruct (Z.eqb_spec num_bytes 2) as [->|].
  { rewrite !usize_small by lia.
    destruct (index_in_range rpt (cur + 2)) as [b2 ->]; [lia|].
    destruct (index_in_range rpt (cur + 1)) as [b1 ->]; [lia|]. by eexists. }
  destruct (Z.eqb_spec num_bytes 4) as [->|]; [|by eexists].
  rewrite !usize_small by lia.
  destruct (index_in_range rpt (cur + 4)) as [b4 ->]; [lia|].
  destruct (index_in_range rpt (cur + 3)) as [b3 ->]; [lia|].
  destruct (index_in_range rpt (cur + 2)) as [b2 ->]; [lia|].
  destruct (index_in_range rpt (cur + 1)) as [b1 ->]; [lia|]. by eexists.
Qed.

(** The header of the item at an offset inside the buffer. *)
Lemma item_header_total (i : Z) :
  0 <= i < size ->
  exists key data_len key_size,
    item_header rpt size i = Ok (key, data_len, key_size) /\
    0 <= data_len <= 255 /\ 1 <= key_size <= 3.
Proof using size_le.
  intros Hi. unfold item_header.
  destruct (index_in_range rpt i) as [b ->]; [lia|]. cbn.
  destruct (Z.land (byte_val b) 240 =? 240).
  - destruct (Z.ltb_spec (u32 (i + 1)) size) as [Hn|Hn].
    + pose proof (u32_range (i + 1)).
      destruct (index_in_range rpt (u32 (i + 1))) as [l ->]; [lia|]. cbn.
      pose proof (byte_val_range l). do 3 eexists. split; [reflexivity|lia].
    + cbn. do 3 eexists. split; [reflexivity|lia].
  - do 3 eexists. split; [reflexivity|]. split; [|lia].
    destruct (Z.eqb_spec (Z.land (byte_val b) 3) 0) as [->|]; [cbn; lia|].
    destruct (Z.eqb_spec (Z.land (byte_val b) 3) 1) as [->|]; [cbn; lia|].
    destruct (Z.eqb_spec (Z.land (byte_val b) 3) 2) as [->|]; [cbn; lia|].
    cbn. destruct (Z.land (byte_val b) 3 =? 3); lia.
Qed.

(** One iteration from an offset inside the buffer: it has a value, an
    output cell changes only when its item is found, and the body returns
    exactly when both are found. *)
Lemma get_usage_body_spec (st : scan) :
  0 <= sc_i st < 2 ^ 32 -> sc_i st < size ->
  exists ret st',
    get_usage_body rpt size st = Ok (ret, st') /\
    0 <= sc_i st' < 2 ^ 32 /\
    (sc_usage_page_found st' = false ->
     sc_usage_page_found st = false /\ sc_usage_page st' = sc_usage_page st) /\
    (sc_usage_found st' = false ->
     sc_usage_found st = false /\ sc_usage st' = sc_usage st) /\
    match ret with
    | Some r =>
        r = 0 /\ sc_usage_page_found st' = true /\ sc_usage_found st' = true
    | None =>
        sc_usage_page_found st' && sc_usage_found st' = false /\
        (size + 258 <= 2 ^ 32 -> sc_i st < sc_i st')
    end.
Proof using size_le.
  intros Hi Hlt. unfold get_usage_body.
  destruct (item_header_total (sc_i st)) as (key & dl & ks & -> & Hdl & Hks);
    [lia|]. cbn.
  pose proof (u32_range (sc_i st + 2)) as Hu.
  pose proof (u32_range (sc_i st + (dl + ks))) as Hnext.
  destruct (get_bytes_total dl (sc_i st)) as [v1 Hv1]; [lia..|].
  destruct (get_bytes_total 2 (u32 (sc_i st + 2))) as [v2 Hv2]; [lia..|].
  destruct (get_bytes_total 2 (sc_i st)) as [v3 Hv3]; [lia..|].
  assert (Hadv : size + 258 <= 2 ^ 32 ->
                 sc_i st < u32 (sc_i st + (dl + ks))).
  { intros Hsz. rewrite u32_small by lia. lia. }
  destruct st as [i p u pf uf]; cbn in *.
  destruct (Z.land key 252 =? 4), (Z.land key 252 =? 8), (dl =? 4);
    cbn; rewrite ?Hv1, ?Hv2, ?Hv3; cbn; rewrite ?Hv1, ?Hv2, ?Hv3; cbn;
    destruct pf, uf; cbn;
    do 2 eexists; (split; [reflexivity|]); cbn;
    repeat split; try lia; try congruence; auto.
Qed.

(** The loop from a state inside the [unsigned int] range never leaves the
    buffer, however long it runs. *)
Lemma get_usage_loop_no_fault (fuel : nat) (st : scan) :
  0 <= sc_i st < 2 ^ 32 -> get_usage_loop fuel rpt size st <> Fault.
Proof using size_le.
  revert st. induction fuel as [|fuel IH]; intros st Hi; [discriminate|].
  cbn. destruct (Z.ltb_spec (sc_i st) size) as [Hlt|]; [|discriminate].
  destruct (get_usage_body_spec st Hi Hlt)
    as (ret & st' & -> & Hi' & _ & _ & _). cbn.
  destruct ret; [discriminate|]. by apply IH.
Qed.

(** With enough fuel for the bytes left, the loop returns, and what it
    returns is described by the found flags. *)
Lemma get_usage_loop_spec (fuel : nat) (st : scan) :
  size + 258 <= 2 ^ 32 ->
  0 <= sc_i st < 2 ^ 32 ->
  (Z.to_nat (size - sc_i st) < fuel)%nat ->
  sc_usage_page_found st && sc_usage_found st = false ->
  exists ret st',
    get_usage_loop fuel rpt size st = Ok (ret, st') /\
    (ret = 0 /\ sc_usage_page_found st' = true /\ sc_usage_found st' = true
     \/ ret = -1 /\ sc_usage_page_found st' && sc_usage_found st' = false
                /\ size <= sc_i st') /\
    (sc_usage_page_found st' = false ->
     sc_usage_page_found st = false /\ sc_usage_page st' = sc_usage_page st) /\
    (sc_usage_found st' = false ->
     sc_usage_found st = false /\ sc_usage st' = sc_usage st).
Proof using size_le.
  intros Hsz. revert st.
  induction fuel as [|fuel IH]; intros st Hi Hfuel Hnot; [lia|].
  cbn. destruct (Z.ltb_spec (sc_i st) size) as [Hlt|Hge].
  - destruct (get_usage_body_spec st Hi Hlt)
      as (ret & st' & -> & Hi' & Hp & Hu & Hret). cbn.
    destruct ret as [r|].
    + destruct Hret as (-> & Hpf & Huf).
      exists 0, st'. split; [reflexivity|]. split; [by left|]. by split.
    + destruct Hret as [Hnot' Hadv]. specialize (Hadv Hsz).
      destruct (IH st' Hi' ltac:(lia) Hnot')
        as (ret & st'' & -> & Hres & Hp' & Hu').
      exists ret, st''. split; [reflexivity|]. split; [exact Hres|].
      split; intros Hf.
      * destruct (Hp' Hf) as [Hf' ->]. by apply Hp.
      * destruct (Hu' Hf) as [Hf' ->]. by apply Hu.
  - exists (-1), st. split; [reflexivity|]. split; [|by split].
    right. by repeat split.
Qed.

End DescriptorFacts.

(** Two bytes at [cur+1], [cur+2] read as a little-endian number. *)
Lemma get_bytes_2 (rpt : list byte) (len cur : Z) (b1 b2 : byte) :
  0 <= cur -> cur + 2 < len -> cur + 2 < 2 ^ 64 ->
  index rpt (cur + 1) = Ok b1 -> index rpt (cur + 2) = Ok b2 ->
  get_bytes rpt len 2 cur = Ok (byte_val b2 * 256 + byte_val b1).
Proof.
  intros Hc Hlen Hw H1 H2. unfold get_bytes.
  rewrite !usize_small by lia.
  destruct (Z.leb_spec len (cur + 2)); [lia|]. cbn.
  rewrite H2, H1. cbn. f_equal.
  pose proof (byte_val_range b1). pose proof (byte_val_range b2).
  apply u32_small. lia.
Qed.

(** The only key that is a Usage tag with size code 3. *)
Lemma usage_key_4_bytes (k : byte) :
  Z.land (byte_val k) 0xfc = 0x08 -> Z.land (byte_val k) 0x3 = 3 ->
  k = x0b%byte.
Proof.
  destruct k; vm_compute; intros H1 H2; try discriminate; reflexivity.
Qed.

(** The loop goes through the iterations that did not return. *)
Lemma get_usage_steps_loop (n : nat) (rpt : list byte) (size : Z) :
  forall (st0 st : scan) (fuel : nat),
    get_usage_steps n rpt size st0 = Ok (Some st) ->
    get_usage_loop (n + fuel) rpt size st0 = get_usage_loop fuel rpt size st.
Proof.
  induction n as [|n IH]; intros st0 st fuel Hsteps.
  - by injection Hsteps as ->.
  - cbn [get_usage_steps] in Hsteps. cbn [Nat.add get_usage_loop].
    destruct (sc_i st0 <? size); [|discriminate].
    destruct (get_usage_body rpt size st0) as [[ret st1]| |];
      [|discriminate..].
    cbn [mbind res_mbind res_bind] in *.
    destruct ret; [discriminate|]. by apply IH.
Qed.

(** Each of them moves [i] on, as long as it cannot wrap. *)
Lemma get_usage_steps_advance (n : nat) (rpt : list byte) (size : Z) :
  size <= Z.of_nat (length rpt) -> size + 258 <= 2 ^ 32 ->
  forall st0 st : scan,
    0 <= sc_i st0 < 2 ^ 32 ->
    get_usage_steps n rpt size st0 = Ok (Some st) ->
    sc_i st0 + Z.of_nat n <= sc_i st < 2 ^ 32.
Proof.
  intros Hlen Hsize. induction n as [|n IH]; intros st0 st Hi Hsteps.
  - injection Hsteps as ->. lia.
  - cbn [get_usage_steps] in Hsteps.
    destruct (Z.ltb_spec (sc_i st0) size) as [Hlt|]; [|discriminate].
    destruct (get_usage_body_spec rpt size Hlen st0 Hi Hlt)
      as (ret & st1 & Hbody & Hi1 & _ & _ & Hret).
    rewrite Hbody in Hsteps. cbn [mbind res_mbind res_bind] in Hsteps.
    destruct ret; [discriminate|]. destruct Hret as [_ Hadv].
    specialize (Hadv Hsize). specialize (IH st1 st Hi1 Hsteps). lia.
Qed.

(** The iteration on a Usage item with four data bytes inside the buffer:
    the loop returns 0 with both values taken from the item. *)
Lemma get_usage_loop_packed_usage_item (rpt : list byte) (size : Z) (st : scan)
    (fuel : nat) (k b1 b2 b3 b4 : byte) :
  0 <= sc_i st -> sc_i st + 4 < size -> size <= 2 ^ 32 ->
  index rpt (sc_i st) = Ok k ->
  Z.land (byte_val k) 0xfc = 0x08 -> Z.land (byte_val k) 0x3 = 3 ->
  index rpt (sc_i st + 1) = Ok b1 -> index rpt (sc_i st + 2) = Ok b2 ->
  index rpt (sc_i st + 3) = Ok b3 -> index rpt (sc_i st + 4) = Ok b4 ->
  get_usage_loop (S fuel) rpt size st =
    Ok (0, {| sc_i := sc_i st;
              sc_usage_page := byte_val b4 * 256 + byte_val b3;
              sc_usage := byte_val b2 * 256 + byte_val b1;
              sc_usage_page_found := true; sc_usage_found := true |}).
Proof.
  intros Hi Hin Hsz Hk Hcmd Hcode H1 H2 H3 H4.
  rewrite (usage_key_4_bytes k Hcmd Hcode) in Hk.
  cbn [get_usage_loop].
  destruct (Z.ltb_spec (sc_i st) size); [|lia].
  unfold get_usage_body, item_header. rewrite Hk. cbn.
  rewrite (u32_small (sc_i st + 2)) by lia.
  rewrite (get_bytes_2 rpt size (sc_i st + 2) b3 b4);
    [|lia|lia|lia|by rewrite <- Z.add_assoc|by rewrite <- Z.add_assoc].
  cbn. rewrite (get_bytes_2 rpt size (sc_i st) b1 b2) by (done || lia).
  cbn. pose proof (byte_val_range b1). pose proof (byte_val_range b2).
  pose proof (byte_val_range b3). pose proof (byte_val_range b4).
  rewrite !u16_small by lia. reflexivity.
Qed.

(** A joystick descriptor with a packed Usage item at offset 4, four data
    bytes inside the buffer: the Usage Page and Usage items before it end
    the scan, and the values are 1 and 4, not those of the packed item. *)
Lemma get_usage_packed_item_not_reached :
  let rpt := [x05; x01; x09; x04; x0b; x34; x12; xcd; xab; xc0]%byte in
  index rpt 4 = Ok x0b%byte /\
  Z.land (byte_val x0b) 0xfc = 0x08 /\ Z.land (byte_val x0b) 0x3 = 3 /\
  4 + 4 < 10 /\
  get_usage rpt 10 0 0 = Ok (0, 1, 4) /\
  (1, 4) <> (0xabcd, 0x1234).
Proof.
  cbv zeta. repeat (split; [reflexivity|]). discriminate.
Qed.

(** C4 (amended).  When the scan of [get_usage] arrives at offset [i]
    (after [n] iterations that did not return, from [i = 0] and nothing
    found) and the item there is a Usage item (key & 0xFC == 0x08) that is
    a 4-byte short item whose data bytes [i+1 .. i+4] lie inside the
    buffer, [get_usage] returns 0 with the little-endian 16-bit value of
    bytes [i+3], [i+4] in [usage_page] and that of bytes [i+1], [i+2] in
    [usage], whatever the cells held.  The buffer is shorter than 2^32 -
    258 bytes, so that [i] does not wrap. *)
Theorem get_usage_packed_usage_item (rpt : list byte) (size : Z)
    (usage_page usage : Z) (n : nat) (st : scan) (k b1 b2 b3 b4 : byte) :
  size <= Z.of_nat (length rpt) -> size + 258 <= 2 ^ 32 ->
  get_usage_steps n rpt size (scan_init usage_page usage) = Ok (Some st) ->
  sc_i st + 4 < size ->
  index rpt (sc_i st) = Ok k ->
  Z.land (byte_val k) 0xfc = 0x08 -> Z.land (byte_val k) 0x3 = 3 ->
  index rpt (sc_i st + 1) = Ok b1 -> index rpt (sc_i st + 2) = Ok b2 ->
  index rpt (sc_i st + 3) = Ok b3 -> index rpt (sc_i st + 4) = Ok b4 ->
  get_usage rpt size usage_page usage
  = Ok (0, byte_val b4 * 256 + byte_val b3, byte_val b2 * 256 + byte_val b1).
Proof.
  intros Hlen Hsize Hsteps Hin Hk Hcmd Hcode H1 H2 H3 H4.
  pose proof (get_usage_steps_advance n rpt size Hlen Hsize
                (scan_init usage_page usage) st ltac:(cbn; lia) Hsteps)
    as Hi.
  unfold scan_init in Hi. cbn [sc_i] in Hi.
  unfold get_usage.
  replace (S (Z.to_nat size))
    with (n + S (Z.to_nat size - n))%nat by lia.
  rewrite (get_usage_steps_loop n rpt size _ st _ Hsteps).
  rewrite (get_usage_loop_packed_usage_item rpt size st _ k b1 b2 b3 b4)
    by (done || lia).
  reflexivity.
Qed.

(** The packed Usage item of a descriptor, met at offset 2 after a Report
    Size item. *)
Lemma get_usage_packed_usage_item_witness :
  get_usage [x75; x08; x0b; x34; x12; xcd; xab; xc0]%byte 8 7 9
  = Ok (0, 0xabcd, 0x1234).
Proof.
  apply (get_usage_packed_usage_item
           [x75; x08; x0b; x34; x12; xcd; xab; xc0]%byte 8 7 9 1
           {| sc_i := 2; sc_usage_page := 7; sc_usage := 9;
              sc_usage_page_found := false; sc_usage_found := false |}
           x0b x34 x12 xcd xab);
    cbn; first [lia | reflexivity].
Defined.

(** The whole parser on that descriptor, and on a plain one. *)
Example get_usage_packed :
  get_usage [x75; x08; x0b; x34; x12; xcd; xab; xc0]%byte 8 0 0
  = Ok (0, 0xabcd, 0x1234).
Proof. reflexivity. Qed.

Example get_usage_joystick :
  get_usage [x05; x01; x09; x04; xa1; x01]%byte 6 0 0 = Ok (0, 1, 4).
Proof. reflexivity. Qed.

(** A scan that ends without both items: the Usage Page item alone. *)
Lemma get_usage_failure_writes_usage_page :
  get_usage [x05; x01]%byte 2 0 0 = Ok (-1, 1, 0) /\
  (exists d,
     fill_device_info_usage
       {| vendor_id := 0x045e; product_id := 0x028e; interface_number := 0;
          usage_page := 0; usage := 0 |} 2 [x05; x01]%byte = Ok d /\
     usage_page d = 1 /\ usage_page d <> 0).
Proof.
  split; [reflexivity|]. eexists. split; [reflexivity|].
  vm_compute. split; [reflexivity|discriminate].
Qed.

(** C5 (amended).  The scan of a descriptor returns 0 or -1, and -1 exactly
    when it reaches the end of the buffer without having found both items.
    An output whose item was not found keeps the value it had at the call
    (zero in [fill_device_info_usage]); an output whose item was found has
    been overwritten, also when the scan fails, so a failing scan leaves at
    least one of the two outputs as it was, and [fill_device_info_usage]
    stores both outputs whatever the scan returned. *)
Theorem get_usage_failure_outputs (rpt : list byte) (size p u : Z) :
  0 <= size <= Z.of_nat (length rpt) ->
  size + 258 <= 2 ^ 32 ->
  exists ret st,
    get_usage_loop (S (Z.to_nat size)) rpt size (scan_init p u) = Ok (ret, st) /\
    get_usage rpt size p u = Ok (ret, sc_usage_page st, sc_usage st) /\
    (ret = 0 \/ ret = -1) /\
    (ret = -1 <->
     size <= sc_i st /\ sc_usage_page_found st && sc_usage_found st = false) /\
    (sc_usage_page_found st = false -> sc_usage_page st = p) /\
    (sc_usage_found st = false -> sc_usage st = u) /\
    (ret = -1 -> sc_usage_page st = p \/ sc_usage st = u) /\
    (p = 0 -> u = 0 ->
     forall cur_dev, exists d,
       fill_device_info_usage cur_dev size rpt = Ok d /\
       usage_page d = sc_usage_page st /\ usage d = sc_usage st).
Proof.
  intros [Hsize Hlen] Hsz.
  destruct (get_usage_loop_spec rpt size Hlen (S (Z.to_nat size))
              (scan_init p u) Hsz)
    as (ret & st & Hloop & Hret & Hp & Hu); [cbn; lia|cbn; lia|reflexivity|].
  exists ret, st. split; [exact Hloop|].
  assert (Hget : get_usage rpt size p u = Ok (ret, sc_usage_page st, sc_usage st)).
  { unfold get_usage. rewrite Hloop. reflexivity. }
  split; [exact Hget|].
  split; [destruct Hret as [(-> & _)|(-> & _)]; auto|].
  split.
  { destruct Hret as [(-> & Hpf & Huf)|(-> & Hn & Hend)].
    - split; [discriminate|]. intros [_ Hn]. rewrite Hpf, Huf in Hn.
      discriminate.
    - split; auto. }
  split; [intros Hf; by destruct (Hp Hf)|].
  split; [intros Hf; by destruct (Hu Hf)|].
  split.
  { intros ->. destruct Hret as [(? & _)|(_ & Hn & _)]; [discriminate|].
    apply andb_false_iff in Hn as [Hf|Hf].
    - left. by destruct (Hp Hf).
    - right. by destruct (Hu Hf). }
  intros -> -> cur_dev. unfold fill_device_info_usage.
  destruct (Z.leb_spec 0 size); [|lia].
  rewrite Hget. cbn. eexists. split; [reflexivity|]. by split.
Qed.

Lemma get_usage_failure_outputs_witness :
  exists ret st,
    get_usage_loop 3 [x05; x01]%byte 2 (scan_init 0 0) = Ok (ret, st) /\
    get_usage [x05; x01]%byte 2 0 0 = Ok (ret, sc_usage_page st, sc_usage st) /\
    ret = -1 /\ sc_usage st = 0.
Proof.
  destruct (get_usage_failure_outputs [x05; x01]%byte 2 0 0)
    as (ret & st & Hloop & Hget & Hret & Hfail & Hp & Hu & Hone & Hfill).
  - cbn. lia.
  - lia.
  - exists ret, st. split; [exact Hloop|]. split; [exact Hget|].
    vm_compute in Hloop. injection Hloop as <- <-. split; reflexivity.
Defined.

(** C6.  On a buffer of [size] bytes: [get_bytes] returns 0 whenever
    [cur + num_bytes >= len], and otherwise reads only inside the buffer; a
    Long Item whose length byte would lie beyond the buffer gets data length
    0; the loop never indexes the buffer at or beyond [size], however long
    it runs; and the parser returns. *)
Theorem get_usage_reads_inside_buffer (rpt : list byte) (size : Z) :
  size = Z.of_nat (length rpt) ->
  (forall num_bytes cur,
      0 <= num_bytes -> 0 <= cur -> cur + num_bytes < 2 ^ 64 ->
      (size <= cur + num_bytes -> get_bytes rpt size num_bytes cur = Ok 0) /\
      (exists v, get_bytes rpt size num_bytes cur = Ok v)) /\
  (forall i b,
      i + 1 < 2 ^ 32 -> index rpt i = Ok b ->
      Z.land (byte_val b) 0xf0 = 0xf0 -> size <= i + 1 ->
      item_header rpt size i = Ok (byte_val b, 0, 3)) /\
  (forall fuel st,
      0 <= sc_i st < 2 ^ 32 -> get_usage_loop fuel rpt size st <> Fault) /\
  (forall p u,
      size + 258 <= 2 ^ 32 ->
      exists ret p' u', get_usage rpt size p u = Ok (ret, p', u')).
Proof.
  intros Hsize.
  assert (Hle : size <= Z.of_nat (length rpt)) by lia.
  split; [|split; [|split]].
  - intros n cur Hn Hc Hw. split.
    + intros Hpast. unfold get_bytes. rewrite usize_small by lia.
      destruct (Z.leb_spec size (cur + n)); [reflexivity|lia].
    + by apply get_bytes_total.
  - intros i b Hw Hb Hlong Hpast. unfold item_header. rewrite Hb. cbn.
    rewrite Hlong. cbn. apply index_Ok_inv in Hb.
    rewrite u32_small by lia.
    destruct (Z.ltb_spec (i + 1) size); [lia|]. reflexivity.
  - intros fuel st Hi. by apply get_usage_loop_no_fault.
  - intros p u Hsz.
    destruct (get_usage_loop_spec rpt size Hle (S (Z.to_nat size))
                (scan_init p u) Hsz)
      as (ret & st & Hloop & _); [cbn; lia|cbn; lia|reflexivity|].
    exists ret, (sc_usage_page st), (sc_usage st).
    unfold get_usage. by rewrite Hloop.
Qed.

(** A Long Item key as the last byte of a descriptor. *)
Lemma get_usage_reads_inside_buffer_witness :
  item_header [x09; xfe]%byte 2 1 = Ok (254, 0, 3) /\
  get_bytes [x09; xfe]%byte 2 1 1 = Ok 0 /\
  get_usage_loop 5 [x09; xfe]%byte 2 (scan_init 0 0) <> Fault /\
  exists ret p' u', get_usage [x09; xfe]%byte 2 0 0 = Ok (ret, p', u').
Proof.
  destruct (get_usage_reads_inside_buffer [x09; xfe]%byte 2 eq_refl)
    as (Hbytes & Hlong & Hsafe & Hret).
  split; [|split; [|split]].
  - apply (Hlong 1 xfe); [lia|reflexivity|reflexivity|lia].
  - apply (Hbytes 1 1); lia.
  - apply Hsafe. cbn. lia.
  - apply Hret. lia.
Defined.

(** ** Controller detection and initialisation *)

Lemma vendor_listed_In (vendor_id : Z) (supported_vendors : list Z) :
  vendor_listed vendor_id supported_vendors = true <->
  In vendor_id supported_vendors.
Proof.
  induction supported_vendors as [|v rest IH]; cbn.
  - split; [discriminate|tauto].
  - destruct (Z.eqb_spec vendor_id v) as [->|Hne].
    + split; auto.
    + rewrite IH. split; [auto|]. intros [Heq|Hin]; [congruence|exact Hin].
Qed.

(** C8.  [is_xbox360] returns 1 exactly for the interface descriptors with
    class vendor-specific, subclass 93 and protocol 1 or 129 whose vendor
    is in the allow-list, and 0 when any of these differs; vendor 0x045e
    with protocol 1 is detected, vendor 0x1111 with the same interface
    fields is not. *)
Theorem is_xbox360_detection (LIBUSB_CLASS_VENDOR_SPEC : Z) (vendor_id : Z)
    (intf_desc : libusb_interface_descriptor) (number alternate : Z) :
  (is_xbox360 LIBUSB_CLASS_VENDOR_SPEC vendor_id intf_desc = 1 <->
   bInterfaceClass intf_desc = LIBUSB_CLASS_VENDOR_SPEC /\
   bInterfaceSubClass intf_desc = 93 /\
   (bInterfaceProtocol intf_desc = 1 \/ bInterfaceProtocol intf_desc = 129) /\
   In vendor_id xb360_supported_vendors) /\
  (is_xbox360 LIBUSB_CLASS_VENDOR_SPEC vendor_id intf_desc = 1 \/
   is_xbox360 LIBUSB_CLASS_VENDOR_SPEC vendor_id intf_desc = 0) /\
  is_xbox360 LIBUSB_CLASS_VENDOR_SPEC 0x045e
    {| bInterfaceNumber := number; bAlternateSetting := alternate;
       bInterfaceClass := LIBUSB_CLASS_VENDOR_SPEC;
       bInterfaceSubClass := 93; bInterfaceProtocol := 1 |} = 1 /\
  is_xbox360 LIBUSB_CLASS_VENDOR_SPEC 0x1111
    {| bInterfaceNumber := number; bAlternateSetting := alternate;
       bInterfaceClass := LIBUSB_CLASS_VENDOR_SPEC;
       bInterfaceSubClass := 93; bInterfaceProtocol := 1 |} = 0.
Proof.
  split; [|split; [|split]].
  - unfold is_xbox360, xb360_iface_subclass, xb360_iface_protocol,
      xb360w_iface_protocol.
    rewrite <- vendor_listed_In.
    destruct (Z.eqb_spec (bInterfaceClass intf_desc) LIBUSB_CLASS_VENDOR_SPEC);
      destruct (Z.eqb_spec (bInterfaceSubClass intf_desc) 93);
      destruct (Z.eqb_spec (bInterfaceProtocol intf_desc) 1);
      destruct (Z.eqb_spec (bInterfaceProtocol intf_desc) 129);
      destruct (vendor_listed vendor_id xb360_supported_vendors);
      cbn; split; intros H; try discriminate; try tauto;
      try (repeat split; auto; fail);
      destruct H as (? & ? & [?|?] & ?); congruence.
  - unfold is_xbox360.
    destruct (_ && _); [|by right].
    destruct (vendor_listed _ _); [by left|by right].
  - unfold is_xbox360. cbn. rewrite Z.eqb_refl. reflexivity.
  - unfold is_xbox360. cbn. rewrite Z.eqb_refl. reflexivity.
Qed.

(** Closes the four parts of [init_xboxone_altsetting_spec] once the new
    calls are given. *)
Ltac init_xboxone_calls :=
  solve
    [ (split; [reflexivity|]);
      (split;
       [ intros n' a' Hin; cbn in Hin;
         repeat (destruct Hin as [Hin|Hin]; try discriminate);
         try contradiction; injection Hin as <- <-; intuition lia |]);
      (split;
       [ intros (? & ? & ?) [(? & ? & ?)|(? & ?)];
         first [reflexivity | exfalso; lia | exfalso; congruence]
       | intros Hnot;
         first [reflexivity | exfalso; apply Hnot; intuition lia] ]) ].

Section InitXboxOne.

Variable LIBUSB_CLASS_VENDOR_SPEC : Z.
Variable libusb_claim_interface : list usb_call -> Z -> Z.
Variable idVendor : Z.

Local Abbreviation step :=
  (init_xboxone_altsetting LIBUSB_CLASS_VENDOR_SPEC libusb_claim_interface
     idVendor).
Local Abbreviation selects_as_wanted := (Quirks.selects_as_wanted idVendor).

Lemma selects_as_wanted_app (new1 new2 : list usb_call) :
  selects_as_wanted new1 -> selects_as_wanted new2 ->
  selects_as_wanted (new1 ++ new2).
Proof.
  intros H1 H2 n a Hin. apply in_app_or in Hin as [Hin|Hin]; eauto.
Qed.

(** One alternate setting: the calls are appended, and they are the
    claim, the selection of the descriptor's own alternate setting and the
    release when the setting is wanted and the claim succeeds; a failed
    claim is followed by nothing; an unwanted setting makes no call. *)
Lemma init_xboxone_altsetting_spec (calls : list usb_call)
    (d : libusb_interface_descriptor) :
  exists new,
    step calls d = calls ++ new /\
    selects_as_wanted new /\
    (xb1_interface LIBUSB_CLASS_VENDOR_SPEC d ->
     alternate_setting_wanted idVendor d ->
     new = Claim_interface (bInterfaceNumber d) ::
           (if libusb_claim_interface calls (bInterfaceNumber d) <? 0 then []
            else [Set_interface_alt_setting (bInterfaceNumber d)
                    (bAlternateSetting d);
                  Release_interface (bInterfaceNumber d)])) /\
    (~ (xb1_interface LIBUSB_CLASS_VENDOR_SPEC d /\
        alternate_setting_wanted idVendor d) -> new = []).
Proof.
  unfold init_xboxone_altsetting, xb1_interface, alternate_setting_wanted,
    Quirks.selects_as_wanted, xb1_iface_subclass, xb1_iface_protocol.
  destruct (Z.eqb_spec (bInterfaceClass d) LIBUSB_CLASS_VENDOR_SPEC);
    destruct (Z.eqb_spec (bInterfaceSubClass d) 71);
    destruct (Z.eqb_spec (bInterfaceProtocol d) 208);
    destruct (Z.eqb_spec idVendor vendor_microsoft);
    destruct (Z.eqb_spec (bInterfaceNumber d) 0);
    destruct (Z.eqb_spec (bAlternateSetting d) 1);
    destruct (Z.eqb_spec (bAlternateSetting d) 0);
    destruct (Z.ltb_spec (libusb_claim_interface calls (bInterfaceNumber d)) 0);
    cbn; try (exfalso; lia);
    first
      [ exists []; rewrite app_nil_r; init_xboxone_calls
      | exists [Claim_interface (bInterfaceNumber d)]; init_xboxone_calls
      | exists [Claim_interface (bInterfaceNumber d);
                Set_interface_alt_setting (bInterfaceNumber d)
                  (bAlternateSetting d);
                Release_interface (bInterfaceNumber d)];
        rewrite <- app_assoc; init_xboxone_calls ].
Qed.

(** The calls made for one alternate setting that is wanted, after
    [before]: the claim, and, when it succeeds, the selection and the
    release. *)
Local Abbreviation selection claim before d :=
  (Claim_interface (bInterfaceNumber d) ::
   (if claim before (bInterfaceNumber d) <? 0 then []
    else [Set_interface_alt_setting (bInterfaceNumber d)
            (bAlternateSetting d);
          Release_interface (bInterfaceNumber d)])).

(** The inner loop, over the alternate settings of one interface. *)
Lemma init_xboxone_interface_spec (ds : list libusb_interface_descriptor) :
  forall calls, exists new,
    fold_left step ds calls = calls ++ new /\
    selects_as_wanted new /\
    (forall d, In d ds ->
       xb1_interface LIBUSB_CLASS_VENDOR_SPEC d ->
       alternate_setting_wanted idVendor d ->
       exists before after,
         new = before ++
               selection libusb_claim_interface (calls ++ before) d ++
               after).
Proof.
  induction ds as [|d ds IH]; intros calls; cbn [fold_left].
  - exists []. rewrite app_nil_r. split; [reflexivity|].
    split; [intros ? ? []|]. intros ? [].
  - destruct (init_xboxone_altsetting_spec calls d)
      as (new1 & -> & Hsel1 & Hwanted & _).
    destruct (IH (calls ++ new1)) as (new2 & -> & Hsel2 & Hall).
    exists (new1 ++ new2). rewrite app_assoc. split; [reflexivity|].
    split; [by apply selects_as_wanted_app|].
    intros d' [<-|Hin] Hxb Hw.
    + exists [], new2. rewrite (Hwanted Hxb Hw), app_nil_r. reflexivity.
    + destruct (Hall d' Hin Hxb Hw) as (before & after & ->).
      exists (new1 ++ before), after. by rewrite <- !app_assoc.
Qed.

(** The outer loop, over the interfaces of the configuration. *)
Lemma init_xboxone_spec (intfs : list libusb_interface) :
  forall calls, exists new,
    fold_left (fun calls intf => fold_left step (altsetting intf) calls)
      intfs calls = calls ++ new /\
    selects_as_wanted new /\
    (forall intf d, In intf intfs -> In d (altsetting intf) ->
       xb1_interface LIBUSB_CLASS_VENDOR_SPEC d ->
       alternate_setting_wanted idVendor d ->
       exists before after,
         new = before ++
               selection libusb_claim_interface (calls ++ before) d ++
               after).
Proof.
  induction intfs as [|intf intfs IH]; intros calls; cbn [fold_left].
  - exists []. rewrite app_nil_r. split; [reflexivity|].
    split; [intros ? ? []|]. intros ? ? [].
  - destruct (init_xboxone_interface_spec (altsetting intf) calls)
      as (new1 & -> & Hsel1 & Hone).
    destruct (IH (calls ++ new1)) as (new2 & -> & Hsel2 & Hall).
    exists (new1 ++ new2). rewrite app_assoc. split; [reflexivity|].
    split; [by apply selects_as_wanted_app|].
    intros intf' d [<-|Hin] Hd Hxb Hw.
    + destruct (Hone d Hd Hxb Hw) as (before & after & ->).
      exists before, (after ++ new2). by rewrite <- !app_assoc.
    + destruct (Hall intf' d Hin Hd Hxb Hw) as (before & after & ->).
      exists (new1 ++ before), after. by rewrite <- !app_assoc.
Qed.

End InitXboxOne.




(** ** The queue of input reports *)

(** C1.  31 completed transfers on a new device that nobody reads: all 31
    reports stay queued, the first one at the head.  The first eviction is
    made by the 33rd transfer, which leaves 32 reports. *)
Theorem read_callback_31_reports :
  (exists dev,
     read_callbacks (map numbered_transfer (seq 1 31)) new_hid_device = Ok dev /\
     input_reports dev = map numbered_report (seq 1 31) /\
     length (input_reports dev) = 31%nat) /\
  (exists dev,
     read_callbacks (map numbered_transfer (seq 1 32)) new_hid_device = Ok dev /\
     input_reports dev = map numbered_report (seq 1 32)) /\
  (exists dev,
     read_callbacks (map numbered_transfer (seq 1 33)) new_hid_device = Ok dev /\
     input_reports dev = map numbered_report (seq 2 32)).
Proof.
  split; [|split]; eexists; (split; [vm_compute; reflexivity|]).
  - split; reflexivity.
  - reflexivity.
  - reflexivity.
Qed.

Lemma attach_at_end_spec (next : list input_report) :
  forall cur rpt num_queued,
    0 <= num_queued -> num_queued + Z.of_nat (length next) <= INT_MAX ->
    attach_at_end cur next rpt num_queued =
      (cur :: next ++ [rpt], num_queued + Z.of_nat (length next)).
Proof.
  induction next as [|cur' next IH]; intros cur rpt n Hn Hmax; cbn.
  - f_equal. lia.
  - rewrite (to_int_small (n + 1)) by (cbn in Hmax; lia).
    rewrite IH by (cbn in Hmax; lia). f_equal. cbn [length]. lia.
Qed.

(** What [read_callback] does to the queue on a completed transfer: the
    report goes to the tail, and the head is dropped when 32 reports were
    queued already. *)
Lemma read_callback_completed (t : libusb_transfer) (submit_res : Z)
    (dev : hid_device) :
  status t = LIBUSB_TRANSFER_COMPLETED ->
  0 <= actual_length t <= Z.of_nat (length (buffer t)) ->
  (length (input_reports dev) <= 32)%nat ->
  exists dev',
    read_callback t submit_res dev = Ok dev' /\
    let rpt := {| data := take (Z.to_nat (actual_length t)) (buffer t);
                  len := actual_length t |} in
    input_reports dev' =
      if (length (input_reports dev) <? 32)%nat
      then input_reports dev ++ [rpt]
      else drop 1 (input_reports dev) ++ [rpt].
Proof.
  intros Hst Hlen Hq. unfold read_callback. rewrite Hst.
  unfold memcpy. rewrite length_replicate.
  destruct (Z.leb_spec 0 (actual_length t)); [|lia].
  destruct (Z.leb_spec (actual_length t)
              (Z.of_nat (Z.to_nat (actual_length t)))); [|lia].
  destruct (Z.leb_spec (actual_length t) (Z.of_nat (length (buffer t))));
    [|lia].
  cbn. rewrite drop_replicate, Nat.sub_diag. cbn. rewrite app_nil_r.
  set (rpt := {| data := _; len := _ |}).
  destruct (input_reports dev) as [|cur next] eqn:Hqueue.
  - cbn. destruct (shutdown_thread dev) eqn:Hsd;
      [|destruct (submit_res =? 0)]; cbn; eexists; split; try reflexivity;
      cbn; reflexivity.
  - cbn [length] in Hq.
    rewrite attach_at_end_spec by (unfold INT_MAX; lia).
    destruct (Z.ltb_spec 30 (0 + Z.of_nat (length next))) as [Hfull|Hroom].
    + assert (length next = 31%nat) as Hn by lia.
      assert (Hz : (0 <? (if 0 <? len cur then 0 else len cur)) = false).
      { destruct (Z.ltb_spec 0 (len cur)); [reflexivity|].
        apply Z.ltb_ge. lia. }
      cbn. rewrite Hz. cbn. destruct (shutdown_thread dev) eqn:Hsd;
        [|destruct (submit_res =? 0)];
        cbn; eexists; (split; [reflexivity|]);
        cbn; rewrite Hn; reflexivity.
    + assert (length next < 31)%nat as Hn by lia.
      cbn. destruct (shutdown_thread dev) eqn:Hsd;
        [|destruct (submit_res =? 0)]; cbn; eexists; (split; [reflexivity|]);
        cbn; destruct (Nat.leb_spec (length next) 30); try lia;
        reflexivity.
Qed.

(** So the queue never holds more than 32 reports, and the reports keep
    the shape [read_callback] gives them.

    X1.  [read_callback] returns.  A completed transfer appends its report
    (the first [actual_length] bytes of the buffer) to the queue, and the
    oldest report is dropped only when 32 were queued already; a transfer
    with another status leaves the queue as it is.  So a queue of at most
    32 reports stays one (32, not 30), and every queued report has [len]
    equal to the size of its data and within [int]. *)
Lemma read_callback_queue_bound (t : libusb_transfer) (submit_res : Z)
    (dev : hid_device) :
  0 <= actual_length t <= Z.of_nat (length (buffer t)) ->
  actual_length t <= INT_MAX ->
  (length (input_reports dev) <= 32)%nat ->
  Forall report_ok (input_reports dev) ->
  exists dev',
    read_callback t submit_res dev = Ok dev' /\
    (status t = LIBUSB_TRANSFER_COMPLETED ->
     input_reports dev' =
       (if (length (input_reports dev) <? 32)%nat then input_reports dev
        else drop 1 (input_reports dev)) ++
       [ {| data := take (Z.to_nat (actual_length t)) (buffer t);
            len := actual_length t |} ]) /\
    (status t <> LIBUSB_TRANSFER_COMPLETED ->
     input_reports dev' = input_reports dev) /\
    (length (input_reports dev') <= 32)%nat /\
    Forall report_ok (input_reports dev').
Proof.
  intros Hlen Hint Hq Hok.
  destruct (status t) eqn:Hst.
  1: { destruct (read_callback_completed t submit_res dev Hst Hlen Hq)
         as (d & Hd & Hqueue).
       exists d. split; [exact Hd|]. cbv zeta in Hqueue.
       assert (Hrpt : report_ok
                 {| data := take (Z.to_nat (actual_length t)) (buffer t);
                    len := actual_length t |}).
       { split; [|exact Hint]. cbn. rewrite length_take. lia. }
       split.
       { intros _. rewrite Hqueue.
         by destruct (length (input_reports dev) <? 32)%nat. }
       split; [done|]. rewrite Hqueue.
       destruct (Nat.ltb_spec (length (input_reports dev)) 32).
       - split; [rewrite length_app; cbn; lia|].
         apply Forall_app. split; [exact Hok|by constructor].
       - split; [rewrite length_app, length_drop; cbn; lia|].
         apply Forall_app. split; [by apply Forall_drop|by constructor]. }
  all: unfold read_callback; rewrite Hst; cbn;
    repeat match goal with
           | |- context [if ?c then _ else _] => destruct c
           end;
    eexists; (split; [reflexivity|]); cbn;
    (split; [discriminate|]); (split; [reflexivity|]); by split.
Qed.

(** The first transfer on a new device. *)
Lemma read_callback_queue_bound_witness :
  exists dev',
    read_callback (numbered_transfer 1) 0 new_hid_device = Ok dev' /\
    input_reports dev' = [numbered_report 1].
Proof.
  destruct (read_callback_queue_bound (numbered_transfer 1) 0 new_hid_device
              ltac:(cbn; lia) ltac:(unfold INT_MAX; cbn; lia)
              ltac:(cbn; lia) ltac:(constructor))
    as (dev' & Hrun & Hqueue & _).
  exists dev'. split; [exact Hrun|]. by rewrite (Hqueue eq_refl).
Defined.

(** ** Reading *)

(** [return_data] on a queue that starts with [rpt]. *)
Lemma return_data_head (dev : hid_device) (rpt : input_report)
    (next : list input_report) (data_ : list byte) (length_ : Z) :
  input_reports dev = rpt :: next ->
  0 <= length_ <= Z.of_nat (length data_) ->
  report_ok rpt ->
  return_data dev data_ length_ =
    Ok {| r_ret := Z.min (len rpt) length_;
          r_data := take (Z.to_nat (Z.min (len rpt) length_)) (data rpt) ++
                    drop (Z.to_nat (Z.min (len rpt) length_)) data_;
          r_dev := set_input_reports next dev;
          r_freed := rpt |}.
Proof.
  intros Hq Hcap [Hlen Hint]. unfold return_data. rewrite Hq.
  assert (Hmin : (if length_ <? len rpt then length_ else len rpt)
                 = Z.min (len rpt) length_).
  { destruct (Z.ltb_spec length_ (len rpt)); lia. }
  rewrite Hmin. set (n := Z.min (len rpt) length_).
  assert (0 <= n <= INT_MAX) as Hn by (unfold n; lia).
  rewrite (to_int_small n Hn).
  destruct (Z.ltb_spec 0 n) as [Hpos|Hzero].
  - unfold memcpy.
    destruct (Z.leb_spec 0 n); [|lia].
    destruct (Z.leb_spec n (Z.of_nat (length data_))); [|lia].
    destruct (Z.leb_spec n (Z.of_nat (length (data rpt)))); [|lia].
    reflexivity.
  - assert (n = 0) as -> by lia. cbn. by rewrite drop_0.
Qed.

(** C3.  A read on a queue whose oldest report is [rpt] copies the first
    min(report length, buffer capacity) bytes of the report to the front of
    the caller's buffer and returns that count, the rest of the report
    being dropped; [rpt], and only it, leaves the queue and is freed, the
    later reports staying queued in their order.  This is what
    [return_data] does, and what [hid_read_timeout] does at entry in every
    timeout mode. *)
Theorem read_consumes_oldest_report (HIDAPI_THREAD_TIMED_OUT : Z)
    (dev : hid_device) (rpt : input_report) (next : list input_report)
    (data_ : list byte) (length_ milliseconds : Z) (ws : list wake) :
  input_reports dev = rpt :: next ->
  0 <= length_ <= Z.of_nat (length data_) ->
  report_ok rpt ->
  let n := Z.min (len rpt) length_ in
  let copied := take (Z.to_nat n) (data rpt) ++ drop (Z.to_nat n) data_ in
  return_data dev data_ length_ =
    Ok {| r_ret := n; r_data := copied;
          r_dev := set_input_reports next dev; r_freed := rpt |} /\
  hid_read_timeout HIDAPI_THREAD_TIMED_OUT dev data_ length_ milliseconds ws =
    Ok {| bytes_read := n; out_data := copied;
          out_dev := set_input_reports next dev; waits := [] |} /\
  input_reports (set_input_reports next dev) = next /\
  length copied = length data_.
Proof.
  intros Hq Hcap Hok. cbv zeta.
  pose proof (return_data_head dev rpt next data_ length_ Hq Hcap Hok) as Hret.
  split; [exact Hret|]. split; [|split; [reflexivity|]].
  - unfold hid_read_timeout. rewrite Hq. cbn [is_null negb].
    rewrite Hret. reflexivity.
  - destruct Hok as [Hlen Hint].
    rewrite length_app, length_take, length_drop. lia.
Qed.

(** A 3-byte report read into a 2-byte buffer, a second report behind it. *)
Lemma read_consumes_oldest_report_witness :
  let dev :=
    set_input_reports
      [ {| data := [x01; x02; x03]%byte; len := 3 |};
        {| data := [x04]%byte; len := 1 |} ] new_hid_device in
  hid_read_timeout 110 dev [x00; x00]%byte 2 0 [] =
    Ok {| bytes_read := 2; out_data := [x01; x02]%byte;
          out_dev :=
            set_input_reports [ {| data := [x04]%byte; len := 1 |} ] dev;
          waits := [] |}.
Proof.
  cbv zeta.
  apply (proj1 (proj2 (read_consumes_oldest_report 110
           (set_input_reports
              [ {| data := [x01; x02; x03]%byte; len := 3 |};
                {| data := [x04]%byte; len := 1 |} ] new_hid_device)
           {| data := [x01; x02; x03]%byte; len := 3 |}
           [ {| data := [x04]%byte; len := 1 |} ]
           [x00; x00]%byte 2 0 [] eq_refl
           ltac:(cbn; lia) ltac:(split; [reflexivity|unfold INT_MAX; cbn; lia])))).
Defined.

(** A report handed out by [return_data] is never confused with the error
    value: the count is not negative. *)
Lemma return_data_nonneg (dev : hid_device) (data_ : list byte) (length_ : Z)
    (r : returned) :
  0 <= length_ -> Forall report_ok (input_reports dev) ->
  return_data dev data_ length_ = Ok r ->
  exists rpt next,
    input_reports dev = rpt :: next /\
    r_ret r = Z.min (len rpt) length_ /\ 0 <= r_ret r /\
    r_dev r = set_input_reports next dev /\
    r_data r = take (Z.to_nat (r_ret r)) (data rpt) ++
               drop (Z.to_nat (r_ret r)) data_.
Proof.
  intros Hlen Hok. unfold return_data.
  destruct (input_reports dev) as [|rpt next]; [discriminate|].
  apply Forall_cons_1 in Hok as [[Hsize Hint] _].
  assert (Hmin : (if length_ <? len rpt then length_ else len rpt)
                 = Z.min (len rpt) length_).
  { destruct (Z.ltb_spec length_ (len rpt)); lia. }
  rewrite Hmin. set (n := Z.min (len rpt) length_).
  assert (0 <= n <= INT_MAX) as Hn by (unfold n; lia).
  rewrite (to_int_small n Hn).
  intros Hrun. apply bind_Ok_inv in Hrun as (d & Hcopy & Hr).
  injection Hr as <-. cbn. exists rpt, next.
  repeat split; try lia.
  destruct (Z.ltb_spec 0 n).
  - unfold memcpy in Hcopy. destruct (_ && _); [|discriminate].
    by injection Hcopy as <-.
  - injection Hcopy as <-. assert (n = 0) as -> by lia. cbn.
    by rewrite drop_0.
Qed.

Section ReadTimeout.

Variable HIDAPI_THREAD_TIMED_OUT : Z.
Variable data_ : list byte.
Variable length_ : Z.
Hypothesis length_nonneg : 0 <= length_.

Local Abbreviation read_timed :=
  (Session.read_timed HIDAPI_THREAD_TIMED_OUT).

(** The infinite wait returns -1 exactly when the state it last saw is the
    disconnected one. *)
Lemma read_blocking_spec (ws : list wake) :
  forall dev r,
    Forall report_ok (input_reports dev) -> Forall wake_ok ws ->
    read_blocking ws dev data_ length_ (-1) = Ok r ->
    (bytes_read r = -1 <-> disconnected (after_waits (waits r) dev)).
Proof using length_nonneg.
  induction ws as [|w ws IH]; intros dev r Hok Hws; cbn [read_blocking];
    destruct (input_reports dev) as [|rpt next] eqn:Hq;
    destruct (shutdown_thread dev) eqn:Hsd; cbn [is_null negb andb];
    try (intros Hrun; discriminate Hrun).
  all: try (intros Hrun; injection Hrun as <-; cbn;
            unfold disconnected; rewrite Hq, Hsd; tauto).
  all: try (intros Hrun; apply bind_Ok_inv in Hrun as (rd & Hrd & Hr);
            injection Hr as <-; cbn;
            destruct (return_data_nonneg dev data_ length_ rd length_nonneg)
              as (? & ? & _ & _ & Hpos & _); [by rewrite Hq|exact Hrd|];
            unfold disconnected; rewrite Hq; split; [lia|];
            intros [_ ?]; discriminate).
  intros Hrun. apply bind_Ok_inv in Hrun as (r' & Hrec & Hr).
  injection Hr as <-. cbn.
  apply Forall_cons_1 in Hws as [Hw Hws].
  apply (IH (woken w dev) r' Hw Hws Hrec).
Qed.

(** The timed wait returns -1 exactly when its last wait reported an error,
    or the state it last saw is the disconnected one and its last wait did
    not time out.  [prev] is what the wait before the first of [ws]
    returned, if the loop has gone round already. *)
Lemma read_timed_spec (milliseconds : Z) (ws : list wake) :
  0 < milliseconds ->
  forall dev prev r,
    prev = None \/ prev = Some 0 ->
    input_reports dev = [] -> Forall wake_ok ws ->
    read_timed ws dev data_ length_ (-1) = Ok r ->
    (bytes_read r = -1 <->
     wait_error HIDAPI_THREAD_TIMED_OUT milliseconds
       (last_wait_res prev (waits r)) \/
     (disconnected (after_waits (waits r) dev) /\
      ~ wait_timed_out HIDAPI_THREAD_TIMED_OUT milliseconds
          (last_wait_res prev (waits r)))).
Proof using length_nonneg.
  intros Hms.
  assert (Hprev : forall prev, prev = None \/ prev = Some 0 ->
            ~ wait_error HIDAPI_THREAD_TIMED_OUT milliseconds prev /\
            ~ wait_timed_out HIDAPI_THREAD_TIMED_OUT milliseconds prev).
  { intros prev [->| ->]; split; intros (_ & e & He & Hne & _);
      congruence. }
  induction ws as [|w ws IH]; intros dev prev r Hp Hq Hws;
    cbn [Session.read_timed]; rewrite Hq;
    destruct (shutdown_thread dev) eqn:Hsd; cbn [is_null negb andb];
    try (intros Hrun; discriminate Hrun).
  1,2: intros Hrun; injection Hrun as <-; cbn;
    unfold disconnected, last_wait_res; cbn; rewrite Hq, Hsd;
    destruct (Hprev prev Hp); tauto.
  apply Forall_cons_1 in Hws as [Hw Hws].
  destruct (Z.eqb_spec (w_res w) 0) as [Hz|Hnz].
  - cbn [woken set_shutdown_thread set_input_reports input_reports].
    destruct (w_input_reports w) as [|rpt' next'] eqn:Hwq; cbn [is_null negb].
    + intros Hrun. apply bind_Ok_inv in Hrun as (r' & Hrec & Hr).
      injection Hr as <-. cbn [bytes_read waits waited].
      assert (Hlast : last_wait_res prev (w :: waits r')
                      = last_wait_res (Some 0) (waits r')).
      { unfold last_wait_res. rewrite last_cons.
        destruct (list.last (waits r')); congruence. }
      rewrite Hlast. cbn [after_waits fold_left].
      apply (IH (woken w dev) (Some 0) r'); [by right| |exact Hws|].
      * cbn. by rewrite Hwq.
      * exact Hrec.
    + intros Hrun. apply bind_Ok_inv in Hrun as (rd & Hrd & Hr).
      injection Hr as <-. cbn [bytes_read waits].
      destruct (return_data_nonneg (woken w dev) data_ length_ rd
                  length_nonneg)
        as (? & ? & _ & _ & Hpos & _); [exact Hw|exact Hrd|].
      unfold last_wait_res, disconnected, wait_error. cbn. rewrite Hwq.
      split; [lia|]. intros [(_ & e & He & Hne & _)|[[_ ?] _]];
        [congruence|discriminate].
  - destruct (Z.eqb_spec (w_res w) HIDAPI_THREAD_TIMED_OUT) as [Hto|Hnto];
      intros Hrun; injection Hrun as <-; cbn [bytes_read waits];
      unfold last_wait_res, wait_error, wait_timed_out; cbn.
    + split; [discriminate|].
      intros [(_ & e & He & _ & Hne)|[_ Hnot]]; [congruence|].
      exfalso. apply Hnot. split; [lia|]. by exists (w_res w).
    + split; [|reflexivity]. intros _. left. split; [lia|].
      by exists (w_res w).
Qed.

(** The waits end: with a wake-up that ends them among those to come, both
    loops return. *)
Lemma read_blocking_returns (ws : list wake) :
  length_ <= Z.of_nat (length data_) ->
  forall dev,
    Forall report_ok (input_reports dev) -> Forall wake_ok ws ->
    Exists (ends_wait (-1)) ws \/
    is_null (input_reports dev) && negb (shutdown_thread dev) = false ->
    exists r, read_blocking ws dev data_ length_ (-1) = Ok r.
Proof using length_nonneg.
  intros Hcap.
  assert (Hnow : forall ws dev,
            Forall report_ok (input_reports dev) ->
            is_null (input_reports dev) && negb (shutdown_thread dev) = false ->
            exists r, read_blocking ws dev data_ length_ (-1) = Ok r).
  { intros ws' dev Hok Hnow. destruct ws'; cbn [read_blocking];
      rewrite Hnow; (destruct (input_reports dev) as [|rpt next] eqn:Hq;
      cbn [is_null negb]; [by eexists|]);
      apply Forall_cons_1 in Hok as [Hrpt _];
      rewrite (return_data_head dev rpt next data_ length_ Hq) by (done || lia);
      by eexists. }
  induction ws as [|w ws IH]; intros dev Hok Hws [Hex|Hstop];
    try (by apply Hnow); [by apply Exists_nil in Hex|].
  destruct (is_null (input_reports dev) && negb (shutdown_thread dev))
    eqn:Hwait; [|by apply Hnow].
  cbn [read_blocking]. rewrite Hwait.
  apply Forall_cons_1 in Hws as [Hw Hws].
  destruct (IH (woken w dev)) as [r' ->]; [exact Hw|exact Hws| |by eexists].
  apply Exists_cons in Hex as [Hend|Hex]; [right|by left].
  cbn. destruct Hend as [Hdata|[->|[Hms _]]]; [|by rewrite andb_false_r|lia].
  by destruct (w_input_reports w).
Qed.

Lemma read_timed_returns (milliseconds : Z) (ws : list wake) :
  0 < milliseconds ->
  length_ <= Z.of_nat (length data_) ->
  forall dev,
    input_reports dev = [] -> Forall wake_ok ws ->
    Exists (ends_wait milliseconds) ws \/ shutdown_thread dev = true ->
    exists r, read_timed ws dev data_ length_ (-1) = Ok r.
Proof using length_nonneg.
  intros Hms Hcap.
  induction ws as [|w ws IH]; intros dev Hq Hws Hend;
    cbn [Session.read_timed]; rewrite Hq; cbn [is_null andb].
  - destruct Hend as [Hex| ->]; [by apply Exists_nil in Hex|by eexists].
  - destruct (shutdown_thread dev) eqn:Hsd; cbn [negb]; [by eexists|].
    apply Forall_cons_1 in Hws as [Hw Hws].
    destruct (w_res w =? 0) eqn:Hres;
      [|destruct (w_res w =? HIDAPI_THREAD_TIMED_OUT); by eexists].
    cbn [woken set_shutdown_thread set_input_reports input_reports].
    destruct (w_input_reports w) as [|rpt next] eqn:Hwq; cbn [is_null negb].
    + destruct (IH (woken w dev)) as [r' Hr']; [by cbn| exact Hws| |].
      * destruct Hend as [Hex|?]; [|congruence].
        apply Exists_cons in Hex as [[?|[?|[_ ?]]]|Hex];
          [congruence|by right| |by left].
        apply Z.eqb_eq in Hres. congruence.
      * rewrite Hr'. by eexists.
    + unfold wake_ok in Hw. rewrite Hwq in Hw.
      apply Forall_cons_1 in Hw as [Hrpt _].
      rewrite (return_data_head _ rpt next data_ length_) by (done || lia).
      by eexists.
Qed.

End ReadTimeout.

(** A read with a 100 ms timeout on an empty queue; the device is unplugged
    during the wait, which reports a time-out (110 here).  The call
    returns 0, with the shutdown flag set and nothing queued, and no wait
    error. *)
Lemma hid_read_timeout_time_out_after_disconnect :
  let w := {| w_res := 110; w_input_reports := [];
              w_shutdown_thread := true |} in
  exists r,
    hid_read_timeout 110 new_hid_device [x00]%byte 1 100 [w] = Ok r /\
    bytes_read r = 0 /\
    waits r = [w] /\
    disconnected (after_waits (waits r) new_hid_device) /\
    disconnected (out_dev r) /\
    ~ wait_error 110 100 (last_wait_res None (waits r)).
Proof.
  cbv zeta. eexists. split; [reflexivity|]. cbn.
  repeat split; try reflexivity.
  intros (_ & e & He & _ & Hne). cbn in He. congruence.
Qed.

(** C2 (amended).  In every timeout mode, a call of [hid_read_timeout] that
    returns does so with -1 exactly when its last timed wait reported an
    error, or the device is disconnected with nothing queued in the state
    the call last saw and its last timed wait did not report a time-out (a
    timed wait that times out gives 0, whatever happened to the flag
    meanwhile).  A call entered with a report queued returns that report's
    data and not -1, also with the shutdown flag set; a call entered with
    nothing queued and the flag set returns -1 at once; and a call that
    has to wait returns as soon as a wake-up ends the wait. *)
Theorem hid_read_timeout_minus_one (HIDAPI_THREAD_TIMED_OUT : Z)
    (dev : hid_device) (data_ : list byte) (length_ milliseconds : Z)
    (ws : list wake) :
  0 <= length_ <= Z.of_nat (length data_) ->
  Forall report_ok (input_reports dev) -> Forall wake_ok ws ->
  (forall r,
      hid_read_timeout HIDAPI_THREAD_TIMED_OUT dev data_ length_
        milliseconds ws = Ok r ->
      (bytes_read r = -1 <->
       wait_error HIDAPI_THREAD_TIMED_OUT milliseconds
         (last_wait_res None (waits r)) \/
       (disconnected (after_waits (waits r) dev) /\
        ~ wait_timed_out HIDAPI_THREAD_TIMED_OUT milliseconds
            (last_wait_res None (waits r))))) /\
  (forall rpt next,
      input_reports dev = rpt :: next ->
      let n := Z.min (len rpt) length_ in
      0 <= n /\
      hid_read_timeout HIDAPI_THREAD_TIMED_OUT dev data_ length_
        milliseconds ws =
        Ok {| bytes_read := n;
              out_data := take (Z.to_nat n) (data rpt) ++
                          drop (Z.to_nat n) data_;
              out_dev := set_input_reports next dev; waits := [] |}) /\
  (disconnected dev ->
   hid_read_timeout HIDAPI_THREAD_TIMED_OUT dev data_ length_
     milliseconds ws =
     Ok {| bytes_read := -1; out_data := data_; out_dev := dev;
           waits := [] |}) /\
  (Exists (ends_wait milliseconds) ws ->
   exists r,
     hid_read_timeout HIDAPI_THREAD_TIMED_OUT dev data_ length_
       milliseconds ws = Ok r).
Proof.
  intros [Hlen Hcap] Hok Hws.
  assert (Hhead : forall rpt next,
            input_reports dev = rpt :: next ->
            hid_read_timeout HIDAPI_THREAD_TIMED_OUT dev data_ length_
              milliseconds ws =
              Ok {| bytes_read := Z.min (len rpt) length_;
                    out_data :=
                      take (Z.to_nat (Z.min (len rpt) length_)) (data rpt) ++
                      drop (Z.to_nat (Z.min (len rpt) length_)) data_;
                    out_dev := set_input_reports next dev; waits := [] |}).
  { intros rpt next Hq. unfold hid_read_timeout. rewrite Hq.
    cbn [is_null negb]. rewrite Hq in Hok.
    apply Forall_cons_1 in Hok as [Hrpt _].
    by rewrite (return_data_head dev rpt next data_ length_ Hq). }
  split; [|split; [|split]].
  - intros r Hrun. unfold hid_read_timeout in Hrun.
    destruct (input_reports dev) as [|rpt next] eqn:Hq;
      cbn [is_null negb] in Hrun.
    + destruct (shutdown_thread dev) eqn:Hsd.
      { injection Hrun as <-. cbn. unfold disconnected, wait_error. cbn.
        rewrite Hq, Hsd. split; [intros _; right; split; [done|]|done].
        intros (_ & e & He & _). discriminate. }
      destruct (Z.eqb_spec milliseconds (-1)) as [->|Hfin].
      { rewrite (read_blocking_spec data_ length_ Hlen ws dev r)
          by (rewrite ?Hq; auto).
        split; [intros Hd; right; split; [exact Hd|]|].
        - intros (Hms & _). lia.
        - intros [(Hms & _)|[Hd _]]; [lia|exact Hd]. }
      destruct (Z.ltb_spec 0 milliseconds) as [Hpos|Hzero].
      { by apply (read_timed_spec HIDAPI_THREAD_TIMED_OUT data_ length_ Hlen
                    milliseconds ws Hpos dev None r); auto. }
      injection Hrun as <-. cbn. unfold disconnected, wait_error. cbn.
      rewrite Hq, Hsd. split; [discriminate|].
      intros [(_ & e & He & _)|[[? _] _]]; discriminate.
    + apply bind_Ok_inv in Hrun as (rd & Hrd & Hr). injection Hr as <-.
      destruct (return_data_nonneg dev data_ length_ rd Hlen)
        as (rpt' & next' & Heq & Hmin & Hpos & Hdev & Hdata);
        [by rewrite Hq|exact Hrd|].
      cbn. unfold disconnected, wait_error. cbn. rewrite Hq.
      split; [lia|]. intros [(_ & e & He & _)|[[_ ?] _]]; discriminate.
  - intros rpt next Hq. cbv zeta. split; [|by apply Hhead].
    rewrite Hq in Hok. apply Forall_cons_1 in Hok as [[Hsize _] _]. lia.
  - intros [Hsd Hq]. unfold hid_read_timeout. by rewrite Hq, Hsd.
  - intros Hex. destruct (input_reports dev) as [|rpt next] eqn:Hq.
    + unfold hid_read_timeout. rewrite Hq. cbn [is_null negb].
      destruct (shutdown_thread dev) eqn:Hsd; [by eexists|].
      destruct (Z.eqb_spec milliseconds (-1)) as [->|Hfin].
      { apply read_blocking_returns; rewrite ?Hq; auto. }
      destruct (Z.ltb_spec 0 milliseconds) as [Hpos|Hzero]; [|by eexists].
      apply (read_timed_returns HIDAPI_THREAD_TIMED_OUT data_ length_ Hlen
               milliseconds ws Hpos Hcap dev Hq Hws). by left.
    + rewrite (Hhead rpt next eq_refl). by eexists.
Qed.

(** An infinite read on an empty queue, woken once without cause and then
    by the shutdown of the read thread. *)
Lemma hid_read_timeout_minus_one_witness :
  let spurious := {| w_res := 0; w_input_reports := [];
                     w_shutdown_thread := false |} in
  let shutdown := {| w_res := 0; w_input_reports := [];
                     w_shutdown_thread := true |} in
  hid_read_timeout 110 new_hid_device [x00]%byte 1 (-1) [spurious; shutdown]
    = Ok {| bytes_read := -1; out_data := [x00]%byte;
            out_dev := set_shutdown_thread true new_hid_device;
            waits := [spurious; shutdown] |} /\
  (-1 = -1 <->
   wait_error 110 (-1) (Some 0) \/
   (disconnected (set_shutdown_thread true new_hid_device) /\
    ~ wait_timed_out 110 (-1) (Some 0))).
Proof.
  cbv zeta. split; [reflexivity|].
  apply (proj1 (hid_read_timeout_minus_one 110 new_hid_device [x00]%byte 1
                  (-1)
                  [ {| w_res := 0; w_input_reports := [];
                       w_shutdown_thread := false |};
                    {| w_res := 0; w_input_reports := [];
                       w_shutdown_thread := true |} ]
                  ltac:(cbn; lia) ltac:(constructor)
                  ltac:(repeat constructor))
           {| bytes_read := -1; out_data := [x00]%byte;
              out_dev := set_shutdown_thread true new_hid_device;
              waits := [ {| w_res := 0; w_input_reports := [];
                            w_shutdown_thread := false |};
                         {| w_res := 0; w_input_reports := [];
                            w_shutdown_thread := true |} ] |}
           eq_refl).
Defined.

(** ** Writing *)

(** On a new device (no quirk flag, no interrupt OUT endpoint) a write of
    65537 bytes that starts with report ID 0 gives the control transfer the
    length 0, whatever the payload, and returns 65537 when libusb reports
    success. *)
Lemma hid_write_65537_bytes (rest : list byte) :
  hid_write 0x20 0x01 0x00 (fun _ => 0) (fun _ => (0, 0)) new_hid_device
    (Some (x00%byte :: rest)) 65537
  = Ok (65537, [Control_transfer 0x21 0x09 0x200 0 rest 0 1000]).
Proof.
  unfold hid_write. cbn. rewrite drop_0. reflexivity.
Qed.

(** A session with the interrupt OUT endpoint 2 and no quirk flag. *)
Local Abbreviation endpoint_2 :=
  {| interface := 0; output_endpoint := 2; blocking := true;
     shutdown_thread := false; transfer_loop_finished := false;
     skip_output_report_id := false; no_skip_output_report_id := false;
     no_output_reports_on_intr_ep := false; input_reports := [];
     is_driver_detached := false |}.

(** On that session a write of 2^31 bytes that starts with report ID 0, all
    2^31 - 1 bytes after it transferred, returns a negative value. *)
Lemma hid_write_2G_bytes (rest : list byte) :
  hid_write 0x20 0x01 0x00 (fun _ => 0) (fun _ => (0, 2147483647))
    endpoint_2 (Some (x00%byte :: rest)) 2147483648
  = Ok (-2147483648, [Interrupt_transfer 2 rest 2147483647 1000]).
Proof.
  unfold hid_write. cbn. rewrite drop_0. reflexivity.
Qed.

(** Three writes that start with report ID 0, on sessions with no quirk
    flag.  Over the control endpoint, 65537 bytes (report ID 0 and then
    65536 times 0x01): the transfer is given length 0, not 65536, and the
    call returns 65537.  Over the interrupt OUT endpoint, 8 bytes of which
    libusb transfers 3 and reports success: the call returns 4, not 8.
    Over the interrupt OUT endpoint, 2^31 bytes, all transferred: the
    call returns -2^31. *)
Lemma hid_write_report_id_0_exceptions :
  (exists wLength,
     hid_write 0x20 0x01 0x00 (fun _ => 0) (fun _ => (0, 0)) new_hid_device
       (Some (x00%byte :: replicate (Z.to_nat 65536) x01%byte)) 65537
     = Ok (65537,
           [Control_transfer 0x21 0x09 0x200 0
              (replicate (Z.to_nat 65536) x01%byte) wLength 1000]) /\
     wLength = 0 /\ wLength <> 65537 - 1) /\
  (exists ret,
     hid_write 0x20 0x01 0x00 (fun _ => 0) (fun _ => (0, 3)) endpoint_2
       (Some [x00; x01; x02; x03; x04; x05; x06; x07]%byte) 8
     = Ok (ret,
           [Interrupt_transfer 2 [x01; x02; x03; x04; x05; x06; x07]%byte 7
              1000]) /\
     ret = 4 /\ ret <> 8) /\
  (exists ret,
     hid_write 0x20 0x01 0x00 (fun _ => 0) (fun _ => (0, 2147483647))
       endpoint_2
       (Some (x00%byte :: replicate (Z.to_nat 2147483647) x01%byte))
       2147483648
     = Ok (ret,
           [Interrupt_transfer 2 (replicate (Z.to_nat 2147483647) x01%byte)
              2147483647 1000]) /\
     ret = -2147483648 /\ ret <> 2147483648).
Proof.
  split; [|split].
  - exists 0. split; [apply hid_write_65537_bytes|].
    split; [reflexivity|lia].
  - exists 4. split; [reflexivity|]. split; [reflexivity|lia].
  - exists (-2147483648). split; [apply hid_write_2G_bytes|].
    split; [reflexivity|lia].
Qed.

(** C9 (amended).  A write whose first byte is report ID 0, on a session
    with no quirk flag set, makes one transfer, which is given the bytes
    from the second one on and the length [length - 1]: a control transfer
    (Set_Report, output report 0) when there is no interrupt OUT endpoint,
    for a write of at most 65536 bytes; else an interrupt transfer, for a
    write of at most [INT_MAX] bytes.  If libusb reports an error the call
    returns -1; else it returns the original length after a control
    transfer, and one more than the transferred count after an interrupt
    transfer, which is the original length when the whole payload was
    transferred. *)
Theorem hid_write_strips_report_id_0
    (LIBUSB_REQUEST_TYPE_CLASS LIBUSB_RECIPIENT_INTERFACE LIBUSB_ENDPOINT_OUT
       : Z)
    (libusb_control_transfer : usb_call -> Z)
    (libusb_interrupt_transfer : usb_call -> Z * Z)
    (dev : hid_device) (b : byte) (rest : list byte) (length_ : Z) :
  skip_output_report_id dev = false ->
  no_skip_output_report_id dev = false ->
  no_output_reports_on_intr_ep dev = false ->
  byte_val b = 0 ->
  1 <= length_ ->
  (output_endpoint dev <= 0 -> length_ <= 65536) ->
  (0 < output_endpoint dev -> length_ <= INT_MAX) ->
  let call :=
    if output_endpoint dev <=? 0
    then Control_transfer
           (Z.lor (Z.lor LIBUSB_REQUEST_TYPE_CLASS LIBUSB_RECIPIENT_INTERFACE)
              LIBUSB_ENDPOINT_OUT)
           0x09 0x200 (interface dev) rest (length_ - 1) 1000
    else Interrupt_transfer (output_endpoint dev) rest (length_ - 1) 1000 in
  exists ret,
    hid_write LIBUSB_REQUEST_TYPE_CLASS LIBUSB_RECIPIENT_INTERFACE
      LIBUSB_ENDPOINT_OUT libusb_control_transfer libusb_interrupt_transfer
      dev (Some (b :: rest)) length_ = Ok (ret, [call]) /\
    (output_endpoint dev <= 0 ->
     (libusb_control_transfer call < 0 -> ret = -1) /\
     (0 <= libusb_control_transfer call -> ret = length_)) /\
    (0 < output_endpoint dev ->
     (fst (libusb_interrupt_transfer call) < 0 -> ret = -1) /\
     (0 <= fst (libusb_interrupt_transfer call) ->
      ret = to_int (snd (libusb_interrupt_transfer call) + 1) /\
      (snd (libusb_interrupt_transfer call) = length_ - 1 ->
       ret = length_))).
Proof.
  intros Hskip Hno Hintr Hid Hlen Hcontrol Hinterrupt.
  cbv zeta. unfold hid_write. unfold INT_MAX in Hinterrupt.
  destruct (Z.eqb_spec length_ 0); [lia|].
  change (index (b :: rest) 0) with (Ok b). cbn.
  rewrite Hid, Hskip, Hno, Hintr. cbn.
  rewrite drop_0, orb_false_r.
  destruct (Z.leb_spec (output_endpoint dev) 0) as [Hep|Hep].
  - specialize (Hcontrol Hep).
    rewrite (usize_small (length_ - 1)) by lia.
    rewrite (u16_small (length_ - 1)) by lia.
    set (call := Control_transfer _ _ _ _ _ _ _).
    destruct (Z.ltb_spec (libusb_control_transfer call) 0).
    + eexists. split; [reflexivity|]. split; [|lia]. intros _. split; [auto|lia].
    + eexists. split; [reflexivity|]. split; [|lia]. intros _.
      split; [lia|]. intros _.
      replace (length_ - 1 + 1) with length_ by lia.
      rewrite usize_small by lia. apply to_int_small. unfold INT_MAX. lia.
  - specialize (Hinterrupt Hep).
    rewrite (usize_small (length_ - 1)) by lia.
    rewrite (to_int_small (length_ - 1)) by (unfold INT_MAX; lia).
    set (call := Interrupt_transfer _ _ _ _).
    destruct (libusb_interrupt_transfer call) as [res_ actual_length] eqn:Hcall.
    cbn [fst snd].
    destruct (Z.ltb_spec res_ 0).
    + eexists. split; [reflexivity|]. split; [lia|]. intros _.
      split; [auto|lia].
    + eexists. split; [reflexivity|]. split; [lia|]. intros _.
      split; [lia|]. intros _. split; [reflexivity|]. intros ->.
      replace (length_ - 1 + 1) with length_ by lia.
      apply to_int_small. unfold INT_MAX. lia.
Qed.

(** An 8-byte write over the interrupt OUT endpoint 2, all 7 payload bytes
    transferred. *)
Lemma hid_write_strips_report_id_0_witness :
  exists ret,
    hid_write 0x20 0x01 0x00 (fun _ => 0) (fun _ => (0, 7)) endpoint_2
      (Some [x00; x01; x02; x03; x04; x05; x06; x07]%byte) 8
    = Ok (ret,
          [Interrupt_transfer 2 [x01; x02; x03; x04; x05; x06; x07]%byte 7
             1000]) /\
    ret = 8.
Proof.
  destruct (hid_write_strips_report_id_0 0x20 0x01 0x00
              (fun _ => 0) (fun _ => (0, 7)) endpoint_2
              x00 [x01; x02; x03; x04; x05; x06; x07]%byte 8
              eq_refl eq_refl eq_refl eq_refl ltac:(lia)
              ltac:(cbn; lia) ltac:(unfold INT_MAX; lia))
    as (ret & Hrun & _ & Hintr).
  exists ret. split; [exact Hrun|].
  apply Hintr; cbn; first [lia | reflexivity].
Defined.

(** ** Closing *)

Lemma clear_queue_frees_all (q : list input_report) :
  forall dev effects,
    input_reports dev = q ->
    clear_queue (length q) dev effects =
      Ok (set_input_reports [] dev, effects ++ map Free_input_report q).
Proof.
  induction q as [|rpt next IH]; intros dev effects Hq.
  - destruct dev; cbn in *; subst. cbn. by rewrite app_nil_r.
  - cbn [clear_queue length]. rewrite Hq. cbn [is_null].
    unfold return_data. rewrite Hq.
    assert (Hz : (0 <? (if 0 <? len rpt then 0 else len rpt)) = false).
    { destruct (Z.ltb_spec 0 (len rpt)); [reflexivity|].
      apply Z.ltb_ge. lia. }
    rewrite Hz. cbn.
    rewrite (IH (set_input_reports next dev)) by reflexivity.
    cbn. by rewrite <- app_assoc.
Qed.

(** C10.  [hid_close(NULL)] returns at once and does nothing: no flag is
    stored, no transfer cancelled, no thread joined, no interface released,
    nothing freed.  On a device it does all of these, in this order. *)
Theorem hid_close_null (effects : list effect) :
  hid_close None effects = Ok effects /\
  forall dev,
    hid_close (Some dev) effects =
      Ok (effects ++
          [Store_shutdown_thread; Usb Cancel_transfer; Thread_join;
           Free_transfer_buffer; Usb Free_transfer;
           Usb (Release_interface (interface dev))] ++
          (if is_driver_detached dev
           then [Usb (Attach_kernel_driver (interface dev))] else []) ++
          [Usb Close] ++
          map Free_input_report (input_reports dev) ++
          [Free_hid_device]).
Proof.
  split; [reflexivity|]. intros dev. unfold hid_close.
  rewrite (clear_queue_frees_all (input_reports dev)) by reflexivity.
  cbn. destruct (is_driver_detached dev); cbn;
    rewrite <- ?app_assoc; reflexivity.
Qed.

(* ===================================================================== *)
(** * Further properties                                                  *)
(* ===================================================================== *)

(** ** Queue and reads together *)

(** Completed transfers are queued behind what is there, as long as there
    is room. *)
Lemma read_callbacks_append (ts : list libusb_transfer) :
  forall dev,
    Forall completed ts ->
    (length (input_reports dev) + length ts <= 32)%nat ->
    exists dev',
      read_callbacks ts dev = Ok dev' /\
      input_reports dev' = input_reports dev ++ map report_of_transfer ts.
Proof.
  induction ts as [|t ts IH]; intros dev Hts Hroom.
  - exists dev. split; [reflexivity|]. by rewrite app_nil_r.
  - apply Forall_cons_1 in Hts as [(Hst & Hlen & _) Hts].
    cbn [length] in Hroom. cbn [read_callbacks].
    destruct (read_callback_completed t 0 dev Hst Hlen) as (d & -> & Hq);
      [lia|].
    cbv zeta in Hq.
    destruct (Nat.ltb_spec (length (input_reports dev)) 32); [|lia].
    destruct (IH d Hts) as (dev' & Hrun & Hq').
    { rewrite Hq, length_app. cbn. lia. }
    exists dev'. split; [exact Hrun|].
    rewrite Hq', Hq, <- app_assoc. reflexivity.
Qed.

(** As many reads as there are queued reports hand them out in order and
    leave the queue empty, without waiting. *)
Lemma hid_reads_queue (HIDAPI_THREAD_TIMED_OUT : Z) (data_ : list byte)
    (length_ : Z) (q : list input_report) :
  0 <= length_ <= Z.of_nat (length data_) ->
  forall dev,
    input_reports dev = q -> Forall report_ok q ->
    exists dev',
      hid_reads HIDAPI_THREAD_TIMED_OUT (length q) dev data_ length_ =
        Ok (map (read_of data_ length_) q, dev') /\
      input_reports dev' = [].
Proof.
  intros Hcap. induction q as [|rpt next IH]; intros dev Hq Hok.
  - exists dev. by split.
  - apply Forall_cons_1 in Hok as [Hrpt Hok].
    cbn [length hid_reads]. unfold hid_read, hid_read_timeout.
    rewrite Hq. cbn [is_null negb].
    rewrite (return_data_head dev rpt next data_ length_ Hq Hcap Hrpt).
    cbn. destruct (IH (set_input_reports next dev)) as (dev' & -> & Hempty);
      [reflexivity|exact Hok|].
    exists dev'. split; [reflexivity|exact Hempty].
Qed.

Lemma report_of_transfer_ok (t : libusb_transfer) :
  completed t -> report_ok (report_of_transfer t).
Proof.
  intros (_ & Hlen & Hint). split; [|exact Hint]. cbn.
  rewrite length_take. lia.
Qed.

(** X2.  Up to 32 completed transfers delivered to a device with an empty
    queue, then as many reads: every read returns, without waiting, the
    bytes of the transfers in the order they completed (cut to the
    caller's capacity), and the queue is empty again. *)
Theorem queue_is_first_in_first_out (HIDAPI_THREAD_TIMED_OUT : Z)
    (ts : list libusb_transfer) (dev : hid_device) (data_ : list byte)
    (length_ : Z) :
  input_reports dev = [] ->
  Forall completed ts -> (length ts <= 32)%nat ->
  0 <= length_ <= Z.of_nat (length data_) ->
  exists dev1 dev2,
    read_callbacks ts dev = Ok dev1 /\
    hid_reads HIDAPI_THREAD_TIMED_OUT (length ts) dev1 data_ length_ =
      Ok (map (fun t =>
                 (Z.min (actual_length t) length_,
                  take (Z.to_nat (Z.min (actual_length t) length_))
                    (buffer t) ++
                  drop (Z.to_nat (Z.min (actual_length t) length_)) data_))
            ts, dev2) /\
    input_reports dev2 = [].
Proof.
  intros Hempty Hts Hn Hcap.
  destruct (read_callbacks_append ts dev Hts) as (dev1 & Hrun & Hq);
    [rewrite Hempty; cbn; lia|].
  rewrite Hempty in Hq. cbn [app] in Hq.
  destruct (hid_reads_queue HIDAPI_THREAD_TIMED_OUT data_ length_
              (map report_of_transfer ts) Hcap dev1 Hq)
    as (dev2 & Hreads & Hdone).
  { apply Forall_map. eapply Forall_impl; [|exact Hts].
    apply report_of_transfer_ok. }
  exists dev1, dev2. split; [exact Hrun|]. split; [|exact Hdone].
  rewrite length_map in Hreads. rewrite Hreads. f_equal. f_equal.
  rewrite map_map. apply map_ext_Forall.
  eapply Forall_impl; [|exact Hts]. intros t (_ & Hlen & _).
  unfold read_of, report_of_transfer. cbn. f_equal. f_equal.
  rewrite take_take. f_equal. lia.
Qed.

(** Three reports of different sizes read into a 2-byte buffer. *)
Lemma queue_is_first_in_first_out_witness :
  let t1 := {| status := LIBUSB_TRANSFER_COMPLETED;
               buffer := [x01; x02; x03; x00]%byte; actual_length := 3 |} in
  let t2 := {| status := LIBUSB_TRANSFER_COMPLETED;
               buffer := [x04; x00; x00; x00]%byte; actual_length := 1 |} in
  let t3 := {| status := LIBUSB_TRANSFER_COMPLETED;
               buffer := [x05; x06; x00; x00]%byte; actual_length := 2 |} in
  exists dev1 dev2,
    read_callbacks [t1; t2; t3] new_hid_device = Ok dev1 /\
    hid_reads 110 3 dev1 [xff; xff]%byte 2 =
      Ok ([(2, [x01; x02]%byte); (1, [x04; xff]%byte);
           (2, [x05; x06]%byte)], dev2) /\
    input_reports dev2 = [].
Proof.
  cbv zeta.
  apply (queue_is_first_in_first_out 110
           [ {| status := LIBUSB_TRANSFER_COMPLETED;
                buffer := [x01; x02; x03; x00]%byte; actual_length := 3 |};
             {| status := LIBUSB_TRANSFER_COMPLETED;
                buffer := [x04; x00; x00; x00]%byte; actual_length := 1 |};
             {| status := LIBUSB_TRANSFER_COMPLETED;
                buffer := [x05; x06; x00; x00]%byte; actual_length := 2 |} ]
           new_hid_device [xff; xff]%byte 2 eq_refl);
    [ repeat constructor; cbn; unfold INT_MAX; lia | cbn; lia | cbn; lia ].
Defined.

(** ** Writing and reading, the error values *)

(** X3.  [hid_write] makes no libusb call and returns -1 when [data] is
    [NULL] or [length] is 0.  Otherwise (at most 65536 bytes, libusb
    reporting a transferred count that is not negative) it makes exactly
    one call and returns -1 exactly when libusb reports an error for that
    call; a write that succeeds never returns a negative value. *)
Theorem hid_write_error_value
    (LIBUSB_REQUEST_TYPE_CLASS LIBUSB_RECIPIENT_INTERFACE LIBUSB_ENDPOINT_OUT
       : Z)
    (libusb_control_transfer : usb_call -> Z)
    (libusb_interrupt_transfer : usb_call -> Z * Z)
    (dev : hid_device) (b : byte) (rest : list byte) (length_ : Z) :
  1 <= length_ <= 65536 ->
  (forall c, 0 <= snd (libusb_interrupt_transfer c) < INT_MAX) ->
  let hid_write :=
    hid_write LIBUSB_REQUEST_TYPE_CLASS LIBUSB_RECIPIENT_INTERFACE
      LIBUSB_ENDPOINT_OUT libusb_control_transfer libusb_interrupt_transfer in
  hid_write dev None length_ = Ok (-1, []) /\
  hid_write dev (Some (b :: rest)) 0 = Ok (-1, []) /\
  exists ret call,
    hid_write dev (Some (b :: rest)) length_ = Ok (ret, [call]) /\
    (ret = -1 <->
     match call with
     | Control_transfer _ _ _ _ _ _ _ => libusb_control_transfer call < 0
     | _ => fst (libusb_interrupt_transfer call) < 0
     end) /\
    (ret <> -1 -> 0 <= ret).
Proof.
  intros Hlen Hcount. cbv zeta. split; [reflexivity|]. split; [reflexivity|].
  unfold hid_write. destruct (Z.eqb_spec length_ 0); [lia|].
  change (index (b :: rest) 0) with (Ok b). cbn.
  set (strip := _ || skip_output_report_id dev).
  assert (Hsent : exists d l s,
             (if strip then (rest, usize (length_ - 1), true)
              else (b :: rest, length_, false)) = (d, l, s) /\
             0 <= l <= 65536 /\ (s = true -> l + 1 = length_) /\
             (s = false -> l = length_)).
  { destruct strip; do 3 eexists; (split; [rewrite ?drop_0; reflexivity|]);
      rewrite ?usize_small by lia; repeat split; (lia || discriminate). }
  rewrite ?drop_0.
  destruct Hsent as (d & l & s & -> & Hl & Hs & Hns).
  destruct (_ || no_output_reports_on_intr_ep dev).
  - set (call := Control_transfer _ _ _ _ _ _ _).
    destruct (Z.ltb_spec (libusb_control_transfer call) 0) as [Herr|Hok_].
    + exists (-1), call. split; [reflexivity|]. split; [tauto|congruence].
    + eexists _, call. split; [reflexivity|].
      assert (Hret : to_int (if s then usize (l + 1) else l) = length_).
      { destruct s.
        - specialize (Hs eq_refl). rewrite usize_small by lia.
          rewrite to_int_small; unfold INT_MAX; lia.
        - specialize (Hns eq_refl).
          rewrite to_int_small; unfold INT_MAX; lia. }
      rewrite Hret. subst call. cbv beta iota. split; [split; lia|lia].
  - set (call := Interrupt_transfer _ _ _ _).
    specialize (Hcount call).
    destruct (libusb_interrupt_transfer call) as [res_ actual] eqn:Hcall.
    cbn [fst snd] in *.
    destruct (Z.ltb_spec res_ 0) as [Herr|Hok_].
    + exists (-1), call. split; [reflexivity|].
      change (match call with
              | Control_transfer _ _ _ _ _ _ _ => libusb_control_transfer call < 0
              | _ => fst (libusb_interrupt_transfer call) < 0
              end) with (fst (libusb_interrupt_transfer call) < 0).
      rewrite Hcall. cbn [fst]. split; [tauto|congruence].
    + eexists _, call. split; [reflexivity|].
      change (match call with
              | Control_transfer _ _ _ _ _ _ _ => libusb_control_transfer call < 0
              | _ => fst (libusb_interrupt_transfer call) < 0
              end) with (fst (libusb_interrupt_transfer call) < 0).
      rewrite Hcall. cbn [fst].
      assert (Hret : 0 <= (if s then to_int (actual + 1) else actual)).
      { destruct s; [rewrite to_int_small|]; unfold INT_MAX in *; lia. }
      split; [split; lia|lia].
Qed.

(** A 3-byte write over the control endpoint that libusb refuses. *)
Lemma hid_write_error_value_witness :
  hid_write 0x20 0x01 0x00 (fun _ => -4) (fun _ => (0, 0)) new_hid_device
    None 3 = Ok (-1, []) /\
  exists ret call,
    hid_write 0x20 0x01 0x00 (fun _ => -4) (fun _ => (0, 0)) new_hid_device
      (Some [x01; x02; x03]%byte) 3 = Ok (ret, [call]) /\
    (ret <> -1 -> 0 <= ret).
Proof.
  destruct (hid_write_error_value 0x20 0x01 0x00 (fun _ => -4)
              (fun _ => (0, 0)) new_hid_device x01 [x02; x03]%byte 3
              ltac:(lia) ltac:(intros; unfold INT_MAX; cbn; lia))
    as (Hnull & _ & ret & call & Hrun & _ & Hpos).
  split; [exact Hnull|]. exists ret, call. by split.
Defined.

(** X4.  After [hid_set_nonblocking(dev, nonblock)] with [nonblock] not 0,
    [hid_read] never waits: whatever the other threads do, it returns the
    oldest report if one is queued, else -1 if the read thread has shut
    down, else 0, the caller's buffer untouched in the last two cases.
    The call itself returns 0 and changes nothing else. *)
Theorem hid_read_after_set_nonblocking (HIDAPI_THREAD_TIMED_OUT : Z)
    (dev : hid_device) (nonblock : Z) (data_ : list byte) (length_ : Z)
    (ws : list wake) :
  nonblock <> 0 ->
  0 <= length_ <= Z.of_nat (length data_) ->
  Forall report_ok (input_reports dev) ->
  let dev' := snd (hid_set_nonblocking dev nonblock) in
  fst (hid_set_nonblocking dev nonblock) = 0 /\
  dev' = set_blocking false dev /\
  hid_read HIDAPI_THREAD_TIMED_OUT dev' data_ length_ ws =
    Ok match input_reports dev with
       | rpt :: next =>
           {| bytes_read := Z.min (len rpt) length_;
              out_data := take (Z.to_nat (Z.min (len rpt) length_)) (data rpt)
                          ++ drop (Z.to_nat (Z.min (len rpt) length_)) data_;
              out_dev := set_input_reports next dev'; waits := [] |}
       | [] =>
           {| bytes_read := if shutdown_thread dev then -1 else 0;
              out_data := data_; out_dev := dev'; waits := [] |}
       end.
Proof.
  intros Hnb Hcap Hok. cbv zeta. unfold hid_set_nonblocking. cbn [fst snd].
  destruct (Z.eqb_spec nonblock 0); [contradiction|].
  split; [reflexivity|]. split; [reflexivity|].
  unfold hid_read, hid_read_timeout. cbn [blocking set_blocking input_reports
    shutdown_thread].
  destruct (input_reports dev) as [|rpt next] eqn:Hq; cbn [is_null negb].
  - destruct (shutdown_thread dev); reflexivity.
  - apply Forall_cons_1 in Hok as [Hrpt _].
    rewrite (return_data_head (set_blocking false dev) rpt next data_ length_)
      by (done || (cbn; exact Hq)).
    reflexivity.
Qed.

Lemma hid_read_after_set_nonblocking_witness :
  hid_read 110 (snd (hid_set_nonblocking new_hid_device 1)) [x00]%byte 1
    [ {| w_res := 0; w_input_reports := []; w_shutdown_thread := true |} ] =
    Ok {| bytes_read := 0; out_data := [x00]%byte;
          out_dev := set_blocking false new_hid_device; waits := [] |}.
Proof.
  apply (proj2 (proj2 (hid_read_after_set_nonblocking 110 new_hid_device 1
           [x00]%byte 1
           [ {| w_res := 0; w_input_reports := [];
                w_shutdown_thread := true |} ]
           ltac:(lia) ltac:(cbn; lia) ltac:(constructor)))).
Defined.

(** ** Reports over the control endpoint *)

Section ControlReportFacts.

Variables LIBUSB_REQUEST_TYPE_CLASS LIBUSB_RECIPIENT_INTERFACE
  LIBUSB_ENDPOINT_OUT LIBUSB_ENDPOINT_IN : Z.
Variable libusb_control_transfer : usb_call -> Z.
Variable libusb_control_transfer_in : usb_call -> Z * list byte.

(** libusb stores no more than it was asked for, and returns the number
    of bytes it stored. *)
Hypothesis received_fits :
  forall c,
    fst (libusb_control_transfer_in c) <= transfer_length c /\
    fst (libusb_control_transfer_in c)
      <= Z.of_nat (length (snd (libusb_control_transfer_in c))).

(** When libusb reports an error, what it stored before is no more than
    it was asked for. *)
Hypothesis stored_fits :
  forall c,
    fst (libusb_control_transfer_in c) < 0 -> 0 <= transfer_length c ->
    Z.of_nat (length (snd (libusb_control_transfer_in c)))
    <= transfer_length c.



(** X6.  [hid_send_feature_report] sends the report with one Set_Report
    control transfer (report type 3): the bytes after the first when that
    is report ID 0, the whole buffer otherwise, whatever the quirk flags
    of the session say.  It returns the caller's length, as an [int], when
    libusb accepts the transfer and -1 otherwise.  The length given to the
    transfer is the number of these bytes cut to 16 bits, and there is no
    guard on [length]: up to 65535 bytes it is their number; from 65536
    bytes on it is less (65536 bytes with an ID other than 0 are sent with
    length 0, and 65536 is still returned); and with [length] 0 and a
    first byte 0 it wraps to 65535. *)
Theorem hid_send_feature_report_transfer (dev : hid_device) (b : byte)
    (rest : list byte) (length_ : Z) :
  0 <= length_ < 2 ^ 64 ->
  let id_0 := byte_val b =? 0 in
  let payload := if id_0 then length_ - 1 else length_ in
  let call :=
    Control_transfer
      (Z.lor (Z.lor LIBUSB_REQUEST_TYPE_CLASS LIBUSB_RECIPIENT_INTERFACE)
         LIBUSB_ENDPOINT_OUT)
      0x09 (Z.lor 0x300 (byte_val b)) (interface dev)
      (if id_0 then rest else b :: rest) (u16 payload) 1000 in
  hid_send_feature_report LIBUSB_REQUEST_TYPE_CLASS
    LIBUSB_RECIPIENT_INTERFACE LIBUSB_ENDPOINT_OUT libusb_control_transfer
    dev (b :: rest) length_ =
  Ok (if libusb_control_transfer call <? 0 then -1 else to_int length_,
      [call]) /\
  (0 <= payload <= 65535 -> u16 payload = payload) /\
  (length_ <= INT_MAX -> to_int length_ = length_) /\
  (65536 <= payload -> u16 payload < payload) /\
  (length_ = 65536 -> id_0 = false ->
   u16 payload = 0 /\ to_int length_ = 65536) /\
  (length_ = 0 -> id_0 = true -> u16 payload = 65535).
Proof.
  intros Hlen. cbv zeta. split.
  - unfold hid_send_feature_report.
    change (index (b :: rest) 0) with (Ok b).
    cbn [mbind res_mbind res_bind]. change (Z.shiftl 3 8) with 0x300.
    destruct (byte_val b =? 0).
    + cbn [drop]. rewrite drop_0.
      assert (Hcut : u16 (usize (length_ - 1)) = u16 (length_ - 1)).
      { unfold u16, usize. apply Z.mod_mod_divide.
        exists (2 ^ 48). reflexivity. }
      rewrite Hcut.
      assert (Hback : usize (usize (length_ - 1) + 1) = length_).
      { unfold usize. rewrite Zplus_mod_idemp_l.
        replace (length_ - 1 + 1) with length_ by lia.
        apply Z.mod_small. lia. }
      rewrite Hback. destruct (_ <? 0); reflexivity.
    + destruct (_ <? 0); reflexivity.
  - split; [intros H; by apply u16_small; lia|].
    split; [intros H; apply to_int_small; lia|].
    split.
    { intros H. unfold u16.
      pose proof (Z.mod_pos_bound
                    (if byte_val b =? 0 then length_ - 1 else length_)
                    (2 ^ 16) ltac:(lia)). lia. }
    split.
    { intros -> ->. split; reflexivity. }
    intros -> ->. reflexivity.
Qed.

End ControlReportFacts.


(** A 3-byte feature report with ID 2 that libusb accepts. *)
Lemma hid_send_feature_report_transfer_witness :
  hid_send_feature_report 0x20 0x01 0x00 (fun _ => 3) new_hid_device
    [x02; x10; x20]%byte 3 =
  Ok (3, [Control_transfer 0x21 0x09 0x302 0 [x02; x10; x20]%byte 3 1000]).
Proof.
  apply (proj1 (hid_send_feature_report_transfer 0x20 0x01 0x00 (fun _ => 3)
                  new_hid_device x02 [x10; x20]%byte 3 ltac:(lia))).
Defined.

(** ** Strings handed to the caller *)

(** The wide string of a buffer whose first zero is at index [k]. *)
Lemma wcs_first_zero (buf : list Z) :
  forall k : nat,
    Forall (fun c => c <> 0) (take k buf) -> buf !! k = Some 0 ->
    wcs buf = take k buf.
Proof.
  induction buf as [|c rest IH]; intros k Hnz Hzero; [by destruct k|].
  destruct k as [|k]; cbn in *.
  - injection Hzero as ->. reflexivity.
  - apply Forall_cons_1 in Hnz as [Hc Hnz].
    destruct (Z.eqb_spec c 0); [contradiction|]. f_equal. by apply IH.
Qed.

(** X7.  [hid_get_indexed_string] with a buffer of at least [maxlen >= 1]
    wide characters: when the device has the string, the call returns 0
    and the buffer holds the string cut to [maxlen - 1] characters and
    terminated by a zero; what lies beyond [maxlen] is untouched.  When
    the string is not available the call returns -1 and leaves the buffer
    alone.  With [maxlen] 0 the terminator is stored outside the buffer. *)
Theorem hid_get_indexed_string_terminated
    (get_usb_string : Z -> option wstring) (string_index : Z)
    (string_ : list Z) (maxlen : Z) :
  1 <= maxlen <= Z.of_nat (length string_) ->
  Z.of_nat (length string_) < 2 ^ 64 ->
  (forall str, get_usb_string string_index = Some str ->
     Forall (fun c => c <> 0) str ->
     exists buf,
       hid_get_indexed_string get_usb_string string_index string_ maxlen
         = Ok (0, buf) /\
       wcs buf = take (Z.to_nat (maxlen - 1)) str /\
       length buf = length string_ /\
       drop (Z.to_nat maxlen) buf = drop (Z.to_nat maxlen) string_ /\
       hid_get_indexed_string get_usb_string string_index string_ 0
         = Fault) /\
  (get_usb_string string_index = None ->
   hid_get_indexed_string get_usb_string string_index string_ maxlen
     = Ok (-1, string_)).
Proof.
  intros Hlen Hsz. split; [|intros Hnone; unfold hid_get_indexed_string;
                            by rewrite Hnone].
  intros str Hstr Hnz. unfold hid_get_indexed_string. rewrite Hstr.
  unfold wcsncpy.
  destruct (Z.leb_spec 0 maxlen); [|lia].
  destruct (Z.leb_spec maxlen (Z.of_nat (length string_))); [|lia].
  cbn [andb mbind res_mbind res_bind].
  rewrite usize_small by lia.
  set (n := Z.to_nat maxlen).
  set (copied := take n (str ++ replicate n 0) ++ drop n string_).
  assert (Hsize : length copied = length string_).
  { unfold copied. rewrite length_app, length_take, length_app,
      length_replicate, length_drop. lia. }
  unfold store. rewrite Hsize.
  destruct (Z.leb_spec 0 (maxlen - 1)); [|lia].
  destruct (Z.ltb_spec (maxlen - 1) (Z.of_nat (length string_))); [|lia].
  cbn [andb mbind res_mbind res_bind].
  eexists. split; [reflexivity|].
  set (m := Z.to_nat (maxlen - 1)).
  assert (Hn : n = S m) by lia.
  split; [|split; [|split]].
  - set (k := Nat.min (length str) m).
    assert (Hk : take m str = take k str).
    { unfold k. destruct (Nat.min_spec (length str) m) as [[? ->]|[? ->]];
        [|reflexivity]. by rewrite !take_ge by lia. }
    rewrite Hk.
    assert (Hprefix : take k (<[m:=0]> copied) = take k str).
    { rewrite take_insert_ge by (unfold k; lia).
      unfold copied. rewrite take_app_le
        by (rewrite length_take, length_app, length_replicate;
            unfold k; lia).
      rewrite take_take, take_app_le by (unfold k; lia).
      f_equal. unfold k. lia. }
    rewrite (wcs_first_zero _ k).
    + exact Hprefix.
    + rewrite Hprefix. by apply Forall_take.
    + destruct (decide (k = m)) as [->|Hne].
      * apply list_lookup_insert_eq. lia.
      * rewrite list_lookup_insert_ne by done.
        assert (length str < m)%nat by (unfold k in *; lia).
        unfold copied. rewrite lookup_app_l
          by (rewrite length_take, length_app, length_replicate; lia).
        rewrite lookup_take_lt by lia.
        rewrite lookup_app_r by (unfold k; lia).
        apply lookup_replicate. split; [reflexivity|]. unfold k. lia.
  - by rewrite length_insert.
  - rewrite drop_insert_lt by lia. unfold copied.
    rewrite drop_app_ge
      by (rewrite length_take, length_app, length_replicate; lia).
    rewrite length_take, length_app, length_replicate, drop_drop.
    f_equal. lia.
  - change (0 <=? 0) with true. cbn [andb].
    destruct (Z.leb_spec 0 (Z.of_nat (length string_))); [|lia].
    cbn [mbind res_mbind res_bind].
    change (usize (0 - 1)) with (2 ^ 64 - 1).
    change (take (Z.to_nat 0) (str ++ replicate (Z.to_nat 0) 0) ++
            drop (Z.to_nat 0) string_) with string_.
    destruct (Z.ltb_spec (2 ^ 64 - 1) (Z.of_nat (length string_)));
      [lia|]. by rewrite andb_false_r.
Qed.

(** "Gamepad" asked for with room for 4 wide characters. *)
Lemma hid_get_indexed_string_terminated_witness :
  exists buf,
    hid_get_indexed_string (fun _ => Some [71; 97; 109; 101; 112; 97; 100])
      2 [1; 1; 1; 1; 1; 1] 4 = Ok (0, buf) /\
    wcs buf = [71; 97; 109].
Proof.
  destruct (proj1 (hid_get_indexed_string_terminated
                     (fun _ => Some [71; 97; 109; 101; 112; 97; 100])
                     2 [1; 1; 1; 1; 1; 1] 4 ltac:(cbn; lia) ltac:(cbn; lia))
              [71; 97; 109; 101; 112; 97; 100] eq_refl
              ltac:(repeat constructor; lia))
    as (buf & Hrun & Hwcs & _).
  exists buf. by split.
Defined.

(** ** Fetching the report descriptor *)

Section ReportDescriptorFacts.

Variables LIBUSB_RECIPIENT_INTERFACE LIBUSB_ENDPOINT_IN
  LIBUSB_REQUEST_GET_DESCRIPTOR LIBUSB_DT_REPORT
  HID_API_MAX_REPORT_DESCRIPTOR_SIZE : Z.
Variable libusb_control_transfer_in : usb_call -> Z * list byte.

Hypothesis max_size : 0 <= HID_API_MAX_REPORT_DESCRIPTOR_SIZE < 2 ^ 16.

(** libusb stores no more than it was asked for, and returns the number
    of bytes it stored. *)
Hypothesis received_fits :
  forall c,
    fst (libusb_control_transfer_in c) <= transfer_length c /\
    fst (libusb_control_transfer_in c)
      <= Z.of_nat (length (snd (libusb_control_transfer_in c))).

Local Abbreviation get_descriptor :=
  (hid_get_report_descriptor_libusb LIBUSB_RECIPIENT_INTERFACE
     LIBUSB_ENDPOINT_IN libusb_control_transfer_in
     LIBUSB_REQUEST_GET_DESCRIPTOR LIBUSB_DT_REPORT
     HID_API_MAX_REPORT_DESCRIPTOR_SIZE).

Lemma hid_get_report_descriptor_libusb_spec (interface_num expected : Z)
    (buf : list byte) (buf_size : Z) :
  0 <= expected < 2 ^ 16 ->
  0 <= buf_size <= Z.of_nat (length buf) -> buf_size <= INT_MAX ->
  let call :=
    Control_transfer (Z.lor LIBUSB_ENDPOINT_IN LIBUSB_RECIPIENT_INTERFACE)
      LIBUSB_REQUEST_GET_DESCRIPTOR (Z.shiftl LIBUSB_DT_REPORT 8)
      (u16 interface_num)
      (replicate (Z.to_nat HID_API_MAX_REPORT_DESCRIPTOR_SIZE) x00)
      (Z.min expected HID_API_MAX_REPORT_DESCRIPTOR_SIZE) 5000 in
  let res_ := fst (libusb_control_transfer_in call) in
  let received := snd (libusb_control_transfer_in call) in
  let n := Z.min res_ buf_size in
  get_descriptor interface_num expected buf buf_size =
    Ok (if res_ <? 0 then res_ else n,
        if res_ <? 0 then buf
        else take (Z.to_nat n) received ++ drop (Z.to_nat n) buf,
        [call]).
Proof using max_size received_fits.
  intros Hexp Hsize Hint. cbv zeta. unfold hid_get_report_descriptor_libusb.
  assert (Hwant : (if HID_API_MAX_REPORT_DESCRIPTOR_SIZE <? expected
                   then u16 HID_API_MAX_REPORT_DESCRIPTOR_SIZE else expected)
                  = Z.min expected HID_API_MAX_REPORT_DESCRIPTOR_SIZE).
  { destruct (Z.ltb_spec HID_API_MAX_REPORT_DESCRIPTOR_SIZE expected);
      [rewrite u16_small by lia|]; lia. }
  rewrite Hwant.
  set (call := Control_transfer _ _ _ _ _ _ _).
  destruct (received_fits call) as [Hfit Hgot].
  cbn [transfer_length call] in Hfit.
  destruct (libusb_control_transfer_in call) as [res_ received] eqn:Hcall.
  cbn [fst snd] in *.
  destruct (Z.leb_spec 0 res_) as [Hok_|Herr];
    destruct (Z.ltb_spec res_ 0); try lia; [|reflexivity].
  unfold memcpy at 2. rewrite length_replicate.
  destruct (Z.leb_spec 0 res_); [|lia].
  destruct (Z.leb_spec res_
              (Z.of_nat (Z.to_nat HID_API_MAX_REPORT_DESCRIPTOR_SIZE)));
    [|lia].
  destruct (Z.leb_spec res_ (Z.of_nat (length received))); [|lia].
  cbn [andb mbind res_mbind res_bind].
  rewrite (to_int_small buf_size) by lia.
  assert (Hn : (if buf_size <? res_ then buf_size else res_)
               = Z.min res_ buf_size).
  { destruct (Z.ltb_spec buf_size res_); lia. }
  rewrite Hn. set (n := Z.min res_ buf_size).
  rewrite (usize_small n) by (unfold n, INT_MAX in *; lia).
  unfold memcpy.
  rewrite length_app, length_take, length_drop, length_replicate.
  destruct (Z.leb_spec 0 n); [|unfold n; lia].
  destruct (Z.leb_spec n (Z.of_nat (length buf))); [|unfold n; lia].
  destruct (Z.leb_spec n
              (Z.of_nat (Z.to_nat res_ `min` length received +
                         (Z.to_nat HID_API_MAX_REPORT_DESCRIPTOR_SIZE -
                          Z.to_nat res_)))); [|unfold n in *; lia].
  cbn [andb mbind res_mbind res_bind]. f_equal. f_equal. f_equal. f_equal.
  rewrite take_app_le by (rewrite length_take; unfold n in *; lia).
  rewrite take_take. f_equal. unfold n. lia.
Qed.


(** X9.  [fill_device_info_usage] on what the device sends: whatever the
    bytes and whatever their number, the parser is given a size within
    the descriptor buffer, reads inside it and returns; the other fields
    of the record are kept, and when the descriptor cannot be fetched the
    usage page and the usage are 0. *)
Theorem fill_device_info_usage_from_device_returns
    (cur_dev : hid_device_info) (interface_num expected : Z) :
  0 <= expected < 2 ^ 16 ->
  exists d call,
    fill_device_info_usage_from_device LIBUSB_RECIPIENT_INTERFACE
      LIBUSB_ENDPOINT_IN libusb_control_transfer_in
      LIBUSB_REQUEST_GET_DESCRIPTOR LIBUSB_DT_REPORT
      HID_API_MAX_REPORT_DESCRIPTOR_SIZE cur_dev interface_num expected
    = Ok (d, [call]) /\
    vendor_id d = vendor_id cur_dev /\ product_id d = product_id cur_dev /\
    interface_number d = interface_number cur_dev /\
    (fst (libusb_control_transfer_in call) < 0 ->
     usage_page d = 0 /\ usage d = 0).
Proof using max_size received_fits.
  intros Hexp. unfold fill_device_info_usage_from_device.
  set (buf := replicate _ x00).
  assert (Hbuf : Z.of_nat (length buf) = HID_API_MAX_REPORT_DESCRIPTOR_SIZE).
  { unfold buf. rewrite length_replicate. lia. }
  rewrite (hid_get_report_descriptor_libusb_spec interface_num expected buf
             HID_API_MAX_REPORT_DESCRIPTOR_SIZE)
    by (unfold INT_MAX; lia).
  cbv zeta. set (call := Control_transfer _ _ _ _ _ _ _).
  destruct (received_fits call) as [Hfit Hgot].
  cbn [transfer_length call] in Hfit.
  set (res_ := fst (libusb_control_transfer_in call)) in *.
  cbn [mbind res_mbind res_bind]. unfold fill_device_info_usage.
  destruct (Z.ltb_spec res_ 0) as [Herr|Hok_].
  - destruct (Z.leb_spec 0 res_); [lia|].
    cbn. eexists _, call. by repeat split.
  - set (n := Z.min res_ HID_API_MAX_REPORT_DESCRIPTOR_SIZE).
    destruct (Z.leb_spec 0 n); [|unfold n; lia].
    set (rpt := _ ++ drop _ buf).
    assert (Hrpt : n <= Z.of_nat (length rpt)).
    { unfold rpt. rewrite length_app, length_take, length_drop.
      unfold n in *. lia. }
    destruct (get_usage_loop_spec rpt n Hrpt (S (Z.to_nat n))
                (scan_init 0 0))
      as (ret & st & Hloop & _); [unfold n; lia|cbn; lia|cbn; lia|done|].
    unfold get_usage. rewrite Hloop. cbn.
    eexists _, call. repeat split; intros; lia.
Qed.

End ReportDescriptorFacts.


(** A device that sends a Usage Page item and nothing else. *)
Lemma fill_device_info_usage_from_device_returns_witness :
  exists d call,
    fill_device_info_usage_from_device 0x01 0x80
      (fun c => (Z.min 2 (transfer_length c), [x05; x01]%byte))
      0x06 0x22 4096
      {| vendor_id := 0x045e; product_id := 0x028e; interface_number := 0;
         usage_page := 0; usage := 0 |} 0 34
    = Ok (d, [call]) /\
    vendor_id d = 0x045e.
Proof.
  destruct (fill_device_info_usage_from_device_returns 0x01 0x80 0x06 0x22
              4096
              (fun c => (Z.min 2 (transfer_length c), [x05; x01]%byte))
              ltac:(lia) ltac:(intros c; cbn; lia)
              {| vendor_id := 0x045e; product_id := 0x028e;
                 interface_number := 0; usage_page := 0; usage := 0 |}
              0 34 ltac:(lia))
    as (d & call & Hrun & Hvid & _).
  exists d, call. by split.
Defined.

(** ** The HID class descriptor *)

Lemma index_lt {A : Type} (buf : list A) (i : Z) :
  0 <= i < Z.of_nat (length buf) -> exists b, index buf i = Ok b.
Proof.
  intros Hi. unfold index.
  destruct (Z.ltb_spec i 0); [lia|].
  destruct (buf !! Z.to_nat i) eqn:Hb; [by eexists|].
  apply lookup_ge_None in Hb. lia.
Qed.

Lemma index_lookup {A : Type} (buf : list A) (i : nat) (b : A) :
  buf !! i = Some b -> index buf (Z.of_nat i) = Ok b.
Proof.
  intros Hb. unfold index.
  destruct (Z.ltb_spec (Z.of_nat i) 0); [lia|].
  by rewrite Nat2Z.id, Hb.
Qed.

Lemma u16_range (z : Z) : 0 <= u16 z < 2 ^ 16.
Proof. unfold u16. apply Z.mod_pos_bound. lia. Qed.

Lemma report_length_value (hi lo : byte) :
  u16 (Z.lor (Z.shiftl (u16 (byte_val hi)) 8) (byte_val lo))
  = byte_val hi * 256 + byte_val lo.
Proof.
  pose proof (byte_val_range hi). pose proof (byte_val_range lo).
  rewrite (u16_small (byte_val hi)) by lia.
  assert (Hor : Z.lor (Z.shiftl (byte_val hi) 8) (byte_val lo)
                = byte_val hi * 256 + byte_val lo).
  { rewrite <- Z.add_nocarry_lor.
    - rewrite Z.shiftl_mul_pow2 by lia. reflexivity.
    - apply Z.bits_inj'. intros n Hn.
      rewrite Z.land_spec, Z.bits_0.
      destruct (Z.ltb_spec n 8).
      + rewrite Z.shiftl_spec_low by lia. reflexivity.
      + assert (Z.testbit (byte_val lo) n = false) as ->;
          [|apply andb_false_r].
        destruct (Z.eqb_spec (byte_val lo) 0) as [->|];
          [apply Z.bits_0|].
        apply Z.bits_above_log2; [lia|].
        assert (Z.log2 (byte_val lo) < 8); [|lia].
        apply Z.log2_lt_pow2; lia. }
  rewrite Hor. apply u16_small. lia.
Qed.

Section HidClassDescriptor.

Variables LIBUSB_DT_HID LIBUSB_DT_REPORT
  HID_API_MAX_REPORT_DESCRIPTOR_SIZE : Z.

Local Abbreviation entry := (report_descriptor_entry LIBUSB_DT_REPORT).
Local Abbreviation size_loop :=
  (descriptor_size_loop LIBUSB_DT_HID LIBUSB_DT_REPORT).

(** The inner loop stays inside the bytes the outer loop has checked, and
    ends. *)
Lemma report_descriptor_entry_returns (extra : list byte) (n : Z) :
  6 + 3 * n <= Z.of_nat (length extra) ->
  forall fuel i, 0 <= i -> (Z.to_nat (n - i) < fuel)%nat ->
    exists found, entry fuel extra n i = Ok found /\
      forall r, found = Some r -> 0 <= r < 2 ^ 16.
Proof.
  intros Hlen. induction fuel as [|fuel IH]; intros i Hi Hfuel; [lia|].
  cbn [report_descriptor_entry].
  destruct (Z.ltb_spec i n) as [Hin|Hin]; [|by exists None].
  destruct (index_lt extra (6 + 3 * i)) as [t ->]; [lia|].
  destruct (index_lt extra (6 + 3 * i + 2)) as [hi ->]; [lia|].
  destruct (index_lt extra (6 + 3 * i + 1)) as [lo ->]; [lia|].
  cbn [mbind res_mbind res_bind].
  destruct (byte_val t =? LIBUSB_DT_REPORT).
  - eexists. split; [reflexivity|]. intros r [= <-]. apply u16_range.
  - apply IH; lia.
Qed.

Lemma descriptor_size_loop_returns :
  forall fuel extra extra_length result,
    extra_length <= Z.of_nat (length extra) ->
    (Z.to_nat extra_length < fuel)%nat ->
    0 <= result < 2 ^ 16 ->
    exists r, size_loop fuel extra extra_length result = Ok r /\
              0 <= r < 2 ^ 16.
Proof.
  induction fuel as [|fuel IH]; intros extra len result Hlen Hfuel Hres;
    [lia|].
  cbn [descriptor_size_loop].
  destruct (Z.leb_spec 2 len) as [H2|H2]; [|by exists result].
  destruct (index_lt extra 1) as [t ->]; [lia|].
  cbn [mbind res_mbind res_bind].
  destruct (byte_val t =? LIBUSB_DT_HID).
  - destruct (Z.ltb_spec len 6) as [H6|H6]; [by exists result|].
    destruct (index_lt extra 5) as [b ->]; [lia|].
    cbn [mbind res_mbind res_bind].
    pose proof (byte_val_range b) as Hb.
    destruct (Z.ltb_spec len (6 + 3 * byte_val b)) as [Hn|Hn];
      [by exists result|].
    destruct (report_descriptor_entry_returns extra (byte_val b)
                ltac:(lia) (S (Z.to_nat (byte_val b))) 0 ltac:(lia)
                ltac:(lia)) as (found & -> & Hfound).
    cbn [mbind res_mbind res_bind].
    destruct found as [r|]; [|by exists result].
    exists r. split; [done|]. by apply Hfound.
  - destruct (index_lt extra 0) as [l ->]; [lia|].
    cbn [mbind res_mbind res_bind].
    pose proof (byte_val_range l) as Hl.
    destruct (Z.eqb_spec (byte_val l) 0) as [Hz|Hz]; [by exists result|].
    apply IH; [rewrite length_drop; lia|lia|done].
Qed.

(** X10.  [get_report_descriptor_size_from_interface_descriptors] on any
    bytes: when [extra_length] is no more than the size of [extra], the
    scan reads inside [extra] only and ends (a descriptor of length 0
    stops it), and the size it returns fits 16 bits. *)
Theorem get_report_descriptor_size_returns (extra : list byte)
    (extra_length : Z) :
  extra_length <= Z.of_nat (length extra) ->
  exists r,
    get_report_descriptor_size_from_interface_descriptors LIBUSB_DT_HID
      LIBUSB_DT_REPORT HID_API_MAX_REPORT_DESCRIPTOR_SIZE extra extra_length
    = Ok r /\
    0 <= r < 2 ^ 16.
Proof.
  intros Hlen.
  apply descriptor_size_loop_returns; [done|lia|apply u16_range].
Qed.

(** The loop steps over a descriptor of another type. *)
Lemma descriptor_size_loop_skip (fuel : nat) (d rest : list byte)
    (extra_length result : Z) :
  other_descriptor LIBUSB_DT_HID d ->
  Z.of_nat (length d) <= extra_length ->
  size_loop (S fuel) (d ++ rest) extra_length result =
  size_loop fuel rest (extra_length - Z.of_nat (length d)) result.
Proof.
  intros (l & t & tl & -> & Hl & Ht) Hlen.
  cbn [descriptor_size_loop].
  cbn [length] in *.
  destruct (Z.leb_spec 2 extra_length); [|lia].
  change (index ((l :: t :: tl) ++ rest) 1) with (Ok t).
  change (index ((l :: t :: tl) ++ rest) 0) with (Ok l).
  cbn [mbind res_mbind res_bind].
  destruct (Z.eqb_spec (byte_val t) LIBUSB_DT_HID); [done|].
  destruct (Z.eqb_spec (byte_val l) 0); [lia|].
  rewrite Hl. f_equal.
  rewrite Nat2Z.id. simpl. by rewrite drop_app_length.
Qed.

Lemma descriptor_size_loop_skip_all (before : list (list byte)) :
  Forall (other_descriptor LIBUSB_DT_HID) before ->
  forall fuel rest extra_length result,
    Z.of_nat (length (concat before)) <= extra_length ->
    size_loop (length before + fuel) (concat before ++ rest) extra_length
      result =
    size_loop fuel rest (extra_length - Z.of_nat (length (concat before)))
      result.
Proof.
  induction 1 as [|d before Hd _ IH]; intros fuel rest len result Hlen.
  - cbn. f_equal. lia.
  - cbn [concat length Nat.add] in *. rewrite length_app in Hlen.
    rewrite <- app_assoc, descriptor_size_loop_skip by (done || lia).
    rewrite IH by lia. f_equal. rewrite length_app. lia.
Qed.

Lemma descriptor_entries_lookup (entries : list (byte * byte * byte))
    (k : nat) (t lo hi : byte) (header rest : list byte) :
  entries !! k = Some (t, lo, hi) ->
  let extra := header ++ descriptor_entries entries ++ rest in
  let at_ := Z.of_nat (length header) + 3 * Z.of_nat k in
  index extra at_ = Ok t /\
  index extra (at_ + 1) = Ok lo /\
  index extra (at_ + 2) = Ok hi.
Proof.
  revert k header. induction entries as [|[[t' lo'] hi'] entries IH];
    intros k header Hk; [done|].
  destruct k as [|k].
  - injection Hk as -> -> ->. cbn zeta.
    replace (Z.of_nat (length header) + 3 * Z.of_nat 0)
      with (Z.of_nat (length header)) by lia.
    replace (Z.of_nat (length header) + 1)
      with (Z.of_nat (length header + 1)) by lia.
    replace (Z.of_nat (length header) + 2)
      with (Z.of_nat (length header + 2)) by lia.
    repeat split; apply index_lookup;
      rewrite lookup_app_r by lia;
      [replace (length header - length header)%nat with 0%nat by lia
      |replace (length header + 1 - length header)%nat with 1%nat by lia
      |replace (length header + 2 - length header)%nat with 2%nat by lia];
      reflexivity.
  - cbn zeta. cbn [lookup list_lookup] in Hk.
    specialize (IH k (header ++ [t'; lo'; hi']) Hk). cbn zeta in IH.
    rewrite length_app in IH. cbn [length] in IH.
    replace (Z.of_nat (length header + 3) + 3 * Z.of_nat k)
      with (Z.of_nat (length header) + 3 * Z.of_nat (S k)) in IH by lia.
    rewrite <- app_assoc in IH. exact IH.
Qed.

(** The inner loop returns the length of the first Report entry. *)
Lemma report_descriptor_entry_first (header rest : list byte)
    (before after : list (byte * byte * byte)) (t lo hi : byte) (n : Z) :
  length header = 6%nat ->
  Forall (fun e => byte_val e.1.1 <> LIBUSB_DT_REPORT) before ->
  byte_val t = LIBUSB_DT_REPORT ->
  Z.of_nat (length before) < n ->
  let extra :=
    header ++ descriptor_entries (before ++ (t, lo, hi) :: after) ++ rest in
  forall fuel i,
    (i <= length before)%nat -> (length before - i < fuel)%nat ->
    entry fuel extra n (Z.of_nat i)
    = Ok (Some (byte_val hi * 256 + byte_val lo)).
Proof.
  intros Hheader Hbefore Ht Hn extra.
  induction fuel as [|fuel IH]; intros i Hi Hfuel; [lia|].
  cbn [report_descriptor_entry].
  destruct (Z.ltb_spec (Z.of_nat i) n); [|lia].
  destruct (decide (i = length before)) as [->|Hne].
  - destruct (descriptor_entries_lookup
                (before ++ (t, lo, hi) :: after) (length before) t lo hi
                header rest) as (Ht' & Hlo & Hhi).
    { by rewrite list_lookup_middle. }
    rewrite Hheader in *. fold extra in Ht', Hlo, Hhi.
    change (Z.of_nat 6) with 6 in *.
    rewrite Ht', Hhi, Hlo. cbn [mbind res_mbind res_bind].
    destruct (Z.eqb_spec (byte_val t) LIBUSB_DT_REPORT); [|done].
    by rewrite report_length_value.
  - destruct (lookup_lt_is_Some_2 before i) as [[[t' lo'] hi'] He]; [lia|].
    destruct (descriptor_entries_lookup
                (before ++ (t, lo, hi) :: after) i t' lo' hi'
                header rest) as (Ht' & Hlo & Hhi).
    { by rewrite lookup_app_l by lia. }
    rewrite Hheader in *. fold extra in Ht', Hlo, Hhi.
    change (Z.of_nat 6) with 6 in *.
    rewrite Ht', Hhi, Hlo. cbn [mbind res_mbind res_bind].
    rewrite Forall_lookup in Hbefore. specialize (Hbefore _ _ He).
    cbn in Hbefore.
    destruct (Z.eqb_spec (byte_val t') LIBUSB_DT_REPORT); [done|].
    replace (Z.of_nat i + 1) with (Z.of_nat (S i)) by lia.
    apply IH; lia.
Qed.

(** X11.  [get_report_descriptor_size_from_interface_descriptors] on
    well-formed bytes: after any descriptors of other types, the first
    descriptor of type [LIBUSB_DT_HID] decides.  If its [bNumDescriptors]
    entries lie within [extra_length], the result is the
    [wDescriptorLength] (low byte first) of the first entry of type
    [LIBUSB_DT_REPORT]; the [bLength] of the HID descriptor itself is not
    looked at, and neither is anything after that entry. *)
Theorem get_report_descriptor_size_of_hid_descriptor
    (descriptors : list (list byte))
    (bLength bDescriptorType bcdHID_lo bcdHID_hi bCountryCode
       bNumDescriptors : byte)
    (before after : list (byte * byte * byte)) (t lo hi : byte)
    (rest : list byte) (extra_length : Z) :
  Forall (other_descriptor LIBUSB_DT_HID) descriptors ->
  byte_val bDescriptorType = LIBUSB_DT_HID ->
  Forall (fun e => byte_val e.1.1 <> LIBUSB_DT_REPORT) before ->
  byte_val t = LIBUSB_DT_REPORT ->
  Z.of_nat (length before) < byte_val bNumDescriptors ->
  let header :=
    [bLength; bDescriptorType; bcdHID_lo; bcdHID_hi; bCountryCode;
     bNumDescriptors] in
  let extra :=
    concat descriptors ++
    header ++ descriptor_entries (before ++ (t, lo, hi) :: after) ++ rest in
  Z.of_nat (length (concat descriptors)) + 6 + 3 * byte_val bNumDescriptors
    <= extra_length ->
  get_report_descriptor_size_from_interface_descriptors LIBUSB_DT_HID
    LIBUSB_DT_REPORT HID_API_MAX_REPORT_DESCRIPTOR_SIZE extra extra_length
  = Ok (byte_val hi * 256 + byte_val lo).
Proof.
  intros Hdescs Hhid Hbefore Ht Hn header extra Hlen.
  pose proof (byte_val_range bNumDescriptors) as Hnum.
  unfold get_report_descriptor_size_from_interface_descriptors.
  assert (Hsteps : (length descriptors
                    <= length (concat descriptors))%nat).
  { clear -Hdescs. induction Hdescs as [|d ds (l & t & tl & -> & _) _ IH];
      [done|]. cbn [concat length] in *. rewrite length_app. cbn. lia. }
  replace (S (Z.to_nat extra_length))
    with (length descriptors +
          S (Z.to_nat extra_length - length descriptors))%nat by lia.
  unfold extra.
  rewrite descriptor_size_loop_skip_all by (done || lia).
  cbn [descriptor_size_loop].
  destruct (Z.leb_spec 2 (extra_length
                          - Z.of_nat (length (concat descriptors))));
    [|lia].
  change (index (header ++ _) 1) with (Ok bDescriptorType).
  cbn [mbind res_mbind res_bind].
  destruct (Z.eqb_spec (byte_val bDescriptorType) LIBUSB_DT_HID); [|done].
  destruct (Z.ltb_spec (extra_length
                        - Z.of_nat (length (concat descriptors))) 6);
    [lia|].
  change (index (header ++ _) 5) with (Ok bNumDescriptors).
  cbn [mbind res_mbind res_bind].
  destruct (Z.ltb_spec (extra_length
                        - Z.of_nat (length (concat descriptors)))
              (6 + 3 * byte_val bNumDescriptors)); [lia|].
  pose proof (report_descriptor_entry_first header rest before after t lo
                hi (byte_val bNumDescriptors) eq_refl Hbefore Ht Hn
                (S (Z.to_nat (byte_val bNumDescriptors))) 0%nat
                ltac:(lia) ltac:(lia)) as Hentry.
  change (Z.of_nat 0) with 0 in Hentry. rewrite Hentry.
  reflexivity.
Qed.

End HidClassDescriptor.

(** A string descriptor of two bytes, then a descriptor of length 0. *)
Lemma get_report_descriptor_size_returns_witness :
  exists r,
    get_report_descriptor_size_from_interface_descriptors 0x21 0x22 4096
      [x02; x03; x00; x21; x00]%byte 5 = Ok r /\ 0 <= r < 2 ^ 16.
Proof.
  apply (get_report_descriptor_size_returns 0x21 0x22 4096
           [x02; x03; x00; x21; x00]%byte 5).
  cbn. lia.
Defined.

(** An endpoint-like descriptor of 7 bytes, then a HID descriptor with a
    Physical entry and a Report entry of 0x0145 bytes. *)
Lemma get_report_descriptor_size_of_hid_descriptor_witness :
  get_report_descriptor_size_from_interface_descriptors 0x21 0x22 4096
    ([x07; x05; x81; x03; x40; x00; x0a] ++
     [x0c; x21; x11; x01; x00; x02] ++
     descriptor_entries ([(x23, x10, x00)] ++ (x22, x45, x01) :: []) ++ [])%byte
    19
  = Ok (byte_val x01 * 256 + byte_val x45).
Proof.
  apply (get_report_descriptor_size_of_hid_descriptor 0x21 0x22 4096
           [[x07; x05; x81; x03; x40; x00; x0a]%byte]
           x0c x21 x11 x01 x00 x02 [(x23, x10, x00)] [] x22 x45 x01 [] 19).
  - constructor; [|constructor].
    exists x07, x05, [x81; x03; x40; x00; x0a]%byte.
    split; [reflexivity|split; [reflexivity|vm_compute; congruence]].
  - reflexivity.
  - constructor; [vm_compute; congruence|constructor].
  - reflexivity.
  - vm_compute. reflexivity.
  - vm_compute. congruence.
Defined.

(** ** Opening a device *)

Section OpenFacts.

Variables LIBUSB_CLASS_VENDOR_SPEC LIBUSB_DT_HID LIBUSB_DT_REPORT
  HID_API_MAX_REPORT_DESCRIPTOR_SIZE
  LIBUSB_TRANSFER_TYPE_MASK LIBUSB_TRANSFER_TYPE_INTERRUPT
  LIBUSB_ENDPOINT_DIR_MASK LIBUSB_ENDPOINT_OUT LIBUSB_ENDPOINT_IN : Z.
Variable libusb_kernel_driver_active : Z -> Z.
Variable libusb_detach_kernel_driver : Z -> Z.
Variable libusb_claim_interface : list usb_call -> Z -> Z.
Variable libusb_submit_transfer : Z.

Local Abbreviation step :=
  (find_endpoints LIBUSB_TRANSFER_TYPE_MASK LIBUSB_TRANSFER_TYPE_INTERRUPT
     LIBUSB_ENDPOINT_DIR_MASK LIBUSB_ENDPOINT_OUT LIBUSB_ENDPOINT_IN).
Local Abbreviation usable :=
  (usable_endpoint LIBUSB_TRANSFER_TYPE_MASK LIBUSB_TRANSFER_TYPE_INTERRUPT
     LIBUSB_ENDPOINT_DIR_MASK).
Local Abbreviation initialize :=
  (hidapi_initialize_device LIBUSB_CLASS_VENDOR_SPEC LIBUSB_DT_HID
     LIBUSB_DT_REPORT HID_API_MAX_REPORT_DESCRIPTOR_SIZE
     LIBUSB_TRANSFER_TYPE_MASK LIBUSB_TRANSFER_TYPE_INTERRUPT
     LIBUSB_ENDPOINT_DIR_MASK LIBUSB_ENDPOINT_OUT LIBUSB_ENDPOINT_IN
     libusb_kernel_driver_active libusb_detach_kernel_driver
     libusb_claim_interface libusb_submit_transfer).

(** One endpoint: a field that is not 0 is kept, and nothing else of the
    device changes. *)
Lemma find_endpoints_step (dev : hid_device) (usb : hid_device_usb)
    (ep : libusb_endpoint_descriptor) :
  let r := step (dev, usb) ep in
  output_endpoint r.1 =
    (if output_endpoint dev =? 0
     then if usable LIBUSB_ENDPOINT_OUT ep then bEndpointAddress ep else 0
     else output_endpoint dev) /\
  input_endpoint r.2 =
    (if input_endpoint usb =? 0
     then if usable LIBUSB_ENDPOINT_IN ep then bEndpointAddress ep else 0
     else input_endpoint usb) /\
  set_output_endpoint 0 r.1 = set_output_endpoint 0 dev /\
  set_input_endpoint 0 0 r.2 = set_input_endpoint 0 0 usb.
Proof.
  unfold find_endpoints, usable_endpoint. cbv zeta.
  destruct (Z.land (bmAttributes ep) LIBUSB_TRANSFER_TYPE_MASK
            =? LIBUSB_TRANSFER_TYPE_INTERRUPT);
    destruct (Z.land (bEndpointAddress ep) LIBUSB_ENDPOINT_DIR_MASK
              =? LIBUSB_ENDPOINT_OUT);
    destruct (Z.land (bEndpointAddress ep) LIBUSB_ENDPOINT_DIR_MASK
              =? LIBUSB_ENDPOINT_IN);
    destruct (Z.eqb_spec (output_endpoint dev) 0) as [Ho|Ho];
    destruct (Z.eqb_spec (input_endpoint usb) 0) as [Hi|Hi];
    destruct (Z.eqb_spec (bEndpointAddress ep) 0) as [Ha|Ha];
    cbn; repeat split; congruence.
Qed.

(** The loop over the endpoints: the first usable endpoint of each
    direction is chosen, and nothing else of the device changes. *)
Lemma find_endpoints_fold (eps : list libusb_endpoint_descriptor) :
  forall dev usb,
    let r := fold_left step eps (dev, usb) in
    output_endpoint r.1 =
      (if output_endpoint dev =? 0
       then first_endpoint (usable LIBUSB_ENDPOINT_OUT) eps
       else output_endpoint dev) /\
    input_endpoint r.2 =
      (if input_endpoint usb =? 0
       then first_endpoint (usable LIBUSB_ENDPOINT_IN) eps
       else input_endpoint usb) /\
    set_output_endpoint 0 r.1 = set_output_endpoint 0 dev /\
    set_input_endpoint 0 0 r.2 = set_input_endpoint 0 0 usb.
Proof.
  induction eps as [|ep eps IH]; intros dev usb.
  - cbn. unfold first_endpoint. cbn.
    destruct (Z.eqb_spec (output_endpoint dev) 0);
      destruct (Z.eqb_spec (input_endpoint usb) 0);
      repeat split; congruence.
  - cbn [fold_left]. cbv zeta.
    pose proof (find_endpoints_step dev usb ep) as Hstep.
    destruct (step (dev, usb) ep) as [dev1 usb1].
    destruct (IH dev1 usb1) as (Hout & Hin & Hdev & Husb).
    cbv zeta in *. cbn [fst snd] in Hstep.
    destruct Hstep as (Hout1 & Hin1 & Hdev1 & Husb1).
    rewrite Hout, Hin, Hdev, Husb, Hout1, Hin1.
    unfold first_endpoint in *. cbn [find].
    assert (Hnz : forall dir, usable dir ep = true ->
                              bEndpointAddress ep <> 0).
    { unfold usable_endpoint. intros dir H.
      apply andb_prop in H as [_ H]. apply negb_true_iff in H. lia. }
    pose proof (Hnz LIBUSB_ENDPOINT_OUT) as HnzO.
    pose proof (Hnz LIBUSB_ENDPOINT_IN) as HnzI.
    repeat split; try done.
    + destruct (Z.eqb_spec (output_endpoint dev) 0);
        destruct (usable LIBUSB_ENDPOINT_OUT ep);
        repeat match goal with
               | |- context [?x =? 0] => destruct (Z.eqb_spec x 0)
               end; try done; try lia.
    + destruct (Z.eqb_spec (input_endpoint usb) 0);
        destruct (usable LIBUSB_ENDPOINT_IN ep);
        repeat match goal with
               | |- context [?x =? 0] => destruct (Z.eqb_spec x 0)
               end; try done; try lia.
Qed.

(** A successful [hidapi_initialize_device], field by field. *)
Lemma hidapi_initialize_device_opened (dev : hid_device)
    (usb : hid_device_usb) (desc : libusb_device_descriptor)
    (intf_desc : libusb_interface_descriptor) (more : interface_endpoints)
    (conf_desc : libusb_config_descriptor) (bConfigurationValue : Z) :
  extra_length more <= Z.of_nat (length (extra more)) ->
  let n := bInterfaceNumber intf_desc in
  let active := libusb_kernel_driver_active n =? 1 in
  let xb360 :=
    negb (is_xbox360 LIBUSB_CLASS_VENDOR_SPEC (idVendor desc) intf_desc
          =? 0) in
  let xb1 :=
    negb (is_xboxone LIBUSB_CLASS_VENDOR_SPEC (idVendor desc) intf_desc
          =? 0) in
  let sony :=
    (idVendor desc =? VENDOR_SONY) &&
    ((idProduct desc =? PRODUCT_PS3_CONTROLLER) ||
     (idProduct desc =? PRODUCT_NAVIGATION_CONTROLLER)) in
  let failed := libusb_submit_transfer <? 0 in
  let calls :=
    Claim_interface n ::
    (if xb360 then init_xbox360 (idVendor desc) (idProduct desc) else []) in
  let calls :=
    if xb1
    then init_xboxone LIBUSB_CLASS_VENDOR_SPEC libusb_claim_interface
           (idVendor desc) (idProduct desc) conf_desc calls
    else calls in
  active && (libusb_detach_kernel_driver n <? 0) = false ->
  0 <= libusb_claim_interface [] n ->
  exists usb',
    initialize dev usb desc intf_desc more conf_desc bConfigurationValue =
      Ok (1,
          {| interface := n;
             output_endpoint :=
               first_endpoint (usable LIBUSB_ENDPOINT_OUT) (endpoint more);
             blocking := blocking dev;
             shutdown_thread := failed || shutdown_thread dev;
             transfer_loop_finished :=
               failed || transfer_loop_finished dev;
             skip_output_report_id := sony || skip_output_report_id dev;
             no_skip_output_report_id :=
               xb360 || no_skip_output_report_id dev;
             no_output_reports_on_intr_ep :=
               sony || no_output_reports_on_intr_ep dev;
             input_reports := input_reports dev;
             is_driver_detached := active |},
          usb',
          Kernel_driver_active n ::
          (if active then [Detach_kernel_driver n] else []) ++
          map Usb_call calls ++ [Thread_create; Barrier_wait]) /\
    input_endpoint usb' =
      first_endpoint (usable LIBUSB_ENDPOINT_IN) (endpoint more) /\
    0 <= report_descriptor_size usb' < 2 ^ 16.
Proof.
  intros Hextra n active xb360 xb1 sony failed calls0 calls Hdetach Hclaim.
  unfold hidapi_initialize_device. fold n. fold active.
  rewrite Hdetach.
  destruct (Z.ltb_spec (libusb_claim_interface [] n) 0); [lia|].
  destruct (descriptor_size_loop_returns LIBUSB_DT_HID LIBUSB_DT_REPORT
              (S (Z.to_nat (extra_length more))) (extra more)
              (extra_length more) (u16 HID_API_MAX_REPORT_DESCRIPTOR_SIZE)
              Hextra ltac:(lia) (u16_range _)) as (size & Hsize & Hrange).
  unfold get_report_descriptor_size_from_interface_descriptors.
  set (dev1 := if active then _ else _).
  set (st := if is_xbox360 _ _ _ =? 0 then _ else _).
  assert (Hst : st = (if xb360 then set_no_skip_output_report_id true dev1
                      else dev1,
                      Claim_interface n ::
                      (if xb360
                       then init_xbox360 (idVendor desc) (idProduct desc)
                       else []))).
  { unfold st, xb360.
    by destruct (is_xbox360 _ _ _ =? 0). }
  rewrite Hst. clear st Hst.
  rewrite Hsize. cbn [mbind res_mbind res_bind].
  match goal with
  | |- context [fold_left ?f ?eps (?d, ?u)] =>
      pose proof (find_endpoints_fold eps d u) as Hfold;
      destruct (fold_left f eps (d, u)) as [dev2 usb2]
  end.
  cbv zeta in Hfold. cbn [fst snd] in Hfold.
  destruct Hfold as (Hout & Hin & Hdev & Husb).
  exists usb2.
  assert (Hdev2 :
    dev2 = set_output_endpoint
             (first_endpoint (usable LIBUSB_ENDPOINT_OUT) (endpoint more))
             (set_interface n
                (if xb360 then set_no_skip_output_report_id true dev1
                 else dev1))).
  { clearbody dev1 xb360.
    destruct dev2 as [i2 o2 b2 s2 t2 sk2 ns2 no2 q2 dd2].
    cbn [interface output_endpoint blocking shutdown_thread
           transfer_loop_finished skip_output_report_id
           no_skip_output_report_id no_output_reports_on_intr_ep
           input_reports is_driver_detached set_output_endpoint
           set_interface Z.eqb] in Hout, Hdev.
    subst o2. injection Hdev as -> -> -> -> -> -> -> -> ->.
    reflexivity. }
  assert (Hevents :
    (if is_xboxone LIBUSB_CLASS_VENDOR_SPEC (idVendor desc) intf_desc =? 0
     then calls0
     else init_xboxone LIBUSB_CLASS_VENDOR_SPEC libusb_claim_interface
            (idVendor desc) (idProduct desc) conf_desc calls0) = calls).
  { unfold calls, xb1. by destruct (is_xboxone _ _ _ =? 0). }
  fold calls0. rewrite Hevents, Hdev2. clear Hevents Hdev2 Hout Hdev.
  split; [|split].
  - unfold read_thread_start, calculate_device_quirks.
    fold sony. fold failed. unfold dev1.
    clearbody calls sony failed xb360 active.
    destruct sony, failed, xb360, active; destruct dev; reflexivity.
  - rewrite Hin. reflexivity.
  - apply (f_equal report_descriptor_size) in Husb.
    cbn [report_descriptor_size set_input_endpoint] in Husb.
    rewrite Husb. exact Hrange.
Qed.

(** X12.  When [hidapi_initialize_device] returns 0 (the kernel driver
    could not be detached, or the interface could not be claimed) it has
    created no thread and has left the session as it was apart from
    [is_driver_detached], which says whether a kernel driver was
    detached.  What it asked of libusb is, in this order:
    [libusb_kernel_driver_active]; [libusb_detach_kernel_driver] when a
    driver is active; and, unless that failed, the claim, which failed,
    followed by [libusb_attach_kernel_driver] when a driver was detached:
    a kernel driver that it did detach is asked back as the last thing
    done. *)
Theorem hidapi_initialize_device_failure (dev : hid_device)
    (usb : hid_device_usb) (desc : libusb_device_descriptor)
    (intf_desc : libusb_interface_descriptor) (more : interface_endpoints)
    (conf_desc : libusb_config_descriptor) (bConfigurationValue : Z) :
  let n := bInterfaceNumber intf_desc in
  let active := libusb_kernel_driver_active n =? 1 in
  let detach_failed := active && (libusb_detach_kernel_driver n <? 0) in
  (libusb_kernel_driver_active n = 1 /\ libusb_detach_kernel_driver n < 0) \/
  libusb_claim_interface [] n < 0 ->
  initialize dev usb desc intf_desc more conf_desc bConfigurationValue =
    Ok (0, set_is_driver_detached (active && negb detach_failed) dev, usb,
        Kernel_driver_active n ::
        (if active then [Detach_kernel_driver n] else []) ++
        (if detach_failed then []
         else Usb_call (Claim_interface n) ::
              (if active then [Usb_call (Attach_kernel_driver n)]
               else []))).
Proof.
  intros n active detach_failed Hfail.
  unfold hidapi_initialize_device. fold n.
  unfold detach_failed, active.
  assert (Hset : forall b1 b2,
            set_is_driver_detached b1 (set_is_driver_detached b2 dev)
            = set_is_driver_detached b1 dev) by (by destruct dev).
  destruct (Z.eqb_spec (libusb_kernel_driver_active n) 1) as [Ha|Ha];
    [destruct (Z.ltb_spec (libusb_detach_kernel_driver n) 0) as [Hd|Hd]|];
    cbn [andb negb].
  - (* the driver cannot be detached *)
    reflexivity.
  - (* detached, then the claim fails *)
    destruct (Z.ltb_spec (libusb_claim_interface [] n) 0) as [Hc|Hc];
      [|lia].
    cbn [is_driver_detached set_is_driver_detached app map].
    by rewrite Hset.
  - (* no kernel driver, the claim fails *)
    destruct (Z.ltb_spec (libusb_claim_interface [] n) 0) as [Hc|Hc];
      [|lia].
    cbn [is_driver_detached set_is_driver_detached app map]. reflexivity.
Qed.

(** X13.  When the kernel driver can be detached (if there is one) and the
    interface can be claimed, [hidapi_initialize_device] returns 1 for any
    descriptor bytes: the session holds the interface number, the address
    of the first interrupt OUT endpoint with an address other than 0 as
    output endpoint and of the first such IN endpoint as input endpoint (0
    when there is none; a later endpoint never replaces one chosen), and a
    report descriptor size that fits 16 bits.  The interface is claimed
    before the read thread is created, and [is_driver_detached] says
    whether a kernel driver was detached. *)
Theorem hidapi_initialize_device_endpoints (dev : hid_device)
    (usb : hid_device_usb) (desc : libusb_device_descriptor)
    (intf_desc : libusb_interface_descriptor) (more : interface_endpoints)
    (conf_desc : libusb_config_descriptor) (bConfigurationValue : Z) :
  let n := bInterfaceNumber intf_desc in
  extra_length more <= Z.of_nat (length (extra more)) ->
  (libusb_kernel_driver_active n = 1 -> 0 <= libusb_detach_kernel_driver n) ->
  0 <= libusb_claim_interface [] n ->
  exists dev' usb' before calls,
    initialize dev usb desc intf_desc more conf_desc bConfigurationValue =
      Ok (1, dev', usb',
          before ++ Usb_call (Claim_interface n) :: calls ++
          [Thread_create; Barrier_wait]) /\
    interface dev' = n /\
    output_endpoint dev' =
      first_endpoint (usable LIBUSB_ENDPOINT_OUT) (endpoint more) /\
    input_endpoint usb' =
      first_endpoint (usable LIBUSB_ENDPOINT_IN) (endpoint more) /\
    0 <= report_descriptor_size usb' < 2 ^ 16 /\
    (is_driver_detached dev' = true <-> libusb_kernel_driver_active n = 1) /\
    (is_driver_detached dev' = true <->
     In (Detach_kernel_driver n) before) /\
    ~ In Thread_create before /\ ~ In Thread_create calls.
Proof.
  intros n Hextra Hdetach Hclaim.
  destruct (hidapi_initialize_device_opened dev usb desc intf_desc more
              conf_desc bConfigurationValue Hextra)
    as (usb' & Hrun & Hin & Hsize); [|exact Hclaim|].
  { fold n. destruct (Z.eqb_spec (libusb_kernel_driver_active n) 1);
      [|reflexivity].
    cbn [andb]. apply Z.ltb_ge. auto. }
  fold n in Hrun. rewrite Hrun. clear Hrun.
  set (calls := if negb (is_xboxone _ _ _ =? 0) then _ else _).
  assert (Hcalls : exists new, calls = Claim_interface n :: new).
  { unfold calls.
    destruct (negb (is_xboxone _ _ _ =? 0)); [|by eexists].
    unfold init_xboxone.
    destruct (init_xboxone_spec LIBUSB_CLASS_VENDOR_SPEC
                libusb_claim_interface (idVendor desc)
                (interfaces conf_desc)
                (Claim_interface n ::
                 (if negb (is_xbox360 LIBUSB_CLASS_VENDOR_SPEC
                             (idVendor desc) intf_desc =? 0)
                  then init_xbox360 (idVendor desc) (idProduct desc)
                  else []))) as (new & -> & _).
    by eexists. }
  destruct Hcalls as (new & ->).
  eexists _, usb',
    (Kernel_driver_active n ::
     (if libusb_kernel_driver_active n =? 1
      then [Detach_kernel_driver n] else [])),
    (map Usb_call new).
  split.
  { reflexivity. }
  cbn [interface output_endpoint is_driver_detached].
  split; [reflexivity|]. split; [reflexivity|]. split; [exact Hin|].
  split; [exact Hsize|].
  destruct (Z.eqb_spec (libusb_kernel_driver_active n) 1) as [Ha|Ha].
  - repeat split; try done; try (cbn; tauto).
    + cbn. intros [H|[H|H]]; done.
    + rewrite in_map_iff. intros (c & H & _). discriminate.
  - repeat split; try done.
    + cbn. intros [H|H]; done.
    + cbn. intros [H|H]; done.
    + rewrite in_map_iff. intros (c & H & _). discriminate.
Qed.

Lemma detach_allowed (n : Z) :
  (libusb_kernel_driver_active n = 1 -> 0 <= libusb_detach_kernel_driver n) ->
  (libusb_kernel_driver_active n =? 1) &&
  (libusb_detach_kernel_driver n <? 0) = false.
Proof.
  intros H. destruct (Z.eqb_spec (libusb_kernel_driver_active n) 1);
    [|reflexivity].
  cbn [andb]. apply Z.ltb_ge. auto.
Qed.

Lemma claimed_after_app (calls new : list usb_call) (n : Z) :
  claimed_after (calls ++ new) n =
  fold_left
    (fun held c =>
       match c with
       | Claim_interface k => if k =? n then true else held
       | Release_interface k => if k =? n then false else held
       | _ => held
       end)
    new (claimed_after calls n).
Proof. unfold claimed_after. apply fold_left_app. Qed.

(** One alternate setting of [init_xboxone], every claim succeeding: a
    selection on interface [n] leaves [n] released, and a released
    interface stays released. *)
Lemma init_xboxone_altsetting_claimed (vendor : Z) (calls : list usb_call)
    (d : libusb_interface_descriptor) (n : Z) :
  (forall cs k, 0 <= libusb_claim_interface cs k) ->
  let calls' :=
    init_xboxone_altsetting LIBUSB_CLASS_VENDOR_SPEC libusb_claim_interface
      vendor calls d in
  (xb1_interface LIBUSB_CLASS_VENDOR_SPEC d ->
   alternate_setting_wanted vendor d -> bInterfaceNumber d = n ->
   claimed_after calls' n = false) /\
  (claimed_after calls n = false -> claimed_after calls' n = false).
Proof.
  intros Hclaims calls'.
  destruct (init_xboxone_altsetting_spec LIBUSB_CLASS_VENDOR_SPEC
              libusb_claim_interface vendor calls d)
    as (new & Hstep & _ & Hyes & Hno).
  assert (Hdec : Decision (xb1_interface LIBUSB_CLASS_VENDOR_SPEC d /\
                           alternate_setting_wanted vendor d)).
  { unfold xb1_interface, alternate_setting_wanted. apply _. }
  unfold calls'. rewrite Hstep, claimed_after_app.
  destruct Hdec as [[Hxb1 Hwanted]|Hnot].
  - rewrite (Hyes Hxb1 Hwanted).
    destruct (Z.ltb_spec (libusb_claim_interface calls
                            (bInterfaceNumber d)) 0) as [Hneg|_].
    { specialize (Hclaims calls (bInterfaceNumber d)). lia. }
    cbn [fold_left].
    destruct (Z.eqb_spec (bInterfaceNumber d) n); split; try done.
  - rewrite (Hno Hnot). cbn [fold_left]. split; [|done].
    intros Hxb1 Hwanted _. destruct Hnot. by split.
Qed.

Lemma init_xboxone_interface_claimed (vendor : Z)
    (ds : list libusb_interface_descriptor) (n : Z) :
  (forall cs k, 0 <= libusb_claim_interface cs k) ->
  forall calls,
    let calls' :=
      fold_left
        (init_xboxone_altsetting LIBUSB_CLASS_VENDOR_SPEC
           libusb_claim_interface vendor) ds calls in
    ((exists d, In d ds /\ xb1_interface LIBUSB_CLASS_VENDOR_SPEC d /\
                alternate_setting_wanted vendor d /\
                bInterfaceNumber d = n) ->
     claimed_after calls' n = false) /\
    (claimed_after calls n = false -> claimed_after calls' n = false).
Proof.
  intros Hclaims. induction ds as [|d ds IH]; intros calls; cbn [fold_left].
  - split; [|done]. intros (d & [] & _).
  - destruct (init_xboxone_altsetting_claimed vendor calls d n Hclaims)
      as [Hsel Hkeep].
    destruct (IH (init_xboxone_altsetting LIBUSB_CLASS_VENDOR_SPEC
                    libusb_claim_interface vendor calls d))
      as [IHsel IHkeep].
    split.
    + intros (d' & [<-|Hin] & Hxb1 & Hwanted & Hn).
      * apply IHkeep. by apply Hsel.
      * apply IHsel. by exists d'.
    + intros Hreleased. apply IHkeep. by apply Hkeep.
Qed.

Lemma init_xboxone_claimed (vendor product : Z)
    (conf_desc : libusb_config_descriptor) (n : Z) :
  (forall cs k, 0 <= libusb_claim_interface cs k) ->
  forall calls,
    (exists intf d, In intf (interfaces conf_desc) /\
                    In d (altsetting intf) /\
                    xb1_interface LIBUSB_CLASS_VENDOR_SPEC d /\
                    alternate_setting_wanted vendor d /\
                    bInterfaceNumber d = n) ->
    claimed_after
      (init_xboxone LIBUSB_CLASS_VENDOR_SPEC libusb_claim_interface vendor
         product conf_desc calls) n = false.
Proof.
  intros Hclaims. unfold init_xboxone.
  assert (Hkeep : forall intfs calls,
            claimed_after calls n = false ->
            claimed_after
              (fold_left
                 (fun calls intf =>
                    fold_left
                      (init_xboxone_altsetting LIBUSB_CLASS_VENDOR_SPEC
                         libusb_claim_interface vendor)
                      (altsetting intf) calls) intfs calls) n = false).
  { induction intfs as [|intf intfs IH]; intros calls Hreleased; [done|].
    cbn [fold_left]. apply IH.
    destruct (init_xboxone_interface_claimed vendor (altsetting intf) n
                Hclaims calls) as [_ Hkeep].
    by apply Hkeep. }
  induction (interfaces conf_desc) as [|intf intfs IH]; intros calls.
  - intros (intf & d & [] & _).
  - intros (intf' & d & [<-|Hin] & Hd & Hxb1 & Hwanted & Hn);
      cbn [fold_left].
    + apply Hkeep.
      destruct (init_xboxone_interface_claimed vendor (altsetting intf) n
                  Hclaims calls) as [Hsel _].
      apply Hsel. by exists d.
    + apply IH. by exists intf', d.
Qed.

(** X17.  Which interface is held when [hidapi_initialize_device] has
    returned 1, every claim succeeding.  For a device that is not an Xbox
    One controller the last claim or release of the interface being opened
    is the claim.  For a Microsoft Xbox One controller whose interface 0
    has an alternate setting 1, [init_xboxone] claims interface 0 again,
    selects the setting and releases the interface: the last call on the
    interface being opened is its release, before the read thread is
    created. *)
Theorem hidapi_initialize_device_interface_held (dev : hid_device)
    (usb : hid_device_usb) (desc : libusb_device_descriptor)
    (intf_desc : libusb_interface_descriptor) (more : interface_endpoints)
    (conf_desc : libusb_config_descriptor) (bConfigurationValue : Z) :
  let n := bInterfaceNumber intf_desc in
  extra_length more <= Z.of_nat (length (extra more)) ->
  (libusb_kernel_driver_active n = 1 -> 0 <= libusb_detach_kernel_driver n) ->
  (forall cs k, 0 <= libusb_claim_interface cs k) ->
  exists dev' usb' before calls,
    initialize dev usb desc intf_desc more conf_desc bConfigurationValue =
      Ok (1, dev', usb',
          before ++ map Usb_call calls ++ [Thread_create; Barrier_wait]) /\
    (forall c, ~ In (Usb_call c) before) /\
    (is_xboxone LIBUSB_CLASS_VENDOR_SPEC (idVendor desc) intf_desc = 0 ->
     claimed_after calls n = true) /\
    (is_xboxone LIBUSB_CLASS_VENDOR_SPEC (idVendor desc) intf_desc <> 0 ->
     idVendor desc = vendor_microsoft ->
     (exists intf d, In intf (interfaces conf_desc) /\
                     In d (altsetting intf) /\
                     xb1_interface LIBUSB_CLASS_VENDOR_SPEC d /\
                     bInterfaceNumber d = 0 /\ bAlternateSetting d = 1) ->
     n = 0 /\ claimed_after calls n = false).
Proof.
  intros n Hextra Hdetach Hclaims.
  destruct (hidapi_initialize_device_opened dev usb desc intf_desc more
              conf_desc bConfigurationValue Hextra
              (detach_allowed n Hdetach) (Hclaims [] n))
    as (usb' & Hrun & _).
  fold n in Hrun. rewrite Hrun. clear Hrun.
  eexists _, usb',
    (Kernel_driver_active n ::
     (if libusb_kernel_driver_active n =? 1
      then [Detach_kernel_driver n] else [])), _.
  split; [reflexivity|]. split; [|split].
  - intros c. destruct (libusb_kernel_driver_active n =? 1); cbn;
      intuition discriminate.
  - intros Hxb1. rewrite Hxb1. cbn [Z.eqb negb].
    unfold init_xbox360.
    destruct (negb _); [destruct (_ || _)|]; cbn; by rewrite Z.eqb_refl.
  - intros Hxb1 Hvendor (intf & d & Hintf & Hd & Hclass & Hnum & Halt).
    destruct (Z.eqb_spec (is_xboxone LIBUSB_CLASS_VENDOR_SPEC
                            (idVendor desc) intf_desc) 0); [done|].
    cbn [negb].
    assert (Hn : n = 0).
    { unfold is_xboxone in Hxb1. fold n in Hxb1.
      destruct (Z.eqb_spec n 0); [done|]. by cbn in Hxb1. }
    split; [exact Hn|].
    apply init_xboxone_claimed; [exact Hclaims|].
    exists intf, d. repeat split; try done; try apply Hclass.
    + left. by rewrite Hvendor.
    + lia.
Qed.

(** The effects of [hid_close] on a device. *)
Lemma hid_close_effects (dev : hid_device) (effects : list effect) :
  hid_close (Some dev) effects =
    Ok (effects ++
        [Store_shutdown_thread; Usb Cancel_transfer; Thread_join;
         Free_transfer_buffer; Usb Free_transfer;
         Usb (Release_interface (interface dev))] ++
        (if is_driver_detached dev
         then [Usb (Attach_kernel_driver (interface dev))] else []) ++
        [Usb Close] ++
        map Free_input_report (input_reports dev) ++
        [Free_hid_device]).
Proof.
  unfold hid_close.
  rewrite (clear_queue_frees_all (input_reports dev)) by reflexivity.
  cbn. destruct (is_driver_detached dev); cbn;
    rewrite <- ?app_assoc; reflexivity.
Qed.

(** X18.  Open, then close.  Whatever the read thread has done to the
    session in between (the queue, the flags), [hid_close] releases the
    interface that [hidapi_initialize_device] claimed, asks the kernel
    driver back exactly when the open detached it, and does so before the
    handle is closed; every report still queued is freed. *)
Theorem hid_close_after_open (usb : hid_device_usb)
    (desc : libusb_device_descriptor)
    (intf_desc : libusb_interface_descriptor) (more : interface_endpoints)
    (conf_desc : libusb_config_descriptor) (bConfigurationValue : Z)
    (effects : list effect) :
  let n := bInterfaceNumber intf_desc in
  extra_length more <= Z.of_nat (length (extra more)) ->
  (libusb_kernel_driver_active n = 1 -> 0 <= libusb_detach_kernel_driver n) ->
  0 <= libusb_claim_interface [] n ->
  exists dev' usb' events,
    initialize new_hid_device usb desc intf_desc more conf_desc
      bConfigurationValue = Ok (1, dev', usb', events) /\
    In (Usb_call (Claim_interface n)) events /\
    forall dev'',
      interface dev'' = interface dev' ->
      is_driver_detached dev'' = is_driver_detached dev' ->
      exists before after,
        hid_close (Some dev'') effects =
          Ok (effects ++ before ++ Usb Close :: after) /\
        In (Usb (Release_interface n)) before /\
        (In (Usb (Attach_kernel_driver n)) before <->
         In (Detach_kernel_driver n) events) /\
        (forall k, In (Usb (Attach_kernel_driver k)) (before ++ after) ->
                   k = n /\ In (Detach_kernel_driver n) events) /\
        (forall rpt, In rpt (input_reports dev'') ->
                     In (Free_input_report rpt) after).
Proof.
  intros n Hextra Hdetach Hclaim.
  destruct (hidapi_initialize_device_opened new_hid_device usb desc
              intf_desc more conf_desc bConfigurationValue Hextra
              (detach_allowed n Hdetach) Hclaim)
    as (usb' & Hrun & _).
  fold n in Hrun.
  eexists _, usb', _. split; [exact Hrun|]. clear Hrun.
  split.
  { right. apply in_or_app. right. apply in_or_app. left.
    apply in_map.
    destruct (negb (is_xboxone _ _ _ =? 0)); [|by left].
    unfold init_xboxone.
    destruct (init_xboxone_spec LIBUSB_CLASS_VENDOR_SPEC
                libusb_claim_interface (idVendor desc)
                (interfaces conf_desc)
                (Claim_interface n ::
                 (if negb (is_xbox360 LIBUSB_CLASS_VENDOR_SPEC
                             (idVendor desc) intf_desc =? 0)
                  then init_xbox360 (idVendor desc) (idProduct desc)
                  else []))) as (new & -> & _).
    by left. }
  intros dev'' Hinterface Hdetached.
  cbn [interface is_driver_detached] in Hinterface, Hdetached.
  rewrite hid_close_effects, Hinterface, Hdetached.
  eexists
    ([Store_shutdown_thread; Usb Cancel_transfer; Thread_join;
      Free_transfer_buffer; Usb Free_transfer;
      Usb (Release_interface n)] ++
     (if libusb_kernel_driver_active n =? 1
      then [Usb (Attach_kernel_driver n)] else [])),
    (map Free_input_report (input_reports dev'') ++ [Free_hid_device]).
  split; [by rewrite <- !app_assoc|].
  assert (Hfree : forall k,
            ~ In (Usb (Attach_kernel_driver k))
                (map Free_input_report (input_reports dev'') ++
                 [Free_hid_device])).
  { intros k Hin. apply in_app_or in Hin as [Hin|Hin].
    - apply in_map_iff in Hin as (rpt & Hrpt & _). discriminate.
    - destruct Hin as [Hin|[]]. discriminate. }
  assert (Hcalls : forall calls,
            ~ In (Detach_kernel_driver n)
                (map Usb_call calls ++ [Thread_create; Barrier_wait])).
  { intros calls Hin. apply in_app_or in Hin as [Hin|Hin].
    - apply in_map_iff in Hin as (c & Hc & _). discriminate.
    - cbn in Hin. intuition discriminate. }
  destruct (libusb_kernel_driver_active n =? 1).
  - repeat split.
    + cbn. tauto.
    + intros _. cbn. tauto.
    + intros _. cbn. tauto.
    + apply in_app_or in H as [H|H]; [|by apply Hfree in H].
      cbn in H. intuition congruence.
    + cbn. tauto.
    + intros rpt Hrpt. apply in_or_app. left. by apply in_map.
  - repeat split.
    + cbn. tauto.
    + cbn. intuition discriminate.
    + intros [H|H]; [discriminate|]. by apply Hcalls in H.
    + apply in_app_or in H as [H|H]; [|by apply Hfree in H].
      cbn in H. intuition discriminate.
    + apply in_app_or in H as [H|H]; [|by apply Hfree in H].
      cbn in H. intuition discriminate.
    + intros rpt Hrpt. apply in_or_app. left. by apply in_map.
Qed.

Variables LIBUSB_REQUEST_TYPE_CLASS LIBUSB_RECIPIENT_INTERFACE : Z.
Variable libusb_control_transfer : usb_call -> Z.
Variable libusb_interrupt_transfer : usb_call -> Z * Z.

Local Abbreviation write :=
  (hid_write LIBUSB_REQUEST_TYPE_CLASS LIBUSB_RECIPIENT_INTERFACE
     LIBUSB_ENDPOINT_OUT libusb_control_transfer libusb_interrupt_transfer).

(** X14.  A Sony PS3 or Navigation controller (054c:0268, 054c:042f),
    opened from a fresh session: whatever its endpoints and whatever the
    first byte of the data, [hid_write] drops the first byte and sends the
    rest as a Set_Report control transfer, never on the interrupt
    endpoint; the return value counts the dropped byte. *)
Theorem hid_write_on_sony_controller (usb : hid_device_usb)
    (desc : libusb_device_descriptor)
    (intf_desc : libusb_interface_descriptor) (more : interface_endpoints)
    (conf_desc : libusb_config_descriptor) (bConfigurationValue : Z)
    (b : byte) (rest : list byte) (length_ : Z) :
  let n := bInterfaceNumber intf_desc in
  extra_length more <= Z.of_nat (length (extra more)) ->
  (libusb_kernel_driver_active n = 1 -> 0 <= libusb_detach_kernel_driver n) ->
  0 <= libusb_claim_interface [] n ->
  idVendor desc = 0x054c ->
  idProduct desc = 0x0268 \/ idProduct desc = 0x042f ->
  1 <= length_ <= INT_MAX ->
  exists dev' usb' events,
    initialize new_hid_device usb desc intf_desc more conf_desc
      bConfigurationValue = Ok (1, dev', usb', events) /\
    let call :=
      Control_transfer
        (Z.lor (Z.lor LIBUSB_REQUEST_TYPE_CLASS LIBUSB_RECIPIENT_INTERFACE)
           LIBUSB_ENDPOINT_OUT)
        0x09 (Z.lor (Z.shiftl 2 8) (byte_val b)) n rest
        (u16 (length_ - 1)) 1000 in
    write dev' (Some (b :: rest)) length_ =
      Ok (if libusb_control_transfer call <? 0 then -1 else length_, [call]).
Proof.
  intros n Hextra Hdetach Hclaim Hvendor Hproduct Hlen.
  destruct (hidapi_initialize_device_opened new_hid_device usb desc
              intf_desc more conf_desc bConfigurationValue Hextra
              (detach_allowed n Hdetach) Hclaim)
    as (usb' & Hrun & _).
  eexists _, usb', _. split; [exact Hrun|]. clear Hrun.
  assert (Hsony : (idVendor desc =? VENDOR_SONY) &&
                  ((idProduct desc =? PRODUCT_PS3_CONTROLLER) ||
                   (idProduct desc =? PRODUCT_NAVIGATION_CONTROLLER))
                  = true).
  { rewrite Hvendor. destruct Hproduct as [-> | ->]; reflexivity. }
  cbv zeta. unfold hid_write.
  cbn [interface output_endpoint skip_output_report_id
         no_skip_output_report_id no_output_reports_on_intr_ep].
  rewrite Hsony. cbn [orb].
  destruct (Z.eqb_spec length_ 0); [lia|].
  change (index (b :: rest) 0) with (Ok b).
  cbn [mbind res_mbind res_bind].
  rewrite !orb_true_r. cbn [drop].
  rewrite (usize_small (length_ - 1)) by (unfold INT_MAX in *; lia).
  fold n.
  destruct (libusb_control_transfer _ <? 0); [reflexivity|].
  replace (length_ - 1 + 1) with length_ by lia.
  rewrite (usize_small length_) by (unfold INT_MAX in *; lia).
  rewrite to_int_small by (unfold INT_MAX in *; lia).
  reflexivity.
Qed.

(** X15.  An Xbox 360 controller (as [is_xbox360] detects it), opened
    from a fresh session: [hid_write] hands libusb the caller's bytes
    whole, with a leading report ID 0 as with any other first byte; it
    uses the first usable interrupt OUT endpoint when the interface has
    one and a control transfer when it has none. *)
Theorem hid_write_on_xbox360_controller (usb : hid_device_usb)
    (desc : libusb_device_descriptor)
    (intf_desc : libusb_interface_descriptor) (more : interface_endpoints)
    (conf_desc : libusb_config_descriptor) (bConfigurationValue : Z)
    (b : byte) (rest : list byte) (length_ : Z) :
  let n := bInterfaceNumber intf_desc in
  let ep := first_endpoint (usable LIBUSB_ENDPOINT_OUT) (endpoint more) in
  extra_length more <= Z.of_nat (length (extra more)) ->
  (libusb_kernel_driver_active n = 1 -> 0 <= libusb_detach_kernel_driver n) ->
  0 <= libusb_claim_interface [] n ->
  is_xbox360 LIBUSB_CLASS_VENDOR_SPEC (idVendor desc) intf_desc <> 0 ->
  1 <= length_ <= INT_MAX ->
  exists dev' usb' events,
    initialize new_hid_device usb desc intf_desc more conf_desc
      bConfigurationValue = Ok (1, dev', usb', events) /\
    let call :=
      if ep <=? 0
      then Control_transfer
             (Z.lor
                (Z.lor LIBUSB_REQUEST_TYPE_CLASS LIBUSB_RECIPIENT_INTERFACE)
                LIBUSB_ENDPOINT_OUT)
             0x09 (Z.lor (Z.shiftl 2 8) (byte_val b)) n (b :: rest)
             (u16 length_) 1000
      else Interrupt_transfer ep (b :: rest) length_ 1000 in
    write dev' (Some (b :: rest)) length_ =
      Ok (if ep <=? 0
          then if libusb_control_transfer call <? 0 then -1 else length_
          else if fst (libusb_interrupt_transfer call) <? 0 then -1
               else snd (libusb_interrupt_transfer call),
          [call]).
Proof.
  intros n ep Hextra Hdetach Hclaim Hxbox Hlen.
  destruct (hidapi_initialize_device_opened new_hid_device usb desc
              intf_desc more conf_desc bConfigurationValue Hextra
              (detach_allowed n Hdetach) Hclaim)
    as (usb' & Hrun & _).
  eexists _, usb', _. split; [exact Hrun|]. clear Hrun.
  assert (Hsony : (idVendor desc =? VENDOR_SONY) &&
                  ((idProduct desc =? PRODUCT_PS3_CONTROLLER) ||
                   (idProduct desc =? PRODUCT_NAVIGATION_CONTROLLER))
                  = false).
  { apply andb_false_iff. left. apply Z.eqb_neq. intros Hv.
    apply Hxbox. unfold is_xbox360.
    destruct (_ && _ && _); [|reflexivity].
    destruct (vendor_listed _ _) eqn:Hlisted; [|reflexivity].
    apply vendor_listed_In in Hlisted. rewrite Hv in Hlisted.
    exfalso. cbv in Hlisted. intuition discriminate. }
  cbv zeta. unfold hid_write.
  cbn [interface output_endpoint skip_output_report_id
         no_skip_output_report_id no_output_reports_on_intr_ep].
  rewrite Hsony.
  destruct (Z.eqb_spec (is_xbox360 LIBUSB_CLASS_VENDOR_SPEC
                          (idVendor desc) intf_desc) 0); [done|].
  cbn [orb negb andb new_hid_device skip_output_report_id
         no_skip_output_report_id no_output_reports_on_intr_ep].
  destruct (Z.eqb_spec length_ 0); [lia|].
  change (index (b :: rest) 0) with (Ok b).
  cbn [mbind res_mbind res_bind]. rewrite orb_false_r.
  fold n. fold ep.
  rewrite to_int_small by (unfold INT_MAX in *; lia).
  destruct (ep <=? 0).
  - destruct (libusb_control_transfer _ <? 0); reflexivity.
  - destruct (libusb_interrupt_transfer _) as [res_ actual]. cbn [fst snd].
    destruct (res_ <? 0); reflexivity.
Qed.

(** X16.  When the first submission of the read thread fails, the session
    that [hidapi_initialize_device] hands back is already shut down: a
    [hid_read] on it returns -1 at once, without a wait, blocking or not,
    the caller's buffer untouched. *)
Theorem hid_read_after_failed_submission (HIDAPI_THREAD_TIMED_OUT : Z)
    (usb : hid_device_usb) (desc : libusb_device_descriptor)
    (intf_desc : libusb_interface_descriptor) (more : interface_endpoints)
    (conf_desc : libusb_config_descriptor) (bConfigurationValue : Z)
    (data_ : list byte) (length_ : Z) (ws : list wake) (nonblock : Z) :
  let n := bInterfaceNumber intf_desc in
  extra_length more <= Z.of_nat (length (extra more)) ->
  (libusb_kernel_driver_active n = 1 -> 0 <= libusb_detach_kernel_driver n) ->
  0 <= libusb_claim_interface [] n ->
  libusb_submit_transfer < 0 ->
  exists dev' usb' events,
    initialize new_hid_device usb desc intf_desc more conf_desc
      bConfigurationValue = Ok (1, dev', usb', events) /\
    shutdown_thread dev' = true /\ transfer_loop_finished dev' = true /\
    hid_read HIDAPI_THREAD_TIMED_OUT dev' data_ length_ ws =
      Ok {| bytes_read := -1; out_data := data_; out_dev := dev';
            waits := [] |} /\
    hid_read HIDAPI_THREAD_TIMED_OUT
      (snd (hid_set_nonblocking dev' nonblock)) data_ length_ ws =
      Ok {| bytes_read := -1; out_data := data_;
            out_dev := snd (hid_set_nonblocking dev' nonblock);
            waits := [] |}.
Proof.
  intros n Hextra Hdetach Hclaim Hsubmit.
  destruct (hidapi_initialize_device_opened new_hid_device usb desc
              intf_desc more conf_desc bConfigurationValue Hextra
              (detach_allowed n Hdetach) Hclaim)
    as (usb' & Hrun & _).
  eexists _, usb', _. split; [exact Hrun|]. clear Hrun.
  destruct (Z.ltb_spec libusb_submit_transfer 0); [|lia].
  cbn [orb shutdown_thread transfer_loop_finished].
  repeat split; reflexivity.
Qed.

End OpenFacts.

(** An example: a HID interface with an interrupt IN and an interrupt OUT
    endpoint and a HID class descriptor, on a machine where a kernel
    driver holds the interface and every libusb call succeeds. *)
Local Abbreviation example_open submit :=
  (hidapi_initialize_device 0xff 0x21 0x22 4096 0x03 0x03 0x80 0x00 0x80
     (fun _ => 1) (fun _ => 0) (fun _ _ => 0) submit).
Local Abbreviation example_usb :=
  {| config_number := 0; Open.interface_class := 0;
     Open.interface_subclass := 0; Open.interface_protocol := 0;
     report_descriptor_size := 0;
     input_endpoint := 0; input_ep_max_packet_size := 0;
     manufacturer_index := 0; product_index := 0; serial_index := 0 |}.
Local Abbreviation example_desc vendor product :=
  {| idVendor := vendor; idProduct := product; bcdDevice := 0x0100;
     iManufacturer := 1; iProduct := 2; iSerialNumber := 0 |}.
Local Abbreviation example_intf class subclass protocol :=
  {| bInterfaceNumber := 0; bAlternateSetting := 0;
     bInterfaceClass := class; bInterfaceSubClass := subclass;
     bInterfaceProtocol := protocol |}.
Local Abbreviation example_more :=
  {| endpoint :=
       [ {| bEndpointAddress := 0x81; bmAttributes := 0x03;
            wMaxPacketSize := 64 |};
         {| bEndpointAddress := 0x02; bmAttributes := 0x03;
            wMaxPacketSize := 64 |} ];
     extra := [x09; x21; x11; x01; x00; x01; x22; x94; x00]%byte;
     extra_length := 9 |}.
Local Abbreviation example_conf intf :=
  {| interfaces := [ {| altsetting := [intf] |} ] |}.

(** The claim fails after the kernel driver was detached. *)
Lemma hidapi_initialize_device_failure_witness :
  hidapi_initialize_device 0xff 0x21 0x22 4096 0x03 0x03 0x80 0x00 0x80
    (fun _ => 1) (fun _ => 0) (fun _ _ => -6) 0
    new_hid_device example_usb (example_desc 0x046d 0xc216)
    (example_intf 3 0 0) example_more
    (example_conf (example_intf 3 0 0)) 1
  = Ok (0, set_is_driver_detached true new_hid_device, example_usb,
        [Kernel_driver_active 0; Detach_kernel_driver 0;
         Usb_call (Claim_interface 0); Usb_call (Attach_kernel_driver 0)]).
Proof.
  apply (hidapi_initialize_device_failure 0xff 0x21 0x22 4096 0x03 0x03
           0x80 0x00 0x80 (fun _ => 1) (fun _ => 0) (fun _ _ => -6) 0
           new_hid_device example_usb (example_desc 0x046d 0xc216)
           (example_intf 3 0 0) example_more
           (example_conf (example_intf 3 0 0)) 1
           ltac:(right; cbn; lia)).
Defined.

Lemma hidapi_initialize_device_endpoints_witness :
  exists dev' usb' events,
    example_open 0 new_hid_device example_usb (example_desc 0x046d 0xc216)
      (example_intf 3 0 0) example_more
      (example_conf (example_intf 3 0 0)) 1
    = Ok (1, dev', usb', events) /\
    output_endpoint dev' = 0x02 /\ input_endpoint usb' = 0x81.
Proof.
  destruct (hidapi_initialize_device_endpoints 0xff 0x21 0x22 4096 0x03
              0x03 0x80 0x00 0x80 (fun _ => 1) (fun _ => 0) (fun _ _ => 0)
              0 new_hid_device example_usb (example_desc 0x046d 0xc216)
              (example_intf 3 0 0) example_more
              (example_conf (example_intf 3 0 0)) 1
              ltac:(cbn; lia) ltac:(cbn; lia) ltac:(cbn; lia))
    as (dev' & usb' & before & calls & Hrun & _ & Hout & Hin & _).
  eexists dev', usb', _. split; [exact Hrun|]. split; assumption.
Defined.

Lemma hidapi_initialize_device_interface_held_witness :
  exists dev' usb' before calls,
    example_open 0 new_hid_device example_usb (example_desc 0x046d 0xc216)
      (example_intf 3 0 0) example_more
      (example_conf (example_intf 3 0 0)) 1
    = Ok (1, dev', usb',
          before ++ map Usb_call calls ++ [Thread_create; Barrier_wait]) /\
    claimed_after calls 0 = true.
Proof.
  destruct (hidapi_initialize_device_interface_held 0xff 0x21 0x22 4096
              0x03 0x03 0x80 0x00 0x80 (fun _ => 1) (fun _ => 0)
              (fun _ _ => 0) 0 new_hid_device example_usb
              (example_desc 0x046d 0xc216) (example_intf 3 0 0)
              example_more (example_conf (example_intf 3 0 0)) 1
              ltac:(cbn; lia) ltac:(cbn; lia) ltac:(cbn; lia))
    as (dev' & usb' & before & calls & Hrun & _ & Hheld & _).
  exists dev', usb', before, calls. split; [exact Hrun|].
  apply Hheld. reflexivity.
Defined.

Lemma hid_close_after_open_witness :
  exists dev' usb' events,
    example_open 0 new_hid_device example_usb (example_desc 0x046d 0xc216)
      (example_intf 3 0 0) example_more
      (example_conf (example_intf 3 0 0)) 1
    = Ok (1, dev', usb', events) /\
    exists before after,
      hid_close (Some dev') [] = Ok ([] ++ before ++ Usb Close :: after) /\
      In (Usb (Release_interface 0)) before.
Proof.
  destruct (hid_close_after_open 0xff 0x21 0x22 4096 0x03 0x03 0x80 0x00
              0x80 (fun _ => 1) (fun _ => 0) (fun _ _ => 0) 0 example_usb
              (example_desc 0x046d 0xc216) (example_intf 3 0 0)
              example_more (example_conf (example_intf 3 0 0)) 1 []
              ltac:(cbn; lia) ltac:(cbn; lia) ltac:(cbn; lia))
    as (dev' & usb' & events & Hrun & _ & Hclose).
  exists dev', usb', events. split; [exact Hrun|].
  destruct (Hclose dev' eq_refl eq_refl)
    as (before & after & Heffects & Hrelease & _).
  by exists before, after.
Defined.

(** A PS3 controller: the report ID 1 is dropped, the rest goes out as a
    control transfer although the interface has an OUT endpoint. *)
Lemma hid_write_on_sony_controller_witness :
  exists dev' usb' events,
    example_open 0 new_hid_device example_usb (example_desc 0x054c 0x0268)
      (example_intf 3 0 0) example_more
      (example_conf (example_intf 3 0 0)) 1
    = Ok (1, dev', usb', events) /\
    hid_write 0x20 0x01 0x00 (fun _ => 0) (fun _ => (0, 0)) dev'
      (Some [x01; x02; x03]%byte) 3
    = Ok (3, [Control_transfer 0x21 0x09 0x201 0 [x02; x03]%byte 2 1000]).
Proof.
  destruct (hid_write_on_sony_controller 0xff 0x21 0x22 4096 0x03 0x03 0x80
              0x00 0x80 (fun _ => 1) (fun _ => 0) (fun _ _ => 0) 0
              0x20 0x01 (fun _ => 0) (fun _ => (0, 0)) example_usb
              (example_desc 0x054c 0x0268) (example_intf 3 0 0)
              example_more (example_conf (example_intf 3 0 0)) 1
              x01 [x02; x03]%byte 3
              ltac:(cbn; lia) ltac:(cbn; lia) ltac:(cbn; lia) eq_refl
              ltac:(left; reflexivity) ltac:(unfold INT_MAX; lia))
    as (dev' & usb' & events & Hrun & Hwrite).
  exists dev', usb', events. split; [exact Hrun|]. exact Hwrite.
Defined.

(** An Xbox 360 controller: the leading 0 goes out with the rest, on the
    interrupt OUT endpoint. *)
Lemma hid_write_on_xbox360_controller_witness :
  exists dev' usb' events,
    example_open 0 new_hid_device example_usb (example_desc 0x045e 0x028e)
      (example_intf 0xff 93 1) example_more
      (example_conf (example_intf 0xff 93 1)) 1
    = Ok (1, dev', usb', events) /\
    hid_write 0x20 0x01 0x00 (fun _ => 0) (fun c => (0, transfer_length c))
      dev' (Some [x00; x08; x03]%byte) 3
    = Ok (3, [Interrupt_transfer 0x02 [x00; x08; x03]%byte 3 1000]).
Proof.
  destruct (hid_write_on_xbox360_controller 0xff 0x21 0x22 4096 0x03 0x03
              0x80 0x00 0x80 (fun _ => 1) (fun _ => 0) (fun _ _ => 0) 0
              0x20 0x01 (fun _ => 0) (fun c => (0, transfer_length c))
              example_usb (example_desc 0x045e 0x028e)
              (example_intf 0xff 93 1) example_more
              (example_conf (example_intf 0xff 93 1)) 1
              x00 [x08; x03]%byte 3
              ltac:(cbn; lia) ltac:(cbn; lia) ltac:(cbn; lia)
              ltac:(vm_compute; congruence) ltac:(unfold INT_MAX; lia))
    as (dev' & usb' & events & Hrun & Hwrite).
  exists dev', usb', events. split; [exact Hrun|]. exact Hwrite.
Defined.

(** The first submission fails with [LIBUSB_ERROR_NO_DEVICE]. *)
Lemma hid_read_after_failed_submission_witness :
  exists dev' usb' events,
    example_open (-4) new_hid_device example_usb
      (example_desc 0x046d 0xc216) (example_intf 3 0 0) example_more
      (example_conf (example_intf 3 0 0)) 1
    = Ok (1, dev', usb', events) /\
    hid_read 110 dev' [x00]%byte 1 [] =
      Ok {| bytes_read := -1; out_data := [x00]%byte; out_dev := dev';
            waits := [] |}.
Proof.
  destruct (hid_read_after_failed_submission 0xff 0x21 0x22 4096 0x03 0x03
              0x80 0x00 0x80 (fun _ => 1) (fun _ => 0) (fun _ _ => 0) (-4)
              110 example_usb (example_desc 0x046d 0xc216)
              (example_intf 3 0 0) example_more
              (example_conf (example_intf 3 0 0)) 1 [x00]%byte 1 [] 0
              ltac:(cbn; lia) ltac:(cbn; lia) ltac:(cbn; lia) ltac:(lia))
    as (dev' & usb' & events & Hrun & _ & _ & Hread & _).
  exists dev', usb', events. split; [exact Hrun|]. exact Hread.
Defined.

(** ** String descriptors *)

Lemma wcs_app_zero (l r : list Z) : wcs (l ++ 0 :: r) = wcs (l ++ [0]).
Proof.
  induction l as [|c l IH]; [reflexivity|].
  cbn. destruct (c =? 0); [reflexivity|]. by rewrite IH.
Qed.

Lemma wcs_terminated (l : list Z) : wcs (l ++ [0]) = wcs l.
Proof.
  induction l as [|c l IH]; [reflexivity|].
  cbn. destruct (c =? 0); [reflexivity|]. by rewrite IH.
Qed.

Lemma wcs_nonzero (buf : list Z) :
  Forall (fun c => c <> 0) (wcs buf) /\ (length (wcs buf) <= length buf)%nat.
Proof.
  induction buf as [|c buf [IH1 IH2]]; [by split|].
  cbn. destruct (Z.eqb_spec c 0); cbn; split;
    try (by constructor); try lia.
Qed.

Lemma store_in_range {A : Type} (buf : list A) (i : Z) (v : A) :
  0 <= i < Z.of_nat (length buf) ->
  store buf i v = Ok (<[Z.to_nat i := v]> buf).
Proof.
  intros Hi. unfold store.
  destruct (Z.leb_spec 0 i); [|lia].
  destruct (Z.ltb_spec i (Z.of_nat (length buf))); [|lia].
  reflexivity.
Qed.

Lemma word_stored (buf : list byte) (i : Z) :
  0 <= i -> 2 * i + 1 < Z.of_nat (length buf) ->
  exists w, word buf i = Ok w.
Proof.
  intros Hi Hlen. unfold word.
  destruct (index_lt buf (2 * i)) as [lo ->]; [lia|].
  destruct (index_lt buf (2 * i + 1)) as [hi ->]; [lia|].
  by eexists.
Qed.

(** The loop of [is_language_supported] reads what libusb stored, and
    ends with 0 or 1. *)
Lemma language_listed_returns (buf : list byte) (lang len : Z) :
  2 * len <= Z.of_nat (length buf) ->
  forall fuel i, 0 <= i -> (Z.to_nat (len - i) < fuel)%nat ->
    language_listed fuel buf lang len i = Ok 0 \/
    language_listed fuel buf lang len i = Ok 1.
Proof.
  intros Hlen. induction fuel as [|fuel IH]; intros i Hi Hfuel; [lia|].
  cbn [language_listed].
  destruct (Z.ltb_spec i len); [|by left].
  destruct (word_stored buf i) as [w ->]; [lia|lia|].
  cbn [mbind res_mbind res_bind].
  destruct (w =? lang); [by right|]. apply IH; lia.
Qed.

Section StringFacts.

Variable libusb_get_string_descriptor : Z -> Z -> Z -> Z * list byte.
Variable get_usb_code_for_current_locale : Z.

(** libusb returns the number of bytes it stored, or an error. *)
Hypothesis stored :
  forall descriptor_index lang_id length_,
    fst (libusb_get_string_descriptor descriptor_index lang_id length_)
    <= Z.of_nat
         (length
            (snd (libusb_get_string_descriptor descriptor_index lang_id
                    length_))).

Local Abbreviation supported :=
  (is_language_supported libusb_get_string_descriptor).
Local Abbreviation first_language :=
  (get_first_language libusb_get_string_descriptor).

Lemma is_language_supported_returns (lang : Z) :
  supported lang = Ok 0 \/ supported lang = Ok 1.
Proof using stored.
  unfold is_language_supported.
  pose proof (stored 0 0 64) as Hstored.
  destruct (libusb_get_string_descriptor 0 0 64) as [len buf].
  cbn [fst snd] in Hstored.
  destruct (Z.ltb_spec len 4); [by left|].
  assert (2 * Z.quot len 2 <= len).
  { rewrite Z.quot_div_nonneg by lia. apply Z.mul_div_le. lia. }
  assert (2 <= Z.quot len 2).
  { rewrite Z.quot_div_nonneg by lia. apply Z.div_le_lower_bound; lia. }
  apply language_listed_returns; lia.
Qed.

Lemma string_language_spec :
  let len := fst (libusb_get_string_descriptor 0 0 64) in
  exists lang,
    string_language libusb_get_string_descriptor
      get_usb_code_for_current_locale = Ok lang /\
    (len < 4 -> lang = 0) /\
    (4 <= len -> supported lang = Ok 1) /\
    (supported get_usb_code_for_current_locale = Ok 1 ->
     lang = get_usb_code_for_current_locale) /\
    (supported get_usb_code_for_current_locale = Ok 0 ->
     first_language = Ok lang).
Proof using stored.
  cbv zeta. unfold string_language.
  destruct (is_language_supported_returns get_usb_code_for_current_locale)
    as [Hno|Hyes].
  - rewrite Hno. cbn [mbind res_mbind res_bind Z.eqb].
    unfold get_first_language, is_language_supported.
    pose proof (stored 0 0 64) as Hstored.
    destruct (libusb_get_string_descriptor 0 0 64) as [len buf].
    cbn [fst snd] in *.
    destruct (Z.ltb_spec len 4) as [Hlen|Hlen].
    + exists 0. repeat split; try done; lia.
    + destruct (word_stored buf 1) as [w Hw]; [lia|lia|].
      exists w. split; [exact Hw|]. split; [lia|].
      split; [|split; [discriminate|done]].
      intros _.
      assert (2 <= Z.quot len 2).
      { rewrite Z.quot_div_nonneg by lia.
        apply Z.div_le_lower_bound; lia. }
      destruct (Z.to_nat (Z.quot len 2)) as [|fuel] eqn:Hfuel; [lia|].
      cbn [language_listed].
      destruct (Z.ltb_spec 1 (Z.quot len 2)); [|lia].
      rewrite Hw. cbn [mbind res_mbind res_bind].
      by rewrite Z.eqb_refl.
  - rewrite Hyes. cbn [mbind res_mbind res_bind Z.eqb].
    exists get_usb_code_for_current_locale.
    split; [reflexivity|]. split; [|split; [done|split; [done|]]].
    + intros Hlen. exfalso. unfold is_language_supported in Hyes.
      destruct (libusb_get_string_descriptor 0 0 64) as [len buf].
      cbn [fst] in Hlen.
      destruct (Z.ltb_spec len 4); [discriminate|lia].
    + discriminate.
Qed.


Variable iconv_open : bool.
Variable iconv : list byte -> option (list Z).

(** [iconv] stores no more than the 256 wide characters of [wbuf]. *)
Hypothesis converted :
  forall input written,
    iconv input = Some written -> (length written <= 256)%nat.

(** The two terminators: the string is what was converted, up to its
    first zero and to 255 characters. *)
Lemma wbuf_terminated (written wbuf : list Z) :
  length wbuf = 256%nat -> (length written <= 256)%nat ->
  exists wbuf',
    (forall (B : Type) (k : list Z -> res B),
       (wbuf ← (if Z.of_nat (length written) <=? Z.of_nat (length wbuf)
                then Ok (written ++ drop (length written) wbuf)
                else Fault);
        wbuf ← store wbuf (256 - 1) 0;
        wbuf ← (if 4 <=? 256 * 4 - 4 * Z.of_nat (length written)
                then store wbuf (Z.of_nat (length written)) 0
                else Ok wbuf);
        k wbuf) = k wbuf') /\
    wcs wbuf' = wcs (take 255 written).
Proof.
  intros Hwbuf Hwritten.
  destruct (Z.leb_spec 4 (256 * 4 - 4 * Z.of_nat (length written)))
    as [Hroom|Hfull].
  - eexists. split.
    { intros B k.
      destruct (Z.leb_spec (Z.of_nat (length written))
                  (Z.of_nat (length wbuf))); [|lia].
      cbn [mbind res_mbind res_bind].
      rewrite store_in_range by (rewrite length_app, length_drop; lia).
      cbn [mbind res_mbind res_bind].
      rewrite store_in_range
        by (rewrite length_insert, length_app, length_drop; lia).
      cbn [mbind res_mbind res_bind]. reflexivity. }
    change (Z.to_nat (256 - 1)) with 255%nat.
    rewrite Nat2Z.id.
    rewrite (take_ge written) by lia.
    assert (Hsplit : <[length written := 0]>
                       (<[255%nat := 0]>
                          (written ++ drop (length written) wbuf))
                     = written ++ 0 ::
                       drop 1 (<[(255 - length written)%nat := 0]>
                                 (drop (length written) wbuf))).
    { rewrite insert_app_r_alt by lia.
      rewrite insert_app_r_alt by lia.
      rewrite Nat.sub_diag. f_equal.
      destruct (<[(255 - length written)%nat:=0]>
                  (drop (length written) wbuf)) as [|c rest] eqn:Hrest.
      - apply (f_equal length) in Hrest.
        rewrite length_insert, length_drop in Hrest. cbn in Hrest. lia.
      - reflexivity. }
    rewrite Hsplit, wcs_app_zero. apply wcs_terminated.
  - assert (Hlen : length written = 256%nat) by lia.
    eexists. split.
    { intros B k.
      destruct (Z.leb_spec (Z.of_nat (length written))
                  (Z.of_nat (length wbuf))); [|lia].
      cbn [mbind res_mbind res_bind].
      rewrite store_in_range by (rewrite length_app, length_drop; lia).
      cbn [mbind res_mbind res_bind]. reflexivity. }
    change (Z.to_nat (256 - 1)) with 255%nat.
    rewrite drop_ge by lia. rewrite app_nil_r.
    assert (Hsplit : <[255%nat := 0]> written = take 255 written ++ [0]).
    { rewrite <- (take_drop 255 written) at 1.
      rewrite insert_app_r_alt by (rewrite length_take; lia).
      rewrite length_take. replace (255 - 255 `min` length written)%nat
        with 0%nat by lia.
      f_equal.
      destruct (drop 255 written) as [|c [|c' rest]] eqn:Hrest;
        apply (f_equal length) in Hrest; rewrite length_drop in Hrest;
        cbn in Hrest; try lia.
      reflexivity. }
    rewrite Hsplit. apply wcs_terminated.
Qed.

(** X20.  [get_usb_string] never reads or writes outside its buffers,
    whatever the device answers.  The string it returns is what [iconv]
    converted, cut at the first zero and at 255 characters; it holds no
    zero, and does not depend on what [wbuf] held before (the two
    terminators keep [wcsdup] from reading past the converted text). *)
Theorem get_usb_string_bounded (wbuf : list Z) (idx : Z) :
  length wbuf = 256%nat ->
  exists r,
    get_usb_string libusb_get_string_descriptor
      get_usb_code_for_current_locale iconv_open iconv wbuf idx = Ok r /\
    (forall str, r = Some str ->
       (length str <= 255)%nat /\ Forall (fun c => c <> 0) str /\
       exists input written,
         iconv input = Some written /\ str = wcs (take 255 written)) /\
    (forall wbuf', length wbuf' = 256%nat ->
       get_usb_string libusb_get_string_descriptor
         get_usb_code_for_current_locale iconv_open iconv wbuf' idx = Ok r).
Proof using stored converted.
  intros Hwbuf. unfold get_usb_string.
  destruct string_language_spec as (lang & -> & _).
  cbn [mbind res_mbind res_bind].
  pose proof (stored (u8 idx) lang 512) as Hstored.
  destruct (libusb_get_string_descriptor (u8 idx) lang 512) as [len buf].
  cbn [fst snd] in Hstored.
  destruct (Z.ltb_spec len 2); [by exists None|].
  destruct iconv_open; cbn [negb]; [|by exists None].
  unfold bytes_at.
  destruct (Z.leb_spec 0 2); [|lia].
  destruct (Z.leb_spec 0 (len - 2)); [|lia].
  destruct (Z.leb_spec (2 + (len - 2)) (Z.of_nat (length buf))); [|lia].
  cbn [andb mbind res_mbind res_bind].
  destruct (iconv _) as [written|] eqn:Hconv; [|by exists None].
  pose proof (converted _ _ Hconv) as Hwritten.
  destruct (wbuf_terminated written wbuf Hwbuf Hwritten)
    as (wbuf1 & Hrun & Hwcs).
  cbv zeta. rewrite Hrun.
  eexists. split; [reflexivity|]. split.
  - intros str [= <-]. rewrite Hwcs.
    destruct (wcs_nonzero (take 255 written)) as [Hnz Hlen].
    rewrite length_take in Hlen.
    split; [lia|]. split; [exact Hnz|]. by eexists _, _.
  - intros wbuf' Hwbuf'.
    destruct (wbuf_terminated written wbuf' Hwbuf' Hwritten)
      as (wbuf2 & Hrun' & Hwcs').
    rewrite Hrun'. by rewrite Hwcs, Hwcs'.
Qed.

End StringFacts.


Lemma get_usb_string_bounded_witness :
  exists r,
    get_usb_string (fun _ _ _ => (4, [x04; x03; x09; x04]%byte)) 0x0409
      true (fun _ => Some [72; 73]) (replicate 256 7) 2 = Ok r /\
    get_usb_string (fun _ _ _ => (4, [x04; x03; x09; x04]%byte)) 0x0409
      true (fun _ => Some [72; 73]) (replicate 256 9) 2 = Ok r.
Proof.
  destruct (get_usb_string_bounded
              (fun _ _ _ => (4, [x04; x03; x09; x04]%byte)) 0x0409
              ltac:(intros; cbn; lia)
              true (fun _ => Some [72; 73])
              ltac:(intros input written [= <-]; cbn; lia)
              (replicate 256 7) 2 ltac:(reflexivity))
    as (r & Hrun & _ & Hany).
  exists r. split; [exact Hrun|]. apply Hany. reflexivity.
Defined.

(** ** The cache of manufacturer and product strings *)

Lemma index_Ok_lookup {A : Type} (buf : list A) (i : Z) (b : A) :
  index buf i = Ok b -> 0 <= i /\ buf !! Z.to_nat i = Some b.
Proof.
  unfold index. destruct (Z.ltb_spec i 0); [discriminate|].
  destruct (buf !! Z.to_nat i); [|discriminate].
  intros [= ->]. by split.
Qed.

Lemma entries_lookup (c : string_cache) (j : nat) (e : usb_string_cache_entry) :
  entries c !! j = Some e <->
  usb_string_cache c !! j = Some e /\
  Z.of_nat j < usb_string_cache_insert_pos c.
Proof.
  unfold entries. rewrite lookup_take_Some. split; intros [H1 H2]; split;
    try done; lia.
Qed.

(** The search loop reads entries in use only, and returns the index of
    an entry for the vendor and product, or finds none. *)
Lemma usb_string_cache_search_spec (c : string_cache) (v p : Z) :
  usb_string_cache_insert_pos c <= Z.of_nat (length (usb_string_cache c)) ->
  usb_string_cache_insert_pos c < 2 ^ 64 ->
  forall fuel i,
    0 <= i -> (Z.to_nat (usb_string_cache_insert_pos c - i) < fuel)%nat ->
    exists r,
      usb_string_cache_search fuel c v p i = Ok r /\
      match r with
      | Some j =>
          i <= j /\
          exists e, entries c !! Z.to_nat j = Some e /\ key e = (v, p)
      | None =>
          forall k e, i <= Z.of_nat k -> entries c !! k = Some e ->
                      key e <> (v, p)
      end.
Proof.
  intros Hlen Hsmall. induction fuel as [|fuel IH]; intros i Hi Hfuel; [lia|].
  cbn [usb_string_cache_search].
  destruct (Z.ltb_spec i (usb_string_cache_insert_pos c)) as [Hin|Hout].
  - destruct (index_lt (usb_string_cache c) i) as [e He]; [lia|].
    rewrite He. cbn [mbind res_mbind res_bind].
    assert (Hlookup : entries c !! Z.to_nat i = Some e).
    { apply entries_lookup. split; [|lia].
      apply index_Ok_lookup in He. tauto. }
    rewrite (usize_small (i + 1)) by lia.
    assert (Hnext : forall r,
              usb_string_cache_search fuel c v p (i + 1) = Ok r ->
              key e <> (v, p) ->
              match r with
              | Some j =>
                  i + 1 <= j /\
                  exists e, entries c !! Z.to_nat j = Some e /\
                            key e = (v, p)
              | None =>
                  forall k e, i + 1 <= Z.of_nat k ->
                              entries c !! k = Some e -> key e <> (v, p)
              end ->
              match r with
              | Some j =>
                  i <= j /\
                  exists e, entries c !! Z.to_nat j = Some e /\
                            key e = (v, p)
              | None =>
                  forall k e, i <= Z.of_nat k ->
                              entries c !! k = Some e -> key e <> (v, p)
              end).
    { intros [j|] _ Hne Hr.
      - destruct Hr as [Hj Hr]. split; [lia|exact Hr].
      - intros k e' Hk He'.
        destruct (decide (Z.of_nat k = i)) as [Heq|Hneq].
        + replace k with (Z.to_nat i) in He' by lia. congruence.
        + apply (Hr k e'); [lia|exact He']. }
    destruct (Z.eqb_spec (vid e) v) as [Hv|Hv]; cbn [negb];
      [destruct (Z.eqb_spec (pid e) p) as [Hp|Hp]; cbn [negb]|].
    + exists (Some i). split; [reflexivity|]. split; [lia|].
      exists e. split; [exact Hlookup|]. unfold key. congruence.
    + destruct (IH (i + 1)) as (r & Hr & Hspec); [lia|lia|].
      exists r. split; [exact Hr|].
      apply (Hnext r Hr); [unfold key; congruence|exact Hspec].
    + destruct (IH (i + 1)) as (r & Hr & Hspec); [lia|lia|].
      exists r. split; [exact Hr|].
      apply (Hnext r Hr); [unfold key; congruence|exact Hspec].
  - exists None. split; [reflexivity|].
    intros k e Hk He. apply entries_lookup in He. lia.
Qed.

Lemma key_unique (c : string_cache) (j k : nat)
    (e e' : usb_string_cache_entry) :
  NoDup (map key (entries c)) ->
  entries c !! j = Some e -> entries c !! k = Some e' -> key e = key e' ->
  j = k.
Proof.
  intros Hnodup Hj Hk Hkey.
  apply (NoDup_lookup (map key (entries c)) j k (key e)); [exact Hnodup| |].
  - by rewrite list_lookup_fmap, Hj.
  - by rewrite list_lookup_fmap, Hk, Hkey.
Qed.

Section CacheFacts.

Variable realloc_ok : Z -> bool.
Variable fresh : usb_string_cache_entry.

(** [realloc] gives no object larger than [PTRDIFF_MAX] bytes. *)
Hypothesis realloc_bound :
  forall allocSize, realloc_ok allocSize = true -> allocSize < 2 ^ 63.

Local Abbreviation find := (usb_string_cache_find realloc_ok fresh).

(** A vendor and product that has an entry: the entry is returned, the
    device is not asked and the cache does not change. *)
Lemma usb_string_cache_find_hit
    (get_usb_string : Z -> res (option wstring))
    (v p iManufacturer iProduct : Z) (c : string_cache)
    (e : usb_string_cache_entry) :
  cache_ok c -> In e (entries c) -> key e = (v, p) ->
  find get_usb_string v p iManufacturer iProduct c = Ok (Some e, c).
Proof.
  intros (Hlen & Hpos & Hsize & Hnodup) Hin Hkey.
  apply list_elem_of_In, list_elem_of_lookup in Hin as [j Hj].
  unfold usb_string_cache_find.
  destruct (usb_string_cache_search_spec c v p ltac:(lia)
              ltac:(unfold sizeof_usb_string_cache_entry in *; lia)
              (S (Z.to_nat (usb_string_cache_insert_pos c))) 0
              ltac:(lia) ltac:(lia)) as (r & -> & Hr).
  cbn [mbind res_mbind res_bind].
  destruct r as [i|].
  - destruct Hr as (Hi & e' & He' & Hkey').
    assert (Z.to_nat i = j) as Hij.
    { apply (key_unique c _ _ e' e Hnodup He' Hj). congruence. }
    assert (e' = e) by congruence. subst e'.
    apply entries_lookup in He' as [He' _].
    assert (Hindex : index (usb_string_cache c) i = Ok e).
    { rewrite <- (Z2Nat.id i) by lia. by apply index_lookup. }
    rewrite Hindex. reflexivity.
  - exfalso. by apply (Hr j e ltac:(lia) Hj).
Qed.

(** A vendor and product without an entry: the device is asked for the
    two strings and an entry is appended, unless memory runs out. *)
Lemma usb_string_cache_find_miss
    (get_usb_string : Z -> res (option wstring))
    (v p iManufacturer iProduct : Z) (c : string_cache)
    (vendor_ product_ : option wstring) :
  cache_ok c ->
  (forall e, In e (entries c) -> key e <> (v, p)) ->
  (if 0 <? iManufacturer then get_usb_string iManufacturer else Ok None)
    = Ok vendor_ ->
  (if 0 <? iProduct then get_usb_string iProduct else Ok None)
    = Ok product_ ->
  let e := {| vid := v; pid := p; vendor := vendor_; product := product_ |} in
  (usb_string_cache_size c <= usb_string_cache_insert_pos c /\
   realloc_ok (sizeof_usb_string_cache_entry * (usb_string_cache_size c + 8))
   = false /\
   find get_usb_string v p iManufacturer iProduct c = Ok (None, c)) \/
  ((usb_string_cache_insert_pos c < usb_string_cache_size c \/
    realloc_ok (sizeof_usb_string_cache_entry * (usb_string_cache_size c + 8))
    = true) /\
   exists c',
     find get_usb_string v p iManufacturer iProduct c = Ok (Some e, c') /\
     cache_ok c' /\ entries c' = entries c ++ [e]).
Proof.
  intros (Hlen & Hpos & Hsize & Hnodup) Hnone Hvendor Hproduct e.
  unfold sizeof_usb_string_cache_entry in *.
  unfold usb_string_cache_find.
  destruct (usb_string_cache_search_spec c v p ltac:(lia) ltac:(lia)
              (S (Z.to_nat (usb_string_cache_insert_pos c))) 0
              ltac:(lia) ltac:(lia)) as (r & -> & Hr).
  cbn [mbind res_mbind res_bind].
  destruct r as [i|].
  { destruct Hr as (_ & e' & He' & Hkey').
    exfalso. apply (Hnone e'); [|exact Hkey'].
    apply list_elem_of_In, list_elem_of_lookup. by eexists. }
  clear Hr.
  assert (Hentries : forall cache' size',
            take (Z.to_nat (usb_string_cache_insert_pos c)) cache'
              = entries c ->
            usb_string_cache_insert_pos c < Z.of_nat (length cache') ->
            Z.of_nat (length cache') = size' ->
            24 * size' < 2 ^ 63 ->
            let c1 :=
              {| usb_string_cache :=
                   <[Z.to_nat (usb_string_cache_insert_pos c) := e]> cache';
                 usb_string_cache_size := size';
                 usb_string_cache_insert_pos :=
                   usb_string_cache_insert_pos c + 1 |} in
            cache_ok c1 /\ entries c1 = entries c ++ [e]).
  { intros cache' size' Htake Hroom Hsize' Hbound c1.
    assert (Hc1 : entries c1 = entries c ++ [e]).
    { unfold entries in *. unfold c1.
      cbn [usb_string_cache usb_string_cache_insert_pos].
      replace (Z.to_nat (usb_string_cache_insert_pos c + 1))
        with (S (Z.to_nat (usb_string_cache_insert_pos c))) by lia.
      rewrite <- Htake.
      erewrite take_S_r; [|apply list_lookup_insert_eq; lia].
      by rewrite take_insert_ge by lia. }
    split; [|exact Hc1].
    unfold cache_ok. rewrite Hc1. unfold c1.
    cbn [usb_string_cache usb_string_cache_size
           usb_string_cache_insert_pos].
    rewrite length_insert. unfold sizeof_usb_string_cache_entry.
    repeat split; try lia.
    rewrite map_app. cbn [map]. apply list.NoDup_app.
    split; [exact Hnodup|]. split; [|apply NoDup_singleton].
    intros k Hk Hk'. apply list_elem_of_singleton in Hk'. subst k.
    apply list_elem_of_In, in_map_iff in Hk as (e' & Hkey' & He').
    by apply (Hnone e'). }
  unfold usb_string_cache_insert, usb_string_cache_grow.
  destruct (Z.leb_spec (usb_string_cache_size c)
              (usb_string_cache_insert_pos c)) as [Hfull|Hroom].
  - (* the array is full *)
    rewrite (usize_small (usb_string_cache_size c + 8)) by lia.
    unfold sizeof_usb_string_cache_entry.
    rewrite (usize_small (24 * (usb_string_cache_size c + 8))) by lia.
    destruct (realloc_ok (24 * (usb_string_cache_size c + 8))) eqn:Halloc;
      cbn [negb]; [|left; by repeat split].
    right. split; [by right|]. apply realloc_bound in Halloc.
    cbn [Z.ltb Z.compare usb_string_cache usb_string_cache_size
           usb_string_cache_insert_pos].
    rewrite Hvendor, Hproduct. cbn [mbind res_mbind res_bind].
    rewrite (usize_small (usb_string_cache_insert_pos c + 1)) by lia.
    unfold realloc, sizeof_usb_string_cache_entry.
    replace (24 * (usb_string_cache_size c + 8) / 24)
      with (usb_string_cache_size c + 8)
      by (rewrite Z.mul_comm, Z.div_mul; lia).
    set (cache' := take _ _).
    assert (Hlen' : Z.of_nat (length cache') = usb_string_cache_size c + 8).
    { unfold cache'. rewrite length_take, length_app, length_replicate.
      lia. }
    rewrite store_in_range by lia.
    cbn [mbind res_mbind res_bind].
    eexists. split; [reflexivity|].
    apply Hentries; try lia.
    unfold cache', entries. rewrite take_take.
    rewrite take_app_le by lia. f_equal. lia.
  - (* there is room *)
    right. split; [by left|].
    cbn [Z.ltb Z.compare usb_string_cache usb_string_cache_size
           usb_string_cache_insert_pos].
    rewrite Hvendor, Hproduct. cbn [mbind res_mbind res_bind].
    rewrite (usize_small (usb_string_cache_insert_pos c + 1)) by lia.
    rewrite store_in_range by lia.
    cbn [mbind res_mbind res_bind].
    eexists. split; [reflexivity|].
    apply Hentries; try lia. reflexivity.
Qed.

(** Whether the vendor and product has an entry. *)
Lemma cached_or_not (c : string_cache) (v p : Z) :
  (exists e, In e (entries c) /\ key e = (v, p)) \/
  (forall e, In e (entries c) -> key e <> (v, p)).
Proof.
  induction (entries c) as [|e es IH].
  - right. intros e [].
  - destruct (decide (key e = (v, p))) as [Hkey|Hkey].
    + left. exists e. split; [by left|exact Hkey].
    + destruct IH as [(e1 & Hin & Hkey1)|Hnone].
      * left. exists e1. split; [by right|exact Hkey1].
      * right. intros e1 [<-|Hin]; [exact Hkey|by apply Hnone].
Qed.

Lemma usb_string_cache_find_spec
    (get_usb_string : Z -> res (option wstring))
    (v p iManufacturer iProduct : Z) (c : string_cache) :
  cache_ok c ->
  (forall idx, exists str, get_usb_string idx = Ok str) ->
  exists r c1,
    find get_usb_string v p iManufacturer iProduct c = Ok (r, c1) /\
    cache_ok c1 /\
    (r = None -> c1 = c) /\
    (forall e, r = Some e ->
       key e = (v, p) /\ In e (entries c1) /\
       ((In e (entries c) /\ c1 = c) \/
        ((forall e0, In e0 (entries c) -> key e0 <> (v, p)) /\
         entries c1 = entries c ++ [e] /\
         (if 0 <? iManufacturer then get_usb_string iManufacturer
          else Ok None) = Ok (vendor e) /\
         (if 0 <? iProduct then get_usb_string iProduct else Ok None)
         = Ok (product e)))).
Proof using realloc_bound.
  intros Hok Htotal.
  destruct (cached_or_not c v p) as [(e & Hin & Hkey)|Hnone].
  - exists (Some e), c.
    split; [by apply usb_string_cache_find_hit|].
    split; [exact Hok|]. split; [discriminate|].
    intros e1 [= <-]. split; [exact Hkey|]. split; [exact Hin|].
    left. by split.
  - assert (exists vendor_,
              (if 0 <? iManufacturer then get_usb_string iManufacturer
               else Ok None) = Ok vendor_) as [vendor_ Hvendor].
    { destruct (0 <? iManufacturer); [apply Htotal|by eexists]. }
    assert (exists product_,
              (if 0 <? iProduct then get_usb_string iProduct
               else Ok None) = Ok product_) as [product_ Hproduct].
    { destruct (0 <? iProduct); [apply Htotal|by eexists]. }
    destruct (usb_string_cache_find_miss get_usb_string v p iManufacturer
                iProduct c vendor_ product_ Hok Hnone Hvendor Hproduct)
      as [(_ & _ & Hfail)|(_ & c1 & Hrun & Hok1 & Hentries)].
    + exists None, c. split; [exact Hfail|]. split; [exact Hok|].
      split; [done|discriminate].
    + eexists _, c1. split; [exact Hrun|]. split; [exact Hok1|].
      split; [discriminate|].
      intros e [= <-]. split; [reflexivity|].
      split; [rewrite Hentries; apply in_or_app; right; by left|].
      right. cbn [vendor product]. by repeat split.
Qed.

(** [NULL] is returned exactly when the vendor and product has no entry,
    the array is full and [realloc] fails. *)
Lemma usb_string_cache_find_null
    (get_usb_string : Z -> res (option wstring))
    (v p iManufacturer iProduct : Z) (c c1 : string_cache)
    (r : option usb_string_cache_entry) :
  cache_ok c ->
  (forall idx, exists str, get_usb_string idx = Ok str) ->
  find get_usb_string v p iManufacturer iProduct c = Ok (r, c1) ->
  r = None <->
  (forall e, In e (entries c) -> key e <> (v, p)) /\
  usb_string_cache_size c <= usb_string_cache_insert_pos c /\
  realloc_ok (sizeof_usb_string_cache_entry * (usb_string_cache_size c + 8))
  = false.
Proof using realloc_bound.
  intros Hok Htotal Hrun.
  destruct (cached_or_not c v p) as [(e & Hin & Hkey)|Hnone].
  - rewrite (usb_string_cache_find_hit get_usb_string v p iManufacturer
               iProduct c e Hok Hin Hkey) in Hrun.
    injection Hrun as <- <-. split; [discriminate|].
    intros (Hnone & _). destruct (Hnone e Hin Hkey).
  - assert (exists vendor_,
              (if 0 <? iManufacturer then get_usb_string iManufacturer
               else Ok None) = Ok vendor_) as [vendor_ Hvendor].
    { destruct (0 <? iManufacturer); [apply Htotal|by eexists]. }
    assert (exists product_,
              (if 0 <? iProduct then get_usb_string iProduct
               else Ok None) = Ok product_) as [product_ Hproduct].
    { destruct (0 <? iProduct); [apply Htotal|by eexists]. }
    destruct (usb_string_cache_find_miss get_usb_string v p iManufacturer
                iProduct c vendor_ product_ Hok Hnone Hvendor Hproduct)
      as [(Hfull & Halloc & Hfail)|(Hroom & c2 & Hfound & _)].
    + rewrite Hfail in Hrun. injection Hrun as <- <-. by split.
    + rewrite Hfound in Hrun. injection Hrun as <- <-.
      split; [discriminate|]. intros (_ & Hfull & Halloc).
      destruct Hroom as [Hroom|Hroom]; [lia|congruence].
Qed.

(** X21.  [usb_string_cache_find] keeps the three statics consistent and
    stays inside the array: the array has [usb_string_cache_size] slots,
    the entries in use fit, no vendor and product has two entries.  It
    returns [NULL] exactly when the vendor and product has no entry, the
    array is full and [realloc] fails, and then the cache is as before.
    Else the entry returned is for the vendor and product asked for; it is
    either an entry that was there, the cache unchanged, or a new last
    entry holding the strings of this device (none for a string index 0),
    the entries before it unchanged. *)
Theorem usb_string_cache_find_keeps_cache_ok
    (get_usb_string : Z -> res (option wstring))
    (idVendor idProduct iManufacturer iProduct : Z) (c : string_cache) :
  cache_ok c ->
  (forall idx, exists str, get_usb_string idx = Ok str) ->
  exists r c1,
    usb_string_cache_find realloc_ok fresh get_usb_string idVendor
      idProduct iManufacturer iProduct c = Ok (r, c1) /\
    cache_ok c1 /\
    (r = None -> c1 = c) /\
    (forall e, r = Some e ->
       key e = (idVendor, idProduct) /\ In e (entries c1) /\
       ((In e (entries c) /\ c1 = c) \/
        ((forall e0, In e0 (entries c) -> key e0 <> (idVendor, idProduct)) /\
         entries c1 = entries c ++ [e] /\
         (if 0 <? iManufacturer then get_usb_string iManufacturer
          else Ok None) = Ok (vendor e) /\
         (if 0 <? iProduct then get_usb_string iProduct else Ok None)
         = Ok (product e)))) /\
    (r = None <->
     (forall e, In e (entries c) -> key e <> (idVendor, idProduct)) /\
     usb_string_cache_size c <= usb_string_cache_insert_pos c /\
     realloc_ok
       (sizeof_usb_string_cache_entry * (usb_string_cache_size c + 8))
     = false).
Proof using realloc_bound.
  intros Hok Htotal.
  destruct (usb_string_cache_find_spec get_usb_string idVendor idProduct
              iManufacturer iProduct c Hok Htotal)
    as (r & c1 & Hrun & Hok1 & Hnone & Hsome).
  exists r, c1. split; [exact Hrun|]. split; [exact Hok1|].
  split; [exact Hnone|]. split; [exact Hsome|].
  by apply (usb_string_cache_find_null get_usb_string idVendor idProduct
              iManufacturer iProduct c c1 r).
Qed.

(** Later calls, for whatever vendors and products, keep an entry. *)
Lemma usb_string_cache_finds_keep (e : usb_string_cache_entry)
    (calls : list find_call) :
  Forall (fun call =>
            forall idx, exists str, call_strings call idx = Ok str) calls ->
  forall c,
    cache_ok c -> In e (entries c) ->
    exists c1,
      usb_string_cache_finds realloc_ok fresh calls c = Ok c1 /\
      cache_ok c1 /\ In e (entries c1).
Proof using realloc_bound.
  induction 1 as [|call calls Htotal _ IH]; intros c Hok Hin;
    cbn [usb_string_cache_finds]; [by exists c|].
  destruct (usb_string_cache_find_spec (call_strings call)
              (call_idVendor call) (call_idProduct call)
              (call_iManufacturer call) (call_iProduct call) c Hok Htotal)
    as (r & c1 & -> & Hok1 & Hnone & Hsome).
  cbn [mbind res_mbind res_bind].
  apply IH; [exact Hok1|].
  destruct r as [e1|]; [|by rewrite (Hnone eq_refl)].
  destruct (Hsome e1 eq_refl) as (_ & _ & [[_ ->]|(_ & -> & _)]);
    [exact Hin|].
  apply in_or_app. by left.
Qed.

(** X22.  Once [usb_string_cache_find] has returned an entry for a vendor
    and product, every later call for that vendor and product, also after
    calls for other vendors and products that added entries, returns the
    same entry and leaves the cache alone, whichever device is behind the
    handle (it is not asked for its strings) and whatever string indexes
    its descriptor has: the strings of the first device seen are the
    strings of all. *)
Theorem usb_string_cache_find_again
    (get_usb_string : Z -> res (option wstring))
    (idVendor idProduct iManufacturer iProduct : Z) (c : string_cache)
    (later : list find_call) :
  cache_ok c ->
  (forall idx, exists str, get_usb_string idx = Ok str) ->
  Forall (fun call =>
            forall idx, exists str, call_strings call idx = Ok str) later ->
  exists r c1,
    usb_string_cache_find realloc_ok fresh get_usb_string idVendor
      idProduct iManufacturer iProduct c = Ok (r, c1) /\
    forall e, r = Some e ->
      exists c2,
        usb_string_cache_finds realloc_ok fresh later c1 = Ok c2 /\
        forall (other_device : Z -> res (option wstring))
               (iManufacturer1 iProduct1 : Z),
          usb_string_cache_find realloc_ok fresh other_device idVendor
            idProduct iManufacturer1 iProduct1 c2 = Ok (Some e, c2).
Proof using realloc_bound.
  intros Hok Htotal Hlater.
  destruct (usb_string_cache_find_spec get_usb_string idVendor idProduct
              iManufacturer iProduct c Hok Htotal)
    as (r & c1 & Hrun & Hok1 & _ & Hsome).
  exists r, c1. split; [exact Hrun|].
  intros e He.
  destruct (Hsome e He) as (Hkey & Hin & _).
  destruct (usb_string_cache_finds_keep e later Hlater c1 Hok1 Hin)
    as (c2 & Hfinds & Hok2 & Hin2).
  exists c2. split; [exact Hfinds|].
  intros other im1 ip1.
  by apply usb_string_cache_find_hit.
Qed.

End CacheFacts.

(** The loop of [usb_string_cache_destroy] frees the two strings of every
    entry in use, in order. *)
Lemma usb_string_cache_free_spec (c : string_cache) :
  usb_string_cache_insert_pos c <= Z.of_nat (length (usb_string_cache c)) ->
  usb_string_cache_insert_pos c < 2 ^ 64 ->
  forall fuel i,
    0 <= i -> (Z.to_nat (usb_string_cache_insert_pos c - i) < fuel)%nat ->
    usb_string_cache_free fuel c i =
      Ok (flat_map (fun e => [vendor e; product e])
            (drop (Z.to_nat i) (entries c))).
Proof.
  intros Hlen Hsmall. induction fuel as [|fuel IH]; intros i Hi Hfuel; [lia|].
  cbn [usb_string_cache_free].
  destruct (Z.ltb_spec i (usb_string_cache_insert_pos c)) as [Hin|Hout].
  - destruct (index_lt (usb_string_cache c) i) as [e He]; [lia|].
    rewrite He. cbn [mbind res_mbind res_bind].
    rewrite (usize_small (i + 1)) by lia.
    rewrite IH by lia. cbn [mbind res_mbind res_bind].
    assert (Hlookup : entries c !! Z.to_nat i = Some e).
    { apply entries_lookup. split; [|lia].
      apply index_Ok_lookup in He. tauto. }
    rewrite (drop_S _ _ _ Hlookup). cbn [flat_map app].
    replace (Z.to_nat (i + 1)) with (S (Z.to_nat i)) by lia.
    reflexivity.
  - rewrite drop_ge; [reflexivity|].
    unfold entries. rewrite length_take. lia.
Qed.

(** X23.  [usb_string_cache_destroy] frees the manufacturer and the
    product string of every entry in use, each once and in order, reads
    no slot beyond them, and leaves the statics as they were at start-up;
    the next [usb_string_cache_find] asks the device again. *)
Theorem usb_string_cache_destroy_frees (c : string_cache) :
  cache_ok c ->
  usb_string_cache_destroy c =
    Ok (flat_map (fun e => [vendor e; product e]) (entries c),
        string_cache_init) /\
  cache_ok string_cache_init /\ entries string_cache_init = [].
Proof.
  intros (Hlen & Hpos & Hsize & Hnodup).
  unfold sizeof_usb_string_cache_entry in *.
  split; [|split; [|reflexivity]].
  - unfold usb_string_cache_destroy.
    rewrite usb_string_cache_free_spec by lia.
    reflexivity.
  - unfold cache_ok, string_cache_init, entries,
      sizeof_usb_string_cache_entry. cbn.
    repeat split; try lia. constructor.
Qed.

(** The first device of a vendor and product, on an empty cache. *)
Lemma usb_string_cache_find_keeps_cache_ok_witness :
  exists r c1,
    usb_string_cache_find (fun allocSize => allocSize <? 2 ^ 63)
      {| vid := 0; pid := 0; vendor := None; product := None |}
      (fun _ => Ok (Some [65])) 0x046d 0xc216 1 2 string_cache_init
    = Ok (r, c1) /\
    cache_ok c1.
Proof.
  destruct (usb_string_cache_find_keeps_cache_ok
              (fun allocSize => allocSize <? 2 ^ 63)
              {| vid := 0; pid := 0; vendor := None; product := None |}
              ltac:(intros allocSize H; apply Z.ltb_lt in H; exact H)
              (fun _ => Ok (Some [65])) 0x046d 0xc216 1 2 string_cache_init
              ltac:(unfold cache_ok, string_cache_init, entries,
                      sizeof_usb_string_cache_entry; cbn;
                    repeat split; try lia; constructor)
              ltac:(intros idx; by eexists))
    as (r & c1 & Hrun & Hok & _).
  exists r, c1. split; [exact Hrun|exact Hok].
Defined.

(** The first device of a vendor and product, then a device of another
    vendor, then a second device of the first vendor and product whose
    strings cannot be read: it is not asked. *)
Lemma usb_string_cache_find_again_witness :
  let realloc_ok := fun allocSize => allocSize <? 2 ^ 63 in
  let fresh := {| vid := 0; pid := 0; vendor := None; product := None |} in
  let e := {| vid := 0x046d; pid := 0xc216; vendor := Some [65];
              product := Some [65] |} in
  let later :=
    [ {| call_strings := fun _ => Ok (Some [67]); call_idVendor := 0x054c;
         call_idProduct := 0x0268; call_iManufacturer := 1;
         call_iProduct := 2 |} ] in
  exists c1 c2,
    usb_string_cache_find realloc_ok fresh (fun _ => Ok (Some [65]))
      0x046d 0xc216 1 2 string_cache_init = Ok (Some e, c1) /\
    usb_string_cache_finds realloc_ok fresh later c1 = Ok c2 /\
    usb_string_cache_find realloc_ok fresh (fun _ => Fault) 0x046d 0xc216
      3 0 c2 = Ok (Some e, c2).
Proof.
  cbv zeta.
  destruct (usb_string_cache_find_again
              (fun allocSize => allocSize <? 2 ^ 63)
              {| vid := 0; pid := 0; vendor := None; product := None |}
              ltac:(intros allocSize H; apply Z.ltb_lt in H; exact H)
              (fun _ => Ok (Some [65])) 0x046d 0xc216 1 2 string_cache_init
              [ {| call_strings := fun _ => Ok (Some [67]);
                   call_idVendor := 0x054c; call_idProduct := 0x0268;
                   call_iManufacturer := 1; call_iProduct := 2 |} ]
              ltac:(unfold cache_ok, string_cache_init, entries,
                      sizeof_usb_string_cache_entry; cbn;
                    repeat split; try lia; constructor)
              ltac:(intros idx; by eexists)
              ltac:(constructor; [intros idx; by eexists|constructor]))
    as (r & c1 & Hrun & Hagain).
  assert (Hr : r = Some {| vid := 0x046d; pid := 0xc216;
                           vendor := Some [65]; product := Some [65] |}).
  { vm_compute in Hrun. by injection Hrun as <- _. }
  destruct (Hagain _ Hr) as (c2 & Hfinds & Hsame).
  exists c1, c2. rewrite Hr in Hrun.
  split; [exact Hrun|]. split; [exact Hfinds|]. apply Hsame.
Defined.

(** One entry in use in an array of 8. *)
Lemma usb_string_cache_destroy_frees_witness :
  usb_string_cache_destroy
    {| usb_string_cache :=
         {| vid := 0x046d; pid := 0xc216; vendor := Some [65];
            product := None |} ::
         replicate 7
           {| vid := 0; pid := 0; vendor := None; product := None |};
       usb_string_cache_size := 8; usb_string_cache_insert_pos := 1 |}
  = Ok ([Some [65]; None], string_cache_init).
Proof.
  apply (proj1 (usb_string_cache_destroy_frees
           {| usb_string_cache :=
                {| vid := 0x046d; pid := 0xc216; vendor := Some [65];
                   product := None |} ::
                replicate 7
                  {| vid := 0; pid := 0; vendor := None; product := None |};
              usb_string_cache_size := 8;
              usb_string_cache_insert_pos := 1 |}
           ltac:(unfold cache_ok, entries, sizeof_usb_string_cache_entry;
                 cbn; repeat split; try lia;
                 repeat constructor; intros H; inversion H))).
Defined.

(** ** Device paths *)

Lemma digit_val (z : Z) : 0 <= z <= 9 -> byte_val (digit z) = 48 + z.
Proof.
  intros Hz. unfold digit.
  assert (Hcases : (Z.to_nat z < 10)%nat) by lia.
  replace z with (Z.of_nat (Z.to_nat z)) at 2 by lia.
  destruct (Z.to_nat z) as [|[|[|[|[|[|[|[|[|[|k]]]]]]]]]];
    try reflexivity.
  lia.
Qed.

(** A digit, as a condition on the character. *)
Local Abbreviation is_digit c := (48 <= byte_val c <= 57).

Lemma decimal_digits (z : Z) :
  0 <= z < 1000 ->
  Forall (fun c => is_digit c) (decimal z) /\
  (1 <= length (decimal z) <= 3)%nat.
Proof.
  intros Hz. unfold decimal.
  assert (Hd : forall d, 0 <= d <= 9 -> is_digit (digit d)).
  { intros d Hd. rewrite digit_val by lia. lia. }
  destruct (Z.ltb_spec z 10); [|destruct (Z.ltb_spec z 100)];
    (split; [|cbn; lia]); repeat constructor; apply Hd;
    Z.to_euclidean_division_equations; lia.
Qed.

Lemma decimal_inj (a b : Z) :
  0 <= a < 1000 -> 0 <= b < 1000 -> decimal a = decimal b -> a = b.
Proof.
  intros Ha Hb. unfold decimal.
  assert (Hinj : forall x y, 0 <= x <= 9 -> 0 <= y <= 9 ->
                             digit x = digit y -> x = y).
  { intros x y Hx Hy Heq. apply (f_equal byte_val) in Heq.
    rewrite !digit_val in Heq by lia. lia. }
  destruct (Z.ltb_spec a 10); [|destruct (Z.ltb_spec a 100)];
    (destruct (Z.ltb_spec b 10); [|destruct (Z.ltb_spec b 100)]);
    intros Heq; try discriminate.
  - injection Heq as Heq. apply Hinj in Heq; lia.
  - injection Heq as Hd1 Hd0.
    apply Hinj in Hd1; [|Z.to_euclidean_division_equations; lia..].
    apply Hinj in Hd0; Z.to_euclidean_division_equations; lia.
  - injection Heq as Hd2 Hd1 Hd0.
    apply Hinj in Hd2; [|Z.to_euclidean_division_equations; lia..].
    apply Hinj in Hd1; [|Z.to_euclidean_division_equations; lia..].
    apply Hinj in Hd0; Z.to_euclidean_division_equations; lia.
Qed.

(** Two texts that start with digits and go on with another character
    agree on the digits and on the rest. *)
Lemma digits_then_separator (d1 d2 : list byte) (s1 s2 : byte)
    (r1 r2 : list byte) :
  Forall (fun c => is_digit c) d1 -> Forall (fun c => is_digit c) d2 ->
  ~ is_digit s1 -> ~ is_digit s2 ->
  d1 ++ s1 :: r1 = d2 ++ s2 :: r2 ->
  d1 = d2 /\ s1 = s2 /\ r1 = r2.
Proof.
  intros H1. revert d2. induction H1 as [|c1 d1 Hc1 _ IH];
    intros d2 H2 Hs1 Hs2 Heq.
  - destruct H2 as [|c2 d2 Hc2 _].
    + injection Heq as -> ->. done.
    + injection Heq as -> _. contradiction.
  - destruct H2 as [|c2 d2 Hc2 H2].
    + injection Heq as <- _. contradiction.
    + injection Heq as -> Heq.
      destruct (IH d2 H2 Hs1 Hs2 Heq) as (-> & -> & ->). done.
Qed.

(** What follows the first port number in a path. *)
Local Abbreviation path_tail ports config_number interface_number :=
  (path_ports ports ++
   x3a :: decimal config_number ++ x2e :: decimal interface_number).

Lemma path_tail_head (ports : list Z) (c i : Z) :
  exists s r, path_tail ports c i = s :: r /\ ~ is_digit s.
Proof.
  destruct ports as [|port ports]; cbn; eexists _, _;
    (split; [reflexivity|]); vm_compute; intros [H1 H2]; congruence.
Qed.

Lemma path_tail_inj (ports1 ports2 : list Z) (c1 c2 i1 i2 : Z) :
  Forall (fun port => 0 <= port < 1000) ports1 ->
  Forall (fun port => 0 <= port < 1000) ports2 ->
  0 <= c1 < 1000 -> 0 <= c2 < 1000 -> 0 <= i1 < 1000 -> 0 <= i2 < 1000 ->
  path_tail ports1 c1 i1 = path_tail ports2 c2 i2 ->
  ports1 = ports2 /\ c1 = c2 /\ i1 = i2.
Proof.
  intros Hports1. revert ports2.
  assert (Hdot : ~ is_digit x2e) by (vm_compute; intros [H1 H2]; congruence).
  induction Hports1 as [|port1 ports1 Hport1 _ IH];
    intros ports2 Hports2 Hc1 Hc2 Hi1 Hi2 Heq.
  - destruct Hports2 as [|port2 ports2 Hport2 _]; [|discriminate].
    cbn in Heq. injection Heq as Heq.
    destruct (digits_then_separator _ _ _ _ _ _
                (proj1 (decimal_digits c1 Hc1))
                (proj1 (decimal_digits c2 Hc2)) Hdot Hdot Heq)
      as (Hc & _ & Hi).
    apply decimal_inj in Hc; [|done..].
    apply decimal_inj in Hi; [|done..]. done.
  - destruct Hports2 as [|port2 ports2 Hport2 Hports2]; [discriminate|].
    cbn [path_ports flat_map] in Heq. rewrite <- !app_assoc in Heq.
    cbn [app] in Heq. injection Heq as Heq.
    destruct (path_tail_head ports1 c1 i1) as (s1 & r1 & Hr1 & Hs1).
    destruct (path_tail_head ports2 c2 i2) as (s2 & r2 & Hr2 & Hs2).
    unfold path_ports in Hr1, Hr2. rewrite Hr1, Hr2 in Heq.
    destruct (digits_then_separator _ _ _ _ _ _
                (proj1 (decimal_digits port1 Hport1))
                (proj1 (decimal_digits port2 Hport2)) Hs1 Hs2 Heq)
      as (Hport & Hs & Hr).
    apply decimal_inj in Hport; [|done..].
    destruct (IH ports2 Hports2 Hc1 Hc2 Hi1 Hi2) as (-> & -> & ->).
    { unfold path_ports. rewrite Hr1, Hr2. congruence. }
    by subst.
Qed.

(** Paths are equal only for equal bus, ports, configuration and
    interface. *)
Lemma path_text_inj (bus1 bus2 port1 port2 : Z) (ports1 ports2 : list Z)
    (c1 c2 i1 i2 : Z) :
  0 <= bus1 < 1000 -> 0 <= bus2 < 1000 ->
  0 <= port1 < 1000 -> 0 <= port2 < 1000 ->
  Forall (fun port => 0 <= port < 1000) ports1 ->
  Forall (fun port => 0 <= port < 1000) ports2 ->
  0 <= c1 < 1000 -> 0 <= c2 < 1000 -> 0 <= i1 < 1000 -> 0 <= i2 < 1000 ->
  path_text bus1 port1 ports1 c1 i1 = path_text bus2 port2 ports2 c2 i2 ->
  bus1 = bus2 /\ port1 = port2 /\ ports1 = ports2 /\ c1 = c2 /\ i1 = i2.
Proof.
  intros Hbus1 Hbus2 Hport1 Hport2 Hports1 Hports2 Hc1 Hc2 Hi1 Hi2 Heq.
  unfold path_text in Heq.
  assert (Hdash : ~ is_digit x2d) by (vm_compute; intros [H1 H2]; congruence).
  destruct (digits_then_separator _ _ _ _ _ _
              (proj1 (decimal_digits bus1 Hbus1))
              (proj1 (decimal_digits bus2 Hbus2)) Hdash Hdash Heq)
    as (Hbus & _ & Hrest).
  apply decimal_inj in Hbus; [|done..].
  destruct (path_tail_head ports1 c1 i1) as (s1 & r1 & Hr1 & Hs1).
  destruct (path_tail_head ports2 c2 i2) as (s2 & r2 & Hr2 & Hs2).
  pose proof Hrest as Hrest'. rewrite Hr1, Hr2 in Hrest'.
  destruct (digits_then_separator _ _ _ _ _ _
              (proj1 (decimal_digits port1 Hport1))
              (proj1 (decimal_digits port2 Hport2)) Hs1 Hs2 Hrest')
    as (Hport & Hs & Hr).
  apply decimal_inj in Hport; [|done..].
  destruct (path_tail_inj ports1 ports2 c1 c2 i1 i2) as (-> & -> & ->);
    try done.
  rewrite Hr1, Hr2. congruence.
Qed.

Lemma snprintf_append (t junk text : list byte) (c : byte) (size : Z) :
  Z.of_nat (length text) <= size - 1 ->
  (length text <= length junk)%nat ->
  snprintf (t ++ c :: junk) (Z.of_nat (length t)) size text =
    Ok ((t ++ text) ++ x00 :: drop (length text) junk,
        Z.of_nat (length text)).
Proof.
  intros Hsize Hroom. unfold snprintf.
  rewrite take_ge by lia.
  rewrite !length_app. cbn [length]. rewrite Nat2Z.id.
  destruct (Z.leb_spec 0 (Z.of_nat (length t))); [|lia].
  destruct (Z.leb_spec (Z.of_nat (length t) +
                        Z.of_nat (length text + 1))
              (Z.of_nat (length t + S (length junk)))); [|lia].
  cbn [andb]. f_equal. f_equal.
  rewrite take_app_length.
  rewrite drop_app_ge by lia.
  replace (length t + (length text + 1) - length t)%nat
    with (S (length text)) by lia.
  cbn [drop]. rewrite <- !app_assoc. reflexivity.
Qed.

(** The loop over the ports appends their text and keeps the string
    terminated. *)
Lemma get_path_ports_spec (port_numbers : list Z) (num_ports : Z) :
  num_ports <= Z.of_nat (length port_numbers) -> num_ports <= 255 ->
  Forall (fun port => 0 <= port < 1000) port_numbers ->
  forall fuel t junk i,
    0 <= i <= num_ports -> (Z.to_nat (num_ports - i) < fuel)%nat ->
    4 * (num_ports - i) <= Z.of_nat (length junk) ->
    Z.of_nat (length t) + Z.of_nat (length junk) <= INT_MAX ->
    let text :=
      path_ports (take (Z.to_nat (num_ports - i))
                    (drop (Z.to_nat i) port_numbers)) in
    get_path_ports fuel (t ++ x00 :: junk) (Z.of_nat (length t))
      port_numbers num_ports i =
      Ok ((t ++ text) ++ x00 :: drop (length text) junk,
          Z.of_nat (length (t ++ text))) /\
    (length text <= 4 * Z.to_nat (num_ports - i))%nat.
Proof.
  intros Hnum Hsmall Hports.
  induction fuel as [|fuel IH]; intros t junk i Hi Hfuel Hroom Hint text;
    [lia|].
  cbn [get_path_ports].
  destruct (Z.ltb_spec i num_ports) as [Hlt|Hge].
  - destruct (index_lt port_numbers i) as [port Hport]; [lia|].
    rewrite Hport. cbn [mbind res_mbind res_bind].
    apply index_Ok_lookup in Hport as [_ Hlookup].
    assert (Hrange : 0 <= port < 1000).
    { rewrite Forall_lookup in Hports. by apply (Hports _ _ Hlookup). }
    destruct (decimal_digits port Hrange) as [_ Hlen].
    rewrite snprintf_append by (cbn [length]; lia).
    cbn [mbind res_mbind res_bind length].
    rewrite to_int_small by (unfold INT_MAX in *; lia).
    unfold u8. rewrite Z.mod_small by lia.
    replace (Z.of_nat (length t) + Z.of_nat (S (length (decimal port))))
      with (Z.of_nat (length (t ++ x2e :: decimal port)))
      by (rewrite length_app; cbn [length]; lia).
    destruct (IH (t ++ x2e :: decimal port)
                (drop (S (length (decimal port))) junk) (i + 1))
      as [Hrun Hbound].
    { lia. } { lia. } { rewrite length_drop. lia. }
    { rewrite length_app, length_drop. cbn [length]. lia. }
    cbv zeta in Hrun, Hbound. rewrite Hrun. clear Hrun IH.
    assert (Htext : text =
              (x2e :: decimal port) ++
              path_ports (take (Z.to_nat (num_ports - (i + 1)))
                            (drop (Z.to_nat (i + 1)) port_numbers))).
    { unfold text. rewrite (drop_S _ _ _ Hlookup).
      replace (Z.to_nat (num_ports - i))
        with (S (Z.to_nat (num_ports - (i + 1)))) by lia.
      replace (Z.to_nat (i + 1)) with (S (Z.to_nat i)) by lia.
      reflexivity. }
    split.
    + rewrite Htext. rewrite drop_drop, <- !app_assoc.
      rewrite !length_app. cbn [length]. repeat f_equal; lia.
    + rewrite Htext, length_app. cbn [length]. lia.
  - assert (Htext : text = []).
    { unfold text. replace (Z.to_nat (num_ports - i)) with 0%nat by lia.
      reflexivity. }
    rewrite Htext, app_nil_r. cbn [length drop]. split; [reflexivity|lia].
Qed.

Lemma cstring_terminated (text junk : list byte) :
  Forall (fun c => byte_val c <> 0) text ->
  cstring (text ++ x00 :: junk) = text.
Proof.
  induction 1 as [|c text Hc _ IH]; [reflexivity|].
  cbn. destruct (Z.eqb_spec (byte_val c) 0); [contradiction|].
  by rewrite IH.
Qed.

Lemma decimal_nonzero (z : Z) :
  0 <= z < 1000 -> Forall (fun c => byte_val c <> 0) (decimal z).
Proof.
  intros Hz. destruct (decimal_digits z Hz) as [Hdigits _].
  eapply Forall_impl; [|exact Hdigits]. cbn. intros c Hc. lia.
Qed.

Lemma path_ports_nonzero (ports : list Z) :
  Forall (fun port => 0 <= port < 1000) ports ->
  Forall (fun c => byte_val c <> 0) (path_ports ports).
Proof.
  induction 1 as [|port ports Hport _ IH]; [constructor|].
  cbn. constructor; [vm_compute; congruence|].
  apply Forall_app_2; [by apply decimal_nonzero|exact IH].
Qed.

Lemma get_path_spec (result : list byte) (bus_number num_ports : Z)
    (port_numbers : list Z) (config_number interface_number : Z) :
  length result = 64%nat ->
  0 <= bus_number < 256 ->
  length port_numbers = 8%nat ->
  Forall (fun port => 0 <= port < 256) port_numbers ->
  num_ports <= 8 ->
  exists str,
    get_path result bus_number num_ports port_numbers config_number
      interface_number = Ok str /\
    length str = 64%nat /\
    (num_ports <= 0 -> cstring str = []) /\
    (0 < num_ports ->
     exists port ports,
       port_numbers = port :: ports /\
       cstring str =
         path_text bus_number port (take (Z.to_nat (num_ports - 1)) ports)
           (u8 config_number) (u8 interface_number)) /\
    (length (cstring str) <= 43)%nat.
Proof.
  intros Hresult Hbus Hlen Hports Hnum. unfold get_path.
  destruct result as [|c junk]; [discriminate|].
  cbn [length] in Hresult.
  destruct (Z.ltb_spec 0 num_ports) as [Hsome|Hnone].
  - destruct port_numbers as [|port ports]; [discriminate|].
    change (index (port :: ports) 0) with (Ok port).
    cbn [mbind res_mbind res_bind].
    assert (Hports' : Forall (fun port => 0 <= port < 1000) (port :: ports)).
    { eapply Forall_impl; [|exact Hports]. cbn. lia. }
    pose proof (Forall_inv Hports) as Hport. cbn in Hport.
    destruct (decimal_digits bus_number ltac:(lia)) as [_ Hlen_bus].
    destruct (decimal_digits port ltac:(lia)) as [_ Hlen_port].
    set (text1 := decimal bus_number ++ x2d :: decimal port).
    assert (Hlen1 : (length text1 <= 7)%nat).
    { unfold text1. rewrite length_app. cbn [length]. lia. }
    pose proof (snprintf_append [] junk text1 c 8 ltac:(lia) ltac:(lia))
      as Hfirst.
    cbn [app length] in Hfirst. change (Z.of_nat 0) with 0 in Hfirst.
    rewrite Hfirst. clear Hfirst.
    cbn [mbind res_mbind res_bind].
    destruct (get_path_ports_spec (port :: ports) num_ports
                ltac:(rewrite Hlen; lia) ltac:(lia) Hports'
                (Z.to_nat num_ports) text1 (drop (length text1) junk) 1)
      as [Hrun Hlen2].
    { lia. } { lia. } { rewrite length_drop. lia. }
    { rewrite length_drop. unfold INT_MAX. lia. }
    cbv zeta in Hrun, Hlen2. rewrite Hrun. clear Hrun.
    cbn [mbind res_mbind res_bind].
    change (drop (Z.to_nat 1) (port :: ports)) with ports in *.
    set (text2 := path_ports (take (Z.to_nat (num_ports - 1)) ports)) in *.
    assert (Hu8 : forall z, 0 <= u8 z < 256).
    { intros z. unfold u8. apply Z.mod_pos_bound. lia. }
    destruct (decimal_digits (u8 config_number))
      as [_ Hlen_c]; [specialize (Hu8 config_number); lia|].
    destruct (decimal_digits (u8 interface_number))
      as [_ Hlen_i]; [specialize (Hu8 interface_number); lia|].
    set (text3 := x3a :: decimal (u8 config_number) ++
                  x2e :: decimal (u8 interface_number)).
    assert (Hlen3 : (length text3 <= 8)%nat).
    { unfold text3. cbn [length]. rewrite length_app. cbn [length]. lia. }
    rewrite snprintf_append
      by (rewrite ?length_drop; lia).
    cbn [mbind res_mbind res_bind].
    rewrite to_int_small
      by (rewrite ?length_app; unfold INT_MAX; lia).
    replace (Z.of_nat (length (text1 ++ text2)) + Z.of_nat (length text3))
      with (Z.of_nat (length ((text1 ++ text2) ++ text3)))
      by (rewrite !length_app; lia).
    set (junk3 := drop (length text3) (drop (length text2)
                                         (drop (length text1) junk))).
    assert (Hjunk3 : (length ((text1 ++ text2) ++ text3) + S (length junk3)
                      = 64)%nat).
    { unfold junk3. rewrite !length_drop, !length_app. lia. }
    rewrite store_in_range by (rewrite !length_app; cbn [length]; lia).
    rewrite Nat2Z.id.
    assert (Hstored :
      <[length ((text1 ++ text2) ++ text3) := x00]>
        (((text1 ++ text2) ++ text3) ++ x00 :: junk3)
      = ((text1 ++ text2) ++ text3) ++ x00 :: junk3).
    { rewrite insert_app_r_alt by lia. rewrite Nat.sub_diag. reflexivity. }
    rewrite Hstored.
    assert (Htext : cstring (((text1 ++ text2) ++ text3) ++ x00 :: junk3)
                    = (text1 ++ text2) ++ text3).
    { apply cstring_terminated.
      apply Forall_app_2; [apply Forall_app_2|].
      - unfold text1. apply Forall_app_2.
        + apply decimal_nonzero. lia.
        + constructor; [vm_compute; congruence|].
          apply decimal_nonzero. lia.
      - apply path_ports_nonzero.
        apply Forall_take. by apply Forall_inv_tail in Hports'.
      - unfold text3. constructor; [vm_compute; congruence|].
        apply Forall_app_2.
        + apply decimal_nonzero. specialize (Hu8 config_number). lia.
        + constructor; [vm_compute; congruence|].
          apply decimal_nonzero. specialize (Hu8 interface_number). lia. }
    eexists. split; [reflexivity|].
    split; [rewrite !length_app; cbn [length];
            rewrite !length_app in Hjunk3; lia|].
    split; [intros; lia|]. split.
    + intros _. exists port, ports. split; [reflexivity|].
      rewrite Htext. unfold path_text, text1, text2, text3.
      rewrite <- !app_assoc. reflexivity.
    + rewrite Htext, !length_app. lia.
  - rewrite store_in_range by (cbn [length]; lia).
    eexists. split; [reflexivity|].
    change (Z.to_nat 0) with 0%nat.
    split; [by rewrite length_insert|].
    split; [done|]. split; [intros; lia|cbn; lia].
Qed.

(** X24.  [get_path] stays inside its array of 64 characters, whatever
    the bus and port numbers: with [n > 0] ports it leaves the text
    bus-port[.port]*:config.interface (decimal numbers, the configuration
    and the interface number cut to 8 bits), zero-terminated and at most
    43 characters long; with no port numbers it leaves the empty
    string. *)
Theorem get_path_stays_in_array (result : list byte)
    (bus_number num_ports : Z) (port_numbers : list Z)
    (config_number interface_number : Z) :
  length result = 64%nat ->
  0 <= bus_number < 256 ->
  length port_numbers = 8%nat ->
  Forall (fun port => 0 <= port < 256) port_numbers ->
  num_ports <= 8 ->
  exists str,
    get_path result bus_number num_ports port_numbers config_number
      interface_number = Ok str /\
    length str = 64%nat /\
    (num_ports <= 0 -> cstring str = []) /\
    (0 < num_ports ->
     exists port ports,
       port_numbers = port :: ports /\
       cstring str =
         path_text bus_number port (take (Z.to_nat (num_ports - 1)) ports)
           (u8 config_number) (u8 interface_number)) /\
    (length (cstring str) <= 43)%nat.
Proof.
  apply get_path_spec.
Qed.

(** Two interfaces with the same path. *)
Lemma make_path_inj (str1 str2 : list byte)
    (bus1 bus2 num_ports1 num_ports2 : Z) (port_numbers1 port_numbers2 : list Z)
    (config1 config2 interface1 interface2 : Z) (path_ : list byte) :
  length str1 = 64%nat -> length str2 = 64%nat ->
  0 <= bus1 < 256 -> 0 <= bus2 < 256 ->
  length port_numbers1 = 8%nat -> length port_numbers2 = 8%nat ->
  Forall (fun port => 0 <= port < 256) port_numbers1 ->
  Forall (fun port => 0 <= port < 256) port_numbers2 ->
  0 < num_ports1 <= 8 -> 0 < num_ports2 <= 8 ->
  make_path str1 bus1 num_ports1 port_numbers1 config1 interface1
    = Ok path_ ->
  make_path str2 bus2 num_ports2 port_numbers2 config2 interface2
    = Ok path_ ->
  bus1 = bus2 /\ num_ports1 = num_ports2 /\
  take (Z.to_nat num_ports1) port_numbers1 =
    take (Z.to_nat num_ports2) port_numbers2 /\
  u8 config1 = u8 config2 /\ u8 interface1 = u8 interface2.
Proof.
  intros Hstr1 Hstr2 Hbus1 Hbus2 Hlen1 Hlen2 Hports1 Hports2 Hnum1 Hnum2.
  destruct (get_path_spec str1 bus1 num_ports1 port_numbers1 config1
              interface1 Hstr1 Hbus1 Hlen1 Hports1 ltac:(lia))
    as (out1 & Hrun1 & _ & _ & Htext1 & _).
  destruct (get_path_spec str2 bus2 num_ports2 port_numbers2 config2
              interface2 Hstr2 Hbus2 Hlen2 Hports2 ltac:(lia))
    as (out2 & Hrun2 & _ & _ & Htext2 & _).
  unfold make_path. rewrite Hrun1, Hrun2.
  cbn [mbind res_mbind res_bind].
  destruct (Htext1 ltac:(lia)) as (port1 & ports1 & -> & ->).
  destruct (Htext2 ltac:(lia)) as (port2 & ports2 & -> & ->).
  intros [= <-] [= Heq].
  assert (Hu8 : forall z, 0 <= u8 z < 1000).
  { intros z. unfold u8. pose proof (Z.mod_pos_bound z (2 ^ 8)). lia. }
  assert (Hwide : forall ports,
            Forall (fun port => 0 <= port < 256) ports ->
            Forall (fun port => 0 <= port < 1000) ports).
  { intros ports H. eapply Forall_impl; [|exact H]. cbn. lia. }
  apply path_text_inj in Heq
      as (Hbus & Hport & Hports & Hconfig & Hinterface);
    try done; try lia;
    try (apply Forall_take, Hwide; by eapply Forall_inv_tail);
    try (apply Forall_inv in Hports1; cbn in Hports1; lia);
    try (apply Forall_inv in Hports2; cbn in Hports2; lia).
  split; [done|].
  cbn [length] in Hlen1, Hlen2.
  assert (Hnum : num_ports1 = num_ports2).
  { apply (f_equal length) in Hports. rewrite !length_take in Hports.
    lia. }
  split; [exact Hnum|]. split; [|by split].
  replace (Z.to_nat num_ports1) with (S (Z.to_nat (num_ports1 - 1))) by lia.
  replace (Z.to_nat num_ports2) with (S (Z.to_nat (num_ports2 - 1))) by lia.
  cbn [take]. by rewrite Hport, Hports.
Qed.

(** X25.  Two paths made by [make_path] from port numbers libusb could
    report, for devices with at least one port number, are equal only if
    bus number, port numbers, configuration and interface number (the last
    two cut to 8 bits) are equal: such a path names one interface of one
    device, and it is not empty.  When libusb reports no port number
    ([num_ports <= 0]) the path is empty, whatever the bus, the
    configuration and the interface: all interfaces of all such devices
    have the same path. *)
Theorem make_path_injective (str1 str2 : list byte)
    (bus1 bus2 num_ports1 num_ports2 : Z) (port_numbers1 port_numbers2 : list Z)
    (config1 config2 interface1 interface2 : Z) :
  length str1 = 64%nat -> length str2 = 64%nat ->
  0 <= bus1 < 256 -> 0 <= bus2 < 256 ->
  length port_numbers1 = 8%nat -> length port_numbers2 = 8%nat ->
  Forall (fun port => 0 <= port < 256) port_numbers1 ->
  Forall (fun port => 0 <= port < 256) port_numbers2 ->
  num_ports1 <= 8 -> num_ports2 <= 8 ->
  exists path1 path2,
    make_path str1 bus1 num_ports1 port_numbers1 config1 interface1
      = Ok path1 /\
    make_path str2 bus2 num_ports2 port_numbers2 config2 interface2
      = Ok path2 /\
    (0 < num_ports1 -> 0 < num_ports2 -> path1 = path2 ->
     bus1 = bus2 /\ num_ports1 = num_ports2 /\
     take (Z.to_nat num_ports1) port_numbers1 =
       take (Z.to_nat num_ports2) port_numbers2 /\
     u8 config1 = u8 config2 /\ u8 interface1 = u8 interface2) /\
    (num_ports1 <= 0 -> path1 = []) /\
    (num_ports2 <= 0 -> path2 = []) /\
    (0 < num_ports1 -> path1 <> []) /\
    (0 < num_ports2 -> path2 <> []).
Proof.
  intros Hstr1 Hstr2 Hbus1 Hbus2 Hlen1 Hlen2 Hports1 Hports2 Hnum1 Hnum2.
  destruct (get_path_spec str1 bus1 num_ports1 port_numbers1 config1
              interface1 Hstr1 Hbus1 Hlen1 Hports1 Hnum1)
    as (out1 & Hrun1 & _ & Hnone1 & Hsome1 & _).
  destruct (get_path_spec str2 bus2 num_ports2 port_numbers2 config2
              interface2 Hstr2 Hbus2 Hlen2 Hports2 Hnum2)
    as (out2 & Hrun2 & _ & Hnone2 & Hsome2 & _).
  exists (cstring out1), (cstring out2).
  assert (Hpath1 : make_path str1 bus1 num_ports1 port_numbers1 config1
                     interface1 = Ok (cstring out1)).
  { unfold make_path. by rewrite Hrun1. }
  assert (Hpath2 : make_path str2 bus2 num_ports2 port_numbers2 config2
                     interface2 = Ok (cstring out2)).
  { unfold make_path. by rewrite Hrun2. }
  assert (Htext : forall bus port ports config interface_,
            path_text bus port ports config interface_ <> []).
  { intros bus port ports config interface_. unfold path_text.
    by destruct (decimal bus). }
  split; [exact Hpath1|]. split; [exact Hpath2|].
  split.
  { intros Hpos1 Hpos2 Heq. rewrite <- Heq in Hpath2.
    exact (make_path_inj str1 str2 bus1 bus2 num_ports1 num_ports2
             port_numbers1 port_numbers2 config1 config2 interface1
             interface2 (cstring out1) Hstr1 Hstr2 Hbus1 Hbus2 Hlen1 Hlen2
             Hports1 Hports2 ltac:(lia) ltac:(lia) Hpath1 Hpath2). }
  split; [exact Hnone1|]. split; [exact Hnone2|].
  split.
  - intros Hpos. destruct (Hsome1 Hpos) as (port & ports & _ & ->).
    apply Htext.
  - intros Hpos. destruct (Hsome2 Hpos) as (port & ports & _ & ->).
    apply Htext.
Qed.

(** Bus 1, ports 2.4, configuration 1, interface 0. *)
Lemma get_path_stays_in_array_witness :
  exists str,
    get_path (replicate 64 xff) 1 2 [2; 4; 0; 0; 0; 0; 0; 0] 1 0 = Ok str /\
    length str = 64%nat.
Proof.
  destruct (get_path_stays_in_array (replicate 64 xff) 1 2
              [2; 4; 0; 0; 0; 0; 0; 0] 1 0
              ltac:(reflexivity) ltac:(lia) ltac:(reflexivity)
              ltac:(repeat constructor; lia) ltac:(lia))
    as (str & Hrun & Hlen & _).
  by exists str.
Defined.

(** Two interfaces of the device at bus 1, port 2. *)
Lemma make_path_injective_witness :
  exists path1 path2,
    make_path (replicate 64 x00) 1 1 [2; 0; 0; 0; 0; 0; 0; 0] 1 0 = Ok path1 /\
    make_path (replicate 64 x00) 1 1 [2; 0; 0; 0; 0; 0; 0; 0] 1 1 = Ok path2 /\
    (path1 = path2 -> u8 0 = u8 1).
Proof.
  destruct (make_path_injective (replicate 64 x00) (replicate 64 x00)
              1 1 1 1 [2; 0; 0; 0; 0; 0; 0; 0] [2; 0; 0; 0; 0; 0; 0; 0]
              1 1 0 1
              ltac:(reflexivity) ltac:(reflexivity) ltac:(lia) ltac:(lia)
              ltac:(reflexivity) ltac:(reflexivity)
              ltac:(repeat constructor; lia) ltac:(repeat constructor; lia)
              ltac:(lia) ltac:(lia))
    as (path1 & path2 & Hrun1 & Hrun2 & Hinj & _).
  exists path1, path2. split; [exact Hrun1|]. split; [exact Hrun2|].
  intros Heq. apply Hinj; [lia|lia|exact Heq].
Defined.

(** ** Enumerating and opening devices *)

Lemma streq_eq (a b : list byte) : streq a b = true <-> a = b.
Proof.
  revert b. induction a as [|x a IH]; intros [|y b]; cbn; try done.
  rewrite andb_true_iff, IH, Z.eqb_eq. split.
  - intros [Hxy ->]. f_equal. unfold byte_val in Hxy.
    apply N2Z.inj in Hxy.
    assert (Some x = Some y) as [= ->]; [|done].
    by rewrite <- (Byte.of_to_N x), <- (Byte.of_to_N y), Hxy.
  - by intros [= -> ->].
Qed.

Section EnumerateFacts.

Variables LIBUSB_CLASS_HID LIBUSB_CLASS_VENDOR_SPEC HID_API_BUS_USB : Z.
Variable calloc_ok : nat -> bool.
Variable realloc_ok : Z -> bool.
Variable fresh : usb_string_cache_entry.
Variable str : list byte.

(** [realloc] gives no object larger than [PTRDIFF_MAX] bytes; the array
    of [make_path] has 64 characters. *)
Hypothesis realloc_bound :
  forall allocSize, realloc_ok allocSize = true -> allocSize < 2 ^ 63.
Hypothesis str_size : length str = 64%nat.

Local Abbreviation should_enumerate :=
  (should_enumerate_interface LIBUSB_CLASS_HID LIBUSB_CLASS_VENDOR_SPEC).
Local Abbreviation create :=
  (create_device_info_for_device HID_API_BUS_USB calloc_ok realloc_ok fresh
     str).
Local Abbreviation entry_of_ := (entry_of str).

Lemma device_path_ok (device : usb_device) (config_number interface_num : Z) :
  device_ok device ->
  exists path_, device_path str device config_number interface_num = Ok path_.
Proof using str_size.
  intros (Hbus & Hnum & Hlen & Hports & _).
  destruct (get_path_spec str (libusb_get_bus_number device)
              (fst (libusb_get_port_numbers device))
              (snd (libusb_get_port_numbers device)) config_number
              interface_num str_size Hbus Hlen Hports Hnum)
    as (out & Hrun & _).
  unfold device_path, make_path. rewrite Hrun. by eexists.
Qed.

(** [create_device_info_for_device] returns, keeps the cache consistent,
    and fills the entry from the descriptors. *)
Lemma create_device_info_for_device_spec (allocated : nat)
    (device : usb_device) (handle : bool) (desc : libusb_device_descriptor)
    (config_number : Z) (intf_desc : libusb_interface_descriptor)
    (c : string_cache) :
  cache_ok c -> device_ok device ->
  exists r c1,
    create allocated device handle desc config_number
      (bInterfaceNumber intf_desc) (bInterfaceClass intf_desc)
      (bInterfaceSubClass intf_desc) (bInterfaceProtocol intf_desc) c
    = Ok (r, c1) /\
    cache_ok c1 /\
    (usb_string_can_cache (idVendor desc) (idProduct desc) = 0 -> c1 = c) /\
    (handle = false -> c1 = c) /\
    forall entry, r = Some entry ->
      vendor_id (info entry) = idVendor desc /\
      product_id (info entry) = idProduct desc /\
      interface_number (info entry) = bInterfaceNumber intf_desc /\
      usage_page (info entry) = 0 /\ usage (info entry) = 0 /\
      device_path str device config_number (bInterfaceNumber intf_desc)
        = Ok (path entry) /\
      (handle = false ->
       serial_number entry = None /\ manufacturer_string entry = None /\
       product_string entry = None).
Proof using realloc_bound str_size.
  intros Hok Hdevice. unfold create_device_info_for_device.
  destruct (calloc_ok allocated); cbn [negb];
    [|exists None, c; split; [reflexivity|]; split; [exact Hok|];
      split; [done|]; split; [done|]; discriminate].
  destruct (device_path_ok device config_number (bInterfaceNumber intf_desc)
              Hdevice) as [path_ Hpath].
  rewrite Hpath. cbn [mbind res_mbind res_bind].
  destruct handle; cbn [negb].
  2:{ eexists _, c. split; [reflexivity|]. split; [exact Hok|].
      split; [done|]. split; [done|].
      intros entry [= <-]. cbn. by repeat split. }
  destruct Hdevice as (_ & _ & _ & _ & Hstrings & _).
  assert (Htotal : forall idx,
            exists s, (if 0 <? idx then get_usb_string_of device idx
                       else Ok None) = Ok s).
  { intros idx. destruct (0 <? idx); [apply Hstrings|by eexists]. }
  destruct (Htotal (iSerialNumber desc)) as [serial ->].
  cbn [mbind res_mbind res_bind].
  destruct (Htotal (iManufacturer desc)) as [manufacturer Hmanufacturer].
  destruct (Htotal (iProduct desc)) as [product_ Hproduct].
  destruct (Z.eqb_spec (usb_string_can_cache (idVendor desc)
                          (idProduct desc)) 0) as [Hcan|Hcan]; cbn [negb].
  - cbn [mbind res_mbind res_bind].
    rewrite Hmanufacturer, Hproduct. cbn [mbind res_mbind res_bind].
    eexists _, c. split; [reflexivity|]. split; [exact Hok|].
    split; [done|]. split; [done|].
    intros entry [= <-]. cbn. by repeat split.
  - destruct (usb_string_cache_find_spec realloc_ok fresh realloc_bound
                (get_usb_string_of device) (idVendor desc) (idProduct desc)
                (iManufacturer desc) (iProduct desc) c Hok Hstrings)
      as (r & c1 & Hfind & Hok1 & _).
    rewrite Hfind. cbn [mbind res_mbind res_bind].
    destruct r as [cached|].
    + eexists _, c1. split; [reflexivity|]. split; [exact Hok1|].
      split; [done|]. split; [done|].
      intros entry [= <-]. cbn. by repeat split.
    + rewrite Hmanufacturer, Hproduct. cbn [mbind res_mbind res_bind].
      eexists _, c1. split; [reflexivity|]. split; [exact Hok1|].
      split; [done|]. split; [done|].
      intros entry [= <-]. cbn. by repeat split.
Qed.

(** The alternate settings of one interface: at most one entry is added,
    for the first alternate setting to enumerate. *)
Lemma enumerate_altsettings_spec (device : usb_device)
    (desc : libusb_device_descriptor) (bConfigurationValue : Z)
    (altsettings : list libusb_interface_descriptor) :
  device_ok device ->
  forall devs c,
    cache_ok c ->
    exists new c1,
      enumerate_altsettings LIBUSB_CLASS_HID LIBUSB_CLASS_VENDOR_SPEC
        HID_API_BUS_USB calloc_ok realloc_ok fresh str device desc
        bConfigurationValue altsettings (devs, c) = Ok (devs ++ new, c1) /\
      cache_ok c1 /\ (length new <= 1)%nat /\
      Forall (fun entry =>
                exists intf_desc,
                  In intf_desc altsettings /\
                  should_enumerate (idVendor desc) intf_desc <> 0 /\
                  entry_of_ device desc bConfigurationValue intf_desc entry)
        new.
Proof using realloc_bound str_size.
  intros Hdevice. induction altsettings as [|intf_desc rest IH];
    intros devs c Hok; cbn [enumerate_altsettings].
  - exists [], c. rewrite app_nil_r.
    split; [reflexivity|]. split; [exact Hok|].
    split; [cbn; lia|constructor].
  - destruct (Z.eqb_spec (should_enumerate (idVendor desc) intf_desc) 0)
      as [Hno|Hyes]; cbn [negb].
    + destruct (IH devs c Hok) as (new & c1 & Hrun & Hok1 & Hlen & Hnew).
      exists new, c1.
      split; [exact Hrun|]. split; [exact Hok1|]. split; [exact Hlen|].
      eapply Forall_impl; [|exact Hnew].
      intros entry (d & Hin & Hd). exists d. split; [by right|exact Hd].
    + destruct (create_device_info_for_device_spec (length devs) device
                  (libusb_open device) desc bConfigurationValue intf_desc c
                  Hok Hdevice) as (r & c1 & Hrun & Hok1 & _ & _ & Hentry).
      rewrite Hrun. cbn [mbind res_mbind res_bind].
      destruct r as [entry|].
      * exists [entry], c1.
        split; [reflexivity|]. split; [exact Hok1|]. split; [cbn; lia|].
        constructor; [|constructor].
        exists intf_desc. split; [by left|]. split; [exact Hyes|].
        by apply Hentry.
      * exists [], c1. rewrite app_nil_r.
        split; [reflexivity|]. split; [exact Hok1|].
        split; [cbn; lia|constructor].
Qed.

Lemma enumerate_interfaces_spec (device : usb_device)
    (desc : libusb_device_descriptor) (bConfigurationValue : Z)
    (intfs : list libusb_interface) :
  device_ok device ->
  forall devs c,
    cache_ok c ->
    exists new c1,
      enumerate_interfaces LIBUSB_CLASS_HID LIBUSB_CLASS_VENDOR_SPEC
        HID_API_BUS_USB calloc_ok realloc_ok fresh str device desc
        bConfigurationValue intfs (devs, c) = Ok (devs ++ new, c1) /\
      cache_ok c1 /\ (length new <= length intfs)%nat /\
      Forall (fun entry =>
                exists intf intf_desc,
                  In intf intfs /\ In intf_desc (altsetting intf) /\
                  should_enumerate (idVendor desc) intf_desc <> 0 /\
                  entry_of_ device desc bConfigurationValue intf_desc entry)
        new.
Proof using realloc_bound str_size.
  intros Hdevice. induction intfs as [|intf rest IH]; intros devs c Hok;
    cbn [enumerate_interfaces].
  - exists [], c. rewrite app_nil_r.
    split; [reflexivity|]. split; [exact Hok|].
    split; [cbn; lia|constructor].
  - destruct (enumerate_altsettings_spec device desc bConfigurationValue
                (altsetting intf) Hdevice devs c Hok)
      as (new1 & c1 & Hrun1 & Hok1 & Hlen1 & Hnew1).
    rewrite Hrun1. cbn [mbind res_mbind res_bind].
    destruct (IH (devs ++ new1) c1 Hok1)
      as (new2 & c2 & Hrun2 & Hok2 & Hlen2 & Hnew2).
    rewrite Hrun2. exists (new1 ++ new2), c2.
    rewrite app_assoc. split; [reflexivity|]. split; [exact Hok2|].
    split; [rewrite length_app; cbn [length]; lia|].
    apply Forall_app_2.
    + eapply Forall_impl; [|exact Hnew1].
      intros entry (d & Hin & Hd). exists intf, d.
      split; [by left|]. by split.
    + eapply Forall_impl; [|exact Hnew2].
      intros entry (intf' & d & Hin & Hd). exists intf', d.
      split; [by right|exact Hd].
Qed.

(** An entry of [hid_enumerate(vendor_id, product_id)] over [devs]. *)
Local Abbreviation listed vendor_id_ product_id_ devs entry :=
  (exists device desc bConfigurationValue intf_desc,
     In device devs /\
     enumerable_interface LIBUSB_CLASS_HID LIBUSB_CLASS_VENDOR_SPEC device
       desc bConfigurationValue intf_desc /\
     (vendor_id_ = 0 \/ vendor_id_ = idVendor desc) /\
     (product_id_ = 0 \/ product_id_ = idProduct desc) /\
     libusb_blacklist (idVendor desc) (idProduct desc) = 0 /\
     entry_of_ device desc bConfigurationValue intf_desc entry).

Lemma enumerate_device_spec (vendor_id_ product_id_ : Z)
    (device : usb_device) :
  device_ok device ->
  forall devs c,
    cache_ok c ->
    exists new c1,
      enumerate_device LIBUSB_CLASS_HID LIBUSB_CLASS_VENDOR_SPEC
        HID_API_BUS_USB calloc_ok realloc_ok fresh str vendor_id_
        product_id_ device (devs, c) = Ok (devs ++ new, c1) /\
      cache_ok c1 /\
      Forall (fun entry => listed vendor_id_ product_id_ [device] entry) new.
Proof using realloc_bound str_size.
  intros Hdevice devs c Hok. unfold enumerate_device.
  assert (Hnone : exists new c1,
            Ok (devs, c) = Ok (devs ++ new, c1) /\ cache_ok c1 /\
            Forall (fun entry =>
                      listed vendor_id_ product_id_ [device] entry) new).
  { exists [], c. rewrite app_nil_r.
    split; [reflexivity|]. split; [exact Hok|constructor]. }
  destruct (device_descriptor device) as [desc|] eqn:Hdesc; [|exact Hnone].
  destruct (Z.eqb_spec vendor_id_ 0) as [Hv0|Hv0];
    destruct (Z.eqb_spec vendor_id_ (idVendor desc)) as [Hv|Hv];
    destruct (Z.eqb_spec product_id_ 0) as [Hp0|Hp0];
    destruct (Z.eqb_spec product_id_ (idProduct desc)) as [Hp|Hp];
    destruct (Z.eqb_spec (libusb_blacklist (idVendor desc) (idProduct desc))
                0) as [Hb|Hb];
    cbn [negb andb orb]; try exact Hnone;
    (destruct (config_descriptor device) as [[conf_desc bcv]|] eqn:Hconf;
     [|exact Hnone]);
    (destruct (enumerate_interfaces_spec device desc bcv
                 (interfaces conf_desc) Hdevice devs c Hok)
       as (new & c1 & Hrun & Hok1 & _ & Hnew));
    (exists new, c1; split; [exact Hrun|]; split; [exact Hok1|]);
    (eapply Forall_impl; [|exact Hnew]);
    intros entry (intf & d & Hintf & Hd & Hshould & Hentry);
    exists device, desc, bcv, d;
    (split; [by left|]);
    (split; [split; [exact Hdesc|]; by exists conf_desc, intf|]);
    (split; [auto|]); (split; [auto|]); (split; [exact Hb|exact Hentry]).
Qed.

Lemma enumerate_devices_spec (vendor_id_ product_id_ : Z)
    (devices : list usb_device) :
  Forall device_ok devices ->
  forall devs c,
    cache_ok c ->
    exists new c1,
      enumerate_devices LIBUSB_CLASS_HID LIBUSB_CLASS_VENDOR_SPEC
        HID_API_BUS_USB calloc_ok realloc_ok fresh str vendor_id_
        product_id_ devices (devs, c) = Ok (devs ++ new, c1) /\
      cache_ok c1 /\
      Forall (fun entry => listed vendor_id_ product_id_ devices entry) new.
Proof using realloc_bound str_size.
  induction 1 as [|device rest Hdevice _ IH]; intros devs c Hok;
    cbn [enumerate_devices].
  - exists [], c. rewrite app_nil_r.
    split; [reflexivity|]. split; [exact Hok|constructor].
  - destruct (enumerate_device_spec vendor_id_ product_id_ device Hdevice
                devs c Hok) as (new1 & c1 & Hrun1 & Hok1 & Hnew1).
    rewrite Hrun1. cbn [mbind res_mbind res_bind].
    destruct (IH (devs ++ new1) c1 Hok1)
      as (new2 & c2 & Hrun2 & Hok2 & Hnew2).
    rewrite Hrun2. exists (new1 ++ new2), c2.
    rewrite app_assoc. split; [reflexivity|]. split; [exact Hok2|].
    apply Forall_app_2.
    + eapply Forall_impl; [|exact Hnew1].
      intros entry (d & desc & bcv & i & [<-|[]] & Hrest).
      exists device, desc, bcv, i. split; [by left|exact Hrest].
    + eapply Forall_impl; [|exact Hnew2].
      intros entry (d & desc & bcv & i & Hin & Hrest).
      exists d, desc, bcv, i. split; [by right|exact Hrest].
Qed.

Lemma hid_enumerate_spec (hid_init_ok : bool)
    (libusb_get_device_list : option (list usb_device))
    (vendor_id_ product_id_ : Z) (c : string_cache) :
  cache_ok c ->
  (forall devices, libusb_get_device_list = Some devices ->
                   Forall device_ok devices) ->
  exists devs c1,
    hid_enumerate LIBUSB_CLASS_HID LIBUSB_CLASS_VENDOR_SPEC HID_API_BUS_USB
      calloc_ok realloc_ok fresh str hid_init_ok libusb_get_device_list
      vendor_id_ product_id_ c = Ok (devs, c1) /\
    cache_ok c1 /\
    (hid_init_ok = false \/ libusb_get_device_list = None -> devs = []) /\
    forall devices, libusb_get_device_list = Some devices ->
      Forall (fun entry => listed vendor_id_ product_id_ devices entry) devs.
Proof using realloc_bound str_size.
  intros Hok Hdevices. unfold hid_enumerate.
  destruct hid_init_ok; cbn [negb].
  2:{ exists [], c. split; [reflexivity|]. split; [exact Hok|].
      split; [done|]. intros; constructor. }
  destruct libusb_get_device_list as [devices|].
  2:{ exists [], c. split; [reflexivity|]. split; [exact Hok|].
      split; [done|]. discriminate. }
  destruct (enumerate_devices_spec vendor_id_ product_id_ devices
              (Hdevices devices eq_refl) [] c Hok)
    as (new & c1 & Hrun & Hok1 & Hnew).
  exists new, c1. split; [exact Hrun|]. split; [exact Hok1|]. split.
  - intros [H|H]; discriminate.
  - intros devices1 [= <-]. exact Hnew.
Qed.

(** X26.  [hid_enumerate(vendor_id, product_id)] returns for any device
    list libusb can give, keeping the string cache consistent.  Every
    entry of its list was made for an interface descriptor that
    [should_enumerate_interface] accepts, of a device of the list whose
    descriptor passes the filter (an argument 0 matches any vendor or
    product) and [libusb_blacklist]; it carries the device's vendor and
    product ID, the descriptor's interface number, the path [make_path]
    builds for that interface, usage page and usage 0, and no strings when
    the device could not be opened.  A Razer 1532:0227 is never listed.
    When [hid_init] or [libusb_get_device_list] fails the list is
    empty. *)
Theorem hid_enumerate_lists (hid_init_ok : bool)
    (libusb_get_device_list : option (list usb_device))
    (vendor_id_ product_id_ : Z) (c : string_cache) :
  cache_ok c ->
  (forall devices, libusb_get_device_list = Some devices ->
                   Forall device_ok devices) ->
  exists devs c1,
    hid_enumerate LIBUSB_CLASS_HID LIBUSB_CLASS_VENDOR_SPEC HID_API_BUS_USB
      calloc_ok realloc_ok fresh str hid_init_ok libusb_get_device_list
      vendor_id_ product_id_ c = Ok (devs, c1) /\
    cache_ok c1 /\
    (hid_init_ok = false \/ libusb_get_device_list = None -> devs = []) /\
    (forall devices, libusb_get_device_list = Some devices ->
       Forall (fun entry =>
                 exists device desc bConfigurationValue intf_desc,
                   In device devices /\
                   enumerable_interface LIBUSB_CLASS_HID
                     LIBUSB_CLASS_VENDOR_SPEC device desc
                     bConfigurationValue intf_desc /\
                   (vendor_id_ = 0 \/ vendor_id_ = idVendor desc) /\
                   (product_id_ = 0 \/ product_id_ = idProduct desc) /\
                   libusb_blacklist (idVendor desc) (idProduct desc) = 0 /\
                   entry_of str device desc bConfigurationValue intf_desc
                     entry)
         devs) /\
    Forall (fun entry =>
              ~ (vendor_id (info entry) = 0x1532 /\
                 product_id (info entry) = 0x0227)) devs.
Proof using realloc_bound str_size.
  intros Hok Hdevices.
  destruct (hid_enumerate_spec hid_init_ok libusb_get_device_list
              vendor_id_ product_id_ c Hok Hdevices)
    as (devs & c1 & Hrun & Hok1 & Hempty & Hlisted).
  exists devs, c1. split; [exact Hrun|]. split; [exact Hok1|].
  split; [exact Hempty|]. split; [exact Hlisted|].
  destruct libusb_get_device_list as [devices|];
    [|rewrite Hempty by (by right); constructor].
  eapply Forall_impl; [|exact (Hlisted devices eq_refl)].
  intros entry (device & desc & bcv & d & _ & _ & _ & _ & Hblack & Hentry)
    [Hv Hp].
  destruct Hentry as (Hvid & Hpid & _).
  rewrite Hvid in Hv. rewrite Hpid in Hp. rewrite Hv, Hp in Hblack.
  discriminate.
Qed.

End EnumerateFacts.

(** A HID keyboard that can be opened, and a blacklisted one. *)
Local Abbreviation example_device vendor product :=
  {| device_descriptor :=
       Some {| idVendor := vendor; idProduct := product;
               bcdDevice := 0x0100; iManufacturer := 1; iProduct := 2;
               iSerialNumber := 0 |};
     config_descriptor :=
       Some ({| interfaces :=
                  [ {| altsetting :=
                         [ {| bInterfaceNumber := 0; bAlternateSetting := 0;
                              bInterfaceClass := 3; bInterfaceSubClass := 1;
                              bInterfaceProtocol := 1 |} ] |} ] |}, 1);
     endpoints_of :=
       fun _ => {| endpoint := []; extra := []; extra_length := 0 |};
     libusb_open := true;
     get_usb_string_of := fun _ => Ok (Some [75; 66]);
     libusb_get_bus_number := 1;
     libusb_get_port_numbers := (1, [2; 0; 0; 0; 0; 0; 0; 0]);
     libusb_kernel_driver_active := fun _ => 0;
     libusb_detach_kernel_driver := fun _ => 0;
     libusb_claim_interface := fun _ _ => 0;
     libusb_submit_transfer := 0 |}.

Lemma example_device_ok (vendor product : Z) :
  device_ok (example_device vendor product).
Proof.
  unfold device_ok. cbn.
  split; [lia|]. split; [lia|]. split; [reflexivity|].
  split; [repeat constructor; lia|]. split; [by eexists|lia].
Qed.

Lemma string_cache_init_ok : cache_ok string_cache_init.
Proof.
  unfold cache_ok, string_cache_init, entries,
    sizeof_usb_string_cache_entry. cbn.
  split; [reflexivity|]. split; [lia|]. split; [lia|constructor].
Qed.

Lemma hid_enumerate_lists_witness :
  exists devs c1,
    hid_enumerate 3 0xff 1 (fun _ => true) (fun allocSize => allocSize <? 2 ^ 63)
      {| vid := 0; pid := 0; vendor := None; product := None |}
      (replicate 64 x00) true
      (Some [example_device 0x1532 0x0227; example_device 0x046d 0xc31c])
      0 0 string_cache_init = Ok (devs, c1) /\
    cache_ok c1.
Proof.
  destruct (hid_enumerate_lists 3 0xff 1 (fun _ => true)
              (fun allocSize => allocSize <? 2 ^ 63)
              {| vid := 0; pid := 0; vendor := None; product := None |}
              (replicate 64 x00)
              ltac:(intros allocSize H; apply Z.ltb_lt in H; exact H)
              ltac:(reflexivity) true
              (Some [example_device 0x1532 0x0227;
                     example_device 0x046d 0xc31c])
              0 0 string_cache_init string_cache_init_ok
              ltac:(intros devices [= <-];
                    constructor; [apply example_device_ok|];
                    constructor; [apply example_device_ok|constructor]))
    as (devs & c1 & Hrun & Hok & _).
  exists devs, c1. by split.
Defined.

(** [hidapi_initialize_device] returns 0, or 1 with the interface number
    in the session. *)
Lemma hidapi_initialize_device_returns
    (LIBUSB_CLASS_VENDOR_SPEC LIBUSB_DT_HID LIBUSB_DT_REPORT
       HID_API_MAX_REPORT_DESCRIPTOR_SIZE LIBUSB_TRANSFER_TYPE_MASK
       LIBUSB_TRANSFER_TYPE_INTERRUPT LIBUSB_ENDPOINT_DIR_MASK
       LIBUSB_ENDPOINT_OUT LIBUSB_ENDPOINT_IN : Z)
    (kernel_driver_active detach_kernel_driver : Z -> Z)
    (claim_interface : list usb_call -> Z -> Z) (submit_transfer : Z)
    (dev_ : hid_device) (usb : hid_device_usb)
    (desc : libusb_device_descriptor)
    (intf_desc : libusb_interface_descriptor) (more : interface_endpoints)
    (conf_desc : libusb_config_descriptor) (bConfigurationValue : Z) :
  extra_length more <= Z.of_nat (length (extra more)) ->
  exists ret dev1 usb1 events,
    hidapi_initialize_device LIBUSB_CLASS_VENDOR_SPEC LIBUSB_DT_HID
      LIBUSB_DT_REPORT HID_API_MAX_REPORT_DESCRIPTOR_SIZE
      LIBUSB_TRANSFER_TYPE_MASK LIBUSB_TRANSFER_TYPE_INTERRUPT
      LIBUSB_ENDPOINT_DIR_MASK LIBUSB_ENDPOINT_OUT LIBUSB_ENDPOINT_IN
      kernel_driver_active detach_kernel_driver claim_interface
      submit_transfer dev_ usb desc intf_desc more conf_desc
      bConfigurationValue = Ok (ret, dev1, usb1, events) /\
    (ret = 0 \/ (ret = 1 /\ interface dev1 = bInterfaceNumber intf_desc)).
Proof.
  intros Hextra.
  destruct ((kernel_driver_active (bInterfaceNumber intf_desc) =? 1) &&
            (detach_kernel_driver (bInterfaceNumber intf_desc) <? 0))
    eqn:Hdetach.
  { unfold hidapi_initialize_device. rewrite Hdetach.
    eexists _, _, _, _. split; [reflexivity|]. by left. }
  destruct (Z.ltb_spec (claim_interface [] (bInterfaceNumber intf_desc)) 0)
    as [Hclaim|Hclaim].
  { unfold hidapi_initialize_device. rewrite Hdetach.
    destruct (Z.ltb_spec (claim_interface [] (bInterfaceNumber intf_desc))
                0); [|lia].
    eexists _, _, _, _. split; [reflexivity|]. by left. }
  destruct (hidapi_initialize_device_opened LIBUSB_CLASS_VENDOR_SPEC
              LIBUSB_DT_HID LIBUSB_DT_REPORT
              HID_API_MAX_REPORT_DESCRIPTOR_SIZE LIBUSB_TRANSFER_TYPE_MASK
              LIBUSB_TRANSFER_TYPE_INTERRUPT LIBUSB_ENDPOINT_DIR_MASK
              LIBUSB_ENDPOINT_OUT LIBUSB_ENDPOINT_IN kernel_driver_active
              detach_kernel_driver claim_interface submit_transfer dev_ usb
              desc intf_desc more conf_desc bConfigurationValue Hextra
              Hdetach Hclaim) as (usb1 & Hrun & _).
  eexists _, _, _, _. split; [exact Hrun|]. right. by split.
Qed.

(** [hidapi_initialize_device] returns 1 when the kernel driver, if one is
    active, can be detached and the interface claimed. *)
Lemma hidapi_initialize_device_good
    (LIBUSB_CLASS_VENDOR_SPEC LIBUSB_DT_HID LIBUSB_DT_REPORT
       HID_API_MAX_REPORT_DESCRIPTOR_SIZE LIBUSB_TRANSFER_TYPE_MASK
       LIBUSB_TRANSFER_TYPE_INTERRUPT LIBUSB_ENDPOINT_DIR_MASK
       LIBUSB_ENDPOINT_OUT LIBUSB_ENDPOINT_IN : Z)
    (kernel_driver_active detach_kernel_driver : Z -> Z)
    (claim_interface : list usb_call -> Z -> Z) (submit_transfer : Z)
    (dev_ : hid_device) (usb : hid_device_usb)
    (desc : libusb_device_descriptor)
    (intf_desc : libusb_interface_descriptor) (more : interface_endpoints)
    (conf_desc : libusb_config_descriptor) (bConfigurationValue : Z) :
  extra_length more <= Z.of_nat (length (extra more)) ->
  (kernel_driver_active (bInterfaceNumber intf_desc) = 1 ->
   0 <= detach_kernel_driver (bInterfaceNumber intf_desc)) ->
  0 <= claim_interface [] (bInterfaceNumber intf_desc) ->
  exists dev1 usb1 events,
    hidapi_initialize_device LIBUSB_CLASS_VENDOR_SPEC LIBUSB_DT_HID
      LIBUSB_DT_REPORT HID_API_MAX_REPORT_DESCRIPTOR_SIZE
      LIBUSB_TRANSFER_TYPE_MASK LIBUSB_TRANSFER_TYPE_INTERRUPT
      LIBUSB_ENDPOINT_DIR_MASK LIBUSB_ENDPOINT_OUT LIBUSB_ENDPOINT_IN
      kernel_driver_active detach_kernel_driver claim_interface
      submit_transfer dev_ usb desc intf_desc more conf_desc
      bConfigurationValue = Ok (1, dev1, usb1, events) /\
    interface dev1 = bInterfaceNumber intf_desc.
Proof.
  intros Hextra Hdetach Hclaim.
  assert (Hallowed :
            (kernel_driver_active (bInterfaceNumber intf_desc) =? 1) &&
            (detach_kernel_driver (bInterfaceNumber intf_desc) <? 0)
            = false).
  { destruct (Z.eqb_spec (kernel_driver_active
                            (bInterfaceNumber intf_desc)) 1) as [Ha|];
      [|reflexivity].
    cbn [andb]. apply Z.ltb_ge. by apply Hdetach. }
  destruct (hidapi_initialize_device_opened LIBUSB_CLASS_VENDOR_SPEC
              LIBUSB_DT_HID LIBUSB_DT_REPORT
              HID_API_MAX_REPORT_DESCRIPTOR_SIZE LIBUSB_TRANSFER_TYPE_MASK
              LIBUSB_TRANSFER_TYPE_INTERRUPT LIBUSB_ENDPOINT_DIR_MASK
              LIBUSB_ENDPOINT_OUT LIBUSB_ENDPOINT_IN kernel_driver_active
              detach_kernel_driver claim_interface submit_transfer dev_ usb
              desc intf_desc more conf_desc bConfigurationValue Hextra
              Hallowed Hclaim) as (usb1 & Hrun & _).
  eexists _, _, _. split; [exact Hrun|]. reflexivity.
Qed.

Lemma closed_again_snoc (closed : list usb_device) (device : usb_device) :
  closed_again closed ++ [Opened device; Closed device]
  = closed_again (closed ++ [device]).
Proof. unfold closed_again. by rewrite flat_map_app. Qed.

Section OpenPathFacts.

Variables LIBUSB_CLASS_HID LIBUSB_CLASS_VENDOR_SPEC LIBUSB_DT_HID
  LIBUSB_DT_REPORT HID_API_MAX_REPORT_DESCRIPTOR_SIZE
  LIBUSB_TRANSFER_TYPE_MASK LIBUSB_TRANSFER_TYPE_INTERRUPT
  LIBUSB_ENDPOINT_DIR_MASK LIBUSB_ENDPOINT_OUT LIBUSB_ENDPOINT_IN : Z.
Variable str : list byte.
Hypothesis str_size : length str = 64%nat.

Variable path_ : list byte.
Variable among : usb_device -> libusb_device_descriptor -> Z ->
                 libusb_interface_descriptor -> Prop.

Local Abbreviation ok :=
  (opening_ok LIBUSB_CLASS_HID LIBUSB_CLASS_VENDOR_SPEC str path_ among).
Local Abbreviation altsettings_loop :=
  (open_altsettings LIBUSB_CLASS_HID LIBUSB_CLASS_VENDOR_SPEC LIBUSB_DT_HID
     LIBUSB_DT_REPORT HID_API_MAX_REPORT_DESCRIPTOR_SIZE
     LIBUSB_TRANSFER_TYPE_MASK LIBUSB_TRANSFER_TYPE_INTERRUPT
     LIBUSB_ENDPOINT_DIR_MASK LIBUSB_ENDPOINT_OUT LIBUSB_ENDPOINT_IN str
     path_).
Local Abbreviation interfaces_loop :=
  (open_interfaces LIBUSB_CLASS_HID LIBUSB_CLASS_VENDOR_SPEC LIBUSB_DT_HID
     LIBUSB_DT_REPORT HID_API_MAX_REPORT_DESCRIPTOR_SIZE
     LIBUSB_TRANSFER_TYPE_MASK LIBUSB_TRANSFER_TYPE_INTERRUPT
     LIBUSB_ENDPOINT_DIR_MASK LIBUSB_ENDPOINT_OUT LIBUSB_ENDPOINT_IN str
     path_).
Local Abbreviation devices_loop :=
  (open_devices LIBUSB_CLASS_HID LIBUSB_CLASS_VENDOR_SPEC LIBUSB_DT_HID
     LIBUSB_DT_REPORT HID_API_MAX_REPORT_DESCRIPTOR_SIZE
     LIBUSB_TRANSFER_TYPE_MASK LIBUSB_TRANSFER_TYPE_INTERRUPT
     LIBUSB_ENDPOINT_DIR_MASK LIBUSB_ENDPOINT_OUT LIBUSB_ENDPOINT_IN str
     path_).

Lemma opening_ok_done (st : opening) :
  ok st -> (good_open st =? 0) = false -> good_open st = 1.
Proof.
  intros [[Hgood _]|[Hgood _]] Hne; [|exact Hgood].
  rewrite Hgood in Hne. discriminate.
Qed.

Lemma open_altsettings_spec (device : usb_device)
    (desc : libusb_device_descriptor)
    (conf_desc : libusb_config_descriptor) (bConfigurationValue : Z)
    (altsettings : list libusb_interface_descriptor) :
  device_ok device ->
  (forall intf_desc, In intf_desc altsettings ->
                     among device desc bConfigurationValue intf_desc) ->
  forall st, ok st ->
    exists st1,
      altsettings_loop device desc conf_desc bConfigurationValue
        altsettings st = Ok st1 /\ ok st1.
Proof using str_size.
  intros Hdevice. induction altsettings as [|intf_desc rest IH];
    intros Hamong st Hok; cbn [open_altsettings]; [by exists st|].
  assert (Hrest : forall d, In d rest ->
                            among device desc bConfigurationValue d).
  { intros d Hd. apply Hamong. by right. }
  destruct (good_open st =? 0) eqn:Hgood; cbn [negb]; [|by exists st].
  apply Z.eqb_eq in Hgood.
  destruct (Z.eqb_spec (should_enumerate_interface LIBUSB_CLASS_HID
                          LIBUSB_CLASS_VENDOR_SPEC (idVendor desc)
                          intf_desc) 0) as [Hno|Hyes]; cbn [negb];
    [by apply IH|].
  destruct (device_path_ok str str_size device bConfigurationValue
              (bInterfaceNumber intf_desc) Hdevice) as [dev_path Hpath].
  rewrite Hpath. cbn [mbind res_mbind res_bind].
  destruct (streq dev_path path_) eqn:Hmatch; [|by apply IH].
  apply streq_eq in Hmatch. subst dev_path.
  destruct (libusb_open device) eqn:Hopen; cbn [negb]; [|by exists st].
  destruct Hdevice as (Hbus & Hnum & Hlen & Hports & Hstrings & Hextra).
  destruct (hidapi_initialize_device_returns LIBUSB_CLASS_VENDOR_SPEC
              LIBUSB_DT_HID LIBUSB_DT_REPORT
              HID_API_MAX_REPORT_DESCRIPTOR_SIZE LIBUSB_TRANSFER_TYPE_MASK
              LIBUSB_TRANSFER_TYPE_INTERRUPT LIBUSB_ENDPOINT_DIR_MASK
              LIBUSB_ENDPOINT_OUT LIBUSB_ENDPOINT_IN
              (libusb_kernel_driver_active device)
              (libusb_detach_kernel_driver device)
              (libusb_claim_interface device)
              (libusb_submit_transfer device) (dev st) (dev_usb st) desc
              intf_desc (endpoints_of device intf_desc) conf_desc
              bConfigurationValue (Hextra intf_desc))
    as (ret & dev1 & usb1 & events & Hrun & Hret).
  rewrite Hrun. cbn [mbind res_mbind res_bind].
  apply IH; [exact Hrest|].
  destruct Hok as [[_ [closed Hhandles]]|[Hone _]]; [|lia].
  destruct Hret as [->|[-> Hinterface]].
  - left. cbn [good_open handles Z.eqb]. split; [reflexivity|].
    exists (closed ++ [device]).
    rewrite Hhandles. apply closed_again_snoc.
  - right. cbn [good_open handles Z.eqb dev]. split; [reflexivity|].
    exists closed, device, desc, bConfigurationValue, intf_desc.
    rewrite Hhandles. split; [reflexivity|].
    split; [apply Hamong; by left|]. by repeat split.
Qed.

Lemma open_interfaces_spec (device : usb_device)
    (desc : libusb_device_descriptor)
    (conf_desc : libusb_config_descriptor) (bConfigurationValue : Z)
    (intfs : list libusb_interface) :
  device_ok device ->
  (forall intf intf_desc, In intf intfs -> In intf_desc (altsetting intf) ->
                          among device desc bConfigurationValue intf_desc) ->
  forall st, ok st ->
    exists st1,
      interfaces_loop device desc conf_desc bConfigurationValue intfs st
        = Ok st1 /\ ok st1.
Proof using str_size.
  intros Hdevice. induction intfs as [|intf rest IH]; intros Hamong st Hok;
    cbn [open_interfaces]; [by exists st|].
  destruct (good_open st =? 0); cbn [negb]; [|by exists st].
  destruct (open_altsettings_spec device desc conf_desc bConfigurationValue
              (altsetting intf) Hdevice) with (st := st)
    as (st1 & Hrun & Hok1); [|exact Hok|].
  { intros d Hd. apply (Hamong intf d); [by left|exact Hd]. }
  rewrite Hrun. cbn [mbind res_mbind res_bind].
  apply IH; [|exact Hok1].
  intros intf1 d Hintf Hd. apply (Hamong intf1 d); [by right|exact Hd].
Qed.

Lemma open_devices_spec (devices : list usb_device) :
  Forall device_ok devices ->
  (forall device desc conf_desc bConfigurationValue intf intf_desc,
     In device devices -> device_descriptor device = Some desc ->
     config_descriptor device = Some (conf_desc, bConfigurationValue) ->
     In intf (interfaces conf_desc) -> In intf_desc (altsetting intf) ->
     among device desc bConfigurationValue intf_desc) ->
  forall st, ok st ->
    exists st1, devices_loop devices st = Ok st1 /\ ok st1.
Proof using str_size.
  induction 1 as [|device rest Hdevice _ IH]; intros Hamong st Hok;
    cbn [open_devices]; [by exists st|].
  assert (Hrest : forall device desc conf_desc bConfigurationValue intf
                         intf_desc,
            In device rest -> device_descriptor device = Some desc ->
            config_descriptor device = Some (conf_desc, bConfigurationValue)
            -> In intf (interfaces conf_desc) ->
            In intf_desc (altsetting intf) ->
            among device desc bConfigurationValue intf_desc).
  { intros d desc conf bcv intf i Hd. apply Hamong. by right. }
  destruct (good_open st =? 0); cbn [negb]; [|by exists st].
  destruct (device_descriptor device) as [desc|] eqn:Hdesc; [|by apply IH].
  destruct (config_descriptor device) as [[conf_desc bcv]|] eqn:Hconf;
    [|by apply IH].
  destruct (open_interfaces_spec device desc conf_desc bcv
              (interfaces conf_desc) Hdevice) with (st := st)
    as (st1 & Hrun & Hok1); [|exact Hok|].
  { intros intf d Hintf Hd.
    apply (Hamong device desc conf_desc bcv intf d); try done. by left. }
  rewrite Hrun. cbn [mbind res_mbind res_bind].
  by apply IH.
Qed.

(** Once a device is open the loops do nothing more. *)
Lemma open_altsettings_done (device : usb_device)
    (desc : libusb_device_descriptor)
    (conf_desc : libusb_config_descriptor) (bConfigurationValue : Z)
    (altsettings : list libusb_interface_descriptor) (st : opening) :
  good_open st = 1 ->
  altsettings_loop device desc conf_desc bConfigurationValue altsettings st
  = Ok st.
Proof.
  intros Hgood. destruct altsettings; cbn [open_altsettings]; [done|].
  by rewrite Hgood.
Qed.

Lemma open_interfaces_done (device : usb_device)
    (desc : libusb_device_descriptor)
    (conf_desc : libusb_config_descriptor) (bConfigurationValue : Z)
    (intfs : list libusb_interface) (st : opening) :
  good_open st = 1 ->
  interfaces_loop device desc conf_desc bConfigurationValue intfs st = Ok st.
Proof.
  intros Hgood. destruct intfs; cbn [open_interfaces]; [done|].
  by rewrite Hgood.
Qed.

Lemma open_devices_done (devices : list usb_device) (st : opening) :
  good_open st = 1 -> devices_loop devices st = Ok st.
Proof.
  intros Hgood. destruct devices; cbn [open_devices]; [done|].
  by rewrite Hgood.
Qed.

(** The loop over the alternate settings opens the device when it comes
    to a descriptor to enumerate with the path, of a device that can be
    opened and initialized, unless one was opened before. *)
Lemma open_altsettings_finds (device : usb_device)
    (desc : libusb_device_descriptor)
    (conf_desc : libusb_config_descriptor) (bConfigurationValue : Z)
    (target : libusb_interface_descriptor)
    (altsettings : list libusb_interface_descriptor) :
  device_ok device -> libusb_open device = true ->
  should_enumerate_interface LIBUSB_CLASS_HID LIBUSB_CLASS_VENDOR_SPEC
    (idVendor desc) target <> 0 ->
  device_path str device bConfigurationValue (bInterfaceNumber target)
  = Ok path_ ->
  can_initialize device target ->
  In target altsettings ->
  (forall intf_desc, In intf_desc altsettings ->
                     among device desc bConfigurationValue intf_desc) ->
  forall st, ok st ->
    exists st1,
      altsettings_loop device desc conf_desc bConfigurationValue
        altsettings st = Ok st1 /\ ok st1 /\ good_open st1 = 1.
Proof using str_size.
  intros Hdevice Hopen Hshould Htarget [Hdetach Hclaim].
  induction altsettings as [|intf_desc rest IH];
    intros Hin Hamong st Hok; [destruct Hin|].
  assert (Hrest : forall d, In d rest ->
                            among device desc bConfigurationValue d).
  { intros d Hd. apply Hamong. by right. }
  destruct (good_open st =? 0) eqn:Hgood.
  2:{ pose proof (opening_ok_done st Hok Hgood) as Hone.
      exists st. rewrite open_altsettings_done by exact Hone. by split. }
  cbn [open_altsettings]. rewrite Hgood. cbn [negb].
  apply Z.eqb_eq in Hgood.
  assert (Hlater : intf_desc <> target ->
            forall st0, ok st0 ->
              exists st1,
                altsettings_loop device desc conf_desc bConfigurationValue
                  rest st0 = Ok st1 /\ ok st1 /\ good_open st1 = 1).
  { intros Hne st0 Hok0. apply IH; [|exact Hrest|exact Hok0].
    destruct Hin as [Heq|Hin]; [by destruct Hne|exact Hin]. }
  destruct (Z.eqb_spec (should_enumerate_interface LIBUSB_CLASS_HID
                          LIBUSB_CLASS_VENDOR_SPEC (idVendor desc)
                          intf_desc) 0) as [Hno|Hyes]; cbn [negb].
  { apply Hlater; [|exact Hok]. intros ->. by destruct Hshould. }
  destruct (device_path_ok str str_size device bConfigurationValue
              (bInterfaceNumber intf_desc) Hdevice) as [dev_path Hpath].
  rewrite Hpath. cbn [mbind res_mbind res_bind].
  destruct (streq dev_path path_) eqn:Hmatch.
  2:{ apply Hlater; [|exact Hok]. intros ->.
      rewrite Htarget in Hpath. injection Hpath as <-.
      assert (streq path_ path_ = true) by by apply streq_eq.
      congruence. }
  apply streq_eq in Hmatch. subst dev_path.
  rewrite Hopen. cbn [negb].
  pose proof Hdevice as (_ & _ & _ & _ & _ & Hextra).
  destruct (hidapi_initialize_device_returns LIBUSB_CLASS_VENDOR_SPEC
              LIBUSB_DT_HID LIBUSB_DT_REPORT
              HID_API_MAX_REPORT_DESCRIPTOR_SIZE LIBUSB_TRANSFER_TYPE_MASK
              LIBUSB_TRANSFER_TYPE_INTERRUPT LIBUSB_ENDPOINT_DIR_MASK
              LIBUSB_ENDPOINT_OUT LIBUSB_ENDPOINT_IN
              (libusb_kernel_driver_active device)
              (libusb_detach_kernel_driver device)
              (libusb_claim_interface device)
              (libusb_submit_transfer device) (dev st) (dev_usb st) desc
              intf_desc (endpoints_of device intf_desc) conf_desc
              bConfigurationValue (Hextra intf_desc))
    as (ret & dev1 & usb1 & events & Hrun & Hret).
  rewrite Hrun. cbn [mbind res_mbind res_bind].
  destruct Hok as [[_ [closed Hhandles]]|[Hone _]]; [|lia].
  destruct Hret as [->|[-> Hinterface]].
  - (* not this one: the descriptor that can be initialized comes later *)
    apply Hlater.
    + intros ->.
      destruct (hidapi_initialize_device_good LIBUSB_CLASS_VENDOR_SPEC
                  LIBUSB_DT_HID LIBUSB_DT_REPORT
                  HID_API_MAX_REPORT_DESCRIPTOR_SIZE
                  LIBUSB_TRANSFER_TYPE_MASK LIBUSB_TRANSFER_TYPE_INTERRUPT
                  LIBUSB_ENDPOINT_DIR_MASK LIBUSB_ENDPOINT_OUT
                  LIBUSB_ENDPOINT_IN
                  (libusb_kernel_driver_active device)
                  (libusb_detach_kernel_driver device)
                  (libusb_claim_interface device)
                  (libusb_submit_transfer device) (dev st) (dev_usb st) desc
                  target (endpoints_of device target) conf_desc
                  bConfigurationValue (Hextra target) Hdetach Hclaim)
        as (d1 & u1 & e1 & Hgood1 & _).
      rewrite Hgood1 in Hrun. discriminate.
    + left. cbn [good_open handles Z.eqb]. split; [reflexivity|].
      exists (closed ++ [device]).
      rewrite Hhandles. apply closed_again_snoc.
  - eexists. rewrite open_altsettings_done by reflexivity.
    split; [reflexivity|]. split; [|reflexivity].
    right. cbn [good_open handles Z.eqb dev]. split; [reflexivity|].
    exists closed, device, desc, bConfigurationValue, intf_desc.
    rewrite Hhandles. split; [reflexivity|].
    split; [apply Hamong; by left|]. by repeat split.
Qed.

Lemma open_interfaces_finds (device : usb_device)
    (desc : libusb_device_descriptor)
    (conf_desc : libusb_config_descriptor) (bConfigurationValue : Z)
    (target : libusb_interface_descriptor) (holder : libusb_interface)
    (intfs : list libusb_interface) :
  device_ok device -> libusb_open device = true ->
  should_enumerate_interface LIBUSB_CLASS_HID LIBUSB_CLASS_VENDOR_SPEC
    (idVendor desc) target <> 0 ->
  device_path str device bConfigurationValue (bInterfaceNumber target)
  = Ok path_ ->
  can_initialize device target ->
  In target (altsetting holder) -> In holder intfs ->
  (forall intf intf_desc, In intf intfs -> In intf_desc (altsetting intf) ->
                          among device desc bConfigurationValue intf_desc) ->
  forall st, ok st ->
    exists st1,
      interfaces_loop device desc conf_desc bConfigurationValue intfs st
      = Ok st1 /\ ok st1 /\ good_open st1 = 1.
Proof using str_size.
  intros Hdevice Hopen Hshould Htarget Hinit Hin.
  induction intfs as [|intf rest IH]; intros Hholder Hamong st Hok;
    [destruct Hholder|].
  destruct (good_open st =? 0) eqn:Hgood.
  2:{ pose proof (opening_ok_done st Hok Hgood) as Hone.
      exists st. rewrite open_interfaces_done by exact Hone. by split. }
  cbn [open_interfaces]. rewrite Hgood. cbn [negb].
  assert (Hhere : forall d, In d (altsetting intf) ->
                            among device desc bConfigurationValue d).
  { intros d Hd. apply (Hamong intf d); [by left|exact Hd]. }
  assert (Hrest : forall intf1 d, In intf1 rest -> In d (altsetting intf1) ->
                                  among device desc bConfigurationValue d).
  { intros intf1 d Hintf Hd. apply (Hamong intf1 d); [by right|exact Hd]. }
  destruct Hholder as [->|Hholder].
  - destruct (open_altsettings_finds device desc conf_desc
                bConfigurationValue target (altsetting holder) Hdevice
                Hopen Hshould Htarget Hinit Hin Hhere st Hok)
      as (st1 & Hrun & Hok1 & Hone).
    rewrite Hrun. cbn [mbind res_mbind res_bind].
    exists st1. rewrite open_interfaces_done by exact Hone. by split.
  - destruct (open_altsettings_spec device desc conf_desc
                bConfigurationValue (altsetting intf) Hdevice Hhere st Hok)
      as (st1 & Hrun & Hok1).
    rewrite Hrun. cbn [mbind res_mbind res_bind].
    by apply IH.
Qed.

Lemma open_devices_finds (target_device : usb_device)
    (desc : libusb_device_descriptor)
    (conf_desc : libusb_config_descriptor) (bConfigurationValue : Z)
    (target : libusb_interface_descriptor) (holder : libusb_interface)
    (devices : list usb_device) :
  Forall device_ok devices ->
  device_descriptor target_device = Some desc ->
  config_descriptor target_device = Some (conf_desc, bConfigurationValue) ->
  libusb_open target_device = true ->
  should_enumerate_interface LIBUSB_CLASS_HID LIBUSB_CLASS_VENDOR_SPEC
    (idVendor desc) target <> 0 ->
  device_path str target_device bConfigurationValue
    (bInterfaceNumber target) = Ok path_ ->
  can_initialize target_device target ->
  In target (altsetting holder) -> In holder (interfaces conf_desc) ->
  In target_device devices ->
  (forall device desc conf_desc bConfigurationValue intf intf_desc,
     In device devices -> device_descriptor device = Some desc ->
     config_descriptor device = Some (conf_desc, bConfigurationValue) ->
     In intf (interfaces conf_desc) -> In intf_desc (altsetting intf) ->
     among device desc bConfigurationValue intf_desc) ->
  forall st, ok st ->
    exists st1, devices_loop devices st = Ok st1 /\ ok st1 /\
                good_open st1 = 1.
Proof using str_size.
  intros Hdevices Hdesc Hconf Hopen Hshould Htarget Hinit Hin Hholder.
  induction Hdevices as [|device rest Hdevice Hothers IH];
    intros Hlisted Hamong st Hok; [destruct Hlisted|].
  destruct (good_open st =? 0) eqn:Hgood.
  2:{ pose proof (opening_ok_done st Hok Hgood) as Hone.
      exists st. rewrite open_devices_done by exact Hone. by split. }
  cbn [open_devices]. rewrite Hgood. cbn [negb].
  assert (Hrest : forall device desc conf_desc bConfigurationValue intf
                         intf_desc,
            In device rest -> device_descriptor device = Some desc ->
            config_descriptor device = Some (conf_desc, bConfigurationValue)
            -> In intf (interfaces conf_desc) ->
            In intf_desc (altsetting intf) ->
            among device desc bConfigurationValue intf_desc).
  { intros d desc0 conf bcv intf i Hd. apply Hamong. by right. }
  destruct Hlisted as [->|Hlisted].
  - rewrite Hdesc, Hconf.
    destruct (open_interfaces_finds target_device desc conf_desc
                bConfigurationValue target holder (interfaces conf_desc)
                Hdevice Hopen Hshould Htarget Hinit Hin Hholder)
      with (st := st) as (st1 & Hrun & Hok1 & Hone); [|exact Hok|].
    { intros intf d Hintf Hd.
      apply (Hamong target_device desc conf_desc bConfigurationValue intf
               d); try done. by left. }
    rewrite Hrun. cbn [mbind res_mbind res_bind].
    exists st1. rewrite open_devices_done by exact Hone. by split.
  - destruct (device_descriptor device) as [desc0|] eqn:Hdesc0;
      [|by apply IH].
    destruct (config_descriptor device) as [[conf0 bcv0]|] eqn:Hconf0;
      [|by apply IH].
    destruct (open_interfaces_spec device desc0 conf0 bcv0
                (interfaces conf0) Hdevice) with (st := st)
      as (st1 & Hrun & Hok1); [|exact Hok|].
    { intros intf d Hintf Hd.
      apply (Hamong device desc0 conf0 bcv0 intf d); try done. by left. }
    rewrite Hrun. cbn [mbind res_mbind res_bind].
    by apply IH.
Qed.

End OpenPathFacts.

Lemma path_to_open_none (vendor_id_ product_id_ : Z)
    (serial_number_ : option wstring) (devs : list hid_device_info_usb) :
  Forall (fun entry => ~ (vendor_id (info entry) = vendor_id_ /\
                          product_id (info entry) = product_id_)) devs ->
  path_to_open vendor_id_ product_id_ serial_number_ devs = None.
Proof.
  induction 1 as [|entry rest Hentry _ IH]; cbn [path_to_open]; [done|].
  destruct (Z.eqb_spec (vendor_id (info entry)) vendor_id_) as [Hv|Hv];
    destruct (Z.eqb_spec (product_id (info entry)) product_id_) as [Hp|Hp];
    cbn [andb]; try exact IH.
  by destruct Hentry.
Qed.

Lemma path_to_open_some (vendor_id_ product_id_ : Z)
    (serial_number_ : option wstring) (devs : list hid_device_info_usb)
    (path_ : list byte) :
  path_to_open vendor_id_ product_id_ serial_number_ devs = Some path_ ->
  exists entry,
    In entry devs /\ vendor_id (info entry) = vendor_id_ /\
    product_id (info entry) = product_id_ /\ path entry = path_ /\
    forall wanted, serial_number_ = Some wanted ->
                   serial_number entry = Some wanted.
Proof.
  induction devs as [|entry rest IH]; cbn [path_to_open]; [done|].
  assert (Hrest : path_to_open vendor_id_ product_id_ serial_number_ rest
                  = Some path_ ->
                  exists entry0,
                    In entry0 (entry :: rest) /\
                    vendor_id (info entry0) = vendor_id_ /\
                    product_id (info entry0) = product_id_ /\
                    path entry0 = path_ /\
                    forall wanted, serial_number_ = Some wanted ->
                                   serial_number entry0 = Some wanted).
  { intros H. destruct (IH H) as (entry0 & Hin & Hfacts).
    exists entry0. split; [by right|exact Hfacts]. }
  destruct (Z.eqb_spec (vendor_id (info entry)) vendor_id_) as [Hv|Hv];
    destruct (Z.eqb_spec (product_id (info entry)) product_id_) as [Hp|Hp];
    cbn [andb]; try exact Hrest.
  destruct serial_number_ as [wanted|].
  - destruct (serial_number entry) as [serial|] eqn:Hserial;
      [|exact Hrest].
    destruct (bool_decide_reflect (wanted = serial)) as [->|_];
      [|exact Hrest].
    intros [= <-]. exists entry. split; [by left|].
    repeat split; try done. by intros ? [= <-].
  - intros [= <-]. exists entry. split; [by left|]. by repeat split.
Qed.

Section HidOpenFacts.

Variables LIBUSB_CLASS_HID LIBUSB_CLASS_VENDOR_SPEC HID_API_BUS_USB
  LIBUSB_DT_HID LIBUSB_DT_REPORT HID_API_MAX_REPORT_DESCRIPTOR_SIZE
  LIBUSB_TRANSFER_TYPE_MASK LIBUSB_TRANSFER_TYPE_INTERRUPT
  LIBUSB_ENDPOINT_DIR_MASK LIBUSB_ENDPOINT_OUT LIBUSB_ENDPOINT_IN : Z.
Variable calloc_ok : nat -> bool.
Variable realloc_ok : Z -> bool.
Variable fresh : usb_string_cache_entry.
Variable str : list byte.

(** [realloc] gives no object larger than [PTRDIFF_MAX] bytes; the array
    of [make_path] has 64 characters. *)
Hypothesis realloc_bound :
  forall allocSize, realloc_ok allocSize = true -> allocSize < 2 ^ 63.
Hypothesis str_size : length str = 64%nat.

Local Abbreviation enumerable :=
  (enumerable_interface LIBUSB_CLASS_HID LIBUSB_CLASS_VENDOR_SPEC).

(** What [hid_open_path] returns for a device list. *)
Lemma hid_open_path_spec (devices : list usb_device) (usb : hid_device_usb)
    (path_ : list byte) :
  Forall device_ok devices ->
  exists handle events,
    hid_open_path LIBUSB_CLASS_HID LIBUSB_CLASS_VENDOR_SPEC LIBUSB_DT_HID
      LIBUSB_DT_REPORT HID_API_MAX_REPORT_DESCRIPTOR_SIZE
      LIBUSB_TRANSFER_TYPE_MASK LIBUSB_TRANSFER_TYPE_INTERRUPT
      LIBUSB_ENDPOINT_DIR_MASK LIBUSB_ENDPOINT_OUT LIBUSB_ENDPOINT_IN str
      true (Some devices) usb path_ = Ok (handle, events) /\
    match handle with
    | None => exists closed, events = closed_again closed
    | Some (dev1, _) =>
        exists closed device desc bConfigurationValue intf_desc,
          events = closed_again closed ++ [Opened device] /\
          In device devices /\
          enumerable device desc bConfigurationValue intf_desc /\
          device_path str device bConfigurationValue
            (bInterfaceNumber intf_desc) = Ok path_ /\
          libusb_open device = true /\
          interface dev1 = bInterfaceNumber intf_desc
    end.
Proof using str_size.
  intros Hdevices. unfold hid_open_path. cbn [negb].
  set (among := fun device desc bcv intf_desc =>
                  In device devices /\
                  exists conf_desc intf,
                    device_descriptor device = Some desc /\
                    config_descriptor device = Some (conf_desc, bcv) /\
                    In intf (interfaces conf_desc) /\
                    In intf_desc (altsetting intf)).
  destruct (open_devices_spec LIBUSB_CLASS_HID LIBUSB_CLASS_VENDOR_SPEC
              LIBUSB_DT_HID LIBUSB_DT_REPORT
              HID_API_MAX_REPORT_DESCRIPTOR_SIZE LIBUSB_TRANSFER_TYPE_MASK
              LIBUSB_TRANSFER_TYPE_INTERRUPT LIBUSB_ENDPOINT_DIR_MASK
              LIBUSB_ENDPOINT_OUT LIBUSB_ENDPOINT_IN str str_size path_
              among devices Hdevices)
    with (st := {| dev := new_hid_device; dev_usb := usb; good_open := 0;
                   handles := [] |})
    as (st1 & Hrun & Hok1).
  { intros device desc conf_desc bcv intf d Hin Hdesc Hconf Hintf Hd.
    split; [exact Hin|]. by exists conf_desc, intf. }
  { left. split; [reflexivity|]. by exists []. }
  rewrite Hrun. cbn [mbind res_mbind res_bind].
  destruct Hok1 as [[Hgood [closed Hhandles]]|[Hgood Hopened]];
    rewrite Hgood; cbn [Z.eqb negb].
  - eexists _, _. split; [reflexivity|]. by exists closed.
  - eexists _, _. split; [reflexivity|].
    destruct Hopened as (closed & device & desc & bcv & d & Hhandles &
                         [Hin (conf_desc & intf & Hdesc & Hconf & Hintf & Hd)]
                         & Hshould & Hpath & Hopen & Hinterface).
    exists closed, device, desc, bcv, d.
    split; [exact Hhandles|]. split; [exact Hin|].
    split; [|by repeat split].
    split; [exact Hdesc|]. by exists conf_desc, intf.
Qed.

(** [hid_open_path] opens a device when an interface to enumerate of a
    listed device has the path, and the device can be opened and
    initialized: its vendor and product are not looked at. *)
Lemma hid_open_path_finds (devices : list usb_device) (usb : hid_device_usb)
    (path_ : list byte) (device : usb_device)
    (desc : libusb_device_descriptor) (bConfigurationValue : Z)
    (intf_desc : libusb_interface_descriptor) :
  Forall device_ok devices -> In device devices ->
  enumerable device desc bConfigurationValue intf_desc ->
  device_path str device bConfigurationValue (bInterfaceNumber intf_desc)
  = Ok path_ ->
  libusb_open device = true -> can_initialize device intf_desc ->
  exists dev1 usb1 events,
    hid_open_path LIBUSB_CLASS_HID LIBUSB_CLASS_VENDOR_SPEC LIBUSB_DT_HID
      LIBUSB_DT_REPORT HID_API_MAX_REPORT_DESCRIPTOR_SIZE
      LIBUSB_TRANSFER_TYPE_MASK LIBUSB_TRANSFER_TYPE_INTERRUPT
      LIBUSB_ENDPOINT_DIR_MASK LIBUSB_ENDPOINT_OUT LIBUSB_ENDPOINT_IN str
      true (Some devices) usb path_ = Ok (Some (dev1, usb1), events).
Proof using str_size.
  intros Hdevices Hlisted (Hdesc & conf_desc & holder & Hconf & Hholder &
                           Hin & Hshould) Hpath Hopen Hinit.
  unfold hid_open_path. cbn [negb].
  set (among := fun (d : usb_device) (_ : libusb_device_descriptor)
                    (_ : Z) (_ : libusb_interface_descriptor) =>
                  In d devices).
  destruct (open_devices_finds LIBUSB_CLASS_HID LIBUSB_CLASS_VENDOR_SPEC
              LIBUSB_DT_HID LIBUSB_DT_REPORT
              HID_API_MAX_REPORT_DESCRIPTOR_SIZE LIBUSB_TRANSFER_TYPE_MASK
              LIBUSB_TRANSFER_TYPE_INTERRUPT LIBUSB_ENDPOINT_DIR_MASK
              LIBUSB_ENDPOINT_OUT LIBUSB_ENDPOINT_IN str str_size path_
              among device desc conf_desc bConfigurationValue intf_desc
              holder devices Hdevices Hdesc Hconf Hopen Hshould Hpath Hinit
              Hin Hholder Hlisted)
    with (st := {| dev := new_hid_device; dev_usb := usb; good_open := 0;
                   handles := [] |})
    as (st1 & Hrun & _ & Hone).
  { by intros d. }
  { left. split; [reflexivity|]. by exists []. }
  rewrite Hrun. cbn [mbind res_mbind res_bind].
  rewrite Hone. cbn [Z.eqb negb]. by eexists _, _, _.
Qed.

(** X27.  [hid_open_path(path)] on a device list libusb gave returns; a
    session it returns is on an interface descriptor that
    [should_enumerate_interface] accepts, of a device of the list that
    [libusb_open] opened and whose [make_path] for that interface is
    [path], and it holds the descriptor's interface number.  Every device
    handle opened on the way was closed again, but the one of the session
    returned; when [NULL] is returned none is left open.  A session is
    returned whenever such an interface is in the list and its device can
    be opened and initialized, whatever the vendor and product:
    [libusb_blacklist] is not consulted, a device that [hid_enumerate]
    leaves out is opened by its path.  When [libusb_get_device_list]
    fails, the list pointer stays [NULL] and is read. *)
Theorem hid_open_path_opens (devices : list usb_device)
    (usb : hid_device_usb) (path_ : list byte) :
  Forall device_ok devices ->
  hid_open_path LIBUSB_CLASS_HID LIBUSB_CLASS_VENDOR_SPEC LIBUSB_DT_HID
    LIBUSB_DT_REPORT HID_API_MAX_REPORT_DESCRIPTOR_SIZE
    LIBUSB_TRANSFER_TYPE_MASK LIBUSB_TRANSFER_TYPE_INTERRUPT
    LIBUSB_ENDPOINT_DIR_MASK LIBUSB_ENDPOINT_OUT LIBUSB_ENDPOINT_IN str
    true None usb path_ = Fault /\
  exists handle events,
    hid_open_path LIBUSB_CLASS_HID LIBUSB_CLASS_VENDOR_SPEC LIBUSB_DT_HID
      LIBUSB_DT_REPORT HID_API_MAX_REPORT_DESCRIPTOR_SIZE
      LIBUSB_TRANSFER_TYPE_MASK LIBUSB_TRANSFER_TYPE_INTERRUPT
      LIBUSB_ENDPOINT_DIR_MASK LIBUSB_ENDPOINT_OUT LIBUSB_ENDPOINT_IN str
      true (Some devices) usb path_ = Ok (handle, events) /\
    match handle with
    | None => exists closed, events = closed_again closed
    | Some (dev1, _) =>
        exists closed device desc bConfigurationValue intf_desc,
          events = closed_again closed ++ [Opened device] /\
          In device devices /\
          enumerable_interface LIBUSB_CLASS_HID LIBUSB_CLASS_VENDOR_SPEC
            device desc bConfigurationValue intf_desc /\
          device_path str device bConfigurationValue
            (bInterfaceNumber intf_desc) = Ok path_ /\
          libusb_open device = true /\
          interface dev1 = bInterfaceNumber intf_desc
    end /\
    (forall device desc bConfigurationValue intf_desc,
       In device devices ->
       enumerable_interface LIBUSB_CLASS_HID LIBUSB_CLASS_VENDOR_SPEC
         device desc bConfigurationValue intf_desc ->
       device_path str device bConfigurationValue
         (bInterfaceNumber intf_desc) = Ok path_ ->
       libusb_open device = true -> can_initialize device intf_desc ->
       handle <> None).
Proof using str_size.
  intros Hdevices. split; [reflexivity|].
  destruct (hid_open_path_spec devices usb path_ Hdevices)
    as (handle & events & Hrun & Hhandle).
  exists handle, events. split; [exact Hrun|]. split; [exact Hhandle|].
  intros device desc bcv intf_desc Hlisted Henum Hpath Hopen Hinit.
  destruct (hid_open_path_finds devices usb path_ device desc bcv intf_desc
              Hdevices Hlisted Henum Hpath Hopen Hinit)
    as (dev1 & usb1 & events1 & Hfound).
  rewrite Hfound in Hrun. by injection Hrun as <- _.
Qed.


(** X28.  [hid_open(vendor_id, product_id, serial_number)] returns when
    the second device list is there, keeping the string cache consistent.
    It returns [NULL] when [hid_init] fails or no device of the first list
    has exactly these two IDs: 0 matches any device in the enumeration it
    starts with, but the entries are then compared with the arguments as
    they are.  A session it returns is on an interface to enumerate of a
    device of the second list that was opened, and that interface has the
    path of an interface to enumerate of a device of the first list with
    these IDs, which is not blacklisted; when both devices have port
    numbers and the interface numbers fit 8 bits, they have the same bus
    and port numbers and the interface numbers are equal. *)
Theorem hid_open_opens (hid_init_ok : bool)
    (libusb_get_device_list : option (list usb_device))
    (devices_again : list usb_device) (usb : hid_device_usb)
    (vendor_id_ product_id_ : Z) (serial_number_ : option wstring)
    (c : string_cache) :
  cache_ok c ->
  (forall devices, libusb_get_device_list = Some devices ->
                   Forall device_ok devices) ->
  Forall device_ok devices_again ->
  exists handle c1,
    hid_open LIBUSB_CLASS_HID LIBUSB_CLASS_VENDOR_SPEC HID_API_BUS_USB
      LIBUSB_DT_HID LIBUSB_DT_REPORT HID_API_MAX_REPORT_DESCRIPTOR_SIZE
      LIBUSB_TRANSFER_TYPE_MASK LIBUSB_TRANSFER_TYPE_INTERRUPT
      LIBUSB_ENDPOINT_DIR_MASK LIBUSB_ENDPOINT_OUT LIBUSB_ENDPOINT_IN
      calloc_ok realloc_ok fresh str hid_init_ok libusb_get_device_list
      (Some devices_again) usb vendor_id_ product_id_ serial_number_ c
    = Ok (handle, c1) /\
    cache_ok c1 /\
    (hid_init_ok = false \/
     (forall devices device desc,
        libusb_get_device_list = Some devices -> In device devices ->
        device_descriptor device = Some desc ->
        ~ (idVendor desc = vendor_id_ /\ idProduct desc = product_id_)) ->
     handle = None) /\
    (forall dev1 usb1,
       handle = Some (dev1, usb1) ->
       exists devices listed desc0 config0 intf_desc0
              device desc bConfigurationValue intf_desc,
         libusb_get_device_list = Some devices /\ In listed devices /\
         enumerable_interface LIBUSB_CLASS_HID LIBUSB_CLASS_VENDOR_SPEC
           listed desc0 config0 intf_desc0 /\
         idVendor desc0 = vendor_id_ /\ idProduct desc0 = product_id_ /\
         libusb_blacklist vendor_id_ product_id_ = 0 /\
         In device devices_again /\
         enumerable_interface LIBUSB_CLASS_HID LIBUSB_CLASS_VENDOR_SPEC
           device desc bConfigurationValue intf_desc /\
         libusb_open device = true /\
         interface dev1 = bInterfaceNumber intf_desc /\
         device_path str device bConfigurationValue
           (bInterfaceNumber intf_desc)
         = device_path str listed config0 (bInterfaceNumber intf_desc0) /\
         (0 < fst (libusb_get_port_numbers listed) ->
          0 < fst (libusb_get_port_numbers device) ->
          0 <= bInterfaceNumber intf_desc0 < 256 ->
          0 <= bInterfaceNumber intf_desc < 256 ->
          libusb_get_bus_number device = libusb_get_bus_number listed /\
          fst (libusb_get_port_numbers device)
          = fst (libusb_get_port_numbers listed) /\
          take (Z.to_nat (fst (libusb_get_port_numbers device)))
            (snd (libusb_get_port_numbers device))
          = take (Z.to_nat (fst (libusb_get_port_numbers listed)))
              (snd (libusb_get_port_numbers listed)) /\
          interface dev1 = bInterfaceNumber intf_desc0)).
Proof using realloc_bound str_size.
  intros Hok Hdevices Hagain. unfold hid_open.
  destruct (hid_enumerate_spec LIBUSB_CLASS_HID LIBUSB_CLASS_VENDOR_SPEC
              HID_API_BUS_USB calloc_ok realloc_ok fresh str realloc_bound
              str_size hid_init_ok libusb_get_device_list vendor_id_
              product_id_ c Hok Hdevices)
    as (devs & c1 & Hrun & Hok1 & Hempty & Hlisted).
  rewrite Hrun. cbn [mbind res_mbind res_bind].
  destruct (path_to_open vendor_id_ product_id_ serial_number_ devs)
    as [path_|] eqn:Hpath.
  2:{ exists None, c1. split; [reflexivity|]. split; [exact Hok1|].
      split; [done|]. discriminate. }
  apply path_to_open_some in Hpath
      as (entry & Hentry & Hvid & Hpid & Hpath & _).
  destruct hid_init_ok.
  2:{ rewrite Hempty in Hentry by (by left). destruct Hentry. }
  destruct libusb_get_device_list as [devices|].
  2:{ rewrite Hempty in Hentry by (by right). destruct Hentry. }
  pose proof (Hlisted devices eq_refl) as Hall.
  rewrite List.Forall_forall in Hall.
  destruct (Hall entry Hentry)
    as (listed & desc0 & config0 & d0 & Hin0 & Henum0 & _ & _ & Hblack &
        Hentry_of).
  destruct Hentry_of as (Hv & Hp & _ & _ & _ & Hpath0 & _).
  rewrite Hpath in Hpath0.
  destruct (hid_open_path_spec devices_again usb path_ Hagain)
    as (handle & events & Hopen_path & Hhandle).
  rewrite Hopen_path. cbn [mbind res_mbind res_bind].
  exists handle, c1. split; [reflexivity|]. split; [exact Hok1|]. split.
  - intros [Hinit|Hnone]; [discriminate|].
    destruct Henum0 as [Hdesc0 _].
    destruct (Hnone devices listed desc0 eq_refl Hin0 Hdesc0).
    split; congruence.
  - intros dev1 usb1 ->.
    destruct Hhandle as (closed & device & desc & bcv & d & _ & Hin &
                         Henum & Hpath1 & Hopened & Hinterface).
    exists devices, listed, desc0, config0, d0, device, desc, bcv, d.
    split; [reflexivity|]. split; [exact Hin0|]. split; [exact Henum0|].
    split; [congruence|]. split; [congruence|].
    split; [congruence|]. split; [exact Hin|]. split; [exact Henum|].
    split; [exact Hopened|]. split; [exact Hinterface|].
    split; [congruence|].
    intros Hports0 Hports1 Hnumber0 Hnumber1.
    rewrite List.Forall_forall in Hagain.
    pose proof (Hagain device Hin)
      as (Hbus1 & Hnum1 & Hlen1 & Hrange1 & _).
    pose proof (Hdevices devices eq_refl) as Hfirst.
    rewrite List.Forall_forall in Hfirst.
    pose proof (Hfirst listed Hin0)
      as (Hbus0 & Hnum0 & Hlen0 & Hrange0 & _).
    destruct (make_path_inj str str (libusb_get_bus_number device)
                (libusb_get_bus_number listed)
                (fst (libusb_get_port_numbers device))
                (fst (libusb_get_port_numbers listed))
                (snd (libusb_get_port_numbers device))
                (snd (libusb_get_port_numbers listed)) bcv config0
                (bInterfaceNumber d) (bInterfaceNumber d0) path_ str_size
                str_size Hbus1 Hbus0 Hlen1 Hlen0 Hrange1 Hrange0
                ltac:(lia) ltac:(lia) Hpath1 Hpath0)
      as (Hbus & Hnum & Hports & _ & Hnumber).
    split; [exact Hbus|]. split; [exact Hnum|]. split; [exact Hports|].
    rewrite Hinterface. unfold u8 in Hnumber.
    rewrite !Z.mod_small in Hnumber by lia. exact Hnumber.
Qed.

End HidOpenFacts.

(** The Razer keyboard that [libusb_blacklist] lists, opened by its path
    1-2:1.0. *)
Lemma hid_open_path_opens_witness :
  libusb_blacklist 0x1532 0x0227 = 1 /\
  exists dev1 usb1 events,
    hid_open_path 3 0xff 0x21 0x22 4096 3 3 0x80 0 0x80 (replicate 64 x00)
      true (Some [example_device 0x1532 0x0227])
      {| config_number := 0; Open.interface_class := 0;
         Open.interface_subclass := 0; Open.interface_protocol := 0;
         report_descriptor_size := 0; input_endpoint := 0;
         input_ep_max_packet_size := 0; manufacturer_index := 0;
         product_index := 0; serial_index := 0 |}
      [x31; x2d; x32; x3a; x31; x2e; x30]
    = Ok (Some (dev1, usb1), events).
Proof.
  split; [reflexivity|].
  destruct (hid_open_path_opens 3 0xff 0x21 0x22 4096 3 3 0x80 0 0x80
              (replicate 64 x00) ltac:(reflexivity)
              [example_device 0x1532 0x0227]
              {| config_number := 0; Open.interface_class := 0;
                 Open.interface_subclass := 0;
                 Open.interface_protocol := 0;
                 report_descriptor_size := 0; input_endpoint := 0;
                 input_ep_max_packet_size := 0; manufacturer_index := 0;
                 product_index := 0; serial_index := 0 |}
              [x31; x2d; x32; x3a; x31; x2e; x30]
              ltac:(constructor; [apply example_device_ok|constructor]))
    as (_ & handle & events & Hrun & _ & Hfinds).
  destruct handle as [[dev1 usb1]|]; [by exists dev1, usb1, events|].
  exfalso.
  apply (Hfinds (example_device 0x1532 0x0227)
                  {| idVendor := 0x1532; idProduct := 0x0227;
                     bcdDevice := 0x0100; iManufacturer := 1; iProduct := 2;
                     iSerialNumber := 0 |}
                  1
                  {| bInterfaceNumber := 0; bAlternateSetting := 0;
                     bInterfaceClass := 3; bInterfaceSubClass := 1;
                     bInterfaceProtocol := 1 |}
                  ltac:(by left)
                  ltac:(split; [reflexivity|];
                        eexists _, _; split; [reflexivity|];
                        split; [by left|]; split; [by left|];
                        vm_compute; discriminate)
                  ltac:(reflexivity) ltac:(reflexivity)
                  ltac:(split; cbn; [intros; lia|lia])).
  reflexivity.
Defined.

(** The keyboard, opened by its IDs. *)
Lemma hid_open_opens_witness :
  exists handle c1,
    hid_open 3 0xff 1 0x21 0x22 4096 3 3 0x80 0 0x80 (fun _ => true)
      (fun allocSize => allocSize <? 2 ^ 63)
      {| vid := 0; pid := 0; vendor := None; product := None |}
      (replicate 64 x00) true
      (Some [example_device 0x1532 0x0227; example_device 0x046d 0xc31c])
      (Some [example_device 0x046d 0xc31c])
      {| config_number := 0; Open.interface_class := 0;
         Open.interface_subclass := 0; Open.interface_protocol := 0;
         report_descriptor_size := 0; input_endpoint := 0;
         input_ep_max_packet_size := 0; manufacturer_index := 0;
         product_index := 0; serial_index := 0 |}
      0x046d 0xc31c None string_cache_init = Ok (handle, c1) /\
    cache_ok c1.
Proof.
  destruct (hid_open_opens 3 0xff 1 0x21 0x22 4096 3 3 0x80 0 0x80
              (fun _ => true) (fun allocSize => allocSize <? 2 ^ 63)
              {| vid := 0; pid := 0; vendor := None; product := None |}
              (replicate 64 x00)
              ltac:(intros allocSize H; apply Z.ltb_lt in H; exact H)
              ltac:(reflexivity) true
              (Some [example_device 0x1532 0x0227;
                     example_device 0x046d 0xc31c])
              [example_device 0x046d 0xc31c]
              {| config_number := 0; Open.interface_class := 0;
                 Open.interface_subclass := 0;
                 Open.interface_protocol := 0;
                 report_descriptor_size := 0; input_endpoint := 0;
                 input_ep_max_packet_size := 0; manufacturer_index := 0;
                 product_index := 0; serial_index := 0 |}
              0x046d 0xc31c None string_cache_init string_cache_init_ok
              ltac:(intros devices [= <-];
                    constructor; [apply example_device_ok|];
                    constructor; [apply example_device_ok|constructor])
              ltac:(constructor; [apply example_device_ok|constructor]))
    as (handle & c1 & Hrun & Hok & _).
  exists handle, c1. by split.
Defined.

(** ** The language of the current locale *)

Lemma strncpy_stored (dest src : list byte) :
  length dest = 64%nat ->
  store (strncpy dest src (64 - 1)) (64 - 1) x00
  = Ok (take 63 (cstring src ++ replicate 63 x00) ++ [x00]).
Proof.
  intros Hdest. unfold strncpy.
  assert (Htake : length (take (64 - 1)
                            (cstring src ++ replicate (64 - 1) x00))
                  = 63%nat).
  { rewrite length_take, length_app, length_replicate. lia. }
  rewrite store_in_range by (rewrite length_app, Htake, length_drop; lia).
  f_equal. change (Z.to_nat (64 - 1)) with 63%nat.
  change (64 - 1)%nat with 63%nat in *.
  rewrite insert_app_r_alt by lia. rewrite Htake, Nat.sub_diag.
  do 64 (destruct dest as [|? dest]; [discriminate|]).
  destruct dest; [reflexivity|discriminate].
Qed.

Lemma strncpy_terminated (src : list byte) :
  length (take 63 (cstring src ++ replicate 63 x00) ++ [x00]) = 64%nat /\
  (take 63 (cstring src ++ replicate 63 x00) ++ [x00]) !! 63%nat = Some x00.
Proof.
  assert (Htake : length (take 63 (cstring src ++ replicate 63 x00))
                  = 63%nat).
  { rewrite length_take, length_app, length_replicate. lia. }
  split.
  - rewrite length_app, Htake. reflexivity.
  - rewrite lookup_app_r by lia. by rewrite Htake.
Qed.

(** The loops stay inside the array and end, as its last character is
    zero. *)
Lemma chop_off_returns (tolower : byte -> byte) (c : Z) (fuel : nat) :
  forall (search_string : list byte) (ptr : Z),
    length search_string = 64%nat ->
    search_string !! 63%nat = Some x00 ->
    0 <= ptr <= 63 -> 64 - ptr <= Z.of_nat fuel ->
    exists chopped,
      chop_off tolower c fuel search_string ptr = Ok chopped /\
      length chopped = 64%nat /\ chopped !! 63%nat = Some x00.
Proof.
  induction fuel as [|fuel IH]; intros b ptr Hlen Hlast Hptr Hfuel; [lia|].
  cbn [chop_off].
  destruct (index_in_range b ptr ltac:(lia)) as [cur Hcur].
  rewrite Hcur. cbn [mbind res_mbind res_bind].
  destruct (Z.eqb_spec (byte_val cur) 0) as [Hzero|Hchar];
    [by exists b|].
  assert (Hbefore : ptr <= 62).
  { destruct (Z.eq_dec ptr 63) as [->|]; [|lia].
    apply index_Ok_lookup in Hcur as [_ Hcur].
    change (Z.to_nat 63) with 63%nat in Hcur.
    rewrite Hlast in Hcur. injection Hcur as <-. by destruct Hchar. }
  rewrite store_in_range by lia. cbn [mbind res_mbind res_bind].
  assert (Hlen1 : length (<[Z.to_nat ptr := tolower cur]> b) = 64%nat)
    by by rewrite length_insert.
  assert (Hlast1 : <[Z.to_nat ptr := tolower cur]> b !! 63%nat = Some x00).
  { rewrite list_lookup_insert_ne by lia. exact Hlast. }
  replace (index (<[Z.to_nat ptr := tolower cur]> b) ptr)
    with (Ok (tolower cur)).
  2:{ symmetry. rewrite <- (Z2Nat.id ptr) at 2 by lia.
      apply index_lookup. apply list_lookup_insert_eq. lia. }
  cbn [mbind res_mbind res_bind].
  destruct (byte_val (tolower cur) =? c).
  - rewrite store_in_range by lia. eexists. split; [reflexivity|].
    split; [by rewrite length_insert|].
    rewrite list_lookup_insert_ne by lia. exact Hlast1.
  - apply IH; try done; lia.
Qed.

Lemma string_at_returns (str : list byte) (i : nat) (c : byte) :
  str !! i = Some c -> byte_val c = 0 -> exists s, string_at str = Ok s.
Proof.
  revert i. induction str as [|d str IH]; intros i Hi Hc; [done|].
  cbn [string_at].
  destruct (Z.eqb_spec (byte_val d) 0); [by eexists|].
  destruct i as [|i]; [injection Hi as ->; lia|].
  destruct (IH i Hi Hc) as [s ->]. by eexists.
Qed.

(** The search returns the code of an entry that is the first with its
    string code. *)
Lemma find_lang_first (search_string s : list byte) :
  string_at search_string = Ok s ->
  forall (lang : list lang_map_entry) (seen : list (list byte)),
    Forall (fun code => streq code s = false) seen ->
    exists found,
      find_lang lang search_string = Ok found /\
      forall code, found = Some code -> In code (first_codes seen lang).
Proof.
  intros Hs. induction lang as [|entry lang IH]; intros seen Hseen;
    cbn [find_lang first_codes].
  { exists None. by split. }
  rewrite Hs. cbn [mbind res_mbind res_bind].
  destruct (streq (string_code entry) s) eqn:Hmatch.
  - exists (Some (usb_code entry)). split; [reflexivity|].
    intros code [= <-].
    destruct (existsb (streq (string_code entry)) seen) eqn:Hdup;
      [|by left].
    apply existsb_exists in Hdup as (other & Hother & Hsame).
    apply streq_eq in Hsame. subst other.
    rewrite List.Forall_forall in Hseen.
    rewrite (Hseen _ Hother) in Hmatch. discriminate.
  - destruct (existsb (streq (string_code entry)) seen).
    + by apply IH.
    + destruct (IH (string_code entry :: seen)) as (found & Hrun & Hfound);
        [by constructor|].
      exists found. split; [exact Hrun|].
      intros code Hcode. right. by apply Hfound.
Qed.

(** The codes of [lang_map] that can be found: four entries repeat the
    string code of the entry before them. *)
Lemma first_codes_lang_map (code : Z) :
  In code (first_codes [] lang_map) ->
  (exists entry, In entry lang_map /\ usb_code entry = code) /\
  code <> 0x082C /\ code <> 0x0814 /\ code <> 0x081A /\ code <> 0x0443.
Proof.
  intros Hcode.
  assert (Hall : forallb
                   (fun code =>
                      existsb (fun entry => usb_code entry =? code) lang_map
                      && negb (existsb (Z.eqb code)
                                 [0x082C; 0x0814; 0x081A; 0x0443]))
                   (first_codes [] lang_map) = true)
    by (vm_compute; reflexivity).
  rewrite forallb_forall in Hall. specialize (Hall code Hcode).
  apply andb_true_iff in Hall as [Hentry Hnot].
  apply existsb_exists in Hentry as (entry & Hentry & Husb).
  apply Z.eqb_eq in Husb. split; [by exists entry|].
  apply negb_true_iff in Hnot.
  cbn [existsb] in Hnot. rewrite !orb_false_iff in Hnot.
  destruct Hnot as (H1 & H2 & H3 & H4 & _).
  apply Z.eqb_neq in H1, H2, H3, H4. done.
Qed.

(** X29.  [get_usb_code_for_current_locale] returns for every locale
    string and every [tolower]: both loops stay inside [search_string] and
    end, as its last character is set to zero.  The result does not
    depend on what the array held before; it is 0 when [setlocale]
    returns [NULL], and else 0 or the code of an entry of [lang_map], but
    never 0x082C (Azeri - Cyrillic), 0x0814 (Norwegian - Nynorsk), 0x081A
    (Serbian - Latin) or 0x0443 (Uzbek - Latin): each of these entries
    has the string code of the entry before it, which is found first. *)
Theorem get_usb_code_for_current_locale_result (tolower : byte -> byte)
    (setlocale : option (list byte)) (search_string : list byte) :
  length search_string = 64%nat ->
  exists code,
    get_usb_code_for_current_locale tolower setlocale search_string
    = Ok code /\
    get_usb_code_for_current_locale tolower setlocale (replicate 64 x00)
    = Ok code /\
    (setlocale = None -> code = 0) /\
    (code = 0 \/ exists entry, In entry lang_map /\ usb_code entry = code) /\
    code <> 0x082C /\ code <> 0x0814 /\ code <> 0x081A /\ code <> 0x0443.
Proof.
  intros Hlen. unfold get_usb_code_for_current_locale.
  destruct setlocale as [locale|].
  2:{ exists 0. repeat split; try done. by left. }
  rewrite !strncpy_stored by (done || by rewrite length_replicate).
  cbn [mbind res_mbind res_bind].
  destruct (strncpy_terminated locale) as [Hsize Hlast].
  destruct (chop_off_returns tolower 46 64 _ 0 Hsize Hlast ltac:(lia)
              ltac:(lia)) as (chopped & -> & Hsize1 & Hlast1).
  cbn [mbind res_mbind res_bind].
  destruct (string_at_returns chopped 63 x00 Hlast1 eq_refl) as [s Hs].
  destruct (find_lang_first chopped s Hs lang_map [] ltac:(constructor))
    as (found & -> & Hfound).
  cbn [mbind res_mbind res_bind].
  destruct found as [code|].
  - exists code. split; [reflexivity|]. split; [reflexivity|].
    split; [discriminate|].
    destruct (first_codes_lang_map code (Hfound code eq_refl))
      as [Hentry Hnever].
    split; [by right|exact Hnever].
  - destruct (chop_off_returns tolower 95 64 chopped 0 Hsize1 Hlast1
                ltac:(lia) ltac:(lia)) as (chopped1 & -> & _).
    cbn [mbind res_mbind res_bind].
    exists 0. repeat split; try done. by left.
Qed.

(** The locale nn_NO.UTF-8 and an array of 64 characters 0xff. *)
Lemma get_usb_code_for_current_locale_result_witness :
  exists code,
    get_usb_code_for_current_locale tolower_C
      (Some [x6e; x6e; x5f; x4e; x4f; x2e; x55; x54; x46; x2d; x38])
      (replicate 64 xff) = Ok code /\
    code <> 0x0814.
Proof.
  destruct (get_usb_code_for_current_locale_result tolower_C
              (Some [x6e; x6e; x5f; x4e; x4f; x2e; x55; x54; x46; x2d; x38])
              (replicate 64 xff) ltac:(reflexivity))
    as (code & Hrun & _ & _ & _ & _ & Hnever & _).
  exists code. by split.
Defined.

(** ** Wrapping a device the system has opened *)

Section SysDeviceFacts.

Variables LIBUSB_CLASS_HID LIBUSB_CLASS_VENDOR_SPEC LIBUSB_DT_HID
  LIBUSB_DT_REPORT HID_API_MAX_REPORT_DESCRIPTOR_SIZE
  LIBUSB_TRANSFER_TYPE_MASK LIBUSB_TRANSFER_TYPE_INTERRUPT
  LIBUSB_ENDPOINT_DIR_MASK LIBUSB_ENDPOINT_OUT LIBUSB_ENDPOINT_IN : Z.

Lemma select_altsetting_spec (interface_num : Z)
    (altsettings : list libusb_interface_descriptor) :
  match select_altsetting LIBUSB_CLASS_HID interface_num altsettings with
  | Some intf_desc =>
      exists alts_before alts_after,
        altsettings = alts_before ++ intf_desc :: alts_after /\
        wanted LIBUSB_CLASS_HID interface_num intf_desc /\
        Forall (fun other => ~ wanted LIBUSB_CLASS_HID interface_num other)
          alts_before
  | None =>
      Forall (fun other => ~ wanted LIBUSB_CLASS_HID interface_num other)
        altsettings
  end.
Proof.
  induction altsettings as [|d rest IH]; cbn [select_altsetting];
    [constructor|].
  destruct (Z.eqb_spec (bInterfaceClass d) LIBUSB_CLASS_HID) as [Hclass|Hclass];
    cbn [andb].
  - destruct (Z.ltb_spec interface_num 0) as [Hany|Hnum]; cbn [orb].
    { exists [], rest. split; [reflexivity|].
      split; [|constructor]. split; [exact Hclass|by left]. }
    destruct (Z.eqb_spec interface_num (bInterfaceNumber d)) as [Hd|Hd].
    { exists [], rest. split; [reflexivity|].
      split; [|constructor]. split; [exact Hclass|by right]. }
    assert (Hnot : ~ wanted LIBUSB_CLASS_HID interface_num d).
    { intros [_ [H|H]]; [lia|done]. }
    destruct (select_altsetting LIBUSB_CLASS_HID interface_num rest)
      as [found|].
    + destruct IH as (before & after & -> & Hwanted & Hbefore).
      exists (d :: before), after. split; [reflexivity|].
      split; [exact Hwanted|by constructor].
    + by constructor.
  - assert (Hnot : ~ wanted LIBUSB_CLASS_HID interface_num d).
    { by intros [H _]. }
    destruct (select_altsetting LIBUSB_CLASS_HID interface_num rest)
      as [found|].
    + destruct IH as (before & after & -> & Hwanted & Hbefore).
      exists (d :: before), after. split; [reflexivity|].
      split; [exact Hwanted|by constructor].
    + by constructor.
Qed.

Lemma select_interface_spec (interface_num : Z)
    (interface : list libusb_interface) :
  match select_interface LIBUSB_CLASS_HID interface_num interface with
  | Some intf_desc =>
      first_wanted LIBUSB_CLASS_HID interface_num interface intf_desc
  | None =>
      Forall (fun intf =>
                Forall (fun other =>
                          ~ wanted LIBUSB_CLASS_HID interface_num other)
                  (altsetting intf)) interface
  end.
Proof.
  induction interface as [|intf rest IH]; cbn [select_interface];
    [constructor|].
  pose proof (select_altsetting_spec interface_num (altsetting intf))
    as Halts.
  destruct (select_altsetting LIBUSB_CLASS_HID interface_num
              (altsetting intf)) as [d|].
  - destruct Halts as (alts_before & alts_after & Halts & Hwanted & Hnone).
    exists [], intf, rest, alts_before, alts_after.
    split; [reflexivity|]. split; [exact Halts|].
    split; [exact Hwanted|]. split; [exact Hnone|constructor].
  - destruct (select_interface LIBUSB_CLASS_HID interface_num rest)
      as [d|].
    + destruct IH as (before & intf1 & after & alts_before & alts_after &
                      -> & Halts1 & Hwanted & Hnone & Hbefore).
      exists (intf :: before), intf1, after, alts_before, alts_after.
      split; [reflexivity|]. split; [exact Halts1|].
      split; [exact Hwanted|]. split; [exact Hnone|by constructor].
    + by constructor.
Qed.

(** X30.  [hid_libusb_wrap_sys_device(sys_dev, interface_num)] on a device
    libusb could wrap returns.  A session it returns is on the first
    interface descriptor, in the order of the interfaces and their
    alternate settings, that has class [LIBUSB_CLASS_HID] and the number
    [interface_num] (any number if that is negative), and holds its
    interface number; nothing is given back then, the configuration
    descriptor is not freed.  When it returns [NULL] the handle was closed
    and the session freed last, and the configuration descriptor, if
    there was one, freed.  [should_enumerate_interface] is not asked: a
    device without an interface of class [LIBUSB_CLASS_HID] is not
    wrapped. *)
Theorem hid_libusb_wrap_sys_device_selects (device : usb_device)
    (uninitialized : libusb_device_descriptor) (usb : hid_device_usb)
    (interface_num : Z) :
  (forall intf_desc,
     extra_length (endpoints_of device intf_desc)
     <= Z.of_nat (length (extra (endpoints_of device intf_desc)))) ->
  exists handle released,
    hid_libusb_wrap_sys_device LIBUSB_CLASS_HID LIBUSB_CLASS_VENDOR_SPEC
      LIBUSB_DT_HID LIBUSB_DT_REPORT HID_API_MAX_REPORT_DESCRIPTOR_SIZE
      LIBUSB_TRANSFER_TYPE_MASK LIBUSB_TRANSFER_TYPE_INTERRUPT
      LIBUSB_ENDPOINT_DIR_MASK LIBUSB_ENDPOINT_OUT LIBUSB_ENDPOINT_IN
      true (Some device) uninitialized usb interface_num
    = Ok (handle, released) /\
    match handle with
    | Some (dev1, _) =>
        released = [] /\
        exists conf_desc bConfigurationValue intf_desc,
          config_descriptor device = Some (conf_desc, bConfigurationValue) /\
          first_wanted LIBUSB_CLASS_HID interface_num (interfaces conf_desc)
            intf_desc /\
          interface dev1 = bInterfaceNumber intf_desc /\
          (0 <= interface_num -> interface dev1 = interface_num)
    | None =>
        In Handle_closed released /\
        list.last released = Some Session_freed /\
        (config_descriptor device <> None ->
         In Config_descriptor_freed released)
    end /\
    ((forall conf_desc bConfigurationValue intf intf_desc,
        config_descriptor device = Some (conf_desc, bConfigurationValue) ->
        In intf (interfaces conf_desc) -> In intf_desc (altsetting intf) ->
        bInterfaceClass intf_desc <> LIBUSB_CLASS_HID) ->
     handle = None).
Proof.
  intros Hextra. unfold hid_libusb_wrap_sys_device. cbn [negb].
  destruct (config_descriptor device) as [[conf_desc bcv]|] eqn:Hconf.
  2:{ eexists _, _. split; [reflexivity|]. split; [|done].
      split; [by left|]. split; [reflexivity|done]. }
  pose proof (select_interface_spec interface_num (interfaces conf_desc))
    as Hselect.
  destruct (select_interface LIBUSB_CLASS_HID interface_num
              (interfaces conf_desc)) as [d|].
  2:{ eexists _, _. split; [reflexivity|]. split; [|done].
      split; [right; by left|]. split; [reflexivity|]. intros _. by left. }
  destruct (hidapi_initialize_device_returns LIBUSB_CLASS_VENDOR_SPEC
              LIBUSB_DT_HID LIBUSB_DT_REPORT
              HID_API_MAX_REPORT_DESCRIPTOR_SIZE LIBUSB_TRANSFER_TYPE_MASK
              LIBUSB_TRANSFER_TYPE_INTERRUPT LIBUSB_ENDPOINT_DIR_MASK
              LIBUSB_ENDPOINT_OUT LIBUSB_ENDPOINT_IN
              (libusb_kernel_driver_active device)
              (libusb_detach_kernel_driver device)
              (libusb_claim_interface device)
              (libusb_submit_transfer device) new_hid_device usb
              (default uninitialized (device_descriptor device)) d
              (endpoints_of device d) conf_desc bcv (Hextra d))
    as (ret & dev1 & usb1 & events & -> & Hret).
  cbn [mbind res_mbind res_bind].
  assert (Hclass : (forall conf_desc0 bcv0 intf intf_desc,
                      Some (conf_desc, bcv) = Some (conf_desc0, bcv0) ->
                      In intf (interfaces conf_desc0) ->
                      In intf_desc (altsetting intf) ->
                      bInterfaceClass intf_desc <> LIBUSB_CLASS_HID) ->
                   False).
  { intros Hnone.
    destruct Hselect as (before & intf & after & alts_before & alts_after &
                         Hintf & Halts & [Hhid _] & _).
    apply (Hnone conf_desc bcv intf d eq_refl); [| |exact Hhid].
    - rewrite Hintf. apply in_or_app. right. by left.
    - rewrite Halts. apply in_or_app. right. by left. }
  destruct Hret as [->|[-> Hinterface]]; cbn [Z.eqb].
  - eexists _, _. split; [reflexivity|]. split.
    + split; [right; by left|]. split; [reflexivity|]. intros _. by left.
    + done.
  - eexists _, _. split; [reflexivity|]. split.
    + split; [reflexivity|]. exists conf_desc, bcv, d.
      split; [reflexivity|]. split; [exact Hselect|].
      split; [exact Hinterface|]. intros Hnum.
      destruct Hselect as (_ & _ & _ & _ & _ & _ & _ & [_ [H|H]] & _);
        [lia|congruence].
    + intros Hnone. destruct (Hclass Hnone).
Qed.

End SysDeviceFacts.

(** The keyboard, any interface. *)
Lemma hid_libusb_wrap_sys_device_selects_witness :
  exists handle released,
    hid_libusb_wrap_sys_device 3 0xff 0x21 0x22 4096 3 3 0x80 0 0x80 true
      (Some (example_device 0x046d 0xc31c))
      {| idVendor := 0; idProduct := 0; bcdDevice := 0; iManufacturer := 0;
         iProduct := 0; iSerialNumber := 0 |}
      {| config_number := 0; Open.interface_class := 0;
         Open.interface_subclass := 0; Open.interface_protocol := 0;
         report_descriptor_size := 0; input_endpoint := 0;
         input_ep_max_packet_size := 0; manufacturer_index := 0;
         product_index := 0; serial_index := 0 |}
      (-1) = Ok (handle, released).
Proof.
  destruct (hid_libusb_wrap_sys_device_selects 3 0xff 0x21 0x22 4096 3 3
              0x80 0 0x80 (example_device 0x046d 0xc31c)
              {| idVendor := 0; idProduct := 0; bcdDevice := 0;
                 iManufacturer := 0; iProduct := 0; iSerialNumber := 0 |}
              {| config_number := 0; Open.interface_class := 0;
                 Open.interface_subclass := 0;
                 Open.interface_protocol := 0;
                 report_descriptor_size := 0; input_endpoint := 0;
                 input_ep_max_packet_size := 0; manufacturer_index := 0;
                 product_index := 0; serial_index := 0 |}
              (-1) ltac:(intros; cbn; lia))
    as (handle & released & Hrun & _).
  by exists handle, released.
Defined.
